(** * Catalog enrichment pipeline: a shallow embedding and its properties

    The development follows [src/enrichment/pipeline.py],
    [src/enrichment/catalog_io.py] and [src/enrichment/status.py], and
    the callers of the pipeline in [src/api/main.py] and
    [scripts/run_enrichment.py].

    - Python values loaded from JSON are the constructors of [PyVal];
      a [dict] is an association list in insertion order.
    - Python [str] is [string], holding the UTF-8 encoding of the text;
      [lower], [title], [strip], [float] and [repr] work on the code
      points, with the character data of Unicode 14 (Python 3.11).
    - Python [float] is an IEEE-754 binary64 number, given exactly as a
      [spec_float]; [float()], [*] and [round(_, 2)] are computed with
      integer arithmetic and round to nearest, ties to even.
    - Stateful code runs in the monad [M] over a [World]: the store of
      event lists (a Python list is a reference, so a list is a location
      in the store), the requests sent to the text-generation client, and
      the catalog files.  A Python exception is the [Raise] result.
    - [time.sleep], logging and the [timestamp] field of [WorkflowEvent]
      are left out: none of the functions embedded here reads them back;
      what the callers print or send (the reports of the command line,
      the response models of the API) is left out with them. *)

From Stdlib Require Import ZArith NArith String Ascii List Bool Lia Sorted.
From Stdlib Require Import Floats.SpecFloat.
From stdpp Require Import base option list strings gmap.

Local Open Scope string_scope.
Set Warnings "-register-all".
#[local] Arguments String.append !_ _ / : simpl nomatch.

(** ** Unicode *)

(** The character data that [str.lower], [str.title], [str.strip],
    [float] and [repr] read, for the characters from 128; a character
    is its code point.  The ASCII characters are decided by comparison. *)
Module Unicode.

Local Open Scope N_scope.

(** The characters from 128 that [str.lower] maps to one other character:
    [(first, last, step, image of first)], the images following the
    characters one by one. *)
Definition lower_ranges : list (N * N * N * N) :=
  [
   (0xC0, 0xD6, 1, 0xE0); (0xD8, 0xDE, 1, 0xF8); (0x100, 0x12E, 2, 0x101);
   (0x132, 0x136, 2, 0x133); (0x139, 0x147, 2, 0x13A); (0x14A, 0x176, 2, 0x14B);
   (0x178, 0x178, 1, 0xFF); (0x179, 0x17D, 2, 0x17A); (0x181, 0x181, 1, 0x253);
   (0x182, 0x184, 2, 0x183); (0x186, 0x186, 1, 0x254); (0x187, 0x187, 1, 0x188);
   (0x189, 0x18A, 1, 0x256); (0x18B, 0x18B, 1, 0x18C); (0x18E, 0x18E, 1, 0x1DD);
   (0x18F, 0x18F, 1, 0x259); (0x190, 0x190, 1, 0x25B); (0x191, 0x191, 1, 0x192);
   (0x193, 0x193, 1, 0x260); (0x194, 0x194, 1, 0x263); (0x196, 0x196, 1, 0x269);
   (0x197, 0x197, 1, 0x268); (0x198, 0x198, 1, 0x199); (0x19C, 0x19C, 1, 0x26F);
   (0x19D, 0x19D, 1, 0x272); (0x19F, 0x19F, 1, 0x275); (0x1A0, 0x1A4, 2, 0x1A1);
   (0x1A6, 0x1A6, 1, 0x280); (0x1A7, 0x1A7, 1, 0x1A8); (0x1A9, 0x1A9, 1, 0x283);
   (0x1AC, 0x1AC, 1, 0x1AD); (0x1AE, 0x1AE, 1, 0x288); (0x1AF, 0x1AF, 1, 0x1B0);
   (0x1B1, 0x1B2, 1, 0x28A); (0x1B3, 0x1B5, 2, 0x1B4); (0x1B7, 0x1B7, 1, 0x292);
   (0x1B8, 0x1B8, 1, 0x1B9); (0x1BC, 0x1BC, 1, 0x1BD); (0x1C4, 0x1C4, 1, 0x1C6);
   (0x1C5, 0x1C5, 1, 0x1C6); (0x1C7, 0x1C7, 1, 0x1C9); (0x1C8, 0x1C8, 1, 0x1C9);
   (0x1CA, 0x1CA, 1, 0x1CC); (0x1CB, 0x1DB, 2, 0x1CC); (0x1DE, 0x1EE, 2, 0x1DF);
   (0x1F1, 0x1F1, 1, 0x1F3); (0x1F2, 0x1F4, 2, 0x1F3); (0x1F6, 0x1F6, 1, 0x195);
   (0x1F7, 0x1F7, 1, 0x1BF); (0x1F8, 0x21E, 2, 0x1F9); (0x220, 0x220, 1, 0x19E);
   (0x222, 0x232, 2, 0x223); (0x23A, 0x23A, 1, 0x2C65); (0x23B, 0x23B, 1, 0x23C);
   (0x23D, 0x23D, 1, 0x19A); (0x23E, 0x23E, 1, 0x2C66); (0x241, 0x241, 1, 0x242);
   (0x243, 0x243, 1, 0x180); (0x244, 0x244, 1, 0x289); (0x245, 0x245, 1, 0x28C);
   (0x246, 0x24E, 2, 0x247); (0x370, 0x372, 2, 0x371); (0x376, 0x376, 1, 0x377);
   (0x37F, 0x37F, 1, 0x3F3); (0x386, 0x386, 1, 0x3AC); (0x388, 0x38A, 1, 0x3AD);
   (0x38C, 0x38C, 1, 0x3CC); (0x38E, 0x38F, 1, 0x3CD); (0x391, 0x3A1, 1, 0x3B1);
   (0x3A3, 0x3AB, 1, 0x3C3); (0x3CF, 0x3CF, 1, 0x3D7); (0x3D8, 0x3EE, 2, 0x3D9);
   (0x3F4, 0x3F4, 1, 0x3B8); (0x3F7, 0x3F7, 1, 0x3F8); (0x3F9, 0x3F9, 1, 0x3F2);
   (0x3FA, 0x3FA, 1, 0x3FB); (0x3FD, 0x3FF, 1, 0x37B); (0x400, 0x40F, 1, 0x450);
   (0x410, 0x42F, 1, 0x430); (0x460, 0x480, 2, 0x461); (0x48A, 0x4BE, 2, 0x48B);
   (0x4C0, 0x4C0, 1, 0x4CF); (0x4C1, 0x4CD, 2, 0x4C2); (0x4D0, 0x52E, 2, 0x4D1);
   (0x531, 0x556, 1, 0x561); (0x10A0, 0x10C5, 1, 0x2D00); (0x10C7, 0x10C7, 1, 0x2D27);
   (0x10CD, 0x10CD, 1, 0x2D2D); (0x13A0, 0x13EF, 1, 0xAB70); (0x13F0, 0x13F5, 1, 0x13F8);
   (0x1C90, 0x1CBA, 1, 0x10D0); (0x1CBD, 0x1CBF, 1, 0x10FD); (0x1E00, 0x1E94, 2, 0x1E01);
   (0x1E9E, 0x1E9E, 1, 0xDF); (0x1EA0, 0x1EFE, 2, 0x1EA1); (0x1F08, 0x1F0F, 1, 0x1F00);
   (0x1F18, 0x1F1D, 1, 0x1F10); (0x1F28, 0x1F2F, 1, 0x1F20); (0x1F38, 0x1F3F, 1, 0x1F30);
   (0x1F48, 0x1F4D, 1, 0x1F40); (0x1F59, 0x1F5F, 2, 0x1F51); (0x1F68, 0x1F6F, 1, 0x1F60);
   (0x1F88, 0x1F8F, 1, 0x1F80); (0x1F98, 0x1F9F, 1, 0x1F90); (0x1FA8, 0x1FAF, 1, 0x1FA0);
   (0x1FB8, 0x1FB9, 1, 0x1FB0); (0x1FBA, 0x1FBB, 1, 0x1F70); (0x1FBC, 0x1FBC, 1, 0x1FB3);
   (0x1FC8, 0x1FCB, 1, 0x1F72); (0x1FCC, 0x1FCC, 1, 0x1FC3); (0x1FD8, 0x1FD9, 1, 0x1FD0);
   (0x1FDA, 0x1FDB, 1, 0x1F76); (0x1FE8, 0x1FE9, 1, 0x1FE0); (0x1FEA, 0x1FEB, 1, 0x1F7A);
   (0x1FEC, 0x1FEC, 1, 0x1FE5); (0x1FF8, 0x1FF9, 1, 0x1F78); (0x1FFA, 0x1FFB, 1, 0x1F7C);
   (0x1FFC, 0x1FFC, 1, 0x1FF3); (0x2126, 0x2126, 1, 0x3C9); (0x212A, 0x212A, 1, 0x6B);
   (0x212B, 0x212B, 1, 0xE5); (0x2132, 0x2132, 1, 0x214E); (0x2160, 0x216F, 1, 0x2170);
   (0x2183, 0x2183, 1, 0x2184); (0x24B6, 0x24CF, 1, 0x24D0); (0x2C00, 0x2C2F, 1, 0x2C30);
   (0x2C60, 0x2C60, 1, 0x2C61); (0x2C62, 0x2C62, 1, 0x26B); (0x2C63, 0x2C63, 1, 0x1D7D);
   (0x2C64, 0x2C64, 1, 0x27D); (0x2C67, 0x2C6B, 2, 0x2C68); (0x2C6D, 0x2C6D, 1, 0x251);
   (0x2C6E, 0x2C6E, 1, 0x271); (0x2C6F, 0x2C6F, 1, 0x250); (0x2C70, 0x2C70, 1, 0x252);
   (0x2C72, 0x2C72, 1, 0x2C73); (0x2C75, 0x2C75, 1, 0x2C76); (0x2C7E, 0x2C7F, 1, 0x23F);
   (0x2C80, 0x2CE2, 2, 0x2C81); (0x2CEB, 0x2CED, 2, 0x2CEC); (0x2CF2, 0x2CF2, 1, 0x2CF3);
   (0xA640, 0xA66C, 2, 0xA641); (0xA680, 0xA69A, 2, 0xA681); (0xA722, 0xA72E, 2, 0xA723);
   (0xA732, 0xA76E, 2, 0xA733); (0xA779, 0xA77B, 2, 0xA77A); (0xA77D, 0xA77D, 1, 0x1D79);
   (0xA77E, 0xA786, 2, 0xA77F); (0xA78B, 0xA78B, 1, 0xA78C); (0xA78D, 0xA78D, 1, 0x265);
   (0xA790, 0xA792, 2, 0xA791); (0xA796, 0xA7A8, 2, 0xA797); (0xA7AA, 0xA7AA, 1, 0x266);
   (0xA7AB, 0xA7AB, 1, 0x25C); (0xA7AC, 0xA7AC, 1, 0x261); (0xA7AD, 0xA7AD, 1, 0x26C);
   (0xA7AE, 0xA7AE, 1, 0x26A); (0xA7B0, 0xA7B0, 1, 0x29E); (0xA7B1, 0xA7B1, 1, 0x287);
   (0xA7B2, 0xA7B2, 1, 0x29D); (0xA7B3, 0xA7B3, 1, 0xAB53); (0xA7B4, 0xA7C2, 2, 0xA7B5);
   (0xA7C4, 0xA7C4, 1, 0xA794); (0xA7C5, 0xA7C5, 1, 0x282); (0xA7C6, 0xA7C6, 1, 0x1D8E);
   (0xA7C7, 0xA7C9, 2, 0xA7C8); (0xA7D0, 0xA7D0, 1, 0xA7D1); (0xA7D6, 0xA7D8, 2, 0xA7D7);
   (0xA7F5, 0xA7F5, 1, 0xA7F6); (0xFF21, 0xFF3A, 1, 0xFF41); (0x10400, 0x10427, 1, 0x10428);
   (0x104B0, 0x104D3, 1, 0x104D8); (0x10570, 0x10594, 2, 0x10597); (0x10571, 0x1057A, 1, 0x10598);
   (0x1057D, 0x1058A, 1, 0x105A4); (0x1058D, 0x10592, 1, 0x105B4); (0x10595, 0x10595, 1, 0x105BC);
   (0x10C80, 0x10CB2, 1, 0x10CC0); (0x118A0, 0x118BF, 1, 0x118C0); (0x16E40, 0x16E5F, 1, 0x16E60);
   (0x1E900, 0x1E921, 1, 0x1E922)
  ].

(** The characters that [str.lower] maps to more than one character. *)
Definition lower_special : list (N * list N) :=
  [
   (0x130, [0x69; 0x307])
  ].

(** The same for the title-case mapping, which [str.title] applies to the
    first letter of a word. *)
Definition title_ranges : list (N * N * N * N) :=
  [
   (0xB5, 0xB5, 1, 0x39C); (0xE0, 0xF6, 1, 0xC0); (0xF8, 0xFE, 1, 0xD8);
   (0xFF, 0xFF, 1, 0x178); (0x101, 0x12F, 2, 0x100); (0x131, 0x131, 1, 0x49);
   (0x133, 0x137, 2, 0x132); (0x13A, 0x148, 2, 0x139); (0x14B, 0x177, 2, 0x14A);
   (0x17A, 0x17E, 2, 0x179); (0x17F, 0x17F, 1, 0x53); (0x180, 0x180, 1, 0x243);
   (0x183, 0x185, 2, 0x182); (0x188, 0x188, 1, 0x187); (0x18C, 0x18C, 1, 0x18B);
   (0x192, 0x192, 1, 0x191); (0x195, 0x195, 1, 0x1F6); (0x199, 0x199, 1, 0x198);
   (0x19A, 0x19A, 1, 0x23D); (0x19E, 0x19E, 1, 0x220); (0x1A1, 0x1A5, 2, 0x1A0);
   (0x1A8, 0x1A8, 1, 0x1A7); (0x1AD, 0x1AD, 1, 0x1AC); (0x1B0, 0x1B0, 1, 0x1AF);
   (0x1B4, 0x1B6, 2, 0x1B3); (0x1B9, 0x1B9, 1, 0x1B8); (0x1BD, 0x1BD, 1, 0x1BC);
   (0x1BF, 0x1BF, 1, 0x1F7); (0x1C4, 0x1C4, 1, 0x1C5); (0x1C6, 0x1C6, 1, 0x1C5);
   (0x1C7, 0x1C7, 1, 0x1C8); (0x1C9, 0x1C9, 1, 0x1C8); (0x1CA, 0x1CA, 1, 0x1CB);
   (0x1CC, 0x1DC, 2, 0x1CB); (0x1DD, 0x1DD, 1, 0x18E); (0x1DF, 0x1EF, 2, 0x1DE);
   (0x1F1, 0x1F1, 1, 0x1F2); (0x1F3, 0x1F5, 2, 0x1F2); (0x1F9, 0x21F, 2, 0x1F8);
   (0x223, 0x233, 2, 0x222); (0x23C, 0x23C, 1, 0x23B); (0x23F, 0x240, 1, 0x2C7E);
   (0x242, 0x242, 1, 0x241); (0x247, 0x24F, 2, 0x246); (0x250, 0x250, 1, 0x2C6F);
   (0x251, 0x251, 1, 0x2C6D); (0x252, 0x252, 1, 0x2C70); (0x253, 0x253, 1, 0x181);
   (0x254, 0x254, 1, 0x186); (0x256, 0x257, 1, 0x189); (0x259, 0x259, 1, 0x18F);
   (0x25B, 0x25B, 1, 0x190); (0x25C, 0x25C, 1, 0xA7AB); (0x260, 0x260, 1, 0x193);
   (0x261, 0x261, 1, 0xA7AC); (0x263, 0x263, 1, 0x194); (0x265, 0x265, 1, 0xA78D);
   (0x266, 0x266, 1, 0xA7AA); (0x268, 0x268, 1, 0x197); (0x269, 0x269, 1, 0x196);
   (0x26A, 0x26A, 1, 0xA7AE); (0x26B, 0x26B, 1, 0x2C62); (0x26C, 0x26C, 1, 0xA7AD);
   (0x26F, 0x26F, 1, 0x19C); (0x271, 0x271, 1, 0x2C6E); (0x272, 0x272, 1, 0x19D);
   (0x275, 0x275, 1, 0x19F); (0x27D, 0x27D, 1, 0x2C64); (0x280, 0x280, 1, 0x1A6);
   (0x282, 0x282, 1, 0xA7C5); (0x283, 0x283, 1, 0x1A9); (0x287, 0x287, 1, 0xA7B1);
   (0x288, 0x288, 1, 0x1AE); (0x289, 0x289, 1, 0x244); (0x28A, 0x28B, 1, 0x1B1);
   (0x28C, 0x28C, 1, 0x245); (0x292, 0x292, 1, 0x1B7); (0x29D, 0x29D, 1, 0xA7B2);
   (0x29E, 0x29E, 1, 0xA7B0); (0x345, 0x345, 1, 0x399); (0x371, 0x373, 2, 0x370);
   (0x377, 0x377, 1, 0x376); (0x37B, 0x37D, 1, 0x3FD); (0x3AC, 0x3AC, 1, 0x386);
   (0x3AD, 0x3AF, 1, 0x388); (0x3B1, 0x3C1, 1, 0x391); (0x3C2, 0x3C2, 1, 0x3A3);
   (0x3C3, 0x3CB, 1, 0x3A3); (0x3CC, 0x3CC, 1, 0x38C); (0x3CD, 0x3CE, 1, 0x38E);
   (0x3D0, 0x3D0, 1, 0x392); (0x3D1, 0x3D1, 1, 0x398); (0x3D5, 0x3D5, 1, 0x3A6);
   (0x3D6, 0x3D6, 1, 0x3A0); (0x3D7, 0x3D7, 1, 0x3CF); (0x3D9, 0x3EF, 2, 0x3D8);
   (0x3F0, 0x3F0, 1, 0x39A); (0x3F1, 0x3F1, 1, 0x3A1); (0x3F2, 0x3F2, 1, 0x3F9);
   (0x3F3, 0x3F3, 1, 0x37F); (0x3F5, 0x3F5, 1, 0x395); (0x3F8, 0x3F8, 1, 0x3F7);
   (0x3FB, 0x3FB, 1, 0x3FA); (0x430, 0x44F, 1, 0x410); (0x450, 0x45F, 1, 0x400);
   (0x461, 0x481, 2, 0x460); (0x48B, 0x4BF, 2, 0x48A); (0x4C2, 0x4CE, 2, 0x4C1);
   (0x4CF, 0x4CF, 1, 0x4C0); (0x4D1, 0x52F, 2, 0x4D0); (0x561, 0x586, 1, 0x531);
   (0x13F8, 0x13FD, 1, 0x13F0); (0x1C80, 0x1C80, 1, 0x412); (0x1C81, 0x1C81, 1, 0x414);
   (0x1C82, 0x1C82, 1, 0x41E); (0x1C83, 0x1C84, 1, 0x421); (0x1C85, 0x1C85, 1, 0x422);
   (0x1C86, 0x1C86, 1, 0x42A); (0x1C87, 0x1C87, 1, 0x462); (0x1C88, 0x1C88, 1, 0xA64A);
   (0x1D79, 0x1D79, 1, 0xA77D); (0x1D7D, 0x1D7D, 1, 0x2C63); (0x1D8E, 0x1D8E, 1, 0xA7C6);
   (0x1E01, 0x1E95, 2, 0x1E00); (0x1E9B, 0x1E9B, 1, 0x1E60); (0x1EA1, 0x1EFF, 2, 0x1EA0);
   (0x1F00, 0x1F07, 1, 0x1F08); (0x1F10, 0x1F15, 1, 0x1F18); (0x1F20, 0x1F27, 1, 0x1F28);
   (0x1F30, 0x1F37, 1, 0x1F38); (0x1F40, 0x1F45, 1, 0x1F48); (0x1F51, 0x1F57, 2, 0x1F59);
   (0x1F60, 0x1F67, 1, 0x1F68); (0x1F70, 0x1F71, 1, 0x1FBA); (0x1F72, 0x1F75, 1, 0x1FC8);
   (0x1F76, 0x1F77, 1, 0x1FDA); (0x1F78, 0x1F79, 1, 0x1FF8); (0x1F7A, 0x1F7B, 1, 0x1FEA);
   (0x1F7C, 0x1F7D, 1, 0x1FFA); (0x1F80, 0x1F87, 1, 0x1F88); (0x1F90, 0x1F97, 1, 0x1F98);
   (0x1FA0, 0x1FA7, 1, 0x1FA8); (0x1FB0, 0x1FB1, 1, 0x1FB8); (0x1FB3, 0x1FB3, 1, 0x1FBC);
   (0x1FBE, 0x1FBE, 1, 0x399); (0x1FC3, 0x1FC3, 1, 0x1FCC); (0x1FD0, 0x1FD1, 1, 0x1FD8);
   (0x1FE0, 0x1FE1, 1, 0x1FE8); (0x1FE5, 0x1FE5, 1, 0x1FEC); (0x1FF3, 0x1FF3, 1, 0x1FFC);
   (0x214E, 0x214E, 1, 0x2132); (0x2170, 0x217F, 1, 0x2160); (0x2184, 0x2184, 1, 0x2183);
   (0x24D0, 0x24E9, 1, 0x24B6); (0x2C30, 0x2C5F, 1, 0x2C00); (0x2C61, 0x2C61, 1, 0x2C60);
   (0x2C65, 0x2C65, 1, 0x23A); (0x2C66, 0x2C66, 1, 0x23E); (0x2C68, 0x2C6C, 2, 0x2C67);
   (0x2C73, 0x2C73, 1, 0x2C72); (0x2C76, 0x2C76, 1, 0x2C75); (0x2C81, 0x2CE3, 2, 0x2C80);
   (0x2CEC, 0x2CEE, 2, 0x2CEB); (0x2CF3, 0x2CF3, 1, 0x2CF2); (0x2D00, 0x2D25, 1, 0x10A0);
   (0x2D27, 0x2D27, 1, 0x10C7); (0x2D2D, 0x2D2D, 1, 0x10CD); (0xA641, 0xA66D, 2, 0xA640);
   (0xA681, 0xA69B, 2, 0xA680); (0xA723, 0xA72F, 2, 0xA722); (0xA733, 0xA76F, 2, 0xA732);
   (0xA77A, 0xA77C, 2, 0xA779); (0xA77F, 0xA787, 2, 0xA77E); (0xA78C, 0xA78C, 1, 0xA78B);
   (0xA791, 0xA793, 2, 0xA790); (0xA794, 0xA794, 1, 0xA7C4); (0xA797, 0xA7A9, 2, 0xA796);
   (0xA7B5, 0xA7C3, 2, 0xA7B4); (0xA7C8, 0xA7CA, 2, 0xA7C7); (0xA7D1, 0xA7D1, 1, 0xA7D0);
   (0xA7D7, 0xA7D9, 2, 0xA7D6); (0xA7F6, 0xA7F6, 1, 0xA7F5); (0xAB53, 0xAB53, 1, 0xA7B3);
   (0xAB70, 0xABBF, 1, 0x13A0); (0xFF41, 0xFF5A, 1, 0xFF21); (0x10428, 0x1044F, 1, 0x10400);
   (0x104D8, 0x104FB, 1, 0x104B0); (0x10597, 0x105BB, 2, 0x10570); (0x10598, 0x105A1, 1, 0x10571);
   (0x105A4, 0x105B1, 1, 0x1057D); (0x105B4, 0x105B9, 1, 0x1058D); (0x105BC, 0x105BC, 1, 0x10595);
   (0x10CC0, 0x10CF2, 1, 0x10C80); (0x118C0, 0x118DF, 1, 0x118A0); (0x16E60, 0x16E7F, 1, 0x16E40);
   (0x1E922, 0x1E943, 1, 0x1E900)
  ].

(** The characters whose title case has more than one character. *)
Definition title_special : list (N * list N) :=
  [
   (0xDF, [0x53; 0x73]); (0x149, [0x2BC; 0x4E]);
   (0x1F0, [0x4A; 0x30C]); (0x390, [0x399; 0x308; 0x301]);
   (0x3B0, [0x3A5; 0x308; 0x301]); (0x587, [0x535; 0x582]);
   (0x1E96, [0x48; 0x331]); (0x1E97, [0x54; 0x308]);
   (0x1E98, [0x57; 0x30A]); (0x1E99, [0x59; 0x30A]);
   (0x1E9A, [0x41; 0x2BE]); (0x1F50, [0x3A5; 0x313]);
   (0x1F52, [0x3A5; 0x313; 0x300]); (0x1F54, [0x3A5; 0x313; 0x301]);
   (0x1F56, [0x3A5; 0x313; 0x342]); (0x1FB2, [0x1FBA; 0x345]);
   (0x1FB4, [0x386; 0x345]); (0x1FB6, [0x391; 0x342]);
   (0x1FB7, [0x391; 0x342; 0x345]); (0x1FC2, [0x1FCA; 0x345]);
   (0x1FC4, [0x389; 0x345]); (0x1FC6, [0x397; 0x342]);
   (0x1FC7, [0x397; 0x342; 0x345]); (0x1FD2, [0x399; 0x308; 0x300]);
   (0x1FD3, [0x399; 0x308; 0x301]); (0x1FD6, [0x399; 0x342]);
   (0x1FD7, [0x399; 0x308; 0x342]); (0x1FE2, [0x3A5; 0x308; 0x300]);
   (0x1FE3, [0x3A5; 0x308; 0x301]); (0x1FE4, [0x3A1; 0x313]);
   (0x1FE6, [0x3A5; 0x342]); (0x1FE7, [0x3A5; 0x308; 0x342]);
   (0x1FF2, [0x1FFA; 0x345]); (0x1FF4, [0x38F; 0x345]);
   (0x1FF6, [0x3A9; 0x342]); (0x1FF7, [0x3A9; 0x342; 0x345]);
   (0xFB00, [0x46; 0x66]); (0xFB01, [0x46; 0x69]);
   (0xFB02, [0x46; 0x6C]); (0xFB03, [0x46; 0x66; 0x69]);
   (0xFB04, [0x46; 0x66; 0x6C]); (0xFB05, [0x53; 0x74]);
   (0xFB06, [0x53; 0x74]); (0xFB13, [0x544; 0x576]);
   (0xFB14, [0x544; 0x565]); (0xFB15, [0x544; 0x56B]);
   (0xFB16, [0x54E; 0x576]); (0xFB17, [0x544; 0x56D])
  ].

(** The cased characters from 128 (property Cased). *)
Definition cased_ranges : list (N * N) :=
  [
   (0xAA, 0xAA); (0xB5, 0xB5); (0xBA, 0xBA); (0xC0, 0xD6); (0xD8, 0xF6);
   (0xF8, 0x1BA); (0x1BC, 0x1BF); (0x1C4, 0x293); (0x295, 0x2B8); (0x2C0, 0x2C1);
   (0x2E0, 0x2E4); (0x345, 0x345); (0x370, 0x373); (0x376, 0x377); (0x37A, 0x37D);
   (0x37F, 0x37F); (0x386, 0x386); (0x388, 0x38A); (0x38C, 0x38C); (0x38E, 0x3A1);
   (0x3A3, 0x3F5); (0x3F7, 0x481); (0x48A, 0x52F); (0x531, 0x556); (0x560, 0x588);
   (0x10A0, 0x10C5); (0x10C7, 0x10C7); (0x10CD, 0x10CD); (0x10D0, 0x10FA); (0x10FD, 0x10FF);
   (0x13A0, 0x13F5); (0x13F8, 0x13FD); (0x1C80, 0x1C88); (0x1C90, 0x1CBA); (0x1CBD, 0x1CBF);
   (0x1D00, 0x1DBF); (0x1E00, 0x1F15); (0x1F18, 0x1F1D); (0x1F20, 0x1F45); (0x1F48, 0x1F4D);
   (0x1F50, 0x1F57); (0x1F59, 0x1F59); (0x1F5B, 0x1F5B); (0x1F5D, 0x1F5D); (0x1F5F, 0x1F7D);
   (0x1F80, 0x1FB4); (0x1FB6, 0x1FBC); (0x1FBE, 0x1FBE); (0x1FC2, 0x1FC4); (0x1FC6, 0x1FCC);
   (0x1FD0, 0x1FD3); (0x1FD6, 0x1FDB); (0x1FE0, 0x1FEC); (0x1FF2, 0x1FF4); (0x1FF6, 0x1FFC);
   (0x2071, 0x2071); (0x207F, 0x207F); (0x2090, 0x209C); (0x2102, 0x2102); (0x2107, 0x2107);
   (0x210A, 0x2113); (0x2115, 0x2115); (0x2119, 0x211D); (0x2124, 0x2124); (0x2126, 0x2126);
   (0x2128, 0x2128); (0x212A, 0x212D); (0x212F, 0x2134); (0x2139, 0x2139); (0x213C, 0x213F);
   (0x2145, 0x2149); (0x214E, 0x214E); (0x2160, 0x217F); (0x2183, 0x2184); (0x24B6, 0x24E9);
   (0x2C00, 0x2CE4); (0x2CEB, 0x2CEE); (0x2CF2, 0x2CF3); (0x2D00, 0x2D25); (0x2D27, 0x2D27);
   (0x2D2D, 0x2D2D); (0xA640, 0xA66D); (0xA680, 0xA69D); (0xA722, 0xA787); (0xA78B, 0xA78E);
   (0xA790, 0xA7CA); (0xA7D0, 0xA7D1); (0xA7D3, 0xA7D3); (0xA7D5, 0xA7D9); (0xA7F5, 0xA7F6);
   (0xA7F8, 0xA7FA); (0xAB30, 0xAB5A); (0xAB5C, 0xAB68); (0xAB70, 0xABBF); (0xFB00, 0xFB06);
   (0xFB13, 0xFB17); (0xFF21, 0xFF3A); (0xFF41, 0xFF5A); (0x10400, 0x1044F); (0x104B0, 0x104D3);
   (0x104D8, 0x104FB); (0x10570, 0x1057A); (0x1057C, 0x1058A); (0x1058C, 0x10592); (0x10594, 0x10595);
   (0x10597, 0x105A1); (0x105A3, 0x105B1); (0x105B3, 0x105B9); (0x105BB, 0x105BC); (0x10780, 0x10780);
   (0x10783, 0x10785); (0x10787, 0x107B0); (0x107B2, 0x107BA); (0x10C80, 0x10CB2); (0x10CC0, 0x10CF2);
   (0x118A0, 0x118DF); (0x16E40, 0x16E7F); (0x1D400, 0x1D454); (0x1D456, 0x1D49C); (0x1D49E, 0x1D49F);
   (0x1D4A2, 0x1D4A2); (0x1D4A5, 0x1D4A6); (0x1D4A9, 0x1D4AC); (0x1D4AE, 0x1D4B9); (0x1D4BB, 0x1D4BB);
   (0x1D4BD, 0x1D4C3); (0x1D4C5, 0x1D505); (0x1D507, 0x1D50A); (0x1D50D, 0x1D514); (0x1D516, 0x1D51C);
   (0x1D51E, 0x1D539); (0x1D53B, 0x1D53E); (0x1D540, 0x1D544); (0x1D546, 0x1D546); (0x1D54A, 0x1D550);
   (0x1D552, 0x1D6A5); (0x1D6A8, 0x1D6C0); (0x1D6C2, 0x1D6DA); (0x1D6DC, 0x1D6FA); (0x1D6FC, 0x1D714);
   (0x1D716, 0x1D734); (0x1D736, 0x1D74E); (0x1D750, 0x1D76E); (0x1D770, 0x1D788); (0x1D78A, 0x1D7A8);
   (0x1D7AA, 0x1D7C2); (0x1D7C4, 0x1D7CB); (0x1DF00, 0x1DF09); (0x1DF0B, 0x1DF1E); (0x1E900, 0x1E943);
   (0x1F130, 0x1F149); (0x1F150, 0x1F169); (0x1F170, 0x1F189)
  ].

(** The case-ignorable characters from 128 (property Case_Ignorable). *)
Definition case_ignorable_ranges : list (N * N) :=
  [
   (0xA8, 0xA8); (0xAD, 0xAD); (0xAF, 0xAF); (0xB4, 0xB4); (0xB7, 0xB8);
   (0x2B0, 0x36F); (0x374, 0x375); (0x37A, 0x37A); (0x384, 0x385); (0x387, 0x387);
   (0x483, 0x489); (0x559, 0x559); (0x55F, 0x55F); (0x591, 0x5BD); (0x5BF, 0x5BF);
   (0x5C1, 0x5C2); (0x5C4, 0x5C5); (0x5C7, 0x5C7); (0x5F4, 0x5F4); (0x600, 0x605);
   (0x610, 0x61A); (0x61C, 0x61C); (0x640, 0x640); (0x64B, 0x65F); (0x670, 0x670);
   (0x6D6, 0x6DD); (0x6DF, 0x6E8); (0x6EA, 0x6ED); (0x70F, 0x70F); (0x711, 0x711);
   (0x730, 0x74A); (0x7A6, 0x7B0); (0x7EB, 0x7F5); (0x7FA, 0x7FA); (0x7FD, 0x7FD);
   (0x816, 0x82D); (0x859, 0x85B); (0x888, 0x888); (0x890, 0x891); (0x898, 0x89F);
   (0x8C9, 0x902); (0x93A, 0x93A); (0x93C, 0x93C); (0x941, 0x948); (0x94D, 0x94D);
   (0x951, 0x957); (0x962, 0x963); (0x971, 0x971); (0x981, 0x981); (0x9BC, 0x9BC);
   (0x9C1, 0x9C4); (0x9CD, 0x9CD); (0x9E2, 0x9E3); (0x9FE, 0x9FE); (0xA01, 0xA02);
   (0xA3C, 0xA3C); (0xA41, 0xA42); (0xA47, 0xA48); (0xA4B, 0xA4D); (0xA51, 0xA51);
   (0xA70, 0xA71); (0xA75, 0xA75); (0xA81, 0xA82); (0xABC, 0xABC); (0xAC1, 0xAC5);
   (0xAC7, 0xAC8); (0xACD, 0xACD); (0xAE2, 0xAE3); (0xAFA, 0xAFF); (0xB01, 0xB01);
   (0xB3C, 0xB3C); (0xB3F, 0xB3F); (0xB41, 0xB44); (0xB4D, 0xB4D); (0xB55, 0xB56);
   (0xB62, 0xB63); (0xB82, 0xB82); (0xBC0, 0xBC0); (0xBCD, 0xBCD); (0xC00, 0xC00);
   (0xC04, 0xC04); (0xC3C, 0xC3C); (0xC3E, 0xC40); (0xC46, 0xC48); (0xC4A, 0xC4D);
   (0xC55, 0xC56); (0xC62, 0xC63); (0xC81, 0xC81); (0xCBC, 0xCBC); (0xCBF, 0xCBF);
   (0xCC6, 0xCC6); (0xCCC, 0xCCD); (0xCE2, 0xCE3); (0xD00, 0xD01); (0xD3B, 0xD3C);
   (0xD41, 0xD44); (0xD4D, 0xD4D); (0xD62, 0xD63); (0xD81, 0xD81); (0xDCA, 0xDCA);
   (0xDD2, 0xDD4); (0xDD6, 0xDD6); (0xE31, 0xE31); (0xE34, 0xE3A); (0xE46, 0xE4E);
   (0xEB1, 0xEB1); (0xEB4, 0xEBC); (0xEC6, 0xEC6); (0xEC8, 0xECD); (0xF18, 0xF19);
   (0xF35, 0xF35); (0xF37, 0xF37); (0xF39, 0xF39); (0xF71, 0xF7E); (0xF80, 0xF84);
   (0xF86, 0xF87); (0xF8D, 0xF97); (0xF99, 0xFBC); (0xFC6, 0xFC6); (0x102D, 0x1030);
   (0x1032, 0x1037); (0x1039, 0x103A); (0x103D, 0x103E); (0x1058, 0x1059); (0x105E, 0x1060);
   (0x1071, 0x1074); (0x1082, 0x1082); (0x1085, 0x1086); (0x108D, 0x108D); (0x109D, 0x109D);
   (0x10FC, 0x10FC); (0x135D, 0x135F); (0x1712, 0x1714); (0x1732, 0x1733); (0x1752, 0x1753);
   (0x1772, 0x1773); (0x17B4, 0x17B5); (0x17B7, 0x17BD); (0x17C6, 0x17C6); (0x17C9, 0x17D3);
   (0x17D7, 0x17D7); (0x17DD, 0x17DD); (0x180B, 0x180F); (0x1843, 0x1843); (0x1885, 0x1886);
   (0x18A9, 0x18A9); (0x1920, 0x1922); (0x1927, 0x1928); (0x1932, 0x1932); (0x1939, 0x193B);
   (0x1A17, 0x1A18); (0x1A1B, 0x1A1B); (0x1A56, 0x1A56); (0x1A58, 0x1A5E); (0x1A60, 0x1A60);
   (0x1A62, 0x1A62); (0x1A65, 0x1A6C); (0x1A73, 0x1A7C); (0x1A7F, 0x1A7F); (0x1AA7, 0x1AA7);
   (0x1AB0, 0x1ACE); (0x1B00, 0x1B03); (0x1B34, 0x1B34); (0x1B36, 0x1B3A); (0x1B3C, 0x1B3C);
   (0x1B42, 0x1B42); (0x1B6B, 0x1B73); (0x1B80, 0x1B81); (0x1BA2, 0x1BA5); (0x1BA8, 0x1BA9);
   (0x1BAB, 0x1BAD); (0x1BE6, 0x1BE6); (0x1BE8, 0x1BE9); (0x1BED, 0x1BED); (0x1BEF, 0x1BF1);
   (0x1C2C, 0x1C33); (0x1C36, 0x1C37); (0x1C78, 0x1C7D); (0x1CD0, 0x1CD2); (0x1CD4, 0x1CE0);
   (0x1CE2, 0x1CE8); (0x1CED, 0x1CED); (0x1CF4, 0x1CF4); (0x1CF8, 0x1CF9); (0x1D2C, 0x1D6A);
   (0x1D78, 0x1D78); (0x1D9B, 0x1DFF); (0x1FBD, 0x1FBD); (0x1FBF, 0x1FC1); (0x1FCD, 0x1FCF);
   (0x1FDD, 0x1FDF); (0x1FED, 0x1FEF); (0x1FFD, 0x1FFE); (0x200B, 0x200F); (0x2018, 0x2019);
   (0x2024, 0x2024); (0x2027, 0x2027); (0x202A, 0x202E); (0x2060, 0x2064); (0x2066, 0x206F);
   (0x2071, 0x2071); (0x207F, 0x207F); (0x2090, 0x209C); (0x20D0, 0x20F0); (0x2C7C, 0x2C7D);
   (0x2CEF, 0x2CF1); (0x2D6F, 0x2D6F); (0x2D7F, 0x2D7F); (0x2DE0, 0x2DFF); (0x2E2F, 0x2E2F);
   (0x3005, 0x3005); (0x302A, 0x302D); (0x3031, 0x3035); (0x303B, 0x303B); (0x3099, 0x309E);
   (0x30FC, 0x30FE); (0xA015, 0xA015); (0xA4F8, 0xA4FD); (0xA60C, 0xA60C); (0xA66F, 0xA672);
   (0xA674, 0xA67D); (0xA67F, 0xA67F); (0xA69C, 0xA69F); (0xA6F0, 0xA6F1); (0xA700, 0xA721);
   (0xA770, 0xA770); (0xA788, 0xA78A); (0xA7F2, 0xA7F4); (0xA7F8, 0xA7F9); (0xA802, 0xA802);
   (0xA806, 0xA806); (0xA80B, 0xA80B); (0xA825, 0xA826); (0xA82C, 0xA82C); (0xA8C4, 0xA8C5);
   (0xA8E0, 0xA8F1); (0xA8FF, 0xA8FF); (0xA926, 0xA92D); (0xA947, 0xA951); (0xA980, 0xA982);
   (0xA9B3, 0xA9B3); (0xA9B6, 0xA9B9); (0xA9BC, 0xA9BD); (0xA9CF, 0xA9CF); (0xA9E5, 0xA9E6);
   (0xAA29, 0xAA2E); (0xAA31, 0xAA32); (0xAA35, 0xAA36); (0xAA43, 0xAA43); (0xAA4C, 0xAA4C);
   (0xAA70, 0xAA70); (0xAA7C, 0xAA7C); (0xAAB0, 0xAAB0); (0xAAB2, 0xAAB4); (0xAAB7, 0xAAB8);
   (0xAABE, 0xAABF); (0xAAC1, 0xAAC1); (0xAADD, 0xAADD); (0xAAEC, 0xAAED); (0xAAF3, 0xAAF4);
   (0xAAF6, 0xAAF6); (0xAB5B, 0xAB5F); (0xAB69, 0xAB6B); (0xABE5, 0xABE5); (0xABE8, 0xABE8);
   (0xABED, 0xABED); (0xFB1E, 0xFB1E); (0xFBB2, 0xFBC2); (0xFE00, 0xFE0F); (0xFE13, 0xFE13);
   (0xFE20, 0xFE2F); (0xFE52, 0xFE52); (0xFE55, 0xFE55); (0xFEFF, 0xFEFF); (0xFF07, 0xFF07);
   (0xFF0E, 0xFF0E); (0xFF1A, 0xFF1A); (0xFF3E, 0xFF3E); (0xFF40, 0xFF40); (0xFF70, 0xFF70);
   (0xFF9E, 0xFF9F); (0xFFE3, 0xFFE3); (0xFFF9, 0xFFFB); (0x101FD, 0x101FD); (0x102E0, 0x102E0);
   (0x10376, 0x1037A); (0x10780, 0x10785); (0x10787, 0x107B0); (0x107B2, 0x107BA); (0x10A01, 0x10A03);
   (0x10A05, 0x10A06); (0x10A0C, 0x10A0F); (0x10A38, 0x10A3A); (0x10A3F, 0x10A3F); (0x10AE5, 0x10AE6);
   (0x10D24, 0x10D27); (0x10EAB, 0x10EAC); (0x10F46, 0x10F50); (0x10F82, 0x10F85); (0x11001, 0x11001);
   (0x11038, 0x11046); (0x11070, 0x11070); (0x11073, 0x11074); (0x1107F, 0x11081); (0x110B3, 0x110B6);
   (0x110B9, 0x110BA); (0x110BD, 0x110BD); (0x110C2, 0x110C2); (0x110CD, 0x110CD); (0x11100, 0x11102);
   (0x11127, 0x1112B); (0x1112D, 0x11134); (0x11173, 0x11173); (0x11180, 0x11181); (0x111B6, 0x111BE);
   (0x111C9, 0x111CC); (0x111CF, 0x111CF); (0x1122F, 0x11231); (0x11234, 0x11234); (0x11236, 0x11237);
   (0x1123E, 0x1123E); (0x112DF, 0x112DF); (0x112E3, 0x112EA); (0x11300, 0x11301); (0x1133B, 0x1133C);
   (0x11340, 0x11340); (0x11366, 0x1136C); (0x11370, 0x11374); (0x11438, 0x1143F); (0x11442, 0x11444);
   (0x11446, 0x11446); (0x1145E, 0x1145E); (0x114B3, 0x114B8); (0x114BA, 0x114BA); (0x114BF, 0x114C0);
   (0x114C2, 0x114C3); (0x115B2, 0x115B5); (0x115BC, 0x115BD); (0x115BF, 0x115C0); (0x115DC, 0x115DD);
   (0x11633, 0x1163A); (0x1163D, 0x1163D); (0x1163F, 0x11640); (0x116AB, 0x116AB); (0x116AD, 0x116AD);
   (0x116B0, 0x116B5); (0x116B7, 0x116B7); (0x1171D, 0x1171F); (0x11722, 0x11725); (0x11727, 0x1172B);
   (0x1182F, 0x11837); (0x11839, 0x1183A); (0x1193B, 0x1193C); (0x1193E, 0x1193E); (0x11943, 0x11943);
   (0x119D4, 0x119D7); (0x119DA, 0x119DB); (0x119E0, 0x119E0); (0x11A01, 0x11A0A); (0x11A33, 0x11A38);
   (0x11A3B, 0x11A3E); (0x11A47, 0x11A47); (0x11A51, 0x11A56); (0x11A59, 0x11A5B); (0x11A8A, 0x11A96);
   (0x11A98, 0x11A99); (0x11C30, 0x11C36); (0x11C38, 0x11C3D); (0x11C3F, 0x11C3F); (0x11C92, 0x11CA7);
   (0x11CAA, 0x11CB0); (0x11CB2, 0x11CB3); (0x11CB5, 0x11CB6); (0x11D31, 0x11D36); (0x11D3A, 0x11D3A);
   (0x11D3C, 0x11D3D); (0x11D3F, 0x11D45); (0x11D47, 0x11D47); (0x11D90, 0x11D91); (0x11D95, 0x11D95);
   (0x11D97, 0x11D97); (0x11EF3, 0x11EF4); (0x13430, 0x13438); (0x16AF0, 0x16AF4); (0x16B30, 0x16B36);
   (0x16B40, 0x16B43); (0x16F4F, 0x16F4F); (0x16F8F, 0x16F9F); (0x16FE0, 0x16FE1); (0x16FE3, 0x16FE4);
   (0x1AFF0, 0x1AFF3); (0x1AFF5, 0x1AFFB); (0x1AFFD, 0x1AFFE); (0x1BC9D, 0x1BC9E); (0x1BCA0, 0x1BCA3);
   (0x1CF00, 0x1CF2D); (0x1CF30, 0x1CF46); (0x1D167, 0x1D169); (0x1D173, 0x1D182); (0x1D185, 0x1D18B);
   (0x1D1AA, 0x1D1AD); (0x1D242, 0x1D244); (0x1DA00, 0x1DA36); (0x1DA3B, 0x1DA6C); (0x1DA75, 0x1DA75);
   (0x1DA84, 0x1DA84); (0x1DA9B, 0x1DA9F); (0x1DAA1, 0x1DAAF); (0x1E000, 0x1E006); (0x1E008, 0x1E018);
   (0x1E01B, 0x1E021); (0x1E023, 0x1E024); (0x1E026, 0x1E02A); (0x1E130, 0x1E13D); (0x1E2AE, 0x1E2AE);
   (0x1E2EC, 0x1E2EF); (0x1E8D0, 0x1E8D6); (0x1E944, 0x1E94B); (0x1F3FB, 0x1F3FF); (0xE0001, 0xE0001);
   (0xE0020, 0xE007F); (0xE0100, 0xE01EF)
  ].

(** The characters from 128 that [str.isspace] accepts. *)
Definition whitespace : list N :=
  [
   0x85; 0xA0; 0x1680; 0x2000; 0x2001; 0x2002; 0x2003; 0x2004; 0x2005; 0x2006;
   0x2007; 0x2008; 0x2009; 0x200A; 0x2028; 0x2029; 0x202F; 0x205F; 0x3000
  ].

(** The digit zero of every decimal script from 128; the digits one to
    nine follow it. *)
Definition decimal_zeros : list N :=
  [
   0x660; 0x6F0; 0x7C0; 0x966; 0x9E6; 0xA66; 0xAE6; 0xB66;
   0xBE6; 0xC66; 0xCE6; 0xD66; 0xDE6; 0xE50; 0xED0; 0xF20;
   0x1040; 0x1090; 0x17E0; 0x1810; 0x1946; 0x19D0; 0x1A80; 0x1A90;
   0x1B50; 0x1BB0; 0x1C40; 0x1C50; 0xA620; 0xA8D0; 0xA900; 0xA9D0;
   0xA9F0; 0xAA50; 0xABF0; 0xFF10; 0x104A0; 0x10D30; 0x11066; 0x110F0;
   0x11136; 0x111D0; 0x112F0; 0x11450; 0x114D0; 0x11650; 0x116C0; 0x11730;
   0x118E0; 0x11950; 0x11C50; 0x11D50; 0x11DA0; 0x16A60; 0x16AC0; 0x16B50;
   0x1D7CE; 0x1D7D8; 0x1D7E2; 0x1D7EC; 0x1D7F6; 0x1E140; 0x1E2F0; 0x1E950;
   0x1FBF0
  ].

(** The characters from 128 that [str.isprintable] refuses; [repr] escapes
    them. *)
Definition unprintable_ranges : list (N * N) :=
  [
   (0x80, 0xA0); (0xAD, 0xAD); (0x378, 0x379); (0x380, 0x383); (0x38B, 0x38B);
   (0x38D, 0x38D); (0x3A2, 0x3A2); (0x530, 0x530); (0x557, 0x558); (0x58B, 0x58C);
   (0x590, 0x590); (0x5C8, 0x5CF); (0x5EB, 0x5EE); (0x5F5, 0x605); (0x61C, 0x61C);
   (0x6DD, 0x6DD); (0x70E, 0x70F); (0x74B, 0x74C); (0x7B2, 0x7BF); (0x7FB, 0x7FC);
   (0x82E, 0x82F); (0x83F, 0x83F); (0x85C, 0x85D); (0x85F, 0x85F); (0x86B, 0x86F);
   (0x88F, 0x897); (0x8E2, 0x8E2); (0x984, 0x984); (0x98D, 0x98E); (0x991, 0x992);
   (0x9A9, 0x9A9); (0x9B1, 0x9B1); (0x9B3, 0x9B5); (0x9BA, 0x9BB); (0x9C5, 0x9C6);
   (0x9C9, 0x9CA); (0x9CF, 0x9D6); (0x9D8, 0x9DB); (0x9DE, 0x9DE); (0x9E4, 0x9E5);
   (0x9FF, 0xA00); (0xA04, 0xA04); (0xA0B, 0xA0E); (0xA11, 0xA12); (0xA29, 0xA29);
   (0xA31, 0xA31); (0xA34, 0xA34); (0xA37, 0xA37); (0xA3A, 0xA3B); (0xA3D, 0xA3D);
   (0xA43, 0xA46); (0xA49, 0xA4A); (0xA4E, 0xA50); (0xA52, 0xA58); (0xA5D, 0xA5D);
   (0xA5F, 0xA65); (0xA77, 0xA80); (0xA84, 0xA84); (0xA8E, 0xA8E); (0xA92, 0xA92);
   (0xAA9, 0xAA9); (0xAB1, 0xAB1); (0xAB4, 0xAB4); (0xABA, 0xABB); (0xAC6, 0xAC6);
   (0xACA, 0xACA); (0xACE, 0xACF); (0xAD1, 0xADF); (0xAE4, 0xAE5); (0xAF2, 0xAF8);
   (0xB00, 0xB00); (0xB04, 0xB04); (0xB0D, 0xB0E); (0xB11, 0xB12); (0xB29, 0xB29);
   (0xB31, 0xB31); (0xB34, 0xB34); (0xB3A, 0xB3B); (0xB45, 0xB46); (0xB49, 0xB4A);
   (0xB4E, 0xB54); (0xB58, 0xB5B); (0xB5E, 0xB5E); (0xB64, 0xB65); (0xB78, 0xB81);
   (0xB84, 0xB84); (0xB8B, 0xB8D); (0xB91, 0xB91); (0xB96, 0xB98); (0xB9B, 0xB9B);
   (0xB9D, 0xB9D); (0xBA0, 0xBA2); (0xBA5, 0xBA7); (0xBAB, 0xBAD); (0xBBA, 0xBBD);
   (0xBC3, 0xBC5); (0xBC9, 0xBC9); (0xBCE, 0xBCF); (0xBD1, 0xBD6); (0xBD8, 0xBE5);
   (0xBFB, 0xBFF); (0xC0D, 0xC0D); (0xC11, 0xC11); (0xC29, 0xC29); (0xC3A, 0xC3B);
   (0xC45, 0xC45); (0xC49, 0xC49); (0xC4E, 0xC54); (0xC57, 0xC57); (0xC5B, 0xC5C);
   (0xC5E, 0xC5F); (0xC64, 0xC65); (0xC70, 0xC76); (0xC8D, 0xC8D); (0xC91, 0xC91);
   (0xCA9, 0xCA9); (0xCB4, 0xCB4); (0xCBA, 0xCBB); (0xCC5, 0xCC5); (0xCC9, 0xCC9);
   (0xCCE, 0xCD4); (0xCD7, 0xCDC); (0xCDF, 0xCDF); (0xCE4, 0xCE5); (0xCF0, 0xCF0);
   (0xCF3, 0xCFF); (0xD0D, 0xD0D); (0xD11, 0xD11); (0xD45, 0xD45); (0xD49, 0xD49);
   (0xD50, 0xD53); (0xD64, 0xD65); (0xD80, 0xD80); (0xD84, 0xD84); (0xD97, 0xD99);
   (0xDB2, 0xDB2); (0xDBC, 0xDBC); (0xDBE, 0xDBF); (0xDC7, 0xDC9); (0xDCB, 0xDCE);
   (0xDD5, 0xDD5); (0xDD7, 0xDD7); (0xDE0, 0xDE5); (0xDF0, 0xDF1); (0xDF5, 0xE00);
   (0xE3B, 0xE3E); (0xE5C, 0xE80); (0xE83, 0xE83); (0xE85, 0xE85); (0xE8B, 0xE8B);
   (0xEA4, 0xEA4); (0xEA6, 0xEA6); (0xEBE, 0xEBF); (0xEC5, 0xEC5); (0xEC7, 0xEC7);
   (0xECE, 0xECF); (0xEDA, 0xEDB); (0xEE0, 0xEFF); (0xF48, 0xF48); (0xF6D, 0xF70);
   (0xF98, 0xF98); (0xFBD, 0xFBD); (0xFCD, 0xFCD); (0xFDB, 0xFFF); (0x10C6, 0x10C6);
   (0x10C8, 0x10CC); (0x10CE, 0x10CF); (0x1249, 0x1249); (0x124E, 0x124F); (0x1257, 0x1257);
   (0x1259, 0x1259); (0x125E, 0x125F); (0x1289, 0x1289); (0x128E, 0x128F); (0x12B1, 0x12B1);
   (0x12B6, 0x12B7); (0x12BF, 0x12BF); (0x12C1, 0x12C1); (0x12C6, 0x12C7); (0x12D7, 0x12D7);
   (0x1311, 0x1311); (0x1316, 0x1317); (0x135B, 0x135C); (0x137D, 0x137F); (0x139A, 0x139F);
   (0x13F6, 0x13F7); (0x13FE, 0x13FF); (0x1680, 0x1680); (0x169D, 0x169F); (0x16F9, 0x16FF);
   (0x1716, 0x171E); (0x1737, 0x173F); (0x1754, 0x175F); (0x176D, 0x176D); (0x1771, 0x1771);
   (0x1774, 0x177F); (0x17DE, 0x17DF); (0x17EA, 0x17EF); (0x17FA, 0x17FF); (0x180E, 0x180E);
   (0x181A, 0x181F); (0x1879, 0x187F); (0x18AB, 0x18AF); (0x18F6, 0x18FF); (0x191F, 0x191F);
   (0x192C, 0x192F); (0x193C, 0x193F); (0x1941, 0x1943); (0x196E, 0x196F); (0x1975, 0x197F);
   (0x19AC, 0x19AF); (0x19CA, 0x19CF); (0x19DB, 0x19DD); (0x1A1C, 0x1A1D); (0x1A5F, 0x1A5F);
   (0x1A7D, 0x1A7E); (0x1A8A, 0x1A8F); (0x1A9A, 0x1A9F); (0x1AAE, 0x1AAF); (0x1ACF, 0x1AFF);
   (0x1B4D, 0x1B4F); (0x1B7F, 0x1B7F); (0x1BF4, 0x1BFB); (0x1C38, 0x1C3A); (0x1C4A, 0x1C4C);
   (0x1C89, 0x1C8F); (0x1CBB, 0x1CBC); (0x1CC8, 0x1CCF); (0x1CFB, 0x1CFF); (0x1F16, 0x1F17);
   (0x1F1E, 0x1F1F); (0x1F46, 0x1F47); (0x1F4E, 0x1F4F); (0x1F58, 0x1F58); (0x1F5A, 0x1F5A);
   (0x1F5C, 0x1F5C); (0x1F5E, 0x1F5E); (0x1F7E, 0x1F7F); (0x1FB5, 0x1FB5); (0x1FC5, 0x1FC5);
   (0x1FD4, 0x1FD5); (0x1FDC, 0x1FDC); (0x1FF0, 0x1FF1); (0x1FF5, 0x1FF5); (0x1FFF, 0x200F);
   (0x2028, 0x202F); (0x205F, 0x206F); (0x2072, 0x2073); (0x208F, 0x208F); (0x209D, 0x209F);
   (0x20C1, 0x20CF); (0x20F1, 0x20FF); (0x218C, 0x218F); (0x2427, 0x243F); (0x244B, 0x245F);
   (0x2B74, 0x2B75); (0x2B96, 0x2B96); (0x2CF4, 0x2CF8); (0x2D26, 0x2D26); (0x2D28, 0x2D2C);
   (0x2D2E, 0x2D2F); (0x2D68, 0x2D6E); (0x2D71, 0x2D7E); (0x2D97, 0x2D9F); (0x2DA7, 0x2DA7);
   (0x2DAF, 0x2DAF); (0x2DB7, 0x2DB7); (0x2DBF, 0x2DBF); (0x2DC7, 0x2DC7); (0x2DCF, 0x2DCF);
   (0x2DD7, 0x2DD7); (0x2DDF, 0x2DDF); (0x2E5E, 0x2E7F); (0x2E9A, 0x2E9A); (0x2EF4, 0x2EFF);
   (0x2FD6, 0x2FEF); (0x2FFC, 0x3000); (0x3040, 0x3040); (0x3097, 0x3098); (0x3100, 0x3104);
   (0x3130, 0x3130); (0x318F, 0x318F); (0x31E4, 0x31EF); (0x321F, 0x321F); (0xA48D, 0xA48F);
   (0xA4C7, 0xA4CF); (0xA62C, 0xA63F); (0xA6F8, 0xA6FF); (0xA7CB, 0xA7CF); (0xA7D2, 0xA7D2);
   (0xA7D4, 0xA7D4); (0xA7DA, 0xA7F1); (0xA82D, 0xA82F); (0xA83A, 0xA83F); (0xA878, 0xA87F);
   (0xA8C6, 0xA8CD); (0xA8DA, 0xA8DF); (0xA954, 0xA95E); (0xA97D, 0xA97F); (0xA9CE, 0xA9CE);
   (0xA9DA, 0xA9DD); (0xA9FF, 0xA9FF); (0xAA37, 0xAA3F); (0xAA4E, 0xAA4F); (0xAA5A, 0xAA5B);
   (0xAAC3, 0xAADA); (0xAAF7, 0xAB00); (0xAB07, 0xAB08); (0xAB0F, 0xAB10); (0xAB17, 0xAB1F);
   (0xAB27, 0xAB27); (0xAB2F, 0xAB2F); (0xAB6C, 0xAB6F); (0xABEE, 0xABEF); (0xABFA, 0xABFF);
   (0xD7A4, 0xD7AF); (0xD7C7, 0xD7CA); (0xD7FC, 0xD7FF); (0xE000, 0xF8FF); (0xFA6E, 0xFA6F);
   (0xFADA, 0xFAFF); (0xFB07, 0xFB12); (0xFB18, 0xFB1C); (0xFB37, 0xFB37); (0xFB3D, 0xFB3D);
   (0xFB3F, 0xFB3F); (0xFB42, 0xFB42); (0xFB45, 0xFB45); (0xFBC3, 0xFBD2); (0xFD90, 0xFD91);
   (0xFDC8, 0xFDCE); (0xFDD0, 0xFDEF); (0xFE1A, 0xFE1F); (0xFE53, 0xFE53); (0xFE67, 0xFE67);
   (0xFE6C, 0xFE6F); (0xFE75, 0xFE75); (0xFEFD, 0xFF00); (0xFFBF, 0xFFC1); (0xFFC8, 0xFFC9);
   (0xFFD0, 0xFFD1); (0xFFD8, 0xFFD9); (0xFFDD, 0xFFDF); (0xFFE7, 0xFFE7); (0xFFEF, 0xFFFB);
   (0xFFFE, 0xFFFF); (0x1000C, 0x1000C); (0x10027, 0x10027); (0x1003B, 0x1003B); (0x1003E, 0x1003E);
   (0x1004E, 0x1004F); (0x1005E, 0x1007F); (0x100FB, 0x100FF); (0x10103, 0x10106); (0x10134, 0x10136);
   (0x1018F, 0x1018F); (0x1019D, 0x1019F); (0x101A1, 0x101CF); (0x101FE, 0x1027F); (0x1029D, 0x1029F);
   (0x102D1, 0x102DF); (0x102FC, 0x102FF); (0x10324, 0x1032C); (0x1034B, 0x1034F); (0x1037B, 0x1037F);
   (0x1039E, 0x1039E); (0x103C4, 0x103C7); (0x103D6, 0x103FF); (0x1049E, 0x1049F); (0x104AA, 0x104AF);
   (0x104D4, 0x104D7); (0x104FC, 0x104FF); (0x10528, 0x1052F); (0x10564, 0x1056E); (0x1057B, 0x1057B);
   (0x1058B, 0x1058B); (0x10593, 0x10593); (0x10596, 0x10596); (0x105A2, 0x105A2); (0x105B2, 0x105B2);
   (0x105BA, 0x105BA); (0x105BD, 0x105FF); (0x10737, 0x1073F); (0x10756, 0x1075F); (0x10768, 0x1077F);
   (0x10786, 0x10786); (0x107B1, 0x107B1); (0x107BB, 0x107FF); (0x10806, 0x10807); (0x10809, 0x10809);
   (0x10836, 0x10836); (0x10839, 0x1083B); (0x1083D, 0x1083E); (0x10856, 0x10856); (0x1089F, 0x108A6);
   (0x108B0, 0x108DF); (0x108F3, 0x108F3); (0x108F6, 0x108FA); (0x1091C, 0x1091E); (0x1093A, 0x1093E);
   (0x10940, 0x1097F); (0x109B8, 0x109BB); (0x109D0, 0x109D1); (0x10A04, 0x10A04); (0x10A07, 0x10A0B);
   (0x10A14, 0x10A14); (0x10A18, 0x10A18); (0x10A36, 0x10A37); (0x10A3B, 0x10A3E); (0x10A49, 0x10A4F);
   (0x10A59, 0x10A5F); (0x10AA0, 0x10ABF); (0x10AE7, 0x10AEA); (0x10AF7, 0x10AFF); (0x10B36, 0x10B38);
   (0x10B56, 0x10B57); (0x10B73, 0x10B77); (0x10B92, 0x10B98); (0x10B9D, 0x10BA8); (0x10BB0, 0x10BFF);
   (0x10C49, 0x10C7F); (0x10CB3, 0x10CBF); (0x10CF3, 0x10CF9); (0x10D28, 0x10D2F); (0x10D3A, 0x10E5F);
   (0x10E7F, 0x10E7F); (0x10EAA, 0x10EAA); (0x10EAE, 0x10EAF); (0x10EB2, 0x10EFF); (0x10F28, 0x10F2F);
   (0x10F5A, 0x10F6F); (0x10F8A, 0x10FAF); (0x10FCC, 0x10FDF); (0x10FF7, 0x10FFF); (0x1104E, 0x11051);
   (0x11076, 0x1107E); (0x110BD, 0x110BD); (0x110C3, 0x110CF); (0x110E9, 0x110EF); (0x110FA, 0x110FF);
   (0x11135, 0x11135); (0x11148, 0x1114F); (0x11177, 0x1117F); (0x111E0, 0x111E0); (0x111F5, 0x111FF);
   (0x11212, 0x11212); (0x1123F, 0x1127F); (0x11287, 0x11287); (0x11289, 0x11289); (0x1128E, 0x1128E);
   (0x1129E, 0x1129E); (0x112AA, 0x112AF); (0x112EB, 0x112EF); (0x112FA, 0x112FF); (0x11304, 0x11304);
   (0x1130D, 0x1130E); (0x11311, 0x11312); (0x11329, 0x11329); (0x11331, 0x11331); (0x11334, 0x11334);
   (0x1133A, 0x1133A); (0x11345, 0x11346); (0x11349, 0x1134A); (0x1134E, 0x1134F); (0x11351, 0x11356);
   (0x11358, 0x1135C); (0x11364, 0x11365); (0x1136D, 0x1136F); (0x11375, 0x113FF); (0x1145C, 0x1145C);
   (0x11462, 0x1147F); (0x114C8, 0x114CF); (0x114DA, 0x1157F); (0x115B6, 0x115B7); (0x115DE, 0x115FF);
   (0x11645, 0x1164F); (0x1165A, 0x1165F); (0x1166D, 0x1167F); (0x116BA, 0x116BF); (0x116CA, 0x116FF);
   (0x1171B, 0x1171C); (0x1172C, 0x1172F); (0x11747, 0x117FF); (0x1183C, 0x1189F); (0x118F3, 0x118FE);
   (0x11907, 0x11908); (0x1190A, 0x1190B); (0x11914, 0x11914); (0x11917, 0x11917); (0x11936, 0x11936);
   (0x11939, 0x1193A); (0x11947, 0x1194F); (0x1195A, 0x1199F); (0x119A8, 0x119A9); (0x119D8, 0x119D9);
   (0x119E5, 0x119FF); (0x11A48, 0x11A4F); (0x11AA3, 0x11AAF); (0x11AF9, 0x11BFF); (0x11C09, 0x11C09);
   (0x11C37, 0x11C37); (0x11C46, 0x11C4F); (0x11C6D, 0x11C6F); (0x11C90, 0x11C91); (0x11CA8, 0x11CA8);
   (0x11CB7, 0x11CFF); (0x11D07, 0x11D07); (0x11D0A, 0x11D0A); (0x11D37, 0x11D39); (0x11D3B, 0x11D3B);
   (0x11D3E, 0x11D3E); (0x11D48, 0x11D4F); (0x11D5A, 0x11D5F); (0x11D66, 0x11D66); (0x11D69, 0x11D69);
   (0x11D8F, 0x11D8F); (0x11D92, 0x11D92); (0x11D99, 0x11D9F); (0x11DAA, 0x11EDF); (0x11EF9, 0x11FAF);
   (0x11FB1, 0x11FBF); (0x11FF2, 0x11FFE); (0x1239A, 0x123FF); (0x1246F, 0x1246F); (0x12475, 0x1247F);
   (0x12544, 0x12F8F); (0x12FF3, 0x12FFF); (0x1342F, 0x143FF); (0x14647, 0x167FF); (0x16A39, 0x16A3F);
   (0x16A5F, 0x16A5F); (0x16A6A, 0x16A6D); (0x16ABF, 0x16ABF); (0x16ACA, 0x16ACF); (0x16AEE, 0x16AEF);
   (0x16AF6, 0x16AFF); (0x16B46, 0x16B4F); (0x16B5A, 0x16B5A); (0x16B62, 0x16B62); (0x16B78, 0x16B7C);
   (0x16B90, 0x16E3F); (0x16E9B, 0x16EFF); (0x16F4B, 0x16F4E); (0x16F88, 0x16F8E); (0x16FA0, 0x16FDF);
   (0x16FE5, 0x16FEF); (0x16FF2, 0x16FFF); (0x187F8, 0x187FF); (0x18CD6, 0x18CFF); (0x18D09, 0x1AFEF);
   (0x1AFF4, 0x1AFF4); (0x1AFFC, 0x1AFFC); (0x1AFFF, 0x1AFFF); (0x1B123, 0x1B14F); (0x1B153, 0x1B163);
   (0x1B168, 0x1B16F); (0x1B2FC, 0x1BBFF); (0x1BC6B, 0x1BC6F); (0x1BC7D, 0x1BC7F); (0x1BC89, 0x1BC8F);
   (0x1BC9A, 0x1BC9B); (0x1BCA0, 0x1CEFF); (0x1CF2E, 0x1CF2F); (0x1CF47, 0x1CF4F); (0x1CFC4, 0x1CFFF);
   (0x1D0F6, 0x1D0FF); (0x1D127, 0x1D128); (0x1D173, 0x1D17A); (0x1D1EB, 0x1D1FF); (0x1D246, 0x1D2DF);
   (0x1D2F4, 0x1D2FF); (0x1D357, 0x1D35F); (0x1D379, 0x1D3FF); (0x1D455, 0x1D455); (0x1D49D, 0x1D49D);
   (0x1D4A0, 0x1D4A1); (0x1D4A3, 0x1D4A4); (0x1D4A7, 0x1D4A8); (0x1D4AD, 0x1D4AD); (0x1D4BA, 0x1D4BA);
   (0x1D4BC, 0x1D4BC); (0x1D4C4, 0x1D4C4); (0x1D506, 0x1D506); (0x1D50B, 0x1D50C); (0x1D515, 0x1D515);
   (0x1D51D, 0x1D51D); (0x1D53A, 0x1D53A); (0x1D53F, 0x1D53F); (0x1D545, 0x1D545); (0x1D547, 0x1D549);
   (0x1D551, 0x1D551); (0x1D6A6, 0x1D6A7); (0x1D7CC, 0x1D7CD); (0x1DA8C, 0x1DA9A); (0x1DAA0, 0x1DAA0);
   (0x1DAB0, 0x1DEFF); (0x1DF1F, 0x1DFFF); (0x1E007, 0x1E007); (0x1E019, 0x1E01A); (0x1E022, 0x1E022);
   (0x1E025, 0x1E025); (0x1E02B, 0x1E0FF); (0x1E12D, 0x1E12F); (0x1E13E, 0x1E13F); (0x1E14A, 0x1E14D);
   (0x1E150, 0x1E28F); (0x1E2AF, 0x1E2BF); (0x1E2FA, 0x1E2FE); (0x1E300, 0x1E7DF); (0x1E7E7, 0x1E7E7);
   (0x1E7EC, 0x1E7EC); (0x1E7EF, 0x1E7EF); (0x1E7FF, 0x1E7FF); (0x1E8C5, 0x1E8C6); (0x1E8D7, 0x1E8FF);
   (0x1E94C, 0x1E94F); (0x1E95A, 0x1E95D); (0x1E960, 0x1EC70); (0x1ECB5, 0x1ED00); (0x1ED3E, 0x1EDFF);
   (0x1EE04, 0x1EE04); (0x1EE20, 0x1EE20); (0x1EE23, 0x1EE23); (0x1EE25, 0x1EE26); (0x1EE28, 0x1EE28);
   (0x1EE33, 0x1EE33); (0x1EE38, 0x1EE38); (0x1EE3A, 0x1EE3A); (0x1EE3C, 0x1EE41); (0x1EE43, 0x1EE46);
   (0x1EE48, 0x1EE48); (0x1EE4A, 0x1EE4A); (0x1EE4C, 0x1EE4C); (0x1EE50, 0x1EE50); (0x1EE53, 0x1EE53);
   (0x1EE55, 0x1EE56); (0x1EE58, 0x1EE58); (0x1EE5A, 0x1EE5A); (0x1EE5C, 0x1EE5C); (0x1EE5E, 0x1EE5E);
   (0x1EE60, 0x1EE60); (0x1EE63, 0x1EE63); (0x1EE65, 0x1EE66); (0x1EE6B, 0x1EE6B); (0x1EE73, 0x1EE73);
   (0x1EE78, 0x1EE78); (0x1EE7D, 0x1EE7D); (0x1EE7F, 0x1EE7F); (0x1EE8A, 0x1EE8A); (0x1EE9C, 0x1EEA0);
   (0x1EEA4, 0x1EEA4); (0x1EEAA, 0x1EEAA); (0x1EEBC, 0x1EEEF); (0x1EEF2, 0x1EFFF); (0x1F02C, 0x1F02F);
   (0x1F094, 0x1F09F); (0x1F0AF, 0x1F0B0); (0x1F0C0, 0x1F0C0); (0x1F0D0, 0x1F0D0); (0x1F0F6, 0x1F0FF);
   (0x1F1AE, 0x1F1E5); (0x1F203, 0x1F20F); (0x1F23C, 0x1F23F); (0x1F249, 0x1F24F); (0x1F252, 0x1F25F);
   (0x1F266, 0x1F2FF); (0x1F6D8, 0x1F6DC); (0x1F6ED, 0x1F6EF); (0x1F6FD, 0x1F6FF); (0x1F774, 0x1F77F);
   (0x1F7D9, 0x1F7DF); (0x1F7EC, 0x1F7EF); (0x1F7F1, 0x1F7FF); (0x1F80C, 0x1F80F); (0x1F848, 0x1F84F);
   (0x1F85A, 0x1F85F); (0x1F888, 0x1F88F); (0x1F8AE, 0x1F8AF); (0x1F8B2, 0x1F8FF); (0x1FA54, 0x1FA5F);
   (0x1FA6E, 0x1FA6F); (0x1FA75, 0x1FA77); (0x1FA7D, 0x1FA7F); (0x1FA87, 0x1FA8F); (0x1FAAD, 0x1FAAF);
   (0x1FABB, 0x1FABF); (0x1FAC6, 0x1FACF); (0x1FADA, 0x1FADF); (0x1FAE8, 0x1FAEF); (0x1FAF7, 0x1FAFF);
   (0x1FB93, 0x1FB93); (0x1FBCB, 0x1FBEF); (0x1FBFA, 0x1FFFF); (0x2A6E0, 0x2A6FF); (0x2B739, 0x2B73F);
   (0x2B81E, 0x2B81F); (0x2CEA2, 0x2CEAF); (0x2EBE1, 0x2F7FF); (0x2FA1E, 0x2FFFF); (0x3134B, 0xE00FF);
   (0xE01F0, 0x10FFFF)
  ].

(** [c] lies in one of the ranges, which come in increasing order. *)
Fixpoint in_ranges (c : N) (t : list (N * N)) : bool :=
  match t with
  | [] => false
  | (first, last) :: rest =>
      if c <? first then false
      else if c <=? last then true
      else in_ranges c rest
  end.

(** The image of [c] in a table of mappings, which come in increasing
    order of their first character. *)
Fixpoint find_range (c : N) (t : list (N * N * N * N)) : option N :=
  match t with
  | [] => None
  | (first, last, step, image) :: rest =>
      if c <? first then None
      else if (c <=? last) && ((c - first) mod step =? 0)
           then Some (image + (c - first))
           else find_range c rest
  end.

Fixpoint assoc (c : N) (t : list (N * list N)) : option (list N) :=
  match t with
  | [] => None
  | (c', image) :: rest => if c =? c' then Some image else assoc c rest
  end.

Definition mapped (special : list (N * list N)) (ranges : list (N * N * N * N))
           (c : N) : list N :=
  match assoc c special with
  | Some image => image
  | None =>
      match find_range c ranges with
      | Some image => [image]
      | None => [c]
      end
  end.

Definition is_ascii_upper (c : N) : bool := (65 <=? c) && (c <=? 90).
Definition is_ascii_lower (c : N) : bool := (97 <=? c) && (c <=? 122).

(** The lower case of one character: one character, or several. *)
Definition to_lower_full (c : N) : list N :=
  if c <? 128 then [if is_ascii_upper c then c + 32 else c]
  else mapped lower_special lower_ranges c.

(** The title case of one character. *)
Definition to_title_full (c : N) : list N :=
  if c <? 128 then [if is_ascii_lower c then c - 32 else c]
  else mapped title_special title_ranges c.

Definition is_cased (c : N) : bool :=
  if c <? 128 then is_ascii_upper c || is_ascii_lower c
  else in_ranges c cased_ranges.

(** Among the ASCII characters: the apostrophe, the full stop, the
    colon, the circumflex and the grave accent. *)
Definition is_case_ignorable (c : N) : bool :=
  if c <? 128 then existsb (N.eqb c) [39; 46; 58; 94; 96]
  else in_ranges c case_ignorable_ranges.

(** [str.isspace] on one character. *)
Definition is_whitespace (c : N) : bool :=
  if c <? 128 then ((9 <=? c) && (c <=? 13)) || ((28 <=? c) && (c <=? 32))
  else existsb (N.eqb c) whitespace.

(** The value of a decimal digit of any script. *)
Definition to_decimal (c : N) : option N :=
  if c <? 128 then (if (48 <=? c) && (c <=? 57) then Some (c - 48) else None)
  else match find (fun zero => (zero <=? c) && (c <=? zero + 9)) decimal_zeros with
       | Some zero => Some (c - zero)
       | None => None
       end.

(** [str.isprintable] on one character. *)
Definition is_printable (c : N) : bool :=
  if c <? 128 then (32 <=? c) && (c <? 127)
  else negb (in_ranges c unprintable_ranges).

End Unicode.

(** ** Python strings *)

(** A [str] is given by its UTF-8 encoding: a [string] is the sequence of
    the bytes.  The functions that read characters decode the bytes, work
    on the code points and encode the result. *)
Module PyStr.

Definition code (c : ascii) : nat := nat_of_ascii c.

(** The upper-case ASCII letters and the ASCII digits. *)
Definition is_upper (c : ascii) : bool := (65 <=? code c)%nat && (code c <=? 90)%nat.
Definition is_digit (c : ascii) : bool := (48 <=? code c)%nat && (code c <=? 57)%nat.

(** [str.isspace] on one ASCII character: tab, LF, VT, FF, CR, the four
    separators FS GS RS US, and the space. *)
Definition is_space (c : ascii) : bool :=
  ((9 <=? code c)%nat && (code c <=? 13)%nat)
  || ((28 <=? code c)%nat && (code c <=? 32)%nat).

(** The lower case of an ASCII character. *)
Definition lower_char (c : ascii) : ascii :=
  if is_upper c then ascii_of_nat (code c + 32) else c.

Fixpoint map_chars (f : ascii -> ascii) (s : string) : string :=
  match s with
  | EmptyString => EmptyString
  | String c s' => String (f c) (map_chars f s')
  end.

(** *** UTF-8 *)

Definition byte (c : ascii) : N := N_of_ascii c.
Definition chr (n : N) : ascii := ascii_of_N n.

Definition continuation (b : N) : bool := ((0x80 <=? b) && (b <=? 0xBF))%N.

(** The code point of a well-formed sequence of two, three or four
    bytes: the shortest encoding of a character that is no surrogate. *)
Definition point2 (a b : N) : option N :=
  if ((0xC2 <=? a) && (a <=? 0xDF))%N && continuation b
  then Some ((a - 0xC0) * 64 + (b - 0x80))%N
  else None.

Definition point3 (a b c : N) : option N :=
  if ((0xE0 <=? a) && (a <=? 0xEF))%N && continuation b && continuation c
  then let p := ((a - 0xE0) * 4096 + (b - 0x80) * 64 + (c - 0x80))%N in
       if (0x800 <=? p)%N && negb ((0xD800 <=? p) && (p <=? 0xDFFF))%N
       then Some p else None
  else None.

Definition point4 (a b c d : N) : option N :=
  if ((0xF0 <=? a) && (a <=? 0xF4))%N && continuation b && continuation c
     && continuation d
  then let p := ((a - 0xF0) * 262144 + (b - 0x80) * 4096 + (c - 0x80) * 64
                 + (d - 0x80))%N in
       if ((0x10000 <=? p) && (p <=? 0x10FFFF))%N then Some p else None
  else None.

(** A byte from 128 that starts no well-formed sequence is the encoding
    of no character; it is kept, as a number past the last code point. *)
Definition stray (b : N) : N := (0x110000 + (b - 0x80))%N.

(** The code points of a string. *)
Fixpoint decode (s : string) : list N :=
  match s with
  | EmptyString => []
  | String a s1 =>
      if (byte a <? 0x80)%N then byte a :: decode s1
      else
        match s1 with
        | EmptyString => [stray (byte a)]
        | String b s2 =>
            match point2 (byte a) (byte b) with
            | Some p => p :: decode s2
            | None =>
                match s2 with
                | EmptyString => stray (byte a) :: decode s1
                | String c s3 =>
                    match point3 (byte a) (byte b) (byte c) with
                    | Some p => p :: decode s3
                    | None =>
                        match s3 with
                        | EmptyString => stray (byte a) :: decode s1
                        | String d s4 =>
                            match point4 (byte a) (byte b) (byte c) (byte d) with
                            | Some p => p :: decode s4
                            | None => stray (byte a) :: decode s1
                            end
                        end
                    end
                end
            end
        end
  end.

Definition bytes (l : list N) : string := string_of_list_ascii (map chr l).

Definition encode_point (p : N) : string :=
  if (p <? 0x80)%N then bytes [p]
  else if (p <? 0x800)%N then bytes [0xC0 + p / 64; 0x80 + p mod 64]%N
  else if (p <? 0x10000)%N
       then bytes [0xE0 + p / 4096; 0x80 + (p / 64) mod 64; 0x80 + p mod 64]%N
  else if (p <? 0x110000)%N
       then bytes [0xF0 + p / 262144; 0x80 + (p / 4096) mod 64;
                   0x80 + (p / 64) mod 64; 0x80 + p mod 64]%N
  else bytes [0x80 + (p - 0x110000) mod 0x80]%N.

(** The string of a sequence of code points. *)
Fixpoint encode (l : list N) : string :=
  match l with
  | [] => EmptyString
  | p :: rest => encode_point p ++ encode rest
  end.

(** *** Case *)

Fixpoint skip (f : N -> bool) (l : list N) : list N :=
  match l with
  | c :: rest => if f c then skip f rest else l
  | [] => []
  end.

(** A capital sigma ends a word when a cased character comes before it
    and none comes after it, the case-ignorable characters next to it
    left aside; [before] holds the characters read so far, the last one
    first. *)
Definition final_sigma (before after : list N) : bool :=
  match skip Unicode.is_case_ignorable before with
  | c :: _ => Unicode.is_cased c
  | [] => false
  end
  && match skip Unicode.is_case_ignorable after with
     | c :: _ => negb (Unicode.is_cased c)
     | [] => true
     end.

(** The lower case of the character [c] of a string. *)
Definition lower_at (before : list N) (c : N) (after : list N) : list N :=
  if (c =? 0x3A3)%N
  then [if final_sigma before after then 0x3C2 else 0x3C3]%N
  else Unicode.to_lower_full c.

Fixpoint lower_from (before l : list N) : list N :=
  match l with
  | [] => []
  | c :: rest => (lower_at before c rest ++ lower_from (c :: before) rest)%list
  end.

(** [s.lower()] *)
Definition lower (s : string) : string := encode (lower_from [] (decode s)).

(** [s.replace(" ", "_")] *)
Definition replace_space_underscore (s : string) : string :=
  map_chars (fun c => if Ascii.eqb c " " then "_"%char else c) s.

(** [s.title()]: a character takes its title case when the character
    before it is not cased, and its lower case otherwise. *)
Fixpoint title_from (previous_is_cased : bool) (before l : list N) : list N :=
  match l with
  | [] => []
  | c :: rest =>
      ((if previous_is_cased then lower_at before c rest else Unicode.to_title_full c)
       ++ title_from (Unicode.is_cased c) (c :: before) rest)%list
  end.
Definition title (s : string) : string := encode (title_from false [] (decode s)).

(** *** White space *)

(** The white space from 128 has two or three bytes. *)
Definition is_space2 (a b : ascii) : bool :=
  match point2 (byte a) (byte b) with
  | Some p => Unicode.is_whitespace p
  | None => false
  end.
Definition is_space3 (a b c : ascii) : bool :=
  match point3 (byte a) (byte b) (byte c) with
  | Some p => Unicode.is_whitespace p
  | None => false
  end.

(** [s.lstrip()], [s.rstrip()], [s.strip()] *)
Fixpoint lstrip (s : string) : string :=
  match s with
  | EmptyString => EmptyString
  | String a s1 =>
      if is_space a then lstrip s1
      else
        match s1 with
        | EmptyString => s
        | String b s2 =>
            if is_space2 a b then lstrip s2
            else
              match s2 with
              | EmptyString => s
              | String c s3 => if is_space3 a b c then lstrip s3 else s
              end
        end
  end.

(** What is left at the right of the last character that is no white
    space is white space only. *)
Fixpoint rstrip (s : string) : string :=
  match s with
  | EmptyString => EmptyString
  | String c s' =>
      match lstrip s with
      | EmptyString => EmptyString
      | _ => String c (rstrip s')
      end
  end.
Definition strip (s : string) : string := rstrip (lstrip s).

(** [sub in s] *)
Fixpoint contains (sub s : string) : bool :=
  String.prefix sub s
  || match s with
     | EmptyString => false
     | String _ s' => contains sub s'
     end.

(** [s.split(sep)[0]]: the part of [s] before the first [sep]
    (all of [s] when [sep] does not occur). *)
Fixpoint before (sep s : string) : string :=
  match s with
  | EmptyString => EmptyString
  | String c s' => if String.prefix sep s then EmptyString else String c (before sep s')
  end.

(** [sep.join(parts)] *)
Fixpoint join (sep : string) (parts : list string) : string :=
  match parts with
  | [] => ""
  | [p] => p
  | p :: rest => p ++ sep ++ join sep rest
  end.

(** [s.startswith(p)] *)
Definition startswith (p s : string) : bool := String.prefix p s.

(** *** [repr(s)] *)

Definition hex_digit (n : N) : N := (if n <? 10 then 48 + n else 87 + n)%N.

(** [n] in [width] hexadecimal digits. *)
Fixpoint hex (width : nat) (n : N) : list N :=
  match width with
  | O => []
  | S width' => (hex width' (n / 16) ++ [hex_digit (n mod 16)])%list
  end.

Definition repr_point (quote c : N) : list N :=
  (if (c =? quote) || (c =? 92) then [92; c]
   else if c =? 9 then [92; 116]
   else if c =? 10 then [92; 110]
   else if c =? 13 then [92; 114]
   else if (c <? 32) || (c =? 127) then 92 :: 120 :: hex 2 c
   else if c <? 127 then [c]
   else if Unicode.is_printable c then [c]
   else if c <=? 0xFF then 92 :: 120 :: hex 2 c
   else if c <=? 0xFFFF then 92 :: 117 :: hex 4 c
   else 92 :: 85 :: hex 8 c)%N.

(** The quotes are double when the string holds an apostrophe and no
    double quote. *)
Definition repr (s : string) : string :=
  let l := decode s in
  let quote := (if existsb (N.eqb 39) l && negb (existsb (N.eqb 34) l) then 34 else 39)%N in
  encode (quote :: flat_map (repr_point quote) l ++ [quote]).

End PyStr.

(** ** Python floats (IEEE-754 binary64) *)

Module PyFloat.

Definition prec : Z := 53.
Definition emax : Z := 1024.

(** The double nearest to [(-1)^s * p / q].  The quotient is taken with
    at least 64 significant bits and the position of the remainder is
    handed to the rounding of [SpecFloat]. *)
Definition of_ratio (s : bool) (p q : positive) : spec_float :=
  let k := Z.max 0 (Z.log2 (Zpos q) - Z.log2 (Zpos p) + 64) in
  let num := (Zpos p * 2 ^ k)%Z in
  let n := (num / Zpos q)%Z in
  let r := (num mod Zpos q)%Z in
  let l := if (r =? 0)%Z then loc_Exact else loc_Inexact (2 * r ?= Zpos q)%Z in
  binary_round_aux prec emax s n (- k) l.

(** The double nearest to [(-1)^s * m * 10^e], for [0 <= m]. *)
Definition of_decimal (s : bool) (m e : Z) : spec_float :=
  match m with
  | Zpos p =>
      match e with
      | Zneg e' => of_ratio s p (10 ^ e')%positive
      | _ => of_ratio s (p * Z.to_pos (10 ^ e))%positive 1
      end
  | _ => S754_zero s
  end.

(** [float(n)] for an [int]: [None] stands for [OverflowError]. *)
Definition of_int (n : Z) : option spec_float :=
  match binary_normalize prec emax n 0 false with
  | S754_infinity _ => None
  | f => Some f
  end.

(** [x * y] *)
Definition mul (x y : spec_float) : spec_float := SFmul prec emax x y.

(** [math.isfinite(x)] *)
Definition isfinite (x : spec_float) : bool :=
  match x with
  | S754_zero _ | S754_finite _ _ _ => true
  | S754_infinity _ | S754_nan => false
  end.

(** [bool(x)] *)
Definition nonzero (x : spec_float) : bool :=
  match x with
  | S754_zero _ => false
  | _ => true
  end.

(** The integer nearest to [m * 2^e], ties to even. *)
Definition round_half_even (m : positive) (e : Z) : Z :=
  match e with
  | Zneg e' =>
      let d := Zpos (2 ^ e')%positive in
      let q := (Zpos m / d)%Z in
      let r := (Zpos m mod d)%Z in
      match (2 * r ?= d)%Z with
      | Lt => q
      | Gt => (q + 1)%Z
      | Eq => if Z.even q then q else (q + 1)%Z
      end
  | _ => (Zpos m * 2 ^ e)%Z
  end.

(** [round(x, 2)]: the exact value of [x] is rounded to two decimals,
    ties to even, and the decimal is converted back to a double.
    Infinities and NaN round to themselves. *)
Definition round2 (x : spec_float) : spec_float :=
  match x with
  | S754_finite s m e =>
      match round_half_even (m * 100) e with
      | Zpos n => of_ratio s n 100
      | _ => S754_zero s
      end
  | _ => x
  end.

(** *** [float(s)] for a string *)

Definition digit_value (c : ascii) : Z := Z.of_nat (PyStr.code c - 48).

(** The value of a run of decimal digits, most significant first. *)
Definition digits_value (ds : list ascii) : Z :=
  fold_left (fun acc c => (10 * acc + digit_value c)%Z) ds 0%Z.

(** What [float] reads of a string: the characters below 127 as they
    are, a space for white space from 128, the ASCII digit for a decimal
    digit of another script; at any other character the text ends with a
    question mark. *)
Fixpoint transform (l : list N) : list N :=
  match l with
  | [] => []
  | c :: rest =>
      if (c <? 127)%N then c :: transform rest
      else if Unicode.is_whitespace c then 32%N :: transform rest
      else match Unicode.to_decimal c with
           | Some d => (48 + d)%N :: transform rest
           | None => [63%N]
           end
  end.

(** The white space [float] strips from the text: tab, LF, VT, FF, CR
    and the space. *)
Definition is_space (c : ascii) : bool :=
  ((9 <=? PyStr.code c)%nat && (PyStr.code c <=? 13)%nat) || (PyStr.code c =? 32)%nat.

Fixpoint lstrip (cs : list ascii) : list ascii :=
  match cs with
  | c :: rest => if is_space c then lstrip rest else cs
  | [] => []
  end.

(** An underscore is accepted only between two digits; the accepted
    ones are dropped. *)
Fixpoint drop_underscores (prev_is_digit : bool) (cs : list ascii) : option (list ascii) :=
  match cs with
  | [] => Some []
  | c :: rest =>
      if Ascii.eqb c "_"
      then match rest with
           | d :: _ =>
               if prev_is_digit && PyStr.is_digit d
               then drop_underscores false rest
               else None
           | [] => None
           end
      else option_map (cons c) (drop_underscores (PyStr.is_digit c) rest)
  end.

(** The longest prefix of digits, and what follows it. *)
Fixpoint span_digits (cs : list ascii) : list ascii * list ascii :=
  match cs with
  | c :: rest =>
      if PyStr.is_digit c
      then let '(ds, tl) := span_digits rest in (c :: ds, tl)
      else ([], cs)
  | [] => ([], [])
  end.

Definition take_sign (cs : list ascii) : bool * list ascii :=
  match cs with
  | "-"%char :: rest => (true, rest)
  | "+"%char :: rest => (false, rest)
  | _ => (false, cs)
  end.

(** The exponent part: nothing, or [e], an optional sign and at least
    one digit, up to the end of the input. *)
Definition parse_exponent (cs : list ascii) : option Z :=
  match cs with
  | [] => Some 0%Z
  | c :: rest =>
      if Ascii.eqb (PyStr.lower_char c) "e"
      then let '(neg, rest') := take_sign rest in
           match span_digits rest' with
           | (d :: ds, []) =>
               let v := digits_value (d :: ds) in
               Some (if neg then (- v)%Z else v)
           | _ => None
           end
      else None
  end.

(** Digits, an optional point and digits, with a digit on at least one
    side, then the exponent part. *)
Definition parse_number (s : bool) (cs : list ascii) : option spec_float :=
  let '(ip, after_int) := span_digits cs in
  let '(fp, after_frac) :=
    match after_int with
    | "."%char :: rest => span_digits rest
    | _ => ([], after_int)
    end in
  match (ip ++ fp)%list with
  | [] => None
  | ds =>
      match parse_exponent after_frac with
      | Some e => Some (of_decimal s (digits_value ds) (e - Z.of_nat (length fp)))
      | None => None
      end
  end.

(** [float(s)]: [None] stands for [ValueError]. *)
Definition of_string (s : string) : option spec_float :=
  let text := map PyStr.chr (transform (PyStr.decode s)) in
  let cs := rev (lstrip (rev (lstrip text))) in
  let '(neg, body) := take_sign cs in
  let word := string_of_list_ascii (map PyStr.lower_char body) in
  if String.eqb word "inf" || String.eqb word "infinity" then Some (S754_infinity neg)
  else if String.eqb word "nan" then Some S754_nan
  else match drop_underscores false body with
       | Some body' => parse_number neg body'
       | None => None
       end.

End PyFloat.

(** ** Python values *)

(** The values [json.loads] produces. *)
Inductive PyVal :=
| VNone
| VBool (b : bool)
| VInt (n : Z)
| VFloat (x : spec_float)
| VStr (s : string)
| VList (items : list PyVal)
| VDict (items : list (string * PyVal)).

(** [Dict[str, Any]], in insertion order. *)
Abbreviation Dict := (list (string * PyVal)).

Inductive PyExn :=
| ValueError (msg : string)
| RuntimeError (msg : string)
| KeyError (key : string)
| AttributeError (msg : string)
| TypeError (msg : string)
| OverflowError (msg : string)
| ClientError (msg : string).

(** [str(e)] *)
Definition exn_str (e : PyExn) : string :=
  match e with
  | ValueError m | RuntimeError m | AttributeError m | TypeError m
  | OverflowError m | ClientError m => m
  | KeyError k => "'" ++ k ++ "'"
  end.

Inductive Result (A : Type) :=
| Ok (a : A)
| Raise (e : PyExn).
Arguments Ok {A} a.
Arguments Raise {A} e.

Definition is_ok {A} (r : Result A) : bool :=
  match r with Ok _ => true | Raise _ => false end.

Module PyDict.

(** [d.get(k)] as an option: [None] when the key is absent. *)
Fixpoint lookup (k : string) (d : Dict) : option PyVal :=
  match d with
  | [] => None
  | (k', v) :: d' => if String.eqb k k' then Some v else lookup k d'
  end.

(** [d.get(k, dflt)] *)
Definition get_or (d : Dict) (k : string) (dflt : PyVal) : PyVal :=
  match lookup k d with Some v => v | None => dflt end.

(** [d.get(k)] *)
Definition get (d : Dict) (k : string) : PyVal := get_or d k VNone.

(** [d[k]] *)
Definition getitem (d : Dict) (k : string) : Result PyVal :=
  match lookup k d with Some v => Ok v | None => Raise (KeyError k) end.

(** [k in d] *)
Definition mem (k : string) (d : Dict) : bool :=
  match lookup k d with Some _ => true | None => false end.

(** [d[k] = v]: an existing key keeps its position. *)
Fixpoint set (k : string) (v : PyVal) (d : Dict) : Dict :=
  match d with
  | [] => [(k, v)]
  | (k', v') :: d' => if String.eqb k k' then (k, v) :: d' else (k', v') :: set k v d'
  end.

(** [list(d.values())] *)
Definition values (d : Dict) : list PyVal := map snd d.

Definition keys (d : Dict) : list string := map fst d.

End PyDict.

(** [bool(v)] *)
Definition truthy (v : PyVal) : bool :=
  match v with
  | VNone => false
  | VBool b => b
  | VInt n => negb (n =? 0)%Z
  | VFloat x => PyFloat.nonzero x
  | VStr s => negb (String.eqb s "")
  | VList items => match items with [] => false | _ => true end
  | VDict items => match items with [] => false | _ => true end
  end.

Definition type_name (v : PyVal) : string :=
  match v with
  | VNone => "NoneType"
  | VBool _ => "bool"
  | VInt _ => "int"
  | VFloat _ => "float"
  | VStr _ => "str"
  | VList _ => "list"
  | VDict _ => "dict"
  end.

Definition no_attribute (v : PyVal) (attr : string) : PyExn :=
  AttributeError ("'" ++ type_name v ++ "' object has no attribute '" ++ attr ++ "'").

(** [v.lower()] *)
Definition py_lower (v : PyVal) : Result string :=
  match v with
  | VStr s => Ok (PyStr.lower s)
  | _ => Raise (no_attribute v "lower")
  end.

(** [v.title()] *)
Definition py_title (v : PyVal) : Result string :=
  match v with
  | VStr s => Ok (PyStr.title s)
  | _ => Raise (no_attribute v "title")
  end.

(** [v.items()] *)
Definition py_items (v : PyVal) : Result Dict :=
  match v with
  | VDict d => Ok d
  | _ => Raise (no_attribute v "items")
  end.

(** [v.get(k, dflt)] *)
Definition py_get_or (v : PyVal) (k : string) (dflt : PyVal) : Result PyVal :=
  match v with
  | VDict d => Ok (PyDict.get_or d k dflt)
  | _ => Raise (no_attribute v "get")
  end.

(** [float(v)] *)
Definition py_float (v : PyVal) : Result spec_float :=
  match v with
  | VFloat x => Ok x
  | VInt n =>
      match PyFloat.of_int n with
      | Some x => Ok x
      | None => Raise (OverflowError "int too large to convert to float")
      end
  | VBool b => Ok (if b then PyFloat.of_decimal false 1 0 else S754_zero false)
  | VStr s =>
      match PyFloat.of_string s with
      | Some x => Ok x
      | None => Raise (ValueError ("could not convert string to float: " ++ PyStr.repr s))
      end
  | _ => Raise (TypeError ("float() argument must be a string or a real number, not '"
                            ++ type_name v ++ "'"))
  end.

(** *** Equality of hashable values, as a [set] or a [dict] sees it *)

Definition hashable (v : PyVal) : bool :=
  match v with
  | VList _ | VDict _ => false
  | _ => true
  end.

(** [n == x] for an int and a float: the comparison is exact. *)
Definition int_eq_float (n : Z) (x : spec_float) : bool :=
  match x with
  | S754_zero _ => (n =? 0)%Z
  | S754_finite s m e =>
      let v := if s then Zneg m else Zpos m in
      match e with
      | Zneg e' => (n * Zpos (2 ^ e')%positive =? v)%Z
      | _ => (n =? v * 2 ^ e)%Z
      end
  | _ => false
  end.

Definition float_eq (x y : spec_float) : bool :=
  match x, y with
  | S754_nan, S754_nan => true  (* one NaN object per decoder: found by identity *)
  | S754_zero _, S754_zero _ => true
  | S754_infinity s, S754_infinity s' => Bool.eqb s s'
  | S754_finite s m e, S754_finite s' m' e' =>
      Bool.eqb s s' && (Zpos m =? Zpos m')%Z && (e =? e')%Z
  | _, _ => false
  end.

Definition key_eqb (a b : PyVal) : bool :=
  match a, b with
  | VNone, VNone => true
  | VStr s, VStr s' => String.eqb s s'
  | VBool x, VBool y => Bool.eqb x y
  | VBool x, VInt n | VInt n, VBool x => (n =? (if x then 1 else 0))%Z
  | VInt n, VInt n' => (n =? n')%Z
  | VBool x, VFloat y | VFloat y, VBool x => int_eq_float (if x then 1 else 0) y
  | VInt n, VFloat y | VFloat y, VInt n => int_eq_float n y
  | VFloat x, VFloat y => float_eq x y
  | _, _ => false
  end.

(** A set of hashable values, as a list of its elements: only membership
    is asked of a set, so an element may be listed more than once. *)
Definition set_mem (v : PyVal) (s : list PyVal) : bool := existsb (key_eqb v) s.
Definition set_add (v : PyVal) (s : list PyVal) : list PyVal := v :: s.

Definition unhashable (v : PyVal) : PyExn :=
  TypeError ("unhashable type: '" ++ type_name v ++ "'").

(** [{v for v in vs}] *)
Fixpoint set_of (vs : list PyVal) : Result (list PyVal) :=
  match vs with
  | [] => Ok []
  | v :: rest =>
      if hashable v
      then match set_of rest with
           | Ok s => Ok (set_add v s)
           | Raise e => Raise e
           end
      else Raise (unhashable v)
  end.

(** [v in s] for a set [s] *)
Definition py_in_set (v : PyVal) (s : list PyVal) : Result bool :=
  if hashable v then Ok (set_mem v s) else Raise (unhashable v).

(** ** Events, the text-generation client and the world *)

(** [WorkflowEvent] of [status.py]. *)
Record WorkflowEvent := {
  step : string;
  message : string;
  payload : option Dict;
}.

Definition WORKFLOW_STEPS : list string :=
  ["ingest"; "extract"; "validate"; "copywrite"; "localize"; "publish"].

(** What a prompt is built from.  The prompt text is a fixed template
    around these values, so a request is given by them. *)
Inductive Request :=
| ExtractRequest (name description category attributes : PyVal)
| SeoRequest (name description category price currency : PyVal) (key_attributes : Dict)
| LocalizeRequest (locale_name : string) (title description long_description : PyVal).

(** What the code reads from a response of [chat.completions.create]:
    [json.loads(response.choices[0].message.content)] and
    [response.usage.total_tokens]; either may raise. *)
Record Response := {
  parsed_content : Result PyVal;
  total_tokens : Result PyVal;
}.

(** The OpenAI client: the outcome of a call is a function of the
    requests sent so far, this one first. *)
Definition Client := list Request -> Result Response.

(** A reference to a Python list of events. *)
Abbreviation loc := nat.

(** What [json.loads(path.read_text())] gives for a catalog file: the
    array of records, a value of another type (named by [found]), or a
    decoding error.  A catalog is a sequence of records: the elements of
    an array are JSON objects, and an array with another element has no
    counterpart here. *)
Inductive FileContent :=
| JsonArray (records : list Dict)
| JsonOther (found : string)
| NotJson (error : string).

Record World := {
  lists : list (list WorkflowEvent);
  requests : list Request;
  files : gmap string FileContent;
}.

Definition M (A : Type) : Type := World -> Result A * World.

Definition ret {A} (a : A) : M A := fun w => (Ok a, w).
Definition raise {A} (e : PyExn) : M A := fun w => (Raise e, w).
Definition bind {A B} (m : M A) (k : A -> M B) : M B :=
  fun w =>
    match m w with
    | (Ok a, w') => k a w'
    | (Raise e, w') => (Raise e, w')
    end.
Definition lift {A} (r : Result A) : M A := fun w => (r, w).

(** [try: body  except Exception as e: handler(e)] *)
Definition try_except {A} (body : M A) (handler : PyExn -> M A) : M A :=
  fun w =>
    match body w with
    | (Ok a, w') => (Ok a, w')
    | (Raise e, w') => handler e w'
    end.

Declare Scope py_scope.
Delimit Scope py_scope with py.
Notation "x <- m ;; k" := (bind m (fun x => k))
  (at level 100, m at next level, right associativity) : py_scope.
Notation "m ;; k" := (bind m (fun _ => k))
  (at level 100, right associativity) : py_scope.
Local Open Scope py_scope.

(** The changes of the world. *)
Definition w_alloc (w : World) : World :=
  {| lists := (lists w ++ [[]])%list; requests := requests w; files := files w |}.
Definition w_append (events : loc) (e : WorkflowEvent) (w : World) : World :=
  {| lists := alter (fun l => (l ++ [e])%list) events (lists w);
     requests := requests w; files := files w |}.
Definition w_sent (r : Request) (w : World) : World :=
  {| lists := lists w; requests := r :: requests w; files := files w |}.
Definition w_write (path : string) (records : list Dict) (w : World) : World :=
  {| lists := lists w; requests := requests w;
     files := <[path := JsonArray records]> (files w) |}.

(** [[]]: a new, empty list. *)
Definition new_list : M loc :=
  fun w => (Ok (length (lists w)), w_alloc w).

(** [events.append(e)] *)
Definition append (events : loc) (e : WorkflowEvent) : M unit :=
  fun w => (Ok tt, w_append events e w).

(** The elements of the list behind a reference. *)
Definition contents (w : World) (events : loc) : list WorkflowEvent :=
  default [] (lists w !! events).

(** [client.chat.completions.create(...)] *)
Definition create (client : Client) (r : Request) : M Response :=
  fun w => (client (r :: requests w), w_sent r w).

Definition event (s m : string) : WorkflowEvent :=
  {| step := s; message := m; payload := None |}.
Definition event_with (s m : string) (p : Dict) : WorkflowEvent :=
  {| step := s; message := m; payload := Some p |}.

(** ** The state bag *)

(** [EnrichmentState] is a [TypedDict] with [total=False]: every key may
    be missing.  The same type is the partial update a node returns. *)
Record EnrichmentState := {
  product : option Dict;
  events : option loc;
  normalized_attributes : option Dict;
  pricing : option Dict;
  seo : option PyVal;
  localizations : option (list Dict);
  enriched : option Dict;
}.

Definition or_else {A} (new old : option A) : option A :=
  match new with Some _ => new | None => old end.

(** [state.update(upd)], as a new state. *)
Definition update (state upd : EnrichmentState) : EnrichmentState :=
  {| product := or_else (product upd) (product state);
     events := or_else (events upd) (events state);
     normalized_attributes := or_else (normalized_attributes upd) (normalized_attributes state);
     pricing := or_else (pricing upd) (pricing state);
     seo := or_else (seo upd) (seo state);
     localizations := or_else (localizations upd) (localizations state);
     enriched := or_else (enriched upd) (enriched state) |}.

(** [{"product": product, "events": events}] *)
Definition initial_state (p : Dict) (ev : loc) : EnrichmentState :=
  {| product := Some p; events := Some ev; normalized_attributes := None;
     pricing := None; seo := None; localizations := None; enriched := None |}.

(** [{"events": events}] and the updates with one more key. *)
Definition upd_events (ev : loc) : EnrichmentState :=
  {| product := None; events := Some ev; normalized_attributes := None;
     pricing := None; seo := None; localizations := None; enriched := None |}.
Definition upd_normalized (ev : loc) (normalized : Dict) : EnrichmentState :=
  {| product := None; events := Some ev; normalized_attributes := Some normalized;
     pricing := None; seo := None; localizations := None; enriched := None |}.
Definition upd_pricing (ev : loc) (p : Dict) : EnrichmentState :=
  {| product := None; events := Some ev; normalized_attributes := None;
     pricing := Some p; seo := None; localizations := None; enriched := None |}.
Definition upd_seo (ev : loc) (s : PyVal) : EnrichmentState :=
  {| product := None; events := Some ev; normalized_attributes := None;
     pricing := None; seo := Some s; localizations := None; enriched := None |}.
Definition upd_localizations (ev : loc) (l : list Dict) : EnrichmentState :=
  {| product := None; events := Some ev; normalized_attributes := None;
     pricing := None; seo := None; localizations := Some l; enriched := None |}.
Definition upd_enriched (ev : loc) (e : Dict) : EnrichmentState :=
  {| product := None; events := Some ev; normalized_attributes := None;
     pricing := None; seo := None; localizations := None; enriched := Some e |}.

(** [state["product"]] *)
Definition state_product (state : EnrichmentState) : M Dict :=
  match product state with
  | Some p => ret p
  | None => raise (KeyError "product")
  end.

(** [state.get("events", [])]: the list of the state, or a new one. *)
Definition state_events (state : EnrichmentState) : M loc :=
  match events state with
  | Some ev => ret ev
  | None => new_list
  end.

(** [ProcessedProduct]; [events] is the list the run appended to. *)
Record ProcessedProduct := {
  pp_sku : PyVal;
  pp_original : Dict;
  pp_enriched : Dict;
  pp_events : loc;
}.

(** Python builtins on values outside the data model of the catalog:
    [str(v)] for a [v] that is not a [str], and [sorted({a, b})] when
    [a] and [b] are not both [str]. *)
Record Builtins := {
  py_str : PyVal -> string;
  py_sorted_pair : PyVal -> PyVal -> Result (list PyVal);
}.

(** ** Sample data *)

(** Builtins that are never reached on products of the data model. *)
Definition plain_builtins : Builtins :=
  {| py_str := fun v => type_name v;
     py_sorted_pair := fun _ _ => Raise (TypeError "'<' not supported") |}.

Definition empty_world : World := {| lists := []; requests := []; files := ∅ |}.

(** The product of [tests/test_pipeline.py]. *)
Definition bottle : Dict :=
  [("sku", VStr "TEMP-2");
   ("name", VStr "Bottle");
   ("description", VStr "");
   ("attributes", VDict [("capacity", VStr "20 oz")]);
   ("price", VFloat (PyFloat.of_decimal false 125 (-1)));
   ("currency", VStr "USD");
   ("category", VStr "Outdoors")].

(** A record with a sku and nothing else. *)
Definition nameless : Dict := [("sku", VStr "TEMP-3")].

Definition catalogs (simple_records : list Dict) : World :=
  {| lists := []; requests := [];
     files := {[ "simple.json" := JsonArray simple_records ]} |}.

(** A client that answers copywriting requests with a JSON object and
    fails on every other request. *)
Definition copywriter : Client :=
  fun sent =>
    match sent with
    | SeoRequest _ _ _ _ _ _ :: _ =>
        Ok {| parsed_content :=
                Ok (VDict [("title", VStr "Steel Bottle");
                           ("description", VStr "Keeps drinks cold.");
                           ("keywords", VList [VStr "bottle"]);
                           ("long_description", VStr "A bottle for the outdoors.")]);
              total_tokens := Ok (VInt 120) |}
    | _ => Raise (ClientError "Connection error.")
    end.

(** A product whose raw attribute keys collide after normalization. *)
Definition two_colors : Dict :=
  [("sku", VStr "TEMP-4");
   ("name", VStr "Mug");
   ("attributes", VDict [("Color", VStr "red");
                         ("Capacity", VStr "12 oz");
                         ("color", VStr "blue")]);
   ("price", VInt 8)].

(** A product with a null category. *)
Definition null_category : Dict :=
  [("sku", VStr "TEMP-5");
   ("name", VStr "Lamp");
   ("category", VNone);
   ("price", VInt 30)].

(** A client whose every call raises. *)
Definition offline : Client :=
  fun _ => Raise (ClientError "Connection error.").

(** A client that answers every request with a JSON list. *)
Definition lister : Client :=
  fun _ => Ok {| parsed_content := Ok (VList [VStr "Steel Bottle"]);
                 total_tokens := Ok (VInt 7) |}.

(** An enriched record of the bottle, as an earlier run left it. *)
Definition enriched_bottle : Dict :=
  [("sku", VStr "TEMP-2"); ("name", VStr "Bottle (first edition)")].

Definition two_catalogs (simple_records enriched_records : list Dict) : World :=
  {| lists := []; requests := [];
     files := {[ "simple.json" := JsonArray simple_records;
                 "enriched.json" := JsonArray enriched_records ]} |}.

(** A product whose price is a string that is not a number. *)
Definition priced_in_words : Dict :=
  [("sku", VStr "TEMP-7");
   ("name", VStr "Kettle");
   ("price", VStr "twelve")].

(** A client that answers every kind of request with a JSON object. *)
Definition assistant : Client :=
  fun sent =>
    match sent with
    | ExtractRequest _ _ _ _ :: _ =>
        Ok {| parsed_content :=
                Ok (VDict [("Material", VStr "steel");
                           ("capacity", VStr "20 oz");
                           ("category", VStr "drinkware")]);
              total_tokens := Ok (VInt 90) |}
    | SeoRequest _ _ _ _ _ _ :: _ =>
        Ok {| parsed_content :=
                Ok (VDict [("title", VStr "Steel Bottle");
                           ("description", VStr "Keeps drinks cold.");
                           ("keywords", VList [VStr "bottle"]);
                           ("long_description", VStr "A bottle for the outdoors.")]);
              total_tokens := Ok (VInt 120) |}
    | LocalizeRequest "Spanish" _ _ _ :: _ =>
        Ok {| parsed_content :=
                Ok (VDict [("title", VStr "Botella de acero");
                           ("description", VStr "Mantiene las bebidas frias.")]);
              total_tokens := Ok (VInt 80) |}
    | LocalizeRequest _ _ _ _ :: _ =>
        Ok {| parsed_content :=
                Ok (VDict [("title", VStr "Bouteille en acier");
                           ("description", VStr "Garde les boissons au frais.");
                           ("long_description", VStr "Une bouteille pour le plein air.")]);
              total_tokens := Ok (VInt 85) |}
    | [] => Raise (ClientError "Connection error.")
    end.

(** The no-break space U+00A0, and the double quote. *)
Definition nbsp : string := PyStr.encode [0xA0%N].
Definition double_quote : string := PyStr.encode [34%N].

(** A product of a French catalog: the name, the category and two
    attribute keys have letters outside ASCII, the two keys differ by
    the case of such a letter only, and a no-break space stands before
    the unit of the capacity. *)
Definition cafetiere : Dict :=
  [("sku", VStr "TEMP-8");
   ("name", VStr "Cafetière");
   ("attributes", VDict [("Écran", VStr "LCD");
                         ("Capacity", VStr ("20" ++ nbsp ++ "OZ"));
                         ("écran", VStr "OLED")]);
   ("price", VInt 45);
   ("category", VStr "ÉPICERIE fine")].

(** A product whose price is a string of full-width digits. *)
Definition priced_in_digits : Dict :=
  [("sku", VStr "TEMP-9");
   ("name", VStr "Théière");
   ("price", VStr "１２.５")].

(** A product whose price is a string with an apostrophe. *)
Definition priced_per_unit : Dict :=
  [("sku", VStr "TEMP-10");
   ("name", VStr "Tasse");
   ("price", VStr "12 l'unité")].

(** A client that answers every kind of request with a JSON object, in
    French. *)
Definition barista : Client :=
  fun sent =>
    match sent with
    | ExtractRequest _ _ _ _ :: _ =>
        Ok {| parsed_content :=
                Ok (VDict [("Matière", VStr "Inox");
                           ("capacity", VStr ("20" ++ nbsp ++ "OZ"));
                           ("category", VStr "Café")]);
              total_tokens := Ok (VInt 90) |}
    | SeoRequest _ _ _ _ _ _ :: _ =>
        Ok {| parsed_content :=
                Ok (VDict [("title", VStr "Cafetière à piston");
                           ("description", VStr "Un café riche en arômes.");
                           ("keywords", VList [VStr "cafetière"])]);
              total_tokens := Ok (VInt 120) |}
    | LocalizeRequest "Spanish" _ _ _ :: _ =>
        Ok {| parsed_content :=
                Ok (VDict [("title", VStr "Cafetera de émbolo");
                           ("description", VStr "Un café rico en aromas.")]);
              total_tokens := Ok (VInt 80) |}
    | LocalizeRequest _ _ _ _ :: _ =>
        Ok {| parsed_content :=
                Ok (VDict [("title", VStr "Cafetière à piston");
                           ("description", VStr "Un café riche en arômes.")]);
              total_tokens := Ok (VInt 85) |}
    | [] => Raise (ClientError "Connection error.")
    end.

(** ** The stage functions of [pipeline.py] *)

Section Pipeline.

Context (builtins : Builtins).

(** [f"{v}"] *)
Definition fmt (v : PyVal) : string :=
  match v with
  | VStr s => s
  | _ => py_str builtins v
  end.

(** [sorted({a, b})] *)
Definition sorted_pair (a b : PyVal) : Result (list PyVal) :=
  match a, b with
  | VStr x, VStr y =>
      Ok (if String.eqb x y then [a]
          else if String.ltb x y then [a; b] else [b; a])
  | _, _ => py_sorted_pair builtins a b
  end.

Definition OUNCE_ML : spec_float := PyFloat.of_decimal false 295735 (-4).
Definition POUND_KG : spec_float := PyFloat.of_decimal false 453592 (-6).

Definition converted (value : spec_float) (unit : string) (source : PyVal) : PyVal :=
  VDict [("value", VFloat value); ("unit", VStr unit); ("source", source)].

Definition _convert_units (key : string) (value : PyVal) : PyVal :=
  match value with
  | VStr s =>
      let lower := PyStr.lower s in
      if (String.eqb key "capacity" || String.eqb key "volume")
         && PyStr.contains "oz" lower
      then match PyFloat.of_string (PyStr.strip (PyStr.before "oz" lower)) with
           | None => value
           | Some ounces =>
               let milliliters := PyFloat.round2 (PyFloat.mul ounces OUNCE_ML) in
               converted milliliters "ml" value
           end
      else if String.eqb key "weight" && PyStr.contains "lb" lower
      then match PyFloat.of_string (PyStr.strip (PyStr.before "lb" lower)) with
           | None => value
           | Some pounds =>
               let kilograms := PyFloat.round2 (PyFloat.mul pounds POUND_KG) in
               converted kilograms "kg" value
           end
      else value
  | _ => value
  end.

Definition normalize_key (key : string) : string :=
  PyStr.replace_space_underscore (PyStr.lower key).

(** The loop of [_fallback_extract_attributes]. *)
Definition normalize_items (attributes : Dict) : Dict :=
  fold_left
    (fun normalized '(key, value) =>
       let normalized_key := normalize_key key in
       let normalized_value := _convert_units normalized_key value in
       PyDict.set normalized_key normalized_value normalized)
    attributes [].

Definition _fallback_extract_attributes (product : Dict) (events : loc) : M Dict :=
  append events (event "extract" "Normalizing attributes") ;;
  attributes <- lift (py_items (PyDict.get_or product "attributes" (VDict []))) ;;
  let normalized := normalize_items attributes in
  category <- lift (py_lower (PyDict.get_or product "category" (VStr "uncategorized"))) ;;
  ret (PyDict.set "category" (VStr category) normalized).

(** [normalized = extracted.copy(); normalized["category"] = ...] and
    the unit conversion of every value. *)
Definition merge_extracted (product : Dict) (extracted : PyVal) : Result Dict :=
  match extracted with
  | VDict d =>
      match py_lower (PyDict.get_or product "category" (VStr "uncategorized")) with
      | Ok category =>
          Ok (map (fun '(key, value) => (key, _convert_units key value))
                  (PyDict.set "category" (VStr category) d))
      | Raise e => Raise e
      end
  | VList _ =>
      match py_lower (PyDict.get_or product "category" (VStr "uncategorized")) with
      | Ok _ => Raise (TypeError "list indices must be integers or slices, not str")
      | Raise e => Raise e
      end
  | _ => Raise (no_attribute extracted "copy")
  end.

(** The values the extraction prompt is built from. *)
Definition extract_request (product : Dict) : Request :=
  ExtractRequest (PyDict.get_or product "name" (VStr ""))
                 (PyDict.get_or product "description" (VStr ""))
                 (PyDict.get_or product "category" (VStr ""))
                 (PyDict.get_or product "attributes" (VDict [])).

Definition _ai_extract_attributes (product : Dict) (events : loc) (client : Client) : M Dict :=
  try_except
    (response <- create client (extract_request product) ;;
     extracted <- lift (parsed_content response) ;;
     tokens <- lift (total_tokens response) ;;
     append events (event_with "extract" "AI extracted product attributes"
                               [("token_usage", tokens)]) ;;
     lift (merge_extracted product extracted))
    (fun e =>
       append events (event "extract"
                            ("AI extraction failed: " ++ exn_str e ++ ", using fallback")) ;;
       _fallback_extract_attributes product events).

Definition _normalize_attributes (client : option Client) (product : Dict) (events : loc)
  : M Dict :=
  append events (event "extract" "Extracting attributes with AI") ;;
  match client with
  | Some c => _ai_extract_attributes product events c
  | None =>
      append events (event "extract" "Using fallback attribute extraction") ;;
      _fallback_extract_attributes product events
  end.

Definition required_fields : list string := ["sku"; "name"; "price"].

(** [[field for field in required_fields if not product.get(field)]] *)
Definition missing_fields (product : Dict) : list string :=
  List.filter (fun field => negb (truthy (PyDict.get product field))) required_fields.

Definition _validate_product (product : Dict) (events : loc) : M Dict :=
  let missing := missing_fields product in
  match missing with
  | _ :: _ =>
      let message := "Missing required fields: " ++ PyStr.join ", " missing in
      append events (event_with "validate" message [("status", VStr "error")]) ;;
      raise (ValueError message)
  | [] =>
      append events (event "validate" "Validation passed") ;;
      price_value <- lift (py_float (PyDict.get_or product "price" (VInt 0))) ;;
      ret [("currency", PyDict.get_or product "currency" (VStr "USD"));
           ("price", VFloat price_value);
           ("in_stock", VBool (PyFloat.isfinite price_value))]
  end.

Definition is_str (v : PyVal) : bool :=
  match v with VStr _ => true | _ => false end.

Definition _fallback_seo_copy (product normalized : Dict) (events : loc) : M PyVal :=
  let key_attr :=
    match PyDict.values normalized with
    | v :: _ => v
    | [] => PyDict.get_or product "description" (VStr "")
    end in
  name <- lift (PyDict.getitem product "name") ;;
  category <- lift (py_title (PyDict.get_or product "category" (VStr ""))) ;;
  let title := PyStr.strip (fmt name ++ " | " ++ category) in
  let description :=
    "Buy " ++ fmt name ++ " featuring "
    ++ fmt (if is_str key_attr then key_attr
            else PyDict.get_or product "description" (VStr ""))
    ++ "." in
  keywords <- lift (sorted_pair (PyDict.get_or product "category" (VStr ""))
                                (PyDict.get_or product "name" (VStr ""))) ;;
  append events (event "copywrite" "Generated SEO copy") ;;
  ret (VDict [("title", VStr title);
              ("description", VStr (PyStr.strip description));
              ("keywords", VList (List.filter truthy keywords))]).

(** The values the copywriting prompt is built from; the attributes are
    [dict(list(normalized.items())[:5])]. *)
Definition seo_request (product normalized : Dict) : Request :=
  SeoRequest (PyDict.get_or product "name" (VStr ""))
             (PyDict.get_or product "description" (VStr ""))
             (PyDict.get_or product "category" (VStr ""))
             (PyDict.get_or product "price" (VStr ""))
             (PyDict.get_or product "currency" (VStr "USD"))
             (take 5 normalized).

Definition _ai_generate_seo_copy (product normalized : Dict) (events : loc) (client : Client)
  : M PyVal :=
  try_except
    (response <- create client (seo_request product normalized) ;;
     seo_copy <- lift (parsed_content response) ;;
     tokens <- lift (total_tokens response) ;;
     append events (event_with "copywrite" "AI generated SEO copy"
                               [("token_usage", tokens)]) ;;
     ret seo_copy)
    (fun e =>
       append events (event "copywrite"
                            ("AI SEO failed: " ++ exn_str e ++ ", using fallback")) ;;
       _fallback_seo_copy product normalized events).

Definition _build_seo_copy (client : option Client) (product normalized : Dict) (events : loc)
  : M PyVal :=
  match client with
  | Some c => _ai_generate_seo_copy product normalized events c
  | None =>
      append events (event "copywrite" "Using fallback SEO generation") ;;
      _fallback_seo_copy product normalized events
  end.

Definition _fallback_localize_copy (seo_copy : PyVal) (events : loc) : M (list Dict) :=
  append events (event "localize" "Generated default locale copy") ;;
  title <- lift (py_get_or seo_copy "title" (VStr "")) ;;
  description <- lift (py_get_or seo_copy "description" (VStr "")) ;;
  ret [[("locale", VStr "en-US"); ("title", title); ("description", description)]].

Definition locale_name (locale : string) : string :=
  if String.eqb locale "es-ES" then "Spanish"
  else if String.eqb locale "fr-FR" then "French"
  else locale.

Definition localization_failed (events : loc) (locale : string) (e : PyExn) : M unit :=
  append events (event "localize"
                       ("Localization failed for " ++ locale ++ ": " ++ exn_str e)).

(** One turn of the loop of [_ai_localize_copy], from the list built so
    far to the list after the turn.  The entry is appended before the
    token usage is read, so it stays when that read raises; the inner
    handler is the same [except] clause, reached with the longer list. *)
Definition localize_locale (client : Client) (events : loc)
           (title description long_description : PyVal)
           (localizations : list Dict) (locale : string) : M (list Dict) :=
  try_except
    (response <- create client
                   (LocalizeRequest (locale_name locale) title description long_description) ;;
     translated <- lift (parsed_content response) ;;
     t <- lift (py_get_or translated "title" (VStr "")) ;;
     d <- lift (py_get_or translated "description" (VStr "")) ;;
     l <- lift (py_get_or translated "long_description" (VStr "")) ;;
     let localizations' :=
       (localizations ++ [[("locale", VStr locale); ("title", t);
                           ("description", d); ("long_description", l)]])%list in
     try_except
       (tokens <- lift (total_tokens response) ;;
        append events (event_with "localize" ("AI localized to " ++ locale_name locale)
                                  [("token_usage", tokens)]) ;;
        ret localizations')
       (fun e => localization_failed events locale e ;; ret localizations'))
    (fun e => localization_failed events locale e ;; ret localizations).

Fixpoint localize_locales (client : Client) (events : loc)
         (title description long_description : PyVal)
         (localizations : list Dict) (locales : list string) : M (list Dict) :=
  match locales with
  | [] => ret localizations
  | locale :: rest =>
      localizations' <- localize_locale client events title description long_description
                                        localizations locale ;;
      localize_locales client events title description long_description localizations' rest
  end.

Definition target_locales : list string := ["en-US"; "es-ES"; "fr-FR"].

Definition _ai_localize_copy (seo_copy : PyVal) (events : loc) (client : Client)
  : M (list Dict) :=
  title <- lift (py_get_or seo_copy "title" (VStr "")) ;;
  description <- lift (py_get_or seo_copy "description" (VStr "")) ;;
  long_description <- lift (py_get_or seo_copy "long_description" (VStr "")) ;;
  let localizations :=
    [[("locale", VStr "en-US"); ("title", title); ("description", description);
      ("long_description", long_description)]] in
  localize_locales client events title description long_description localizations
                   (tail target_locales).

Definition _localize_copy (client : option Client) (seo_copy : PyVal) (events : loc)
  : M (list Dict) :=
  match client with
  | Some c => _ai_localize_copy seo_copy events c
  | None =>
      append events (event "localize" "Using fallback localization") ;;
      _fallback_localize_copy seo_copy events
  end.

(** *** The six nodes *)

Definition _node_ingest (state : EnrichmentState) : M EnrichmentState :=
  product <- state_product state ;;
  events <- state_events state ;;
  append events (event_with "ingest" "Loaded product" [("sku", PyDict.get product "sku")]) ;;
  ret (upd_events events).

Definition _node_extract (client : option Client) (state : EnrichmentState)
  : M EnrichmentState :=
  product <- state_product state ;;
  events <- state_events state ;;
  normalized <- _normalize_attributes client product events ;;
  ret (upd_normalized events normalized).

Definition _node_validate (state : EnrichmentState) : M EnrichmentState :=
  product <- state_product state ;;
  events <- state_events state ;;
  pricing <- _validate_product product events ;;
  ret (upd_pricing events pricing).

Definition _node_copywrite (client : option Client) (state : EnrichmentState)
  : M EnrichmentState :=
  product <- state_product state ;;
  events <- state_events state ;;
  let normalized := default [] (normalized_attributes state) in
  seo <- _build_seo_copy client product normalized events ;;
  ret (upd_seo events seo).

Definition _node_localize (client : option Client) (state : EnrichmentState)
  : M EnrichmentState :=
  events <- state_events state ;;
  let seo := default (VDict []) (seo state) in
  localizations <- _localize_copy client seo events ;;
  ret (upd_localizations events localizations).

Definition _node_publish (state : EnrichmentState) : M EnrichmentState :=
  product <- state_product state ;;
  events <- state_events state ;;
  let normalized := default [] (normalized_attributes state) in
  let seo := default (VDict []) (seo state) in
  let localizations := default [] (localizations state) in
  let pricing := default [] (pricing state) in
  sku <- lift (PyDict.getitem product "sku") ;;
  name <- lift (PyDict.getitem product "name") ;;
  let enriched :=
    [("sku", sku);
     ("name", name);
     ("normalized_attributes", VDict normalized);
     ("seo", seo);
     ("localizations", VList (map VDict localizations));
     ("pricing", VDict pricing)] in
  append events (event_with "publish" "Enriched product ready" [("sku", sku)]) ;;
  ret (upd_enriched events enriched).

(** *** The two execution strategies *)

Definition _run_sequential_pipeline (client : option Client) (product : Dict)
  : M EnrichmentState :=
  events <- new_list ;;
  let state := initial_state product events in
  _node_ingest state ;;
  upd <- _node_extract client state ;;
  let state := update state upd in
  upd <- _node_validate state ;;
  let state := update state upd in
  upd <- _node_copywrite client state ;;
  let state := update state upd in
  upd <- _node_localize client state ;;
  let state := update state upd in
  upd <- _node_publish state ;;
  let state := update state upd in
  ret state.

(** Modelled from the spec: LangGraph's [StateGraph] is a third-party
    library whose code is not part of the repository.  Following the
    spec (4.3), a graph is a set of named nodes, edges between names and
    an entry point; [invoke] starts at the entry point, runs the node of
    the current name on the state, merges the partial update the node
    returns into the state, and follows the edge of the current name
    until it reaches [END].  The number of steps is bounded by the
    recursion limit of the library. *)
Definition Node : Type := EnrichmentState -> M EnrichmentState.

Record StateGraph := {
  nodes : list (string * Node);
  edges : list (string * string);
  entry_point : option string;
}.

Definition END : string := "__end__".
Definition RECURSION_LIMIT : nat := 25.

Definition new_graph : StateGraph :=
  {| nodes := []; edges := []; entry_point := None |}.
Definition add_node (name : string) (f : Node) (g : StateGraph) : StateGraph :=
  {| nodes := (nodes g ++ [(name, f)])%list; edges := edges g;
     entry_point := entry_point g |}.
Definition add_edge (src dst : string) (g : StateGraph) : StateGraph :=
  {| nodes := nodes g; edges := (edges g ++ [(src, dst)])%list;
     entry_point := entry_point g |}.
Definition set_entry_point (name : string) (g : StateGraph) : StateGraph :=
  {| nodes := nodes g; edges := edges g; entry_point := Some name |}.

Fixpoint assoc {A} (k : string) (l : list (string * A)) : option A :=
  match l with
  | [] => None
  | (k', a) :: l' => if String.eqb k k' then Some a else assoc k l'
  end.

Fixpoint run_from (g : StateGraph) (fuel : nat) (current : string)
         (state : EnrichmentState) : M EnrichmentState :=
  if String.eqb current END then ret state
  else match fuel with
       | O => raise (RuntimeError "Recursion limit reached")
       | S fuel' =>
           match assoc current (nodes g) with
           | None => raise (ValueError ("Unknown node: " ++ current))
           | Some node =>
               upd <- node state ;;
               let state' := update state upd in
               match assoc current (edges g) with
               | Some next => run_from g fuel' next state'
               | None => ret state'
               end
           end
       end.

Definition invoke (g : StateGraph) (state : EnrichmentState) : M EnrichmentState :=
  match entry_point g with
  | Some entry => run_from g RECURSION_LIMIT entry state
  | None => raise (ValueError "Graph must have an entrypoint")
  end.

(** [_configure_langsmith] sets environment variables for tracing and the
    [debug] flag of [compile]; they do not reach the nodes and are left
    out, as is the cache [_GRAPH] of the compiled graph. *)
Definition _get_graph (LANGGRAPH_AVAILABLE : bool) (client : option Client) : M StateGraph :=
  if LANGGRAPH_AVAILABLE
  then
    let builder := new_graph in
    let builder := add_node "ingest" _node_ingest builder in
    let builder := add_node "extract" (_node_extract client) builder in
    let builder := add_node "validate" _node_validate builder in
    let builder := add_node "copywrite" (_node_copywrite client) builder in
    let builder := add_node "localize" (_node_localize client) builder in
    let builder := add_node "publish" _node_publish builder in
    let builder := set_entry_point "ingest" builder in
    let builder := add_edge "ingest" "extract" builder in
    let builder := add_edge "extract" "validate" builder in
    let builder := add_edge "validate" "copywrite" builder in
    let builder := add_edge "copywrite" "localize" builder in
    let builder := add_edge "localize" "publish" builder in
    let builder := add_edge "publish" END builder in
    ret builder
  else
    raise (RuntimeError
             "LangGraph is not installed. Install `langgraph` to enable graph orchestration.").

(** The Graph Strategy of [enrich_product]: build the graph and invoke
    it on a state with a new event list. *)
Definition run_graph (LANGGRAPH_AVAILABLE : bool) (client : option Client) (product : Dict)
  : M EnrichmentState :=
  graph <- _get_graph LANGGRAPH_AVAILABLE client ;;
  events <- new_list ;;
  invoke graph (initial_state product events).

Definition enrich_product (LANGGRAPH_AVAILABLE : bool) (client : option Client)
           (product : Dict) : M ProcessedProduct :=
  result <- (if LANGGRAPH_AVAILABLE
             then run_graph LANGGRAPH_AVAILABLE client product
             else _run_sequential_pipeline client product) ;;
  events <- state_events result ;;
  match enriched result with
  | Some ((_ :: _) as enriched) =>
      sku <- lift (PyDict.getitem product "sku") ;;
      ret {| pp_sku := sku; pp_original := product;
             pp_enriched := enriched; pp_events := events |}
  | _ => raise (RuntimeError "Enrichment failed to produce output")
  end.

(** *** [catalog_io.py] *)

Definition load_json_array (path : string) : M (list Dict) :=
  fun w =>
    match files w !! path with
    | None => (Ok [], w)
    | Some (JsonArray records) => (Ok records, w)
    | Some (JsonOther found) =>
        (Raise (ValueError ("Expected list in " ++ path ++ ", found " ++ found)), w)
    | Some (NotJson error) => (Raise (ValueError error), w)
    end.

Definition write_json_array (path : string) (records : list Dict) : M unit :=
  fun w => (Ok tt, w_write path records w).

(** The loop of [append_unique_records]. *)
Fixpoint append_new (key : string) (seen : list PyVal) (appended new_records : list Dict)
  : Result (list Dict) :=
  match new_records with
  | [] => Ok appended
  | record :: rest =>
      match PyDict.get record key with
      | VNone => Raise (ValueError ("Record missing key '" ++ key ++ "': "
                                    ++ py_str builtins (VDict record)))
      | identifier =>
          match py_in_set identifier seen with
          | Raise e => Raise e
          | Ok true => append_new key seen appended rest
          | Ok false =>
              append_new key (set_add identifier seen) (appended ++ [record])%list rest
          end
      end
  end.

Definition append_unique_records (path : string) (existing new_records : list Dict)
           (key : string) : M (list Dict) :=
  seen <- lift (set_of (omap (PyDict.lookup key) existing)) ;;
  appended <- lift (append_new key seen existing new_records) ;;
  write_json_array path appended ;;
  ret appended.

(** *** The batch processor *)

(** [[record for record in simple_records
      if record.get("sku") not in existing_skus]] *)
Fixpoint pending_records (existing_skus : list PyVal) (simple_records : list Dict)
  : Result (list Dict) :=
  match simple_records with
  | [] => Ok []
  | record :: rest =>
      match py_in_set (PyDict.get record "sku") existing_skus with
      | Raise e => Raise e
      | Ok known =>
          match pending_records existing_skus rest with
          | Raise e => Raise e
          | Ok l => Ok (if known then l else record :: l)
          end
      end
  end.

(** [if not process_all and pending: pending = [pending[-1]]] *)
Definition narrow (process_all : bool) (pending : list Dict) : list Dict :=
  if process_all then pending
  else match last pending with
       | Some p => [p]
       | None => pending
       end.

(** The loop over [pending]: a failure of [enrich_product] is logged
    and the loop goes on. *)
Fixpoint process_each (LANGGRAPH_AVAILABLE : bool) (client : option Client)
         (pending : list Dict) (processed : list ProcessedProduct)
  : M (list ProcessedProduct) :=
  match pending with
  | [] => ret processed
  | product :: rest =>
      processed' <- try_except
                      (result <- enrich_product LANGGRAPH_AVAILABLE client product ;;
                       ret (processed ++ [result])%list)
                      (fun _ => ret processed) ;;
      process_each LANGGRAPH_AVAILABLE client rest processed'
  end.

Definition process_pending_products (LANGGRAPH_AVAILABLE : bool) (client : option Client)
           (simple_path enriched_path : string) (process_all : bool)
  : M (list ProcessedProduct) :=
  simple_records <- load_json_array simple_path ;;
  enriched_records <- load_json_array enriched_path ;;
  existing_skus <- lift (set_of (map (fun record => PyDict.get record "sku")
                                     enriched_records)) ;;
  pending <- lift (pending_records existing_skus simple_records) ;;
  let pending := narrow process_all pending in
  processed <- process_each LANGGRAPH_AVAILABLE client pending [] ;;
  match processed with
  | _ :: _ =>
      append_unique_records enriched_path enriched_records
                            (map pp_enriched processed) "sku" ;;
      ret processed
  | [] => ret processed
  end.

(** *** The client of [pipeline.py] *)

(** [_get_openai_client] reads and writes the global [_openai_client];
    it is given here the value of the global, [cached], and the value of
    the environment variable OPENAI_API_KEY, and returns its result with
    the new value of the global.  [OpenAI] builds a client from a key. *)
Definition _get_openai_client (OPENAI_AVAILABLE : bool) (OpenAI : string -> Client)
           (api_key : option string) (cached : option Client)
  : option Client * option Client :=
  if negb OPENAI_AVAILABLE then (None, cached)
  else match cached with
       | Some _ => (cached, cached)
       | None =>
           match api_key with
           | Some key =>
               if negb (String.eqb key "")
               then (Some (OpenAI key), Some (OpenAI key))
               else (None, None)
           | None => (None, None)
           end
       end.

(** The results of successive calls, one for each value the environment
    variable has at the time of a call. *)
Fixpoint client_calls (OPENAI_AVAILABLE : bool) (OpenAI : string -> Client)
         (api_keys : list (option string)) (cached : option Client)
  : list (option Client) :=
  match api_keys with
  | [] => []
  | api_key :: rest =>
      let '(client, cached') := _get_openai_client OPENAI_AVAILABLE OpenAI api_key cached in
      client :: client_calls OPENAI_AVAILABLE OpenAI rest cached'
  end.

(** *** [api/main.py] *)

(** [HTTPException] of FastAPI. *)
Record HTTPException := {
  status_code : nat;
  detail : string;
}.

(** What an endpoint does: it returns a value or raises an
    [HTTPException]. *)
Inductive HttpResult (A : Type) :=
| Returned (a : A)
| Failed (e : HTTPException).
#[global] Arguments Returned {A} a.
#[global] Arguments Failed {A} e.

(** [save_to_catalogs]; the handler logs the exception and raises it
    again. *)
Definition save_to_catalogs (SIMPLE_PATH ENRICHED_PATH : string)
           (simple_product enriched_product : Dict) : M unit :=
  try_except
    (simple_products <- load_json_array SIMPLE_PATH ;;
     append_unique_records SIMPLE_PATH simple_products [simple_product] "sku" ;;
     enriched_products <- load_json_array ENRICHED_PATH ;;
     append_unique_records ENRICHED_PATH enriched_products [enriched_product] "sku" ;;
     ret tt)
    (fun e => raise e).

(** [p.get("sku") == sku], for a string [sku]. *)
Definition sku_is (sku : string) (p : Dict) : bool :=
  match PyDict.get p "sku" with
  | VStr s => String.eqb s sku
  | _ => false
  end.

(** [next((p for p in products if p.get("sku") == sku), None)] *)
Definition find_sku (sku : string) (products : list Dict) : option Dict :=
  List.find (sku_is sku) products.

Definition record_or_none (found : option Dict) : PyVal :=
  match found with
  | Some p => VDict p
  | None => VNone
  end.

(** [get_product_by_sku]: the 404 is raised inside the [try] and passes
    through the first handler; any other exception becomes a 500. *)
Definition get_product_by_sku (SIMPLE_PATH ENRICHED_PATH : string) (sku : string)
  : World -> HttpResult PyVal * World :=
  fun w =>
    match (simple_products <- load_json_array SIMPLE_PATH ;;
           enriched_products <- load_json_array ENRICHED_PATH ;;
           ret (record_or_none (find_sku sku simple_products),
                record_or_none (find_sku sku enriched_products))) w with
    | (Ok (simple_product, enriched_product), w') =>
        if negb (truthy simple_product) && negb (truthy enriched_product)
        then (Failed {| status_code := 404;
                        detail := "Product with SKU " ++ sku ++ " not found" |}, w')
        else (Returned (VDict [("sku", VStr sku);
                               ("simple", simple_product);
                               ("enriched", enriched_product)]), w')
    | (Raise e, w') =>
        (Failed {| status_code := 500;
                   detail := "Failed to load product: " ++ exn_str e |}, w')
    end.

(** [ProductInput] of [api/models.py], after validation. *)
Record ProductInput := {
  input_sku : string;
  input_name : string;
  input_description : string;
  input_category : option string;
  input_price : spec_float;
  input_currency : string;
  input_attributes : option Dict;
}.

(** The dict the endpoints build from the input; [attributes or {}]. *)
Definition product_dict (product_data : ProductInput) : Dict :=
  [("sku", VStr (input_sku product_data));
   ("name", VStr (input_name product_data));
   ("description", VStr (input_description product_data));
   ("category", match input_category product_data with
                | Some category => VStr category
                | None => VNone
                end);
   ("price", VFloat (input_price product_data));
   ("currency", VStr (input_currency product_data));
   ("attributes", VDict (default [] (input_attributes product_data)))].

(** [enrich_product_endpoint].  The response is built by
    [convert_pipeline_product] and the pydantic models of
    [api/models.py], whose validation is not part of the repository:
    [respond] stands for it, and may raise.  Every exception becomes a
    500. *)
Definition enrich_product_endpoint {A} (LANGGRAPH_AVAILABLE : bool) (client : option Client)
           (SIMPLE_PATH ENRICHED_PATH : string) (respond : ProcessedProduct -> M A)
           (product_data : ProductInput) : World -> HttpResult A * World :=
  fun w =>
    match (let product_dict := product_dict product_data in
           processed <- enrich_product LANGGRAPH_AVAILABLE client product_dict ;;
           save_to_catalogs SIMPLE_PATH ENRICHED_PATH product_dict (pp_enriched processed) ;;
           respond processed) w with
    | (Ok response, w') => (Returned response, w')
    | (Raise e, w') =>
        (Failed {| status_code := 500;
                   detail := "Enrichment failed: " ++ exn_str e |}, w')
    end.

(** *** [scripts/run_enrichment.py] *)

Inductive Format := Text | Json | Stream.

(** The parsed command line. *)
Record Args := {
  all : bool;
  dry_run : bool;
  format : Format;
}.

(** What [main] prints: the line that says there is nothing new, or the
    report of [print_text], [print_json] or [stream_events], which is a
    function of the processed products and is given here by them. *)
Inductive Printed :=
| NoNewProducts
| Report (output_format : Format) (processed : list ProcessedProduct).

(** [json.loads(CATALOG_ENRICHED.read_text())] when the file exists, and
    [[]] otherwise.  The value is kept as the content of the file;
    [None] is the JSON value null, which the test [is not None] of
    [main] tells apart. *)
Definition read_original (path : string) : M (option FileContent) :=
  fun w =>
    match files w !! path with
    | None => (Ok (Some (JsonArray [])), w)
    | Some (NotJson error) => (Raise (ValueError error), w)
    | Some (JsonOther "NoneType") => (Ok None, w)
    | Some content => (Ok (Some content), w)
    end.

(** [path.write_text(json.dumps(original) + "\n")] *)
Definition write_original (path : string) (content : FileContent) : M unit :=
  fun w => (Ok tt, {| lists := lists w; requests := requests w;
                      files := <[path := content]> (files w) |}).

(** [main], from the parsed arguments to what is printed and the exit
    code. *)
Definition main (LANGGRAPH_AVAILABLE : bool) (client : option Client)
           (CATALOG_SIMPLE CATALOG_ENRICHED : string) (args : Args) : M (Printed * Z) :=
  original_enriched <- (if dry_run args then read_original CATALOG_ENRICHED
                        else ret None) ;;
  processed <- process_pending_products LANGGRAPH_AVAILABLE client
                 CATALOG_SIMPLE CATALOG_ENRICHED (all args) ;;
  (match original_enriched with
   | Some content => if dry_run args then write_original CATALOG_ENRICHED content else ret tt
   | None => ret tt
   end) ;;
  match processed with
  | [] => ret (NoNewProducts, 0%Z)
  | _ :: _ => ret (Report (format args) processed, 0%Z)
  end.

(** ** The data model of the specification *)

(** A field is absent or passes [test]. *)
Definition absent_or (test : PyVal -> bool) (field : option PyVal) : bool :=
  match field with
  | Some v => test v
  | None => true
  end.

Definition is_dict (v : PyVal) : bool :=
  match v with VDict _ => true | _ => false end.
Definition is_number (v : PyVal) : bool :=
  match v with VInt _ | VFloat _ => true | _ => false end.

(** The product records of the data model: [sku], [name], [description],
    [category] and [currency] are strings, [price] is a number and
    [attributes] is a mapping, each when present. *)
Definition is_product (p : Dict) : bool :=
  forallb (fun field => absent_or is_str (PyDict.lookup field p))
          ["sku"; "name"; "description"; "category"; "currency"]
  && absent_or is_number (PyDict.lookup "price" p)
  && absent_or is_dict (PyDict.lookup "attributes" p).

(** The key and value combinations [_convert_units] converts or tries to
    convert: a string with the unit token, under a key of that unit. *)
Definition has_unit (key : string) (value : PyVal) : bool :=
  match value with
  | VStr s =>
      ((String.eqb key "capacity" || String.eqb key "volume")
       && PyStr.contains "oz" (PyStr.lower s))
      || (String.eqb key "weight" && PyStr.contains "lb" (PyStr.lower s))
  | _ => false
  end.

(** The string of a field, with a default for an absent one. *)
Definition str_field (p : Dict) (field dflt : string) : string :=
  match PyDict.lookup field p with
  | Some (VStr s) => s
  | _ => dflt
  end.

(** From [w] to [w'] the events [new] were appended to the list
    [events]; no other list and no file changed. *)
Definition extends (events : loc) (new : list WorkflowEvent) (w w' : World) : Prop :=
  lists w' = alter (fun l => (l ++ new)%list) events (lists w) /\ files w' = files w.

(** The error event of a failed validation. *)
Definition validation_error (product : Dict) : WorkflowEvent :=
  event_with "validate"
             ("Missing required fields: " ++ PyStr.join ", " (missing_fields product))
             [("status", VStr "error")].

(** A call of the client fails when [create] raises, when the content
    does not parse, or when the token usage cannot be read. *)
Definition call_fails (r : Result Response) : bool :=
  match r with
  | Ok {| parsed_content := Ok _; total_tokens := Ok _ |} => false
  | _ => true
  end.

(** The sorted, de-duplicated, non-empty set of two strings. *)
Definition sorted_keywords (category name : string) : list string :=
  List.filter (fun kw => negb (String.eqb kw ""))
              (if String.eqb category name then [category]
               else if String.ltb category name then [category; name]
                    else [name; category]).

(** The first normalized attribute value when it is a string, and the
    raw description otherwise. *)
Definition key_attribute (product normalized : Dict) : string :=
  match PyDict.values normalized with
  | VStr s :: _ => s
  | _ => str_field product "description" ""
  end.

(** The fallback copy of a product named [name]. *)
Definition fallback_seo (product normalized : Dict) (name : string) : PyVal :=
  let category := str_field product "category" "" in
  VDict [("title", VStr (PyStr.strip (name ++ " | " ++ PyStr.title category)));
         ("description",
          VStr ("Buy " ++ name ++ " featuring " ++ key_attribute product normalized ++ "."));
         ("keywords", VList (map VStr (sorted_keywords category name)))].

(** [entry] is the unmodified English base of the copy [seo]: its locale
    is en-US and its title, description and long description are those
    of [seo], an absent field being the empty string. *)
Definition english_base (entry seo : Dict) : Prop :=
  PyDict.lookup "locale" entry = Some (VStr "en-US")
  /\ PyDict.get_or entry "title" (VStr "") = PyDict.get_or seo "title" (VStr "")
  /\ PyDict.get_or entry "description" (VStr "") = PyDict.get_or seo "description" (VStr "")
  /\ PyDict.get_or entry "long_description" (VStr "")
     = PyDict.get_or seo "long_description" (VStr "").

(** The events of one stage. *)
Definition has_step (s : string) (e : WorkflowEvent) : Prop := step e = s.

(** The capability answers a copywriting request, when its answer parses,
    with a JSON object. *)
Definition seo_replies_are_mappings (c : Client) : Prop :=
  forall product normalized sent response v,
    c (seo_request product normalized :: sent) = Ok response ->
    parsed_content response = Ok v ->
    is_dict v = true.

Definition well_shaped (client : option Client) : Prop :=
  match client with
  | Some c => seo_replies_are_mappings c
  | None => True
  end.

(** A valid record: a product of the data model whose sku, name and
    price are truthy and whose price [float()] converts. *)
Definition valid_product (p : Dict) : bool :=
  is_product p
  && match missing_fields p with [] => true | _ => false end
  && is_ok (py_float (PyDict.get_or p "price" (VInt 0))).

(** [log] is made of one block of events for each step of [steps], in
    that order, and no block is empty. *)
Inductive in_stages : list string -> list WorkflowEvent -> Prop :=
| in_stages_nil : in_stages [] []
| in_stages_cons s steps block rest :
    Forall (has_step s) block -> block <> [] -> in_stages steps rest ->
    in_stages (s :: steps) (block ++ rest)%list.

(** A list without its adjacent repetitions. *)
Fixpoint collapse (l : list string) : list string :=
  match l with
  | [] => []
  | x :: rest =>
      match rest with
      | y :: _ => if String.eqb x y then collapse rest else x :: collapse rest
      | [] => [x]
      end
  end.

(** The record [publish] assembles. *)
Definition enriched_record (sku name : PyVal) (normalized : Dict) (seo : PyVal)
           (localizations : list Dict) (pricing : Dict) : Dict :=
  [("sku", sku);
   ("name", name);
   ("normalized_attributes", VDict normalized);
   ("seo", seo);
   ("localizations", VList (map VDict localizations));
   ("pricing", VDict pricing)].

(** The events of the first and of the last stage. *)
Definition ingest_event (p : Dict) : WorkflowEvent :=
  event_with "ingest" "Loaded product" [("sku", PyDict.get p "sku")].

Definition publish_event (sku : PyVal) : WorkflowEvent :=
  event_with "publish" "Enriched product ready" [("sku", sku)].

(** A step is one of the six canonical steps. *)
Definition canonical (s : string) : bool := existsb (String.eqb s) WORKFLOW_STEPS.

(** The records of a catalog file, as [load_json_array] reads it. *)
Definition catalog (w : World) (path : string) : Result (list Dict) :=
  fst (load_json_array path w).

(** A catalog is keyed by sku: the sku of a record, when present, is a
    string. *)
Definition keyed (records : list Dict) : Prop :=
  Forall (fun record => absent_or is_str (PyDict.lookup "sku" record) = true) records.

Definition sku_of (record : Dict) : PyVal := PyDict.get record "sku".

(** The pending records: the records of the simple catalog whose sku is
    not the sku of an enriched record, in the order of the simple
    catalog. *)
Definition pending_of (enriched_records simple_records : list Dict) : list Dict :=
  List.filter (fun record => negb (set_mem (sku_of record) (map sku_of enriched_records)))
              simple_records.

(** A record that fails validation. *)
Definition fails_validation (record : Dict) : Prop := missing_fields record <> [].

(** The result of the enrichment of [record]: it carries the record and
    its sku, and its enriched record is the one [publish] assembles. *)
Definition processed_from (record : Dict) (pp : ProcessedProduct) : Prop :=
  pp_original pp = record
  /\ PyDict.lookup "sku" record = Some (pp_sku pp)
  /\ exists name normalized seo localizations pricing,
      pp_enriched pp = enriched_record (pp_sku pp) name normalized seo localizations pricing.

(** The place of a step in a list of steps. *)
Fixpoint step_position (steps : list string) (s : string) : nat :=
  match steps with
  | [] => 0
  | x :: rest => if String.eqb s x then 0 else S (step_position rest s)
  end.

(** [a] does not come after [b] in the canonical order. *)
Definition in_step_order (a b : string) : Prop :=
  (step_position WORKFLOW_STEPS a <= step_position WORKFLOW_STEPS b)%nat.

(** ** Keys, entries and events, for the statements on the whole pipeline *)

(** A key in the form the fallback extraction gives: no upper-case letter
    and no space. *)
Definition normal_key (k : string) : bool :=
  forallb (fun c => negb (PyStr.is_upper c) && negb (Ascii.eqb c " "))
          (list_ascii_of_string k).

(** The raw attribute that decides the normalized attribute [k]: the
    value of the last raw attribute whose key normalizes to [k]. *)
Definition raw_attribute (k : string) (attributes : Dict) : option PyVal :=
  PyDict.lookup k (rev (map (fun '(key, value) => (normalize_key key, value)) attributes)).

(** The normalized attributes of the fallback extraction, for the raw
    attributes [attributes]. *)
Definition fallback_attributes (p : Dict) (attributes : Dict) : Dict :=
  PyDict.set "category" (VStr (PyStr.lower (str_field p "category" "uncategorized")))
             (normalize_items attributes).

(** The pricing of a product whose price converts to [price_value]. *)
Definition pricing_record (p : Dict) (price_value : spec_float) : Dict :=
  [("currency", PyDict.get_or p "currency" (VStr "USD"));
   ("price", VFloat price_value);
   ("in_stock", VBool (PyFloat.isfinite price_value))].

(** The English entry of the localizations, with and without the
    capability. *)
Definition base_entry (seo : Dict) : Dict :=
  [("locale", VStr "en-US");
   ("title", PyDict.get_or seo "title" (VStr ""));
   ("description", PyDict.get_or seo "description" (VStr ""));
   ("long_description", PyDict.get_or seo "long_description" (VStr ""))].

Definition default_entry (seo : Dict) : Dict :=
  [("locale", VStr "en-US");
   ("title", PyDict.get_or seo "title" (VStr ""));
   ("description", PyDict.get_or seo "description" (VStr ""))].

(** The request for the translation of the copy [seo]. *)
Definition translation_request (language : string) (seo : Dict) : Request :=
  LocalizeRequest language
                  (PyDict.get_or seo "title" (VStr ""))
                  (PyDict.get_or seo "description" (VStr ""))
                  (PyDict.get_or seo "long_description" (VStr "")).

(** The entry of a locale, for the translation [t] the capability
    replied. *)
Definition locale_entry (locale : string) (t : Dict) : Dict :=
  [("locale", VStr locale);
   ("title", PyDict.get_or t "title" (VStr ""));
   ("description", PyDict.get_or t "description" (VStr ""));
   ("long_description", PyDict.get_or t "long_description" (VStr ""))].

(** The entries a reply to a translation request adds: one entry when
    the call returned and its content is a JSON object, none otherwise. *)
Definition translated (locale : string) (reply : Result Response) : list Dict :=
  match reply with
  | Ok {| parsed_content := Ok (VDict t) |} => [locale_entry locale t]
  | _ => []
  end.

(** A reply without content: the call raised, or its content is not
    JSON. *)
Definition no_content (reply : Result Response) : bool :=
  match reply with
  | Ok {| parsed_content := Ok _ |} => false
  | _ => true
  end.

(** The events of a run without the capability. *)
Definition fallback_events (p : Dict) (sku : PyVal) : list WorkflowEvent :=
  [ingest_event p;
   event "extract" "Extracting attributes with AI";
   event "extract" "Using fallback attribute extraction";
   event "extract" "Normalizing attributes";
   event "validate" "Validation passed";
   event "copywrite" "Using fallback SEO generation";
   event "copywrite" "Generated SEO copy";
   event "localize" "Using fallback localization";
   event "localize" "Generated default locale copy";
   publish_event sku].

(** The value of the key [key] of a record, [None] when it has none. *)
Definition key_of (key : string) (record : Dict) : PyVal := PyDict.get record key.

(** The records are keyed by [key]: the value of the key, when a record
    has one, is a string. *)
Definition keyed_by (key : string) (records : list Dict) : Prop :=
  Forall (fun record => absent_or is_str (PyDict.lookup key record) = true) records.

(** Every record has a string under [key]. *)
Definition all_keyed (key : string) (records : list Dict) : Prop :=
  Forall (fun record => exists s, PyDict.lookup key record = Some (VStr s)) records.

(** Some record of [records] has the string [s] under [key]. *)
Definition has_key (key s : string) (records : list Dict) : Prop :=
  exists record, In record records /\ PyDict.lookup key record = Some (VStr s).

(** Sample inputs of the API and of the command line. *)
Definition free_sample : ProductInput :=
  {| input_sku := "TEMP-6";
     input_name := "Sticker";
     input_description := "";
     input_category := Some "general";
     input_price := S754_zero false;
     input_currency := "USD";
     input_attributes := None |}.

Definition dry_run_all : Args :=
  {| all := true; dry_run := true; format := Json |}.

(** The capability answers the request [r] with the JSON value [v],
    whatever was sent before, and reports its token usage. *)
Definition answers (c : Client) (r : Request) (v : PyVal) : Prop :=
  forall sent,
    exists tokens,
      c (r :: sent) = Ok {| parsed_content := Ok v; total_tokens := Ok tokens |}.

(** The normalized attributes of the extraction with the capability,
    for the mapping [extracted] it replied: the category of the product
    is set and every value is unit-converted under its key. *)
Definition extracted_attributes (p : Dict) (extracted : Dict) : Dict :=
  map (fun '(key, value) => (key, _convert_units key value))
      (PyDict.set "category"
                  (VStr (PyStr.lower (str_field p "category" "uncategorized")))
                  extracted).

Definition bottle_input : ProductInput :=
  {| input_sku := "TEMP-2";
     input_name := "Bottle";
     input_description := "";
     input_category := Some "Outdoors";
     input_price := PyFloat.of_decimal false 125 (-1);
     input_currency := "USD";
     input_attributes := Some [("capacity", VStr "20 oz")] |}.

(** A record that validation rejects, of the data model as far as the
    extract stage reads it: its attributes, when present, are a mapping
    and its category, when present, is a string. *)
Definition rejected (record : Dict) : Prop :=
  missing_fields record <> []
  /\ absent_or is_dict (PyDict.lookup "attributes" record) = true
  /\ absent_or is_str (PyDict.lookup "category" record) = true.

(** ** Properties *)

(** *** Unit conversion *)

(** C4: unit conversion is a total function of its two arguments.  Under
    the key capacity or volume, a string that contains oz (in any case)
    and has a numeric prefix becomes value round(oz * 29.5735, 2), unit
    ml, source the string; under the key weight, a string that contains
    lb and has a numeric prefix becomes value round(lb * 0.453592, 2),
    unit kg, source the string; a prefix that is not numeric gives the
    value back; every other combination gives the value back.  The four
    examples of the specification evaluate as it says; the unit is found
    in upper case, the number behind a no-break space and in the digits
    of another script. *)
Theorem convert_units_spec (key : string) (value : PyVal) :
  (forall s ounces,
      value = VStr s ->
      key = "capacity" \/ key = "volume" ->
      PyStr.contains "oz" (PyStr.lower s) = true ->
      PyFloat.of_string (PyStr.strip (PyStr.before "oz" (PyStr.lower s))) = Some ounces ->
      _convert_units key value =
        VDict [("value", VFloat (PyFloat.round2 (PyFloat.mul ounces OUNCE_ML)));
               ("unit", VStr "ml"); ("source", VStr s)])
  /\ (forall s pounds,
         value = VStr s ->
         key = "weight" ->
         PyStr.contains "lb" (PyStr.lower s) = true ->
         PyFloat.of_string (PyStr.strip (PyStr.before "lb" (PyStr.lower s))) = Some pounds ->
         _convert_units key value =
           VDict [("value", VFloat (PyFloat.round2 (PyFloat.mul pounds POUND_KG)));
                  ("unit", VStr "kg"); ("source", VStr s)])
  /\ (forall s,
         value = VStr s ->
         key = "capacity" \/ key = "volume" ->
         PyStr.contains "oz" (PyStr.lower s) = true ->
         PyFloat.of_string (PyStr.strip (PyStr.before "oz" (PyStr.lower s))) = None ->
         _convert_units key value = value)
  /\ (forall s,
         value = VStr s ->
         key = "weight" ->
         PyStr.contains "lb" (PyStr.lower s) = true ->
         PyFloat.of_string (PyStr.strip (PyStr.before "lb" (PyStr.lower s))) = None ->
         _convert_units key value = value)
  /\ (has_unit key value = false -> _convert_units key value = value)
  /\ _convert_units "capacity" (VStr "20 oz") =
       VDict [("value", VFloat (PyFloat.of_decimal false 59147 (-2)));
              ("unit", VStr "ml"); ("source", VStr "20 oz")]
  /\ _convert_units "weight" (VStr "10 lb") =
       VDict [("value", VFloat (PyFloat.of_decimal false 454 (-2)));
              ("unit", VStr "kg"); ("source", VStr "10 lb")]
  /\ _convert_units "color" (VStr "red") = VStr "red"
  /\ _convert_units "capacity" (VStr "abc oz") = VStr "abc oz"
  /\ _convert_units "capacity" (VStr ("20" ++ nbsp ++ "OZ")) =
       VDict [("value", VFloat (PyFloat.of_decimal false 59147 (-2)));
              ("unit", VStr "ml"); ("source", VStr ("20" ++ nbsp ++ "OZ"))]
  /\ _convert_units "weight" (VStr "１０ lb") =
       VDict [("value", VFloat (PyFloat.of_decimal false 454 (-2)));
              ("unit", VStr "kg"); ("source", VStr "１０ lb")].
Proof.
  repeat apply conj.
  - intros s ounces -> Hkey Hoz Hnum. unfold _convert_units, converted.
    destruct Hkey as [-> | ->]; cbn [String.eqb Ascii.eqb Bool.eqb orb andb];
      rewrite Hoz, Hnum; reflexivity.
  - intros s pounds -> -> Hlb Hnum. unfold _convert_units, converted.
    cbn [String.eqb Ascii.eqb Bool.eqb orb andb]. rewrite Hlb, Hnum. reflexivity.
  - intros s -> Hkey Hoz Hnum. unfold _convert_units.
    destruct Hkey as [-> | ->]; cbn [String.eqb Ascii.eqb Bool.eqb orb andb];
      rewrite Hoz, Hnum; reflexivity.
  - intros s -> -> Hlb Hnum. unfold _convert_units.
    cbn [String.eqb Ascii.eqb Bool.eqb orb andb]. rewrite Hlb, Hnum. reflexivity.
  - unfold has_unit, _convert_units. destruct value; try reflexivity.
    intros H. apply orb_false_iff in H as [H1 H2]. rewrite H1, H2. reflexivity.
  - vm_compute. reflexivity.
  - vm_compute. reflexivity.
  - reflexivity.
  - vm_compute. reflexivity.
  - vm_compute. reflexivity.
  - vm_compute. reflexivity.
Qed.

(** *** Running the monad *)

Lemma bind_ok {A B} (m : M A) (k : A -> M B) w a w' :
  m w = (Ok a, w') -> bind m k w = k a w'.
Proof. unfold bind. intros ->. reflexivity. Qed.

Lemma bind_ext {A B} (m : M A) (k1 k2 : A -> M B) w :
  (forall a w', k1 a w' = k2 a w') -> bind m k1 w = bind m k2 w.
Proof.
  intros H. unfold bind. destruct (m w) as [[a|e] w']; [apply H | reflexivity].
Qed.

(** *** Worlds and the event list of a run *)

Lemma extends_refl events w : extends events [] w w.
Proof.
  split; [|reflexivity]. symmetry. apply list_alter_id. intros l. apply app_nil_r.
Qed.

Lemma extends_trans events new1 new2 w1 w2 w3 :
  extends events new1 w1 w2 -> extends events new2 w2 w3 ->
  extends events (new1 ++ new2)%list w1 w3.
Proof.
  intros [L1 F1] [L2 F2]. split; [|congruence].
  rewrite L2, L1, list_alter_alter_eq. apply list_alter_ext; [|reflexivity].
  intros l _. simpl. symmetry. apply app_assoc.
Qed.

Lemma extends_one events e w : extends events [e] w (w_append events e w).
Proof. split; reflexivity. Qed.

Lemma extends_append events e new w w' :
  extends events new w w' -> extends events (new ++ [e])%list w (w_append events e w').
Proof. intros H. eapply extends_trans; [exact H | apply extends_one]. Qed.

Lemma extends_sent events r new w w' :
  extends events new w w' -> extends events new w (w_sent r w').
Proof. intros [L F]. split; assumption. Qed.

Lemma extends_contents events new w w' :
  extends events new w w' -> (events < length (lists w))%nat ->
  contents w' events = (contents w events ++ new)%list.
Proof.
  intros [L _] Hlt. unfold contents. rewrite L, list_lookup_alter_eq.
  destruct (lists w !! events) as [l|] eqn:E; [reflexivity|].
  apply lookup_ge_None in E. lia.
Qed.

Lemma alloc_contents w : contents (w_alloc w) (length (lists w)) = [].
Proof.
  unfold contents, w_alloc. simpl.
  rewrite lookup_app_r by lia. rewrite Nat.sub_diag. reflexivity.
Qed.

Lemma alloc_length w : length (lists (w_alloc w)) = S (length (lists w)).
Proof. unfold w_alloc. simpl. rewrite length_app. simpl. lia. Qed.

(** *** Dictionaries and strings *)

Lemma lookup_set_eq k v d : PyDict.lookup k (PyDict.set k v d) = Some v.
Proof.
  induction d as [|[k' v'] d IH]; simpl.
  - rewrite String.eqb_refl. reflexivity.
  - destruct (String.eqb k k') eqn:E; simpl.
    + rewrite String.eqb_refl. reflexivity.
    + rewrite E. exact IH.
Qed.

Lemma set_not_nil k v d : PyDict.set k v d <> [].
Proof. destruct d as [|[k' v'] d]; simpl; [|destruct (String.eqb k k')]; discriminate. Qed.

Lemma get_or_str p field dflt :
  absent_or is_str (PyDict.lookup field p) = true ->
  PyDict.get_or p field (VStr dflt) = VStr (str_field p field dflt).
Proof.
  unfold PyDict.get_or, str_field, absent_or.
  destruct (PyDict.lookup field p) as [[]|]; simpl; congruence.
Qed.

Lemma append_assoc (a b c : string) : ((a ++ b) ++ c)%string = (a ++ (b ++ c))%string.
Proof. induction a as [|x a IH]; simpl; [reflexivity | f_equal; exact IH]. Qed.

Lemma point2_low a b : (a <? 0x80)%N = true -> PyStr.point2 a b = None.
Proof.
  intros Ha. apply N.ltb_lt in Ha. unfold PyStr.point2.
  destruct (0xC2 <=? a)%N eqn:E; [apply N.leb_le in E; lia | reflexivity].
Qed.

Lemma point3_low a b c : (a <? 0x80)%N = true -> PyStr.point3 a b c = None.
Proof.
  intros Ha. apply N.ltb_lt in Ha. unfold PyStr.point3.
  destruct (0xE0 <=? a)%N eqn:E; [apply N.leb_le in E; lia | reflexivity].
Qed.

Lemma continuation_low b : (b <? 0x80)%N = true -> PyStr.continuation b = false.
Proof.
  intros Hb. apply N.ltb_lt in Hb. unfold PyStr.continuation.
  destruct (0x80 <=? b)%N eqn:E; [apply N.leb_le in E; lia | reflexivity].
Qed.

Lemma point2_end a b : (b <? 0x80)%N = true -> PyStr.point2 a b = None.
Proof.
  intros Hb. unfold PyStr.point2. rewrite (continuation_low b Hb), andb_false_r. reflexivity.
Qed.

Lemma point3_end a b c : (c <? 0x80)%N = true -> PyStr.point3 a b c = None.
Proof.
  intros Hc. unfold PyStr.point3. rewrite (continuation_low c Hc), andb_false_r. reflexivity.
Qed.

(** An ASCII character that is no white space is part of no white
    space: stripping stops at it, from the left and from the right. *)
Lemma lstrip_plain a s :
  (PyStr.byte a <? 0x80)%N = true -> PyStr.is_space a = false ->
  PyStr.lstrip (String a s) = String a s.
Proof.
  intros Hb Ha. cbn [PyStr.lstrip]. rewrite Ha.
  unfold PyStr.is_space2, PyStr.is_space3.
  destruct s as [|b [|c s]]; [reflexivity| |].
  - rewrite (point2_low _ _ Hb). reflexivity.
  - rewrite (point2_low _ _ Hb), (point3_low _ _ _ Hb). reflexivity.
Qed.

Lemma lstrip_snoc c :
  (PyStr.byte c <? 0x80)%N = true -> PyStr.is_space c = false ->
  forall n s, (String.length s <= n)%nat -> PyStr.lstrip (s ++ String c "") <> "".
Proof.
  intros Hb Hc. induction n as [|n IH]; intros s Hn.
  - destruct s; [|simpl in Hn; lia].
    cbn [String.append]. rewrite lstrip_plain by assumption. discriminate.
  - destruct s as [|a [|b [|d s]]].
    + cbn [String.append]. rewrite lstrip_plain by assumption. discriminate.
    + cbn [String.append PyStr.lstrip]. destruct (PyStr.is_space a).
      * rewrite Hc. discriminate.
      * unfold PyStr.is_space2. rewrite (point2_end _ _ Hb). discriminate.
    + cbn [String.append PyStr.lstrip]. destruct (PyStr.is_space a).
      * apply (IH (String b "")). simpl in *. lia.
      * destruct (PyStr.is_space2 a b); [rewrite Hc; discriminate|].
        unfold PyStr.is_space3. rewrite (point3_end _ _ _ Hb). discriminate.
    + cbn [String.append PyStr.lstrip]. destruct (PyStr.is_space a).
      * apply (IH (String b (String d s))). simpl in *. lia.
      * destruct (PyStr.is_space2 a b).
        -- apply (IH (String d s)). simpl in *. lia.
        -- destruct (PyStr.is_space3 a b d); [|discriminate].
           apply (IH s). simpl in *. lia.
Qed.

Lemma rstrip_snoc s c :
  (PyStr.byte c <? 0x80)%N = true -> PyStr.is_space c = false ->
  PyStr.rstrip (s ++ String c "") = (s ++ String c "")%string.
Proof.
  intros Hb Hc. induction s as [|a s IH].
  - cbn [String.append PyStr.rstrip]. rewrite lstrip_plain by assumption. reflexivity.
  - change (String a s ++ String c "") with (String a (s ++ String c "")).
    cbn [PyStr.rstrip]. rewrite IH.
    change (String a (s ++ String c "")) with (String a s ++ String c "").
    destruct (PyStr.lstrip (String a s ++ String c "")) eqn:E; [|reflexivity].
    exfalso. exact (lstrip_snoc c Hb Hc _ (String a s) (le_n _) E).
Qed.

(** Stripping changes nothing between a first and a last character that
    are ASCII and no white space. *)
Lemma strip_between a s c :
  (PyStr.byte a <? 0x80)%N = true -> PyStr.is_space a = false ->
  (PyStr.byte c <? 0x80)%N = true -> PyStr.is_space c = false ->
  PyStr.strip (String a (s ++ String c "")) = String a (s ++ String c "").
Proof.
  intros Hb Ha Hd Hc. unfold PyStr.strip. rewrite lstrip_plain by assumption.
  exact (rstrip_snoc (String a s) c Hd Hc).
Qed.

(** Lower-casing leaves no upper-case ASCII letter: no character has
    one in its lower case, and the bytes of a character from 128 are
    themselves from 128. *)
Lemma is_upper_chr n :
  (n < 65 \/ 90 < n)%N -> (n < 256)%N -> PyStr.is_upper (PyStr.chr n) = false.
Proof.
  intros Hn Hlt. unfold PyStr.is_upper, PyStr.code, PyStr.chr, nat_of_ascii.
  rewrite N_ascii_embedding by exact Hlt.
  destruct Hn as [Hn|Hn].
  - apply andb_false_iff. left. apply Nat.leb_gt. lia.
  - apply andb_false_iff. right. apply Nat.leb_gt. lia.
Qed.

Lemma chars_app a b :
  list_ascii_of_string (a ++ b) = (list_ascii_of_string a ++ list_ascii_of_string b)%list.
Proof. induction a as [|c a IH]; simpl; [reflexivity | f_equal; exact IH]. Qed.

Lemma chars_bytes l : list_ascii_of_string (PyStr.bytes l) = map PyStr.chr l.
Proof. unfold PyStr.bytes. apply list_ascii_of_string_of_list_ascii. Qed.

Lemma encode_point_not_upper p :
  (p < 65 \/ 90 < p)%N ->
  Forall (fun c => PyStr.is_upper c = false) (list_ascii_of_string (PyStr.encode_point p)).
Proof.
  intros Hp. unfold PyStr.encode_point.
  destruct (p <? 0x80)%N eqn:E1; [|destruct (p <? 0x800)%N eqn:E2;
    [|destruct (p <? 0x10000)%N eqn:E3; [|destruct (p <? 0x110000)%N eqn:E4]]];
    rewrite chars_bytes; cbn [map];
    repeat match goal with
           | H : (_ <? _)%N = true |- _ => apply N.ltb_lt in H
           | H : (_ <? _)%N = false |- _ => apply N.ltb_ge in H
           end;
    repeat (apply Forall_cons_2; [|try apply Forall_nil_2]); apply is_upper_chr;
    try (pose proof (N.mod_upper_bound p 64 ltac:(lia)));
    try (pose proof (N.mod_upper_bound (p / 64) 64 ltac:(lia)));
    try (pose proof (N.mod_upper_bound (p / 4096) 64 ltac:(lia)));
    try (pose proof (N.mod_upper_bound (p - 0x110000) 0x80 ltac:(lia)));
    try (assert (p / 64 < 32)%N by (apply N.Div0.div_lt_upper_bound; lia));
    try (assert (p / 4096 < 16)%N by (apply N.Div0.div_lt_upper_bound; lia));
    try (assert (p / 262144 < 5)%N by (apply N.Div0.div_lt_upper_bound; lia));
    try lia.
  all: right; apply N.lt_lt_add_r; lia.
Qed.

Lemma encode_not_upper l :
  Forall (fun p => p < 65 \/ 90 < p)%N l ->
  Forall (fun c => PyStr.is_upper c = false) (list_ascii_of_string (PyStr.encode l)).
Proof.
  induction 1 as [|p l Hp _ IH]; cbn [PyStr.encode]; [constructor|].
  rewrite chars_app. apply Forall_app_2; [apply encode_point_not_upper; exact Hp | exact IH].
Qed.

Lemma find_range_image c t d :
  forallb (fun '(_, _, _, image) => (91 <=? image)%N) t = true ->
  Unicode.find_range c t = Some d -> (91 <= d)%N.
Proof.
  induction t as [|[[[first last] step] image] t IH]; cbn [forallb Unicode.find_range];
    [discriminate|].
  intros H. apply andb_true_iff in H as [H1 H2]. apply N.leb_le in H1.
  destruct (c <? first)%N; [discriminate|].
  destruct (_ && _); [intros [= <-]; lia | apply IH; exact H2].
Qed.

Lemma assoc_image c t :
  forallb (fun '(_, image) => forallb (N.leb 91) image) t = true ->
  forall image, Unicode.assoc c t = Some image -> Forall (fun d => 91 <= d)%N image.
Proof.
  induction t as [|[c' image'] t IH]; cbn [forallb Unicode.assoc]; [discriminate|].
  intros H image. apply andb_true_iff in H as [H1 H2].
  destruct (c =? c')%N; [|apply IH; exact H2].
  intros [= <-]. apply List.Forall_forall. intros d Hd.
  apply N.leb_le. exact (proj1 (forallb_forall _ _) H1 d Hd).
Qed.

Lemma to_lower_full_not_upper c :
  Forall (fun d => d < 65 \/ 90 < d)%N (Unicode.to_lower_full c).
Proof.
  unfold Unicode.to_lower_full. destruct (c <? 128)%N eqn:E.
  - constructor; [|constructor]. unfold Unicode.is_ascii_upper.
    destruct (65 <=? c)%N eqn:E1; [destruct (c <=? 90)%N eqn:E2|]; cbn [andb].
    + apply N.leb_le in E1. lia.
    + apply N.leb_gt in E2. lia.
    + apply N.leb_gt in E1. lia.
  - apply N.ltb_ge in E. unfold Unicode.mapped.
    destruct (Unicode.assoc _ _) as [image|] eqn:Ea.
    + eapply Forall_impl; [eapply assoc_image; [|exact Ea]; vm_compute; reflexivity|].
      cbn beta. intros d Hd. lia.
    + destruct (Unicode.find_range _ _) as [d|] eqn:Ef; (constructor; [|constructor]).
      * apply find_range_image in Ef; [lia | vm_compute; reflexivity].
      * lia.
Qed.

Lemma lower_from_not_upper l :
  forall before, Forall (fun d => d < 65 \/ 90 < d)%N (PyStr.lower_from before l).
Proof.
  induction l as [|c l IH]; intros before; cbn [PyStr.lower_from]; [constructor|].
  apply Forall_app_2; [|apply IH].
  unfold PyStr.lower_at. destruct (c =? 0x3A3)%N; [|apply to_lower_full_not_upper].
  constructor; [|constructor]. destruct (PyStr.final_sigma _ _); lia.
Qed.

(** *** Fallback attribute extraction *)

Lemma get_or_attributes p :
  absent_or is_dict (PyDict.lookup "attributes" p) = true ->
  exists attributes, PyDict.get_or p "attributes" (VDict []) = VDict attributes.
Proof.
  unfold PyDict.get_or, absent_or.
  destruct (PyDict.lookup "attributes" p) as [[]|]; simpl; try discriminate; eauto.
Qed.

Lemma fallback_extract_returns product events w attributes :
  PyDict.get_or product "attributes" (VDict []) = VDict attributes ->
  absent_or is_str (PyDict.lookup "category" product) = true ->
  _fallback_extract_attributes product events w =
    (Ok (PyDict.set "category"
                    (VStr (PyStr.lower (str_field product "category" "uncategorized")))
                    (normalize_items attributes)),
     w_append events (event "extract" "Normalizing attributes") w).
Proof.
  intros Ha Hcat.
  unfold _fallback_extract_attributes, bind, append, lift, ret.
  rewrite Ha, (get_or_str product "category" "uncategorized" Hcat). reflexivity.
Qed.

(** C10: for every product of the data model (attributes, when present,
    are a mapping and the category, when present, is a string), the
    fallback attribute extraction returns a mapping whose key category
    holds the lower-cased category of the product, or uncategorized when
    the product has none, whatever the raw attributes normalize to; so
    the mapping is never empty.  The category it holds has no upper-case
    ASCII letter.  It appends one extract event. *)
Theorem fallback_extract_has_category (product : Dict) (events : loc) (w : World) :
  absent_or is_dict (PyDict.lookup "attributes" product) = true ->
  absent_or is_str (PyDict.lookup "category" product) = true ->
  exists normalized,
    _fallback_extract_attributes product events w =
      (Ok normalized, w_append events (event "extract" "Normalizing attributes") w)
    /\ PyDict.lookup "category" normalized =
         Some (VStr (PyStr.lower (str_field product "category" "uncategorized")))
    /\ Forall (fun c => PyStr.is_upper c = false)
              (list_ascii_of_string
                 (PyStr.lower (str_field product "category" "uncategorized")))
    /\ normalized <> [].
Proof.
  intros Hattrs Hcat.
  destruct (get_or_attributes product Hattrs) as [attributes Ha].
  rewrite (fallback_extract_returns product events w attributes Ha Hcat).
  eexists. split; [reflexivity|]. split; [apply lookup_set_eq|]. split.
  - apply encode_not_upper, lower_from_not_upper.
  - apply set_not_nil.
Qed.

(** *** Validation *)

Lemma missing_fields_nil product :
  truthy (PyDict.get product "sku") = true ->
  truthy (PyDict.get product "name") = true ->
  truthy (PyDict.get product "price") = true ->
  missing_fields product = [].
Proof.
  intros Hs Hn Hp. unfold missing_fields, required_fields. simpl.
  rewrite Hs, Hn, Hp. reflexivity.
Qed.

Lemma missing_fields_nil_inv product :
  missing_fields product = [] ->
  truthy (PyDict.get product "sku") = true
  /\ truthy (PyDict.get product "name") = true
  /\ truthy (PyDict.get product "price") = true.
Proof.
  unfold missing_fields, required_fields. simpl.
  destruct (truthy (PyDict.get product "sku")); simpl; [|discriminate].
  destruct (truthy (PyDict.get product "name")); simpl; [|discriminate].
  destruct (truthy (PyDict.get product "price")); simpl; [|discriminate].
  auto.
Qed.

Lemma validate_product_fails product events w :
  missing_fields product <> [] ->
  _validate_product product events w =
    (Raise (ValueError ("Missing required fields: "
                          ++ PyStr.join ", " (missing_fields product))),
     w_append events (validation_error product) w).
Proof.
  intros H. unfold _validate_product, validation_error.
  destruct (missing_fields product); [congruence | reflexivity].
Qed.

Lemma validate_product_returns product events w price_value :
  missing_fields product = [] ->
  py_float (PyDict.get_or product "price" (VInt 0)) = Ok price_value ->
  _validate_product product events w =
    (Ok [("currency", PyDict.get_or product "currency" (VStr "USD"));
         ("price", VFloat price_value);
         ("in_stock", VBool (PyFloat.isfinite price_value))],
     w_append events (event "validate" "Validation passed") w).
Proof.
  intros Hm Hfloat. unfold _validate_product. rewrite Hm.
  unfold bind, append, lift, ret. rewrite Hfloat. reflexivity.
Qed.

(** C9, amended: for every product whose sku, name and price are truthy
    and whose price [float()] converts, validation appends the passed
    event and returns the pricing: the currency of the product (USD when
    it has none), the price as a float, and in_stock true exactly when
    that float is finite. *)
Theorem validate_product_passes (product : Dict) (events : loc) (w : World)
        (price_value : spec_float) :
  truthy (PyDict.get product "sku") = true ->
  truthy (PyDict.get product "name") = true ->
  truthy (PyDict.get product "price") = true ->
  py_float (PyDict.get_or product "price" (VInt 0)) = Ok price_value ->
  _validate_product product events w =
    (Ok [("currency", PyDict.get_or product "currency" (VStr "USD"));
         ("price", VFloat price_value);
         ("in_stock", VBool (PyFloat.isfinite price_value))],
     w_append events (event "validate" "Validation passed") w).
Proof.
  intros Hs Hn Hp Hfloat.
  apply validate_product_returns; [|exact Hfloat].
  apply missing_fields_nil; assumption.
Qed.

(** When [float()] refuses the price, validation raises after the passed
    event. *)
Lemma validate_product_float_raises product events w e :
  missing_fields product = [] ->
  py_float (PyDict.get_or product "price" (VInt 0)) = Raise e ->
  _validate_product product events w =
    (Raise e, w_append events (event "validate" "Validation passed") w).
Proof.
  intros Hm Hfloat. unfold _validate_product. rewrite Hm.
  unfold bind, append, lift, ret. rewrite Hfloat. reflexivity.
Qed.

(** *** Fallback copy *)

Lemma description_strip a b :
  PyStr.strip ("Buy " ++ a ++ " featuring " ++ b ++ ".")
  = "Buy " ++ a ++ " featuring " ++ b ++ ".".
Proof.
  replace ("Buy " ++ a ++ " featuring " ++ b ++ ".")
    with (String "B" (("uy " ++ a ++ " featuring " ++ b) ++ ".")).
  - apply strip_between; reflexivity.
  - simpl. rewrite !append_assoc. reflexivity.
Qed.

Lemma filter_truthy_strs (l : list string) :
  List.filter truthy (map VStr l) = map VStr (List.filter (fun kw => negb (String.eqb kw "")) l).
Proof.
  induction l as [|x l IH]; simpl; [reflexivity|].
  destruct (negb (String.eqb x "")); simpl; rewrite IH; reflexivity.
Qed.

Lemma fallback_seo_copy_ok product normalized events w name :
  PyDict.lookup "name" product = Some (VStr name) ->
  absent_or is_str (PyDict.lookup "category" product) = true ->
  absent_or is_str (PyDict.lookup "description" product) = true ->
  _fallback_seo_copy product normalized events w =
    (Ok (fallback_seo product normalized name),
     w_append events (event "copywrite" "Generated SEO copy") w).
Proof.
  intros Hname Hcat Hdesc.
  unfold _fallback_seo_copy, fallback_seo, bind, lift, append, ret, PyDict.getitem.
  rewrite Hname, (get_or_str product "category" "" Hcat),
    (get_or_str product "description" "" Hdesc).
  assert (Hn : PyDict.get_or product "name" (VStr "") = VStr name).
  { unfold PyDict.get_or. rewrite Hname. reflexivity. }
  rewrite Hn. cbn [py_title sorted_pair fmt].
  rewrite description_strip.
  assert (Hkey :
    fmt (if is_str match PyDict.values normalized with
                   | [] => VStr (str_field product "description" "")
                   | v :: _ => v
                   end
         then match PyDict.values normalized with
              | [] => VStr (str_field product "description" "")
              | v :: _ => v
              end
         else VStr (str_field product "description" ""))
    = key_attribute product normalized).
  { unfold key_attribute. destruct (PyDict.values normalized) as [|[] ?]; reflexivity. }
  rewrite Hkey. unfold sorted_keywords.
  rewrite <- filter_truthy_strs.
  destruct (String.eqb (str_field product "category" "") name);
    [|destruct (String.ltb (str_field product "category" "") name)]; reflexivity.
Qed.

(** The fallback copy has a title, a description and keywords, and
    nothing else. *)
Lemma fallback_seo_copy_shape product normalized events w v w' :
  _fallback_seo_copy product normalized events w = (Ok v, w') ->
  exists t d k, v = VDict [("title", t); ("description", d); ("keywords", k)].
Proof.
  unfold _fallback_seo_copy, bind, lift, append, ret.
  destruct (PyDict.getitem product "name"); [|discriminate].
  destruct (py_title _); [|discriminate].
  destruct (sorted_pair _ _); [|discriminate].
  intros [= <- _]. eauto.
Qed.

(** C7, amended: for every product of the data model with a name, when
    the text-generation capability is absent or its call fails, the
    copywrite stage returns the title "{name} | {Category title-cased}"
    with the white space at its two ends stripped, the description
    "Buy {name} featuring {key}." where key is the first normalized
    attribute value when that is a string and the raw description
    otherwise, and as keywords the sorted, de-duplicated, non-empty set
    of the category and the name. *)
Theorem fallback_seo_copy_spec (client : option Client) (product normalized : Dict)
        (events : loc) (w : World) (name : string) :
  PyDict.lookup "name" product = Some (VStr name) ->
  absent_or is_str (PyDict.lookup "category" product) = true ->
  absent_or is_str (PyDict.lookup "description" product) = true ->
  match client with
  | None => True
  | Some c => call_fails (c (seo_request product normalized :: requests w)) = true
  end ->
  exists w',
    _build_seo_copy client product normalized events w
    = (Ok (fallback_seo product normalized name), w').
Proof.
  intros Hname Hcat Hdesc Hclient.
  destruct client as [c|]; unfold _build_seo_copy.
  - unfold _ai_generate_seo_copy, try_except, bind, create, lift, append.
    destruct (c (seo_request product normalized :: requests w))
      as [[[seo_copy|e1] [tokens|e2]]|e]; simpl in Hclient; try discriminate;
      cbn [parsed_content total_tokens];
      rewrite (fallback_seo_copy_ok _ _ _ _ name Hname Hcat Hdesc); eauto.
  - unfold bind, append.
    rewrite (fallback_seo_copy_ok _ _ _ _ name Hname Hcat Hdesc). eauto.
Qed.

Lemma sorted_keywords_spec category name :
  (forall kw, In kw (sorted_keywords category name)
              <-> (kw = category \/ kw = name) /\ kw <> "")
  /\ StronglySorted (fun a b => String.ltb a b = true) (sorted_keywords category name).
Proof.
  unfold sorted_keywords.
  assert (Hin : forall kw l, In kw (List.filter (fun kw => negb (String.eqb kw "")) l)
                             <-> In kw l /\ kw <> "").
  { intros kw l. rewrite filter_In, negb_true_iff, String.eqb_neq. reflexivity. }
  assert (Hsorted : forall l, StronglySorted (fun a b => String.ltb a b = true) l ->
      StronglySorted (fun a b => String.ltb a b = true)
                     (List.filter (fun kw => negb (String.eqb kw "")) l)).
  { intros l Hl. induction Hl as [|a l Hl IH Ha]; simpl; [constructor|].
    destruct (negb (String.eqb a "")); [|exact IH].
    constructor; [exact IH|].
    rewrite List.Forall_forall in *. intros x Hx. apply Ha.
    apply filter_In in Hx. tauto. }
  destruct (String.eqb category name) eqn:Heq.
  - apply String.eqb_eq in Heq. subst name. split.
    + intros kw. rewrite Hin. simpl. intuition congruence.
    + apply Hsorted. repeat constructor.
  - destruct (String.ltb category name) eqn:Hlt.
    + split.
      * intros kw. rewrite Hin. simpl. intuition congruence.
      * apply Hsorted. repeat constructor. exact Hlt.
    + split.
      * intros kw. rewrite Hin. simpl. intuition congruence.
      * apply Hsorted. repeat constructor.
        unfold String.ltb in *. rewrite String.compare_antisym.
        destruct (String.compare category name) eqn:Hc; try discriminate; [|reflexivity].
        apply String.compare_eq_iff in Hc. apply String.eqb_neq in Heq. contradiction.
Qed.

(** *** Localization *)

Lemma localize_locale_total client events t d l localizations locale w :
  exists more new w',
    localize_locale client events t d l localizations locale w
    = (Ok (localizations ++ more)%list, w')
    /\ extends events new w w' /\ Forall (has_step "localize") new /\ new <> [].
Proof.
  unfold localize_locale, try_except, bind, create, lift, append, ret, localization_failed.
  destruct (client _) as [[[translated|e1] [tokens|e2]]|e]; cbn [parsed_content total_tokens].
  1,2: destruct (py_get_or translated "title" (VStr "")) as [t'|e3];
       [destruct (py_get_or translated "description" (VStr "")) as [d'|e4];
        [destruct (py_get_or translated "long_description" (VStr "")) as [l'|e5]|]|].
  all: eexists _, _, _; (split; [try reflexivity; rewrite app_nil_r; reflexivity|]);
    (split; [apply (extends_append _ _ []), extends_sent, extends_refl|]);
    split; [repeat constructor | discriminate].
Qed.

Lemma localize_locales_total client events t d l locales :
  forall localizations w,
  exists more new w',
    localize_locales client events t d l localizations locales w
    = (Ok (localizations ++ more)%list, w')
    /\ extends events new w w' /\ Forall (has_step "localize") new
    /\ (locales <> [] -> new <> []).
Proof.
  induction locales as [|locale rest IH]; intros localizations w; simpl.
  - exists [], [], w. rewrite app_nil_r.
    split; [reflexivity|]. split; [apply extends_refl|]. split; [constructor|congruence].
  - destruct (localize_locale_total client events t d l localizations locale w)
      as (more1 & new1 & w1 & E1 & X1 & F1 & N1).
    destruct (IH (localizations ++ more1)%list w1) as (more2 & new2 & w2 & E2 & X2 & F2 & _).
    exists (more1 ++ more2)%list, (new1 ++ new2)%list, w2.
    rewrite (bind_ok _ _ _ _ _ E1), E2, app_assoc.
    split; [reflexivity|]. split; [eapply extends_trans; eassumption|].
    split; [apply Forall_app_2; assumption|].
    intros _ H. apply app_eq_nil in H. tauto.
Qed.

(** C8: for every capability state, when the copywrite stage has
    returned the mapping [seo], the localize stage that follows returns
    a sequence whose first entry is the en-US base with the title, the
    description and the long description of [seo] (an absent field being
    the empty string).  With the capability the entry carries the four
    fields; without it the sequence is that entry alone, with locale,
    title and description, and [seo] has no long description. *)
Theorem localize_keeps_english_base (client : option Client) (product normalized : Dict)
        (events : loc) (w : World) (seo : Dict) (w1 : World) :
  _build_seo_copy client product normalized events w = (Ok (VDict seo), w1) ->
  exists entry rest w2,
    _localize_copy client (VDict seo) events w1 = (Ok (entry :: rest), w2)
    /\ english_base entry seo
    /\ match client with
       | Some _ =>
           entry = [("locale", VStr "en-US");
                    ("title", PyDict.get_or seo "title" (VStr ""));
                    ("description", PyDict.get_or seo "description" (VStr ""));
                    ("long_description", PyDict.get_or seo "long_description" (VStr ""))]
       | None =>
           rest = []
           /\ entry = [("locale", VStr "en-US");
                       ("title", PyDict.get_or seo "title" (VStr ""));
                       ("description", PyDict.get_or seo "description" (VStr ""))]
           /\ PyDict.lookup "long_description" seo = None
       end.
Proof.
  intros Hseo. destruct client as [c|]; unfold _localize_copy.
  - unfold _ai_localize_copy, bind, lift. cbn [py_get_or tail target_locales].
    match goal with
    | |- context [localize_locales c events ?t ?d ?l ?ls ?locales w1] =>
        destruct (localize_locales_total c events t d l locales ls w1)
          as (more & new & w2 & E & _)
    end.
    rewrite E. eexists _, more, w2. split; [reflexivity|].
    split; [|reflexivity]. repeat split.
  - unfold _build_seo_copy, bind, append in Hseo.
    apply fallback_seo_copy_shape in Hseo as (t & d & k & [= ->]).
    unfold _fallback_localize_copy, bind, append, lift, ret. cbn [py_get_or].
    eexists _, [], _. split; [reflexivity|].
    split; [repeat split|]. repeat split.
Qed.

(** *** What each stage does to the world *)

Ltac solve_extends :=
  repeat first [apply extends_append | apply extends_sent]; apply extends_refl.

(** Close a goal [f w = (r, w') /\ extends .. /\ Forall .. /\ new <> [] /\ ..]
    whose world is a chain of appends and requests. *)
Ltac stage_done :=
  eexists _, _, _; split; [reflexivity|];
  split; [solve_extends|];
  split; [repeat constructor|];
  split; [discriminate|].

Lemma fallback_extract_spec product events w :
  exists r,
    _fallback_extract_attributes product events w
    = (r, w_append events (event "extract" "Normalizing attributes") w)
    /\ (absent_or is_dict (PyDict.lookup "attributes" product) = true ->
        absent_or is_str (PyDict.lookup "category" product) = true ->
        exists normalized, r = Ok normalized).
Proof.
  destruct (absent_or is_dict (PyDict.lookup "attributes" product)) eqn:Ha;
    [destruct (absent_or is_str (PyDict.lookup "category" product)) eqn:Hc|].
  - destruct (get_or_attributes product Ha) as [attributes Hattrs].
    eexists. split; [exact (fallback_extract_returns product events w attributes Hattrs Hc)|].
    eauto.
  - unfold _fallback_extract_attributes, bind, append, lift, ret.
    destruct (py_items _); [destruct (py_lower _)|]; eexists; (split; [reflexivity|]);
      intros; discriminate.
  - unfold _fallback_extract_attributes, bind, append, lift, ret.
    destruct (py_items _); [destruct (py_lower _)|]; eexists; (split; [reflexivity|]);
      intros; discriminate.
Qed.

Lemma normalize_attributes_spec client product events w :
  exists r new w',
    _normalize_attributes client product events w = (r, w')
    /\ extends events new w w'
    /\ Forall (has_step "extract") new
    /\ new <> []
    /\ (absent_or is_dict (PyDict.lookup "attributes" product) = true ->
        absent_or is_str (PyDict.lookup "category" product) = true ->
        exists normalized, r = Ok normalized).
Proof.
  unfold _normalize_attributes, bind, append.
  destruct client as [c|].
  - unfold _ai_extract_attributes, try_except, bind, create, lift, append, ret.
    destruct (c _) as [[[extracted|e1] [tokens|e2]]|e]; cbn [parsed_content total_tokens].
    1: destruct (merge_extracted product extracted) as [normalized|e3]; cbn beta iota.
    1: { stage_done. eauto. }
    all: lazymatch goal with
         | |- context [_fallback_extract_attributes _ _ ?w0] =>
             destruct (fallback_extract_spec product events w0) as (r & -> & Hr)
         end; stage_done; exact Hr.
  - lazymatch goal with
    | |- context [_fallback_extract_attributes _ _ ?w0] =>
        destruct (fallback_extract_spec product events w0) as (r & -> & Hr)
    end. stage_done. exact Hr.
Qed.

Lemma validate_product_emits product events w :
  exists r e,
    _validate_product product events w = (r, w_append events e w)
    /\ has_step "validate" e.
Proof.
  unfold _validate_product, bind, append, lift, ret, raise.
  destruct (missing_fields product); [destruct (py_float _)|];
    eexists _, _; split; reflexivity.
Qed.

Lemma is_product_fields p :
  is_product p = true ->
  absent_or is_str (PyDict.lookup "sku" p) = true
  /\ absent_or is_str (PyDict.lookup "name" p) = true
  /\ absent_or is_str (PyDict.lookup "description" p) = true
  /\ absent_or is_str (PyDict.lookup "category" p) = true
  /\ absent_or is_str (PyDict.lookup "currency" p) = true
  /\ absent_or is_number (PyDict.lookup "price" p) = true
  /\ absent_or is_dict (PyDict.lookup "attributes" p) = true.
Proof.
  unfold is_product. cbn [forallb]. rewrite !andb_true_iff. tauto.
Qed.

(** A truthy string field is present. *)
Lemma truthy_str_field p field :
  absent_or is_str (PyDict.lookup field p) = true ->
  truthy (PyDict.get p field) = true ->
  exists s, PyDict.lookup field p = Some (VStr s).
Proof.
  unfold PyDict.get, PyDict.get_or, absent_or.
  destruct (PyDict.lookup field p) as [[]|]; simpl; try discriminate; eauto.
Qed.

Lemma fallback_seo_copy_emits product normalized events w :
  exists r new w',
    _fallback_seo_copy product normalized events w = (r, w')
    /\ extends events new w w'
    /\ Forall (has_step "copywrite") new
    /\ (forall name,
          PyDict.lookup "name" product = Some (VStr name) ->
          absent_or is_str (PyDict.lookup "category" product) = true ->
          absent_or is_str (PyDict.lookup "description" product) = true ->
          r = Ok (fallback_seo product normalized name)).
Proof.
  destruct (_fallback_seo_copy product normalized events w) as [r w'] eqn:Ef.
  assert (Hr : forall name,
             PyDict.lookup "name" product = Some (VStr name) ->
             absent_or is_str (PyDict.lookup "category" product) = true ->
             absent_or is_str (PyDict.lookup "description" product) = true ->
             r = Ok (fallback_seo product normalized name)).
  { intros name H1 H2 H3.
    rewrite (fallback_seo_copy_ok _ _ _ _ name H1 H2 H3) in Ef. congruence. }
  revert Ef. unfold _fallback_seo_copy, bind, lift, append, ret.
  destruct (PyDict.getitem _ _); [destruct (py_title _); [destruct (sorted_pair _ _)|]|];
    intros [= <- <-]; eexists _, _, _; (split; [reflexivity|]);
    (split; [solve_extends|]); (split; [repeat constructor | exact Hr]).
Qed.

Lemma build_seo_copy_spec client product normalized events w :
  exists r new w',
    _build_seo_copy client product normalized events w = (r, w')
    /\ extends events new w w'
    /\ Forall (has_step "copywrite") new
    /\ new <> []
    /\ (forall name,
          PyDict.lookup "name" product = Some (VStr name) ->
          absent_or is_str (PyDict.lookup "category" product) = true ->
          absent_or is_str (PyDict.lookup "description" product) = true ->
          exists seo, r = Ok seo /\ (well_shaped client -> is_dict seo = true)).
Proof.
  unfold _build_seo_copy.
  destruct client as [c|].
  - unfold _ai_generate_seo_copy, try_except, bind, create, lift, append, ret.
    destruct (c _) as [[[seo_copy|e1] [tokens|e2]]|e] eqn:Ec;
      cbn [parsed_content total_tokens].
    1: { stage_done. intros name _ _ _. exists seo_copy. split; [reflexivity|].
         intros Hc. exact (Hc _ _ _ _ _ Ec eq_refl). }
    all: lazymatch goal with
         | |- context [_fallback_seo_copy _ _ _ ?w0] =>
             destruct (fallback_seo_copy_emits product normalized events w0)
               as (r & new' & w' & -> & X & F & Hr)
         end;
      eexists r, _, w'; (split; [reflexivity|]);
      (split; [eapply extends_trans; [|exact X]; solve_extends|]);
      (split; [apply Forall_app_2; [repeat constructor | exact F]|]);
      (split; [simpl; discriminate|]);
      intros name H1 H2 H3; eexists; (split; [exact (Hr name H1 H2 H3) | reflexivity]).
  - unfold bind, append.
    lazymatch goal with
    | |- context [_fallback_seo_copy _ _ _ ?w0] =>
        destruct (fallback_seo_copy_emits product normalized events w0)
          as (r & new' & w' & -> & X & F & Hr)
    end.
    eexists r, _, w'. split; [reflexivity|].
    split; [eapply extends_trans; [|exact X]; solve_extends|].
    split; [apply Forall_app_2; [repeat constructor | exact F]|].
    split; [simpl; discriminate|].
    intros name H1 H2 H3. eexists. split; [exact (Hr name H1 H2 H3) | reflexivity].
Qed.

Lemma localize_copy_spec client seo events w :
  exists r new w',
    _localize_copy client seo events w = (r, w')
    /\ extends events new w w'
    /\ Forall (has_step "localize") new
    /\ (is_ok r = true -> new <> [])
    /\ (is_dict seo = true -> exists localizations, r = Ok localizations).
Proof.
  unfold _localize_copy. destruct client as [c|].
  - unfold _ai_localize_copy, bind, lift. cbn [tail target_locales].
    destruct (py_get_or seo "title" (VStr "")) as [t|e] eqn:Et.
    2: { exists (Raise e), [], w. split; [reflexivity|]. split; [apply extends_refl|].
         split; [constructor|]. split; [discriminate|].
         destruct seo; discriminate. }
    destruct (py_get_or seo "description" (VStr "")) as [d|e] eqn:Ed.
    2: { destruct seo; discriminate. }
    destruct (py_get_or seo "long_description" (VStr "")) as [l|e] eqn:El.
    2: { destruct seo; discriminate. }
    lazymatch goal with
    | |- context [localize_locales _ _ ?t ?d ?l ?ls ?locales ?w0] =>
        destruct (localize_locales_total c events t d l locales ls w0)
          as (more & new & w2 & -> & X & F & N)
    end.
    eexists _, new, w2. split; [reflexivity|]. split; [exact X|]. split; [exact F|].
    split; [intros _; apply N; discriminate | eauto].
  - unfold _fallback_localize_copy, bind, append, lift, ret.
    destruct (py_get_or seo "title" (VStr "")) as [t|e] eqn:Et.
    2: { eexists _, _, _. split; [reflexivity|]. split; [solve_extends|].
         split; [repeat constructor|]. split; [discriminate|].
         destruct seo; discriminate. }
    destruct (py_get_or seo "description" (VStr "")) as [d|e] eqn:Ed.
    2: { destruct seo; discriminate. }
    eexists _, _, _. split; [reflexivity|]. split; [solve_extends|].
    split; [repeat constructor|]. split; [discriminate | eauto].
Qed.

(** *** The nodes on a state that holds the product and the event list *)

Lemma bind_run {A B} (m : M A) (k : A -> M B) w r w' :
  m w = (r, w') ->
  bind m k w = match r with Ok a => k a w' | Raise e => (Raise e, w') end.
Proof. unfold bind. intros ->. reflexivity. Qed.

Lemma node_ingest_run st p ev w :
  product st = Some p -> events st = Some ev ->
  _node_ingest st w = (Ok (upd_events ev), w_append ev (ingest_event p) w).
Proof.
  intros Hp He. unfold _node_ingest, state_product, state_events.
  rewrite Hp, He. reflexivity.
Qed.

Lemma node_extract_run client st p ev w r w' :
  product st = Some p -> events st = Some ev ->
  _normalize_attributes client p ev w = (r, w') ->
  _node_extract client st w
  = (match r with Ok n => Ok (upd_normalized ev n) | Raise e => Raise e end, w').
Proof.
  intros Hp He E. unfold _node_extract, state_product, state_events.
  rewrite Hp, He. unfold bind at 1 2. unfold ret at 1 2.
  rewrite (bind_run _ _ _ _ _ E). destruct r; reflexivity.
Qed.

Lemma node_validate_run st p ev w r w' :
  product st = Some p -> events st = Some ev ->
  _validate_product p ev w = (r, w') ->
  _node_validate st w
  = (match r with Ok pr => Ok (upd_pricing ev pr) | Raise e => Raise e end, w').
Proof.
  intros Hp He E. unfold _node_validate, state_product, state_events.
  rewrite Hp, He. unfold bind at 1 2. unfold ret at 1 2.
  rewrite (bind_run _ _ _ _ _ E). destruct r; reflexivity.
Qed.

Lemma node_copywrite_run client st p ev w r w' :
  product st = Some p -> events st = Some ev ->
  _build_seo_copy client p (default [] (normalized_attributes st)) ev w = (r, w') ->
  _node_copywrite client st w
  = (match r with Ok s => Ok (upd_seo ev s) | Raise e => Raise e end, w').
Proof.
  intros Hp He E. unfold _node_copywrite, state_product, state_events.
  rewrite Hp, He. unfold bind at 1 2. unfold ret at 1 2. cbv zeta.
  rewrite (bind_run _ _ _ _ _ E). destruct r; reflexivity.
Qed.

Lemma node_localize_run client st ev w r w' :
  events st = Some ev ->
  _localize_copy client (default (VDict []) (seo st)) ev w = (r, w') ->
  _node_localize client st w
  = (match r with Ok l => Ok (upd_localizations ev l) | Raise e => Raise e end, w').
Proof.
  intros He E. unfold _node_localize, state_events.
  rewrite He. unfold bind at 1. unfold ret at 1. cbv zeta.
  rewrite (bind_run _ _ _ _ _ E). destruct r; reflexivity.
Qed.

Lemma node_publish_run st p ev w sku name :
  product st = Some p -> events st = Some ev ->
  PyDict.lookup "sku" p = Some sku -> PyDict.lookup "name" p = Some name ->
  _node_publish st w
  = (Ok (upd_enriched ev
           (enriched_record sku name (default [] (normalized_attributes st))
                            (default (VDict []) (seo st))
                            (default [] (localizations st))
                            (default [] (pricing st)))),
     w_append ev (publish_event sku) w).
Proof.
  intros Hp He Hs Hn. unfold _node_publish, state_product, state_events.
  rewrite Hp, He. unfold bind, ret, lift, append, PyDict.getitem. cbv beta iota zeta.
  rewrite Hs. cbv beta iota. rewrite Hn. reflexivity.
Qed.

(** *** The sequential run *)

Lemma truthy_get_present p field :
  truthy (PyDict.get p field) = true -> exists v, PyDict.lookup field p = Some v.
Proof.
  unfold PyDict.get, PyDict.get_or.
  destruct (PyDict.lookup field p); [eauto | discriminate].
Qed.

Lemma valid_product_facts p :
  valid_product p = true ->
  absent_or is_dict (PyDict.lookup "attributes" p) = true
  /\ absent_or is_str (PyDict.lookup "category" p) = true
  /\ absent_or is_str (PyDict.lookup "description" p) = true
  /\ missing_fields p = []
  /\ (exists x, py_float (PyDict.get_or p "price" (VInt 0)) = Ok x)
  /\ (exists name, PyDict.lookup "name" p = Some (VStr name))
  /\ (exists sku, PyDict.lookup "sku" p = Some (VStr sku)).
Proof.
  unfold valid_product. rewrite !andb_true_iff. intros [[Hp Hm] Hf].
  apply is_product_fields in Hp as (Hsku & Hname & Hdesc & Hcat & _ & _ & Hattrs).
  destruct (missing_fields p) eqn:Em; [|discriminate].
  destruct (missing_fields_nil_inv p Em) as (Ts & Tn & _).
  repeat apply conj; try assumption; try reflexivity.
  - destruct (py_float _); [eauto | discriminate].
  - exact (truthy_str_field p "name" Hname Tn).
  - exact (truthy_str_field p "sku" Hsku Ts).
Qed.

(** Close the case of a run that stops with an exception; [H] is the
    fact that contradicts the hypotheses of the product being invalid or
    valid, when one of them has to be refuted. *)
Ltac stopped_run :=
  split; [discriminate|];
  split; [reflexivity|].

(** Run the node at the head of the goal, given the run [E] of its stage
    function. *)
Ltac run_node lem E :=
  erewrite bind_run by (eapply lem; [reflexivity .. | exact E]).

Lemma sequential_run_spec client product w :
  exists r w' new,
    _run_sequential_pipeline client product w = (r, w')
    /\ extends (length (lists w)) new (w_alloc w) w'
    /\ (forall st, r = Ok st ->
        in_stages WORKFLOW_STEPS new
        /\ events st = Some (length (lists w))
        /\ missing_fields product = []
        /\ exists sku name normalized seo localizations pricing,
            PyDict.lookup "sku" product = Some sku
            /\ enriched st
               = Some (enriched_record sku name normalized seo localizations pricing))
    /\ (missing_fields product <> [] -> is_ok r = false)
    /\ (missing_fields product <> [] ->
        absent_or is_dict (PyDict.lookup "attributes" product) = true ->
        absent_or is_str (PyDict.lookup "category" product) = true ->
        r = Raise (ValueError ("Missing required fields: "
                                 ++ PyStr.join ", " (missing_fields product)))
        /\ last new = Some (validation_error product))
    /\ (valid_product product = true -> well_shaped client -> is_ok r = true).
Proof.
  pose proof (valid_product_facts product) as Hvalid.
  set (ev := length (lists w)).
  unfold _run_sequential_pipeline.
  rewrite (bind_run _ _ w (Ok ev) (w_alloc w) eq_refl). cbv beta iota zeta.
  erewrite bind_run by (apply node_ingest_run; reflexivity).
  cbv beta iota.
  pose proof (extends_one ev (ingest_event product) (w_alloc w)) as X0.
  set (w0 := w_append ev (ingest_event product) (w_alloc w)) in *.
  (* extract *)
  destruct (normalize_attributes_spec client product ev w0)
    as (r1 & new1 & w1 & E1 & X1 & F1 & N1 & T1).
  run_node node_extract_run E1.
  destruct r1 as [normalized|e1].
  2: { eexists _, w1, _. split; [reflexivity|].
       split; [exact (extends_trans _ _ _ _ _ _ X0 X1)|]. stopped_run.
       split.
       - intros _ Ha Hc. destruct (T1 Ha Hc) as [? [=]].
       - intros Hv _. destruct (Hvalid Hv) as (Ha & Hc & _).
         destruct (T1 Ha Hc) as [? [=]]. }
  cbv beta iota zeta.
  (* validate *)
  assert (Hcase : missing_fields product = [] \/ missing_fields product <> [])
    by (destruct (missing_fields product); [left; reflexivity | right; discriminate]).
  destruct Hcase as [Hm|Hne].
  2: { pose proof (validate_product_fails product ev w1 Hne) as E2.
       run_node node_validate_run E2.
       eexists _, _, _. split; [reflexivity|].
       split; [exact (extends_trans _ _ _ _ _ _ X0
                        (extends_trans _ _ _ _ _ _ X1 (extends_one _ _ _)))|].
       stopped_run. split.
       - intros _ _ _. split; [reflexivity|].
         rewrite !app_assoc. apply last_snoc.
       - intros Hv _. destruct (Hvalid Hv) as (_ & _ & _ & Hm & _). contradiction. }
  destruct (py_float (PyDict.get_or product "price" (VInt 0))) as [x|e2] eqn:Hf.
  2: { pose proof (validate_product_float_raises product ev w1 e2 Hm Hf) as E2.
       run_node node_validate_run E2.
       eexists _, _, _. split; [reflexivity|].
       split; [exact (extends_trans _ _ _ _ _ _ X0
                        (extends_trans _ _ _ _ _ _ X1 (extends_one _ _ _)))|].
       split; [discriminate|]. split; [congruence|]. split; [congruence|].
       intros Hv _. destruct (Hvalid Hv) as (_ & _ & _ & _ & [? [=]] & _). }
  destruct (missing_fields_nil_inv product Hm) as (Ts & Tn & Tp).
  pose proof (validate_product_returns product ev w1 x Hm Hf) as E2.
  run_node node_validate_run E2.
  cbv beta iota zeta.
  pose proof (extends_one ev (event "validate" "Validation passed") w1) as X2.
  set (w2 := w_append ev (event "validate" "Validation passed") w1) in *.
  (* copywrite *)
  destruct (build_seo_copy_spec client product normalized ev w2)
    as (r3 & new3 & w3 & E3 & X3 & F3 & N3 & T3).
  run_node node_copywrite_run E3.
  destruct r3 as [seo|e3].
  2: { eexists _, w3, _. split; [reflexivity|].
       split; [exact (extends_trans _ _ _ _ _ _ X0
                        (extends_trans _ _ _ _ _ _ X1
                           (extends_trans _ _ _ _ _ _ X2 X3)))|].
       split; [discriminate|]. split; [congruence|]. split; [congruence|].
       intros Hv _. destruct (Hvalid Hv) as (_ & Hc & Hd & _ & _ & [name Hn] & _).
       destruct (T3 name Hn Hc Hd) as (? & [=] & _). }
  cbv beta iota zeta.
  (* localize *)
  destruct (localize_copy_spec client seo ev w3)
    as (r4 & new4 & w4 & E4 & X4 & F4 & N4 & T4).
  run_node node_localize_run E4.
  destruct r4 as [localizations|e4].
  2: { eexists _, w4, _. split; [reflexivity|].
       split; [exact (extends_trans _ _ _ _ _ _ X0
                        (extends_trans _ _ _ _ _ _ X1
                           (extends_trans _ _ _ _ _ _ X2
                              (extends_trans _ _ _ _ _ _ X3 X4))))|].
       split; [discriminate|]. split; [congruence|]. split; [congruence|].
       intros Hv Hw. destruct (Hvalid Hv) as (_ & Hc & Hd & _ & _ & [name Hn] & _).
       destruct (T3 name Hn Hc Hd) as (seo' & [= <-] & Hdict).
       destruct (T4 (Hdict Hw)) as [? [=]]. }
  cbv beta iota zeta.
  (* publish *)
  destruct (truthy_get_present product "sku" Ts) as [sku Hsku].
  destruct (truthy_get_present product "name" Tn) as [name Hname].
  erewrite bind_run
    by (eapply node_publish_run; [reflexivity | reflexivity | exact Hsku | exact Hname]).
  cbv beta iota zeta.
  eexists _, _, _. split; [reflexivity|].
  split; [exact (extends_trans _ _ _ _ _ _ X0
                   (extends_trans _ _ _ _ _ _ X1
                      (extends_trans _ _ _ _ _ _ X2
                         (extends_trans _ _ _ _ _ _ X3
                            (extends_trans _ _ _ _ _ _ X4
                               (extends_trans _ _ _ _ _ _ (extends_one _ _ _)
                                              (extends_refl _ _)))))))|].
  split.
  { intros st [= <-]. split.
    - repeat (apply in_stages_cons; [| |]); try apply in_stages_nil; try assumption;
        try (repeat constructor); try discriminate.
      apply N4. reflexivity.
    - split; [reflexivity|]. split; [exact Hm|].
      eexists sku, name, _, _, _, _. split; [exact Hsku | reflexivity]. }
  split; [congruence|]. split; [congruence|]. reflexivity.
Qed.

(** *** The two strategies *)

(** One step of the graph: the node of the current name runs, its update
    is merged, and the run goes on from the next name. *)
Lemma run_from_step g fuel current node next st w :
  String.eqb current END = false ->
  assoc current (nodes g) = Some node ->
  assoc current (edges g) = Some next ->
  run_from g (S fuel) current st w
  = bind (node st) (fun upd => run_from g fuel next (update st upd)) w.
Proof. intros Hc Hn He. simpl. rewrite Hc, Hn, He. reflexivity. Qed.

Lemma run_from_end g fuel st w : run_from g fuel END st w = (Ok st, w).
Proof. destruct fuel; reflexivity. Qed.

Lemma update_ingest p ev :
  update (initial_state p ev) (upd_events ev) = initial_state p ev.
Proof. reflexivity. Qed.

Lemma graph_is_sequential client p w :
  run_graph true client p w = _run_sequential_pipeline client p w.
Proof.
  unfold run_graph, _run_sequential_pipeline.
  erewrite bind_run by reflexivity. cbv beta iota.
  apply bind_ext. intros ev w0. unfold invoke. cbn [entry_point set_entry_point add_edge].
  unfold RECURSION_LIMIT.
  erewrite run_from_step by reflexivity.
  erewrite !bind_run by (apply node_ingest_run; reflexivity).
  cbv beta iota zeta. rewrite update_ingest.
  erewrite run_from_step by reflexivity.
  apply bind_ext. intros upd1 w1. cbv zeta.
  erewrite run_from_step by reflexivity.
  apply bind_ext. intros upd2 w2. cbv zeta.
  erewrite run_from_step by reflexivity.
  apply bind_ext. intros upd3 w3. cbv zeta.
  erewrite run_from_step by reflexivity.
  apply bind_ext. intros upd4 w4. cbv zeta.
  erewrite run_from_step by reflexivity.
  apply bind_ext. intros upd5 w5. cbv zeta.
  apply run_from_end.
Qed.

(** C1: for every product record and every state of the text-generation
    capability, the Graph Strategy and the Sequential Strategy give the
    same result from the same world: the same state bag, hence the same
    enriched record (sku, normalized_attributes, seo, localizations,
    pricing), or the same exception, and the same events; and so does
    [enrich_product] with and without the graph library. *)
Theorem strategies_agree (client : option Client) (p : Dict) (w : World) :
  run_graph true client p w = _run_sequential_pipeline client p w
  /\ enrich_product true client p w = enrich_product false client p w.
Proof.
  split; [apply graph_is_sequential|].
  unfold enrich_product, bind. rewrite graph_is_sequential. reflexivity.
Qed.

(** *** One product, under either strategy *)

Lemma enrich_product_sequential lg client p w :
  enrich_product lg client p w = enrich_product false client p w.
Proof.
  destruct lg; [|reflexivity].
  unfold enrich_product, bind. rewrite graph_is_sequential. reflexivity.
Qed.

Lemma fresh_contents ev new w w' :
  ev = length (lists w) -> extends ev new (w_alloc w) w' -> contents w' ev = new.
Proof.
  intros -> X. rewrite (extends_contents _ _ _ _ X) by (rewrite alloc_length; lia).
  rewrite alloc_contents. reflexivity.
Qed.

Lemma enrich_product_spec lg client p w :
  exists r w' new,
    enrich_product lg client p w = (r, w')
    /\ extends (length (lists w)) new (w_alloc w) w'
    /\ (forall pp, r = Ok pp ->
        in_stages WORKFLOW_STEPS new
        /\ pp_events pp = length (lists w)
        /\ pp_original pp = p
        /\ missing_fields p = []
        /\ PyDict.lookup "sku" p = Some (pp_sku pp)
        /\ exists name normalized seo localizations pricing,
            pp_enriched pp
            = enriched_record (pp_sku pp) name normalized seo localizations pricing)
    /\ (missing_fields p <> [] -> is_ok r = false)
    /\ (missing_fields p <> [] ->
        absent_or is_dict (PyDict.lookup "attributes" p) = true ->
        absent_or is_str (PyDict.lookup "category" p) = true ->
        r = Raise (ValueError ("Missing required fields: "
                                 ++ PyStr.join ", " (missing_fields p)))
        /\ last new = Some (validation_error p))
    /\ (valid_product p = true -> well_shaped client -> is_ok r = true).
Proof.
  rewrite enrich_product_sequential. unfold enrich_product.
  destruct (sequential_run_spec client p w) as (r & w' & new & E & X & Hok & Hbad & Hval & Hgood).
  rewrite (bind_run _ _ _ _ _ E).
  destruct r as [st|e].
  - destruct (Hok st eq_refl)
      as (Hst & Hev & Hm & sku & name & normalized & seo & locs & pricing & Hsku & Hen).
    unfold state_events. rewrite Hev. unfold bind at 1. unfold ret at 1.
    rewrite Hen. unfold enriched_record at 1. unfold bind, lift, ret, PyDict.getitem.
    rewrite Hsku.
    eexists _, w', new. split; [reflexivity|]. split; [exact X|].
    split.
    { intros pp [= <-]. cbn [pp_events pp_original pp_sku pp_enriched].
      repeat apply conj; try assumption; try reflexivity. eauto 10. }
    split; [intros H; contradiction|]. split; [intros H; contradiction|]. reflexivity.
  - exists (Raise e), w', new. split; [reflexivity|]. split; [exact X|].
    split; [discriminate|]. split; [reflexivity|]. split; [|exact Hgood].
    intros H1 H2 H3. destruct (Hval H1 H2 H3) as [[= ->] Hlast]. split; [reflexivity | exact Hlast].
Qed.

Lemma missing_fields_spec p field :
  In field (missing_fields p)
  <-> In field required_fields /\ truthy (PyDict.get p field) = false.
Proof.
  unfold missing_fields. rewrite filter_In, negb_true_iff. reflexivity.
Qed.

(** C2: for every product of the data model (attributes, when present,
    are a mapping and the category, when present, is a string) in which
    sku, name or price is absent or falsy, under either strategy and
    every capability state, the pipeline raises the validation error
    whose message lists the missing fields, which are the required
    fields that are absent or falsy, and returns no enriched product; the
    event list of the run ends with the event of step validate whose
    payload is status error. *)
Theorem invalid_product_fails (lg : bool) (client : option Client) (p : Dict) (w : World) :
  absent_or is_dict (PyDict.lookup "attributes" p) = true ->
  absent_or is_str (PyDict.lookup "category" p) = true ->
  truthy (PyDict.get p "sku") = false
  \/ truthy (PyDict.get p "name") = false
  \/ truthy (PyDict.get p "price") = false ->
  exists w',
    enrich_product lg client p w
    = (Raise (ValueError ("Missing required fields: "
                            ++ PyStr.join ", " (missing_fields p))), w')
    /\ (forall field, In field (missing_fields p)
                      <-> In field required_fields /\ truthy (PyDict.get p field) = false)
    /\ last (contents w' (length (lists w)))
       = Some {| step := "validate";
                 message := "Missing required fields: "
                            ++ PyStr.join ", " (missing_fields p);
                 payload := Some [("status", VStr "error")] |}
    /\ files w' = files w.
Proof.
  intros Ha Hc Hfalsy.
  assert (Hne : missing_fields p <> []).
  { intros Hm. destruct (missing_fields_nil_inv p Hm) as (Ts & Tn & Tp).
    destruct Hfalsy as [H|[H|H]]; congruence. }
  destruct (enrich_product_spec lg client p w) as (r & w' & new & E & X & _ & _ & Hval & _).
  destruct (Hval Hne Ha Hc) as [-> Hlast].
  exists w'. split; [exact E|]. split; [apply missing_fields_spec|].
  split; [|exact (proj2 X)].
  rewrite (fresh_contents _ _ _ _ eq_refl X). exact Hlast.
Qed.

(** *** The order of the events *)

Lemma collapse_block s block l :
  block <> [] -> Forall (eq s) block ->
  (forall y l', l = y :: l' -> y <> s) ->
  collapse (block ++ l) = s :: collapse l.
Proof.
  intros Hne Hall Hl. induction block as [|x block IH]; [congruence|].
  apply Forall_cons in Hall as [Hx Hall]. subst x.
  destruct block as [|x' block].
  - simpl. destruct l as [|y l']; [reflexivity|].
    destruct (String.eqb s y) eqn:E; [|reflexivity].
    apply String.eqb_eq in E. destruct (Hl y l' eq_refl). congruence.
  - pose proof Hall as Hall'. apply Forall_cons in Hall' as [Hx' _]. subst x'.
    change (collapse ((s :: s :: block) ++ l))
      with (if String.eqb s s then collapse ((s :: block) ++ l)
            else s :: collapse ((s :: block) ++ l)).
    rewrite String.eqb_refl. apply IH; [discriminate | exact Hall].
Qed.

Lemma in_stages_steps steps log :
  in_stages steps log -> NoDup steps ->
  collapse (map step log) = steps /\ Forall (fun s => In s steps) (map step log).
Proof.
  induction 1 as [|s steps block rest Hblock Hne Hrest IH]; intros Hnd.
  - split; [reflexivity | constructor].
  - apply NoDup_cons in Hnd as [Hs Hnd]. destruct (IH Hnd) as [IHc IHf].
    rewrite map_app. split.
    + rewrite (collapse_block s); [rewrite IHc; reflexivity | | |].
      * destruct block; [congruence | discriminate].
      * apply Forall_map. eapply Forall_impl; [exact Hblock|].
        intros e He. symmetry. exact He.
      * intros y l' Hl <-. apply Hs.
        rewrite Hl in IHf. inversion IHf; subst. apply list_elem_of_In. assumption.
    + apply Forall_app_2.
      * apply Forall_map. eapply Forall_impl; [exact Hblock|].
        intros e He. left. symmetry. exact He.
      * eapply Forall_impl; [exact IHf|]. intros x Hx. right. exact Hx.
Qed.

Lemma filter_canonical l :
  Forall (fun s => In s WORKFLOW_STEPS) l -> List.filter canonical l = l.
Proof.
  induction 1 as [|s l Hs _ IH]; [reflexivity|]. simpl. rewrite IH.
  replace (canonical s) with true; [reflexivity|].
  symmetry. unfold canonical. apply existsb_exists. exists s.
  split; [exact Hs | apply String.eqb_refl].
Qed.

Lemma StronglySorted_change {A} (R R' : A -> A -> Prop) (P : A -> Prop) l :
  StronglySorted R l -> Forall P l ->
  (forall a b, P a -> P b -> R a b -> R' a b) ->
  StronglySorted R' l.
Proof.
  intros Hs Hp Himpl. induction Hs as [|x l Hs IH Hx]; [constructor|].
  apply Forall_cons in Hp as [Px Pl]. constructor; [exact (IH Pl)|].
  rewrite List.Forall_forall in *. intros y Hy.
  apply Himpl; [exact Px | apply Pl; exact Hy | apply Hx; exact Hy].
Qed.

Lemma in_stages_sorted steps log :
  in_stages steps log -> NoDup steps ->
  StronglySorted (fun a b => (step_position steps a <= step_position steps b)%nat)
                 (map step log).
Proof.
  induction 1 as [|s steps block rest Hblock Hne Hrest IH]; intros Hnd; [constructor|].
  pose proof Hnd as Hnd'. apply NoDup_cons in Hnd' as [Hs Hnd'].
  destruct (in_stages_steps _ _ Hrest Hnd') as [_ Hin].
  rewrite map_app. clear Hne. induction Hblock as [|e block He _ IHb].
  - apply (StronglySorted_change _ _ (fun x => In x steps) _ (IH Hnd') Hin).
    intros a b Ha Hb Hab. cbn [step_position].
    destruct (String.eqb a s) eqn:Ea.
    { apply String.eqb_eq in Ea. subst a. destruct Hs. apply list_elem_of_In. exact Ha. }
    destruct (String.eqb b s) eqn:Eb.
    { apply String.eqb_eq in Eb. subst b. destruct Hs. apply list_elem_of_In. exact Hb. }
    lia.
  - cbn [map app]. constructor; [exact IHb|].
    rewrite List.Forall_forall. intros y _. cbn [step_position].
    unfold has_step in He. rewrite He, String.eqb_refl. lia.
Qed.

(** C6: for every successful run, under either strategy and every
    capability state, each step of the event list is one of the six
    canonical steps; no event comes before an event of an earlier step;
    and the sequence of the steps, restricted to the canonical ones and
    with adjacent repetitions counted once, is a subsequence of ingest,
    extract, validate, copywrite, localize, publish: it is that whole
    sequence. *)
Theorem event_log_in_stage_order (lg : bool) (client : option Client) (p : Dict)
        (w : World) (pp : ProcessedProduct) (w' : World) :
  enrich_product lg client p w = (Ok pp, w') ->
  let steps := map step (contents w' (pp_events pp)) in
  Forall (fun s => In s WORKFLOW_STEPS) steps
  /\ StronglySorted in_step_order steps
  /\ sublist (collapse (List.filter canonical steps)) WORKFLOW_STEPS
  /\ collapse (List.filter canonical steps) = WORKFLOW_STEPS.
Proof.
  intros Hrun steps.
  destruct (enrich_product_spec lg client p w) as (r & w1 & new & E & X & Hok & _).
  rewrite Hrun in E. injection E as <- <-.
  destruct (Hok pp eq_refl) as (Hst & Hev & _).
  assert (Hnd : NoDup WORKFLOW_STEPS).
  { unfold WORKFLOW_STEPS.
    repeat (apply NoDup_cons;
            split; [rewrite ?elem_of_cons, elem_of_nil; intuition discriminate|]).
    apply NoDup_nil_2. }
  destruct (in_stages_steps _ _ Hst Hnd) as [Hc Hf].
  pose proof (in_stages_sorted _ _ Hst Hnd) as Hsorted.
  subst steps. rewrite Hev, (fresh_contents _ _ _ _ eq_refl X).
  rewrite (filter_canonical _ Hf), Hc.
  split; [exact Hf|]. split; [exact Hsorted|]. split; reflexivity.
Qed.

(** *** The batch loop *)

Lemma valid_not_failing record :
  valid_product record = true -> missing_fields record = [].
Proof. intros H. apply valid_product_facts in H. tauto. Qed.

Lemma failing_not_valid record :
  fails_validation record -> valid_product record = false.
Proof.
  intros H. destruct (valid_product record) eqn:E; [|reflexivity].
  destruct (H (valid_not_failing record E)).
Qed.

(** The loop never raises and leaves the files alone; each result comes
    from a record of the batch that passes validation; and when every
    record of the batch fails validation or is valid, the results are
    those of the valid records, in the order of the batch. *)
Lemma process_each_spec lg client pending :
  forall processed w,
  exists pps w',
    process_each lg client pending processed w = (Ok (processed ++ pps)%list, w')
    /\ files w' = files w
    /\ Forall (fun pp => In (pp_original pp) pending
                         /\ missing_fields (pp_original pp) = []
                         /\ processed_from (pp_original pp) pp) pps
    /\ (well_shaped client ->
        Forall (fun record => fails_validation record \/ valid_product record = true)
               pending ->
        Forall2 processed_from (List.filter valid_product pending) pps).
Proof.
  induction pending as [|record rest IH]; intros processed w.
  - exists [], w. rewrite app_nil_r. simpl.
    split; [reflexivity|]. split; [reflexivity|]. split; constructor.
  - simpl.
    destruct (enrich_product_spec lg client record w)
      as (r & w1 & new & E & X & Hok & Hbad & _ & Hgood).
    unfold bind at 1. unfold try_except. rewrite (bind_run _ _ _ _ _ E).
    destruct r as [pp|e].
    + destruct (Hok pp eq_refl) as (_ & _ & Ho & Hm & Hs & He).
      destruct (IH (processed ++ [pp])%list w1) as (pps & w' & Erest & Hf & Hall & Hvalid).
      unfold ret at 1. rewrite Erest, <- app_assoc.
      exists (pp :: pps), w'. split; [reflexivity|].
      split; [rewrite Hf; exact (proj2 X)|]. split.
      * constructor.
        -- rewrite Ho. split; [left; reflexivity|]. split; [exact Hm|].
           split; [exact Ho|]. split; [exact Hs | exact He].
        -- eapply Forall_impl; [exact Hall|]. intros pp' (Hin & H2 & H3).
           split; [right; exact Hin | split; assumption].
      * intros Hw Hrecords. apply Forall_cons in Hrecords as [Hrec Hrest].
        destruct Hrec as [Hfail | Hv]; [destruct (Hfail Hm)|].
        rewrite Hv. constructor; [|exact (Hvalid Hw Hrest)].
        split; [exact Ho|]. split; [exact Hs | exact He].
    + destruct (IH processed w1) as (pps & w' & Erest & Hf & Hall & Hvalid).
      unfold ret at 1. cbv beta iota. rewrite Erest. exists pps, w'. split; [reflexivity|].
      split; [rewrite Hf; exact (proj2 X)|]. split.
      * eapply Forall_impl; [exact Hall|]. intros pp' (Hin & H2 & H3).
        split; [right; exact Hin | split; assumption].
      * intros Hw Hrecords. apply Forall_cons in Hrecords as [Hrec Hrest].
        destruct Hrec as [Hfail | Hv].
        -- rewrite (failing_not_valid record Hfail). exact (Hvalid Hw Hrest).
        -- specialize (Hgood Hv Hw). discriminate.
Qed.

(** *** Sets of skus *)

Lemma keyed_sku record :
  absent_or is_str (PyDict.lookup "sku" record) = true ->
  sku_of record = VNone \/ exists s, sku_of record = VStr s.
Proof.
  unfold sku_of, PyDict.get, PyDict.get_or, absent_or.
  destruct (PyDict.lookup "sku" record) as [[]|]; simpl; try discriminate; eauto.
Qed.

Lemma keyed_hashable records :
  keyed records -> Forall (fun v => hashable v = true) (map sku_of records).
Proof.
  intros H. apply Forall_map. eapply Forall_impl; [exact H|].
  intros record Hk. simpl. destruct (keyed_sku record Hk) as [-> | [s ->]]; reflexivity.
Qed.

Lemma set_of_hashable vs :
  Forall (fun v => hashable v = true) vs -> set_of vs = Ok vs.
Proof.
  induction 1 as [|v vs Hv _ IH]; [reflexivity|]. simpl. rewrite Hv, IH. reflexivity.
Qed.

Lemma present_skus_hashable records :
  keyed records ->
  Forall (fun v => hashable v = true) (omap (PyDict.lookup "sku") records).
Proof.
  induction 1 as [|record records Hk _ IH]; [constructor|]. simpl.
  unfold absent_or in Hk.
  destruct (PyDict.lookup "sku" record) as [[]|]; try discriminate; try exact IH.
  constructor; [reflexivity | exact IH].
Qed.

Lemma pending_records_spec skus simple_records :
  keyed simple_records ->
  pending_records skus simple_records
  = Ok (List.filter (fun record => negb (set_mem (sku_of record) skus)) simple_records).
Proof.
  induction 1 as [|record records Hk _ IH]; [reflexivity|]. simpl.
  unfold py_in_set. fold (sku_of record).
  replace (hashable (sku_of record)) with true
    by (destruct (keyed_sku record Hk) as [-> | [s ->]]; reflexivity).
  rewrite IH. destruct (set_mem (sku_of record) skus); reflexivity.
Qed.

(** A string is the sku of a record exactly when it is the sku of a
    record that has one. *)
Lemma set_mem_cons v x s : set_mem v (x :: s) = key_eqb v x || set_mem v s.
Proof. reflexivity. Qed.

Lemma set_mem_present s records :
  set_mem (VStr s) (omap (PyDict.lookup "sku") records)
  = set_mem (VStr s) (map sku_of records).
Proof.
  induction records as [|record records IH]; [reflexivity|].
  change (map sku_of (record :: records)) with (sku_of record :: map sku_of records).
  change (omap (PyDict.lookup "sku") (record :: records))
    with (match PyDict.lookup "sku" record with
          | Some v => v :: omap (PyDict.lookup "sku") records
          | None => omap (PyDict.lookup "sku") records
          end).
  unfold sku_of at 1, PyDict.get, PyDict.get_or.
  destruct (PyDict.lookup "sku" record); rewrite !set_mem_cons, IH; reflexivity.
Qed.

Lemma set_mem_app v s1 s2 : set_mem v (s1 ++ s2)%list = set_mem v s1 || set_mem v s2.
Proof. apply existsb_app. Qed.

(** *** Appending without duplicates *)

Lemma append_new_spec new_records :
  forall seen appended,
  Forall (fun record => exists s, sku_of record = VStr s) new_records ->
  exists added,
    append_new "sku" seen appended new_records = Ok (appended ++ added)%list
    /\ Forall (fun record => In record new_records) added
    /\ Forall (fun record => set_mem (sku_of record) (map sku_of added ++ seen)%list = true)
              new_records
    /\ NoDup (map sku_of added)
    /\ Forall (fun record => set_mem (sku_of record) seen = false) added.
Proof.
  induction new_records as [|record rest IH]; intros seen appended Hstr.
  - exists []. rewrite app_nil_r. repeat split; constructor.
  - apply Forall_cons in Hstr as [[s Hs] Hrest]. simpl. fold (sku_of record).
    rewrite Hs. unfold py_in_set. cbn [hashable].
    destruct (set_mem (VStr s) seen) eqn:Hmem.
    + destruct (IH seen appended Hrest) as (added & E & Hin & Hall & Hnd & Hnew).
      exists added. split; [exact E|]. split.
      { eapply Forall_impl; [exact Hin|]. intros r Hr. right. exact Hr. }
      split; [|split; assumption].
      constructor; [|exact Hall].
      rewrite Hs, set_mem_app, Hmem. apply orb_true_r.
    + destruct (IH (set_add (VStr s) seen) (appended ++ [record])%list Hrest)
        as (added & E & Hin & Hall & Hnd & Hnew).
      exists (record :: added). rewrite E, <- app_assoc.
      split; [reflexivity|]. split.
      { constructor; [left; reflexivity|].
        eapply Forall_impl; [exact Hin|]. intros r Hr. right. exact Hr. }
      split.
      { constructor.
        - cbn [map app]. rewrite set_mem_cons, Hs. cbn [key_eqb].
          rewrite String.eqb_refl. reflexivity.
        - eapply Forall_impl; [exact Hall|]. intros r Hr.
          cbn [map app]. rewrite set_mem_cons, Hs, set_mem_app.
          unfold set_add in Hr. rewrite set_mem_app, set_mem_cons in Hr.
          destruct (key_eqb (sku_of r) (VStr s)); [reflexivity|].
          destruct (set_mem (sku_of r) (map sku_of added)); [reflexivity|].
          exact Hr. }
      split.
      { cbn [map]. apply NoDup_cons. split; [|exact Hnd].
        rewrite Hs. intros Hin'. apply list_elem_of_fmap in Hin' as (r & Hr & Hrin).
        rewrite Forall_forall in Hnew. specialize (Hnew r Hrin).
        unfold set_add in Hnew. rewrite set_mem_cons, <- Hr in Hnew. cbn [key_eqb] in Hnew.
        rewrite String.eqb_refl in Hnew. discriminate. }
      constructor; [rewrite Hs; exact Hmem|].
      eapply Forall_impl; [exact Hnew|]. intros r Hr. unfold set_add in Hr.
      rewrite set_mem_cons in Hr. apply orb_false_iff in Hr. tauto.
Qed.

(** *** Catalog files *)

Lemma catalog_load w path records :
  catalog w path = Ok records -> load_json_array path w = (Ok records, w).
Proof.
  unfold catalog, load_json_array.
  destruct (files w !! path) as [[]|]; simpl; congruence.
Qed.

Lemma catalog_same_files w w' path :
  files w' = files w -> catalog w' path = catalog w path.
Proof.
  unfold catalog, load_json_array. intros ->.
  destruct (_ !! _) as [[]|]; reflexivity.
Qed.

Lemma catalog_written w path records :
  catalog (w_write path records w) path = Ok records.
Proof.
  unfold catalog, load_json_array, w_write. cbn [files].
  rewrite lookup_insert_eq. reflexivity.
Qed.

Lemma catalog_other w path path' records :
  path <> path' -> catalog (w_write path records w) path' = catalog w path'.
Proof.
  intros H. unfold catalog, load_json_array, w_write. cbn [files].
  rewrite lookup_insert_ne by exact H.
  destruct (_ !! _) as [[]|]; reflexivity.
Qed.

(** *** The batch processor *)

Lemma narrow_subset process_all pending record :
  In record (narrow process_all pending) -> In record pending.
Proof.
  unfold narrow. destruct process_all; [tauto|].
  destruct (last pending) as [p|] eqn:E; [|tauto].
  intros [<- | []]. apply list_elem_of_In, last_Some_elem_of. exact E.
Qed.

Lemma batch_subset process_all enriched_records simple_records record :
  In record (narrow process_all (pending_of enriched_records simple_records)) ->
  In record simple_records.
Proof.
  intros H. apply narrow_subset in H. unfold pending_of in H.
  apply filter_In in H. tauto.
Qed.

Lemma enriched_sku pp record :
  processed_from record pp -> sku_of (pp_enriched pp) = pp_sku pp.
Proof. intros (_ & _ & ? & ? & ? & ? & ? & ->). reflexivity. Qed.

Lemma processed_sku_str records record pp :
  keyed records -> In record records ->
  missing_fields record = [] -> processed_from record pp ->
  exists s, pp_sku pp = VStr s /\ sku_of record = VStr s.
Proof.
  intros Hk Hin Hm (_ & Hs & _).
  unfold keyed in Hk. rewrite List.Forall_forall in Hk. specialize (Hk record Hin).
  destruct (missing_fields_nil_inv record Hm) as (Ts & _).
  destruct (truthy_str_field record "sku" Hk Ts) as [s Hsku].
  exists s. unfold sku_of, PyDict.get, PyDict.get_or. rewrite Hsku. split; congruence.
Qed.

Lemma batch_spec lg client simple_path enriched_path process_all w
      simple_records enriched_records :
  catalog w simple_path = Ok simple_records ->
  catalog w enriched_path = Ok enriched_records ->
  keyed simple_records -> keyed enriched_records ->
  exists pps w' added,
    process_pending_products lg client simple_path enriched_path process_all w
    = (Ok pps, w')
    /\ Forall (fun pp =>
                 In (pp_original pp)
                    (narrow process_all (pending_of enriched_records simple_records))
                 /\ missing_fields (pp_original pp) = []
                 /\ processed_from (pp_original pp) pp) pps
    /\ (well_shaped client ->
        Forall (fun record => fails_validation record \/ valid_product record = true)
               (narrow process_all (pending_of enriched_records simple_records)) ->
        Forall2 processed_from
                (List.filter valid_product
                   (narrow process_all (pending_of enriched_records simple_records)))
                pps)
    /\ catalog w' enriched_path = Ok (enriched_records ++ added)%list
    /\ (simple_path <> enriched_path -> catalog w' simple_path = Ok simple_records)
    /\ Forall (fun record => exists pp, In pp pps /\ record = pp_enriched pp) added
    /\ Forall (fun pp => set_mem (pp_sku pp)
                                 (map sku_of (enriched_records ++ added)%list) = true) pps
    /\ NoDup (map sku_of added)
    /\ Forall (fun record => set_mem (sku_of record) (map sku_of enriched_records) = false)
              added.
Proof.
  intros Hsimple Henriched Hks Hke.
  unfold process_pending_products.
  rewrite (bind_run _ _ _ _ _ (catalog_load _ _ _ Hsimple)). cbv beta iota.
  rewrite (bind_run _ _ _ _ _ (catalog_load _ _ _ Henriched)). cbv beta iota.
  change (map (fun record => PyDict.get record "sku") enriched_records)
    with (map sku_of enriched_records).
  rewrite (set_of_hashable _ (keyed_hashable _ Hke)).
  unfold bind at 1. unfold lift at 1. cbv beta iota.
  rewrite (pending_records_spec _ _ Hks).
  unfold bind at 1. unfold lift at 1. cbv beta iota zeta.
  fold (pending_of enriched_records simple_records).
  set (batch := narrow process_all (pending_of enriched_records simple_records)).
  destruct (process_each_spec lg client batch [] w) as (pps & w1 & E & Hf & Hall & Hvalid).
  rewrite (bind_run _ _ _ _ _ E). cbn [app].
  assert (Hstr : Forall (fun pp => exists s, pp_sku pp = VStr s
                                             /\ sku_of (pp_enriched pp) = VStr s) pps).
  { eapply Forall_impl; [exact Hall|]. intros pp (Hin & Hm & Hfrom).
    destruct (processed_sku_str simple_records _ pp Hks
                (batch_subset _ _ _ _ Hin) Hm Hfrom) as (s & Hs & _).
    exists s. split; [exact Hs|]. rewrite (enriched_sku _ _ Hfrom). exact Hs. }
  destruct pps as [|pp pps'].
  - exists [], w1, []. rewrite app_nil_r.
    split; [reflexivity|]. split; [constructor|]. split; [exact Hvalid|].
    split; [rewrite (catalog_same_files _ _ _ Hf); exact Henriched|].
    split; [intros _; rewrite (catalog_same_files _ _ _ Hf); exact Hsimple|].
    repeat split; constructor.
  - set (pps := pp :: pps') in *.
    unfold append_unique_records.
    rewrite (set_of_hashable _ (present_skus_hashable _ Hke)).
    unfold bind at 2. unfold lift at 1. cbv beta iota.
    destruct (append_new_spec (map pp_enriched pps)
                (omap (PyDict.lookup "sku") enriched_records) enriched_records)
      as (added & Ea & Hin & Hcov & Hnd & Hnew).
    { apply Forall_map. eapply Forall_impl; [exact Hstr|].
      intros p' (s & _ & Hs). exists s. exact Hs. }
    rewrite Ea. unfold bind, lift, write_json_array, ret. cbv beta iota.
    exists pps, (w_write enriched_path (enriched_records ++ added)%list w1), added.
    split; [reflexivity|]. split; [exact Hall|]. split; [exact Hvalid|].
    split; [apply catalog_written|].
    split.
    { intros Hne. rewrite catalog_other by congruence.
      rewrite (catalog_same_files _ _ _ Hf). exact Hsimple. }
    split.
    { eapply Forall_impl; [exact Hin|]. intros record Hr.
      apply in_map_iff in Hr as (p' & <- & Hp'). eauto. }
    split.
    { apply Forall_map in Hcov.
      eapply Forall_impl; [exact (proj2 (Forall_and _ _) (conj Hcov Hstr))|].
      intros p' [Hc (s & Hs & Hes)]. simpl in Hc.
      rewrite Hes, set_mem_app, set_mem_present in Hc.
      rewrite Hs, map_app, set_mem_app, orb_comm. exact Hc. }
    split; [exact Hnd|].
    assert (Hadded : Forall (fun record => exists s, sku_of record = VStr s) added).
    { eapply Forall_impl; [exact Hin|]. intros record Hr.
      apply in_map_iff in Hr as (p' & <- & Hp').
      rewrite List.Forall_forall in Hstr. destruct (Hstr p' Hp') as (s & _ & Hs). eauto. }
    eapply Forall_impl; [exact (proj2 (Forall_and _ _) (conj Hnew Hadded))|].
    intros record [Hn (s & Hs)]. rewrite Hs in *. rewrite <- set_mem_present. exact Hn.
Qed.

Lemma Forall2_processed_from records pps record :
  Forall2 processed_from records pps -> In record records ->
  exists pp, In pp pps /\ processed_from record pp.
Proof.
  induction 1 as [|r pp records pps Hr _ IH]; intros Hin; [destruct Hin|].
  destruct Hin as [<- | Hin].
  - exists pp. split; [left; reflexivity | exact Hr].
  - destruct (IH Hin) as (pp' & Hin' & Hp). exists pp'. split; [right; exact Hin' | exact Hp].
Qed.

Lemma filter_nil_iff {A} (f : A -> bool) l :
  List.filter f l <> [] <-> exists x, In x l /\ f x = true.
Proof.
  split.
  - intros H. destruct (List.filter f l) as [|x l'] eqn:E; [congruence|].
    exists x. apply filter_In. rewrite E. left. reflexivity.
  - intros (x & Hx) E. apply filter_In in Hx. rewrite E in Hx. destruct Hx.
Qed.

(** C5, amended: with process_all true, for every pair of catalogs keyed
    by sku whose pending records each fail validation or are valid, and
    every capability that answers copywriting requests with JSON objects,
    the batch processor raises nothing and returns exactly the results of
    the valid pending records, in the order of the simple catalog; with
    one failing and one valid pending record, the result is the one
    result of the valid record. *)
Theorem partial_batch_resilience (lg : bool) (client : option Client)
        (simple_path enriched_path : string) (w : World)
        (simple_records enriched_records : list Dict) :
  catalog w simple_path = Ok simple_records ->
  catalog w enriched_path = Ok enriched_records ->
  keyed simple_records -> keyed enriched_records ->
  well_shaped client ->
  Forall (fun record => fails_validation record \/ valid_product record = true)
         (pending_of enriched_records simple_records) ->
  exists pps w',
    process_pending_products lg client simple_path enriched_path true w = (Ok pps, w')
    /\ Forall2 processed_from
               (List.filter valid_product (pending_of enriched_records simple_records))
               pps
    /\ (forall bad good,
          fails_validation bad -> valid_product good = true ->
          pending_of enriched_records simple_records = [bad; good]
          \/ pending_of enriched_records simple_records = [good; bad] ->
          exists pp, pps = [pp] /\ processed_from good pp).
Proof.
  intros Hsimple Henriched Hks Hke Hw Hrecords.
  destruct (batch_spec lg client simple_path enriched_path true w _ _
                       Hsimple Henriched Hks Hke)
    as (pps & w' & added & E & _ & Hvalid & _).
  specialize (Hvalid Hw Hrecords). cbn [narrow] in Hvalid.
  exists pps, w'. split; [exact E|]. split; [exact Hvalid|].
  intros bad good Hbad Hgood Hpending.
  destruct Hpending as [Hp | Hp]; rewrite Hp in Hvalid; cbn [List.filter] in Hvalid;
    rewrite Hgood, (failing_not_valid bad Hbad) in Hvalid;
    inversion Hvalid as [|? pp ? ? Hpp Hnil]; subst; inversion Hnil; subst; eauto.
Qed.

(** C3, amended: with process_all true, two distinct catalog files keyed
    by sku, pending records that each fail validation or are valid, and
    a capability that answers copywriting requests with JSON objects: the
    first run returns the results of the valid pending records, a
    non-empty result exactly when some pending record is valid; the
    enriched catalog then holds the old records followed by the appended
    ones, which are enriched records of the first run, have distinct skus
    and no sku of an old record; the second run returns an empty result
    and appends nothing. *)
Theorem batch_is_idempotent (lg : bool) (client : option Client)
        (simple_path enriched_path : string) (w : World)
        (simple_records enriched_records : list Dict) :
  simple_path <> enriched_path ->
  catalog w simple_path = Ok simple_records ->
  catalog w enriched_path = Ok enriched_records ->
  keyed simple_records -> keyed enriched_records ->
  well_shaped client ->
  Forall (fun record => fails_validation record \/ valid_product record = true)
         (pending_of enriched_records simple_records) ->
  exists first w1 added second w2,
    process_pending_products lg client simple_path enriched_path true w = (Ok first, w1)
    /\ Forall2 processed_from
               (List.filter valid_product (pending_of enriched_records simple_records))
               first
    /\ (first <> [] <->
        exists record, In record (pending_of enriched_records simple_records)
                       /\ valid_product record = true)
    /\ catalog w1 enriched_path = Ok (enriched_records ++ added)%list
    /\ Forall (fun record => exists pp, In pp first /\ record = pp_enriched pp) added
    /\ NoDup (map sku_of added)
    /\ Forall (fun record => set_mem (sku_of record) (map sku_of enriched_records) = false)
              added
    /\ process_pending_products lg client simple_path enriched_path true w1
       = (Ok second, w2)
    /\ second = []
    /\ catalog w2 enriched_path = Ok (enriched_records ++ added)%list.
Proof.
  intros Hpaths Hsimple Henriched Hks Hke Hw Hrecords.
  destruct (batch_spec lg client simple_path enriched_path true w _ _
                       Hsimple Henriched Hks Hke)
    as (first & w1 & added & E1 & Hall1 & Hvalid1 & Hcat1 & Hsimple1 & Hfrom1
        & Hcov1 & Hnd1 & Hnew1).
  specialize (Hvalid1 Hw Hrecords). specialize (Hsimple1 Hpaths).
  cbn [narrow] in Hall1, Hvalid1.
  assert (Hke1 : keyed (enriched_records ++ added)%list).
  { apply Forall_app_2; [exact Hke|].
    eapply Forall_impl; [exact Hfrom1|]. intros record (pp & Hpp & ->).
    rewrite List.Forall_forall in Hall1. destruct (Hall1 pp Hpp) as (Hin & Hm & Hp).
    destruct (processed_sku_str simple_records _ pp Hks
                (proj1 (proj1 (filter_In _ _ _) Hin)) Hm Hp) as (s & Hs & _).
    destruct Hp as (_ & _ & ? & ? & ? & ? & ? & ->). rewrite Hs. reflexivity. }
  destruct (batch_spec lg client simple_path enriched_path true w1 _ _
                       Hsimple1 Hcat1 Hks Hke1)
    as (second & w2 & added2 & E2 & Hall2 & _ & Hcat2 & _ & Hfrom2 & _).
  cbn [narrow] in Hall2.
  assert (Hsecond : second = []).
  { destruct second as [|pp2 rest]; [reflexivity|]. exfalso.
    apply Forall_cons in Hall2 as [(Hin2 & Hm2 & Hp2) _].
    unfold pending_of in Hin2. apply filter_In in Hin2 as [Hin_simple Hnot].
    apply negb_true_iff in Hnot. rewrite map_app, set_mem_app in Hnot.
    apply orb_false_iff in Hnot as [Hnot_old Hnot_new].
    assert (Hpending : In (pp_original pp2) (pending_of enriched_records simple_records)).
    { unfold pending_of. apply filter_In. split; [exact Hin_simple|].
      rewrite Hnot_old. reflexivity. }
    rewrite List.Forall_forall in Hrecords.
    destruct (Hrecords _ Hpending) as [Hfail | Hv]; [exact (Hfail Hm2)|].
    destruct (Forall2_processed_from _ _ (pp_original pp2) Hvalid1) as (pp1 & Hin1 & Hp1).
    { apply filter_In. split; assumption. }
    rewrite List.Forall_forall in Hcov1. specialize (Hcov1 pp1 Hin1).
    assert (Hsku : sku_of (pp_original pp2) = pp_sku pp1).
    { destruct Hp1 as (_ & Hs & _). unfold sku_of, PyDict.get, PyDict.get_or.
      rewrite Hs. reflexivity. }
    rewrite <- Hsku, map_app, set_mem_app, Hnot_old, Hnot_new in Hcov1. discriminate. }
  assert (Hadded2 : added2 = []).
  { subst second. destruct added2 as [|record rest]; [reflexivity|].
    apply Forall_cons in Hfrom2 as [(pp & [] & _) _]. }
  subst added2. rewrite app_nil_r in Hcat2.
  exists first, w1, added, second, w2.
  split; [exact E1|]. split; [exact Hvalid1|]. split.
  { rewrite <- filter_nil_iff. split; intros H Hnil.
    - rewrite Hnil in Hvalid1. inversion Hvalid1. congruence.
    - subst first. inversion Hvalid1. congruence. }
  repeat (split; [assumption|]). exact Hcat2.
Qed.

(** ** The pipeline, the catalogs and their callers *)

(** *** One product, stage by stage *)

(** [enrich_product] is the chain of the four stage functions on the new
    event list, between the ingest and the publish events; the first
    stage that raises ends the run. *)
Lemma enrich_product_run lg client p w :
  enrich_product lg client p w =
    let ev := length (lists w) in
    match _normalize_attributes client p ev (w_append ev (ingest_event p) (w_alloc w)) with
    | (Raise e, w1) => (Raise e, w1)
    | (Ok normalized, w1) =>
        match _validate_product p ev w1 with
        | (Raise e, w2) => (Raise e, w2)
        | (Ok pricing, w2) =>
            match _build_seo_copy client p normalized ev w2 with
            | (Raise e, w3) => (Raise e, w3)
            | (Ok seo, w3) =>
                match _localize_copy client seo ev w3 with
                | (Raise e, w4) => (Raise e, w4)
                | (Ok localizations, w4) =>
                    match PyDict.lookup "sku" p, PyDict.lookup "name" p with
                    | Some sku, Some name =>
                        (Ok {| pp_sku := sku; pp_original := p;
                               pp_enriched := enriched_record sku name normalized seo
                                                              localizations pricing;
                               pp_events := ev |},
                         w_append ev (publish_event sku) w4)
                    | Some _, None => (Raise (KeyError "name"), w4)
                    | None, _ => (Raise (KeyError "sku"), w4)
                    end
                end
            end
        end
    end.
Proof.
  rewrite enrich_product_sequential.
  cbv beta iota zeta delta
    [enrich_product _run_sequential_pipeline _node_ingest _node_extract _node_validate
     _node_copywrite _node_localize _node_publish state_product state_events initial_state
     bind ret raise lift new_list append update or_else upd_events upd_normalized upd_pricing
     upd_seo upd_localizations upd_enriched product events normalized_attributes pricing seo
     localizations enriched default PyDict.getitem enriched_record].
  fold (ingest_event p).
  destruct (_normalize_attributes _ _ _ _) as [[normalized|e] w1]; [|reflexivity].
  destruct (_validate_product _ _ _) as [[pricing|e] w2]; [|reflexivity].
  destruct (_build_seo_copy _ _ _ _ _) as [[seo|e] w3]; [|reflexivity].
  destruct (_localize_copy _ _ _ _) as [[localizations|e] w4]; [|reflexivity].
  destruct (PyDict.lookup "sku" p) as [sku|]; [|reflexivity].
  destruct (PyDict.lookup "name" p) as [name|]; reflexivity.
Qed.

(** *** Unit conversion and the normalized attributes *)

Lemma lookup_set_ne k k' v d :
  k <> k' -> PyDict.lookup k (PyDict.set k' v d) = PyDict.lookup k d.
Proof.
  intros Hne. induction d as [|[k0 v0] d IH]; simpl.
  - destruct (String.eqb k k') eqn:E; [apply String.eqb_eq in E; contradiction | reflexivity].
  - destruct (String.eqb k' k0) eqn:E0; simpl.
    + apply String.eqb_eq in E0. subst k0.
      destruct (String.eqb k k') eqn:E; [apply String.eqb_eq in E; contradiction | reflexivity].
    + rewrite IH. reflexivity.
Qed.

Lemma lookup_app k d1 d2 :
  PyDict.lookup k (d1 ++ d2)%list
  = match PyDict.lookup k d1 with Some v => Some v | None => PyDict.lookup k d2 end.
Proof.
  induction d1 as [|[k0 v0] d1 IH]; simpl; [reflexivity|].
  destruct (String.eqb k k0); [reflexivity | exact IH].
Qed.

Lemma lookup_None_keys k d :
  PyDict.lookup k d = None <-> ~ In k (map fst d).
Proof.
  induction d as [|[k0 v0] d IH]; simpl; [tauto|].
  destruct (String.eqb k k0) eqn:E.
  - apply String.eqb_eq in E. subst k0. split; [discriminate | intros H; destruct H; auto].
  - apply String.eqb_neq in E. rewrite IH. split; [intros H [H'|H']; auto | tauto].
Qed.

(** [d[k] = v] keeps the keys of [d], and adds [k] at the end when it is
    new. *)
Lemma keys_set k v d :
  map fst (PyDict.set k v d)
  = match PyDict.lookup k d with
    | Some _ => map fst d
    | None => (map fst d ++ [k])%list
    end.
Proof.
  induction d as [|[k0 v0] d IH]; simpl; [reflexivity|].
  destruct (String.eqb k k0) eqn:E; simpl.
  - apply String.eqb_eq in E. subst k0. reflexivity.
  - rewrite IH. destruct (PyDict.lookup k d); reflexivity.
Qed.

Lemma NoDup_keys_set k v d :
  NoDup (map fst d) -> NoDup (map fst (PyDict.set k v d)).
Proof.
  intros Hd. rewrite keys_set. destruct (PyDict.lookup k d) eqn:E; [exact Hd|].
  apply lookup_None_keys in E.
  apply NoDup_app. repeat split.
  - exact Hd.
  - intros x Hx Hx'. apply list_elem_of_singleton in Hx'. subst x.
    apply E, list_elem_of_In. exact Hx.
  - apply NoDup_singleton.
Qed.

Lemma normal_key_replace s :
  Forall (fun c => PyStr.is_upper c = false) (list_ascii_of_string s) ->
  normal_key (PyStr.replace_space_underscore s) = true.
Proof.
  unfold normal_key, PyStr.replace_space_underscore.
  induction s as [|c s IH]; [reflexivity|].
  cbn [PyStr.map_chars list_ascii_of_string forallb]. intros H.
  apply Forall_cons_1 in H as [Hc Hs]. rewrite (IH Hs), andb_true_r.
  destruct (Ascii.eqb c " ") eqn:E; [reflexivity|].
  rewrite Hc, E. reflexivity.
Qed.

Lemma normal_key_normalize key : normal_key (normalize_key key) = true.
Proof.
  unfold normalize_key, PyStr.lower.
  apply normal_key_replace, encode_not_upper, lower_from_not_upper.
Qed.

(** The loop of the fallback extraction, from any mapping built so far. *)
Lemma normalize_loop_keys attributes :
  forall normalized,
    NoDup (map fst normalized) ->
    Forall (fun k => normal_key k = true) (map fst normalized) ->
    let result :=
      fold_left (fun normalized '(key, value) =>
                   PyDict.set (normalize_key key)
                              (_convert_units (normalize_key key) value) normalized)
                attributes normalized in
    NoDup (map fst result) /\ Forall (fun k => normal_key k = true) (map fst result).
Proof.
  induction attributes as [|[key value] rest IH]; intros normalized Hnd Hall; [split; assumption|].
  cbn [fold_left]. apply IH.
  - apply NoDup_keys_set. exact Hnd.
  - rewrite keys_set. destruct (PyDict.lookup _ normalized); [exact Hall|].
    apply Forall_app_2; [exact Hall|]. constructor; [apply normal_key_normalize | constructor].
Qed.

Lemma normalize_loop_lookup k attributes :
  forall normalized,
    PyDict.lookup k
      (fold_left (fun normalized '(key, value) =>
                    PyDict.set (normalize_key key)
                               (_convert_units (normalize_key key) value) normalized)
                 attributes normalized)
    = match raw_attribute k attributes with
      | Some value => Some (_convert_units k value)
      | None => PyDict.lookup k normalized
      end.
Proof.
  unfold raw_attribute.
  induction attributes as [|[key value] rest IH]; intros normalized; [reflexivity|].
  cbn [fold_left map rev]. rewrite IH, lookup_app.
  destruct (PyDict.lookup k (rev _)) as [v|]; [reflexivity|].
  cbn [PyDict.lookup].
  destruct (String.eqb k (normalize_key key)) eqn:E.
  - apply String.eqb_eq in E. subst k. rewrite lookup_set_eq. reflexivity.
  - apply String.eqb_neq in E. rewrite lookup_set_ne by exact E. reflexivity.
Qed.

(** X1: unit conversion is idempotent: a converted value is a mapping,
    which a second conversion under the same key gives back, and a value
    that was not converted is not converted the second time either. *)
Theorem convert_units_idempotent (key : string) (value : PyVal) :
  _convert_units key (_convert_units key value) = _convert_units key value.
Proof.
  destruct value as [| | | |s| |]; try reflexivity.
  unfold _convert_units at 2 3.
  destruct ((String.eqb key "capacity" || String.eqb key "volume")
            && PyStr.contains "oz" (PyStr.lower s)) eqn:Eoz.
  - destruct (PyFloat.of_string _) eqn:Ef; [reflexivity|].
    unfold _convert_units. rewrite Eoz, Ef. reflexivity.
  - destruct (String.eqb key "weight" && PyStr.contains "lb" (PyStr.lower s)) eqn:Elb.
    + destruct (PyFloat.of_string _) eqn:Ef; [reflexivity|].
      unfold _convert_units. rewrite Eoz, Elb, Ef. reflexivity.
    + unfold _convert_units. rewrite Eoz, Elb. reflexivity.
Qed.

(** X2: in the mapping the fallback extraction returns, every key is in
    normal form (no upper-case letter, no space) and occurs once. *)
Theorem fallback_extract_keys (product : Dict) (events : loc) (w : World)
        (normalized : Dict) (w' : World) :
  _fallback_extract_attributes product events w = (Ok normalized, w') ->
  NoDup (map fst normalized)
  /\ Forall (fun k => normal_key k = true) (map fst normalized).
Proof.
  unfold _fallback_extract_attributes, bind, append, lift, ret.
  destruct (py_items _) as [attributes|]; [|discriminate].
  destruct (py_lower _) as [category|]; [|discriminate].
  intros [= <- _].
  destruct (normalize_loop_keys attributes [] NoDup_nil_2 (List.Forall_nil _)) as [Hnd Hall].
  fold (normalize_items attributes) in Hnd, Hall. split.
  - apply NoDup_keys_set. exact Hnd.
  - rewrite keys_set. destruct (PyDict.lookup _ _); [exact Hall|].
    apply Forall_app_2; [exact Hall|]. constructor; [reflexivity | constructor].
Qed.

(** X3: when raw attribute keys collide after normalization, the last
    raw attribute wins: in the mapping the fallback extraction returns
    for a product with the raw attributes [attributes] (none when the
    product has no attributes), a key other than category holds the
    unit-converted value of the last raw attribute whose key normalizes
    to it, and is absent when there is none. *)
Theorem fallback_extract_last_wins (product : Dict) (events : loc) (w : World)
        (attributes normalized : Dict) (w' : World) (k : string) :
  PyDict.get_or product "attributes" (VDict []) = VDict attributes ->
  _fallback_extract_attributes product events w = (Ok normalized, w') ->
  k <> "category" ->
  PyDict.lookup k normalized = option_map (_convert_units k) (raw_attribute k attributes).
Proof.
  intros Hattrs. unfold _fallback_extract_attributes, bind, append, lift, ret.
  rewrite Hattrs. cbn [py_items].
  destruct (py_lower _) as [category|]; [|discriminate].
  intros [= <- _] Hk.
  rewrite lookup_set_ne by exact Hk.
  unfold normalize_items. rewrite normalize_loop_lookup.
  destruct (raw_attribute k attributes); reflexivity.
Qed.

(** *** The capability and the category *)

Lemma lookup_map_values (f : string -> PyVal -> PyVal) k d :
  PyDict.lookup k (map (fun '(key, value) => (key, f key value)) d)
  = option_map (f k) (PyDict.lookup k d).
Proof.
  induction d as [|[k0 v0] d IH]; simpl; [reflexivity|].
  destruct (String.eqb k k0) eqn:E; [|exact IH].
  apply String.eqb_eq in E. subst k0. reflexivity.
Qed.

Lemma fallback_extract_exact product events w attributes :
  PyDict.get_or product "attributes" (VDict []) = VDict attributes ->
  absent_or is_str (PyDict.lookup "category" product) = true ->
  _fallback_extract_attributes product events w =
    (Ok (fallback_attributes product attributes),
     w_append events (event "extract" "Normalizing attributes") w).
Proof. exact (fallback_extract_returns product events w attributes). Qed.

(** X4: the capability cannot change the category.  For every product of
    the data model and every capability state, whatever the capability
    replies, the extract stage returns a mapping whose key category
    holds the lower-cased category of the product, or uncategorized when
    the product has none; it has no upper-case ASCII letter. *)
Theorem extract_keeps_category (client : option Client) (product : Dict) (events : loc)
        (w : World) :
  absent_or is_dict (PyDict.lookup "attributes" product) = true ->
  absent_or is_str (PyDict.lookup "category" product) = true ->
  exists normalized w',
    _normalize_attributes client product events w = (Ok normalized, w')
    /\ PyDict.lookup "category" normalized
       = Some (VStr (PyStr.lower (str_field product "category" "uncategorized")))
    /\ Forall (fun c => PyStr.is_upper c = false)
              (list_ascii_of_string
                 (PyStr.lower (str_field product "category" "uncategorized"))).
Proof.
  intros Hattrs Hcat.
  assert (Hlower : Forall (fun c => PyStr.is_upper c = false)
                          (list_ascii_of_string
                             (PyStr.lower (str_field product "category" "uncategorized"))))
    by apply encode_not_upper, lower_from_not_upper.
  destruct (get_or_attributes product Hattrs) as [attributes Ha].
  pose proof (fun w0 => fallback_extract_exact product events w0 attributes Ha Hcat) as Hfb.
  unfold _normalize_attributes, bind, append.
  destruct client as [c|].
  - unfold _ai_extract_attributes, try_except, bind, create, lift, append, ret.
    destruct (c _) as [[[extracted|e1] [tokens|e2]]|e]; cbn [parsed_content total_tokens].
    1: unfold merge_extracted;
       rewrite (get_or_str product "category" "uncategorized" Hcat); cbn [py_lower];
       destruct extracted as [| | | | | |d].
    7: { eexists _, _. split; [reflexivity|]. split; [|exact Hlower].
         rewrite (lookup_map_values _convert_units), lookup_set_eq. reflexivity. }
    all: rewrite Hfb; eexists _, _; (split; [reflexivity|]);
      (split; [apply lookup_set_eq | exact Hlower]).
  - rewrite Hfb. eexists _, _. split; [reflexivity|].
    split; [apply lookup_set_eq | exact Hlower].
Qed.

(** *** Localization with the capability *)

Lemma localize_locale_exact c events (seo : Dict) localizations locale w :
  exists e,
    localize_locale c events (PyDict.get_or seo "title" (VStr ""))
                    (PyDict.get_or seo "description" (VStr ""))
                    (PyDict.get_or seo "long_description" (VStr ""))
                    localizations locale w
    = (Ok (localizations
           ++ translated locale
                (c (translation_request (locale_name locale) seo :: requests w)))%list,
       w_append events e (w_sent (translation_request (locale_name locale) seo) w))
    /\ has_step "localize" e.
Proof.
  unfold localize_locale, try_except, bind, create, lift, append, ret, localization_failed.
  fold (translation_request (locale_name locale) seo).
  destruct (c _) as [[[translated|e1] [tokens|e2]]|e]; cbn [parsed_content total_tokens].
  1,2: destruct translated; cbn [py_get_or].
  all: eexists; split; [cbn [translated]; rewrite ?app_nil_r; reflexivity | reflexivity].
Qed.

Lemma ai_localize_copy_run (c : Client) (seo : Dict) (events : loc) (w : World) :
  let spanish := translation_request "Spanish" seo in
  let french := translation_request "French" seo in
  exists w' e1 e2,
    _ai_localize_copy (VDict seo) events c w
    = (Ok (base_entry seo
           :: translated "es-ES" (c (spanish :: requests w))
           ++ translated "fr-FR" (c (french :: spanish :: requests w)))%list,
       w')
    /\ requests w' = french :: spanish :: requests w
    /\ extends events [e1; e2] w w'
    /\ has_step "localize" e1 /\ has_step "localize" e2.
Proof.
  intros spanish french.
  unfold _ai_localize_copy, bind, lift. cbn [py_get_or tail target_locales localize_locales].
  fold (base_entry seo).
  destruct (localize_locale_exact c events seo [base_entry seo] "es-ES" w) as (e1 & E1 & S1).
  rewrite (bind_run _ _ _ _ _ E1). cbv beta iota.
  match type of E1 with
  | _ = (Ok ?ls, ?w1) =>
      destruct (localize_locale_exact c events seo ls "fr-FR" w1) as (e2 & E2 & S2)
  end.
  rewrite (bind_run _ _ _ _ _ E2). cbv beta iota.
  eexists _, e1, e2. split; [unfold ret; rewrite <- app_assoc; reflexivity|].
  split; [reflexivity|].
  split; [|split; assumption].
  apply (extends_append _ _ [e1]), extends_sent, (extends_append _ _ []), extends_sent,
    extends_refl.
Qed.

(** X5: localization with the capability, for every capability and every
    copy that is a mapping.  It never raises; it sends exactly two
    requests, for Spanish and then for French, and none for English; it
    returns the English base entry followed by one entry for each of the
    two locales whose reply has a JSON object as content, in that order,
    so a locale that fails is left out and does not stop the next one;
    and it appends one localize event for each of the two locales. *)
Theorem ai_localize_copy_spec (c : Client) (seo : Dict) (events : loc) (w : World) :
  let spanish := translation_request "Spanish" seo in
  let french := translation_request "French" seo in
  exists w' e1 e2,
    _ai_localize_copy (VDict seo) events c w
    = (Ok (base_entry seo
           :: translated "es-ES" (c (spanish :: requests w))
           ++ translated "fr-FR" (c (french :: spanish :: requests w)))%list,
       w')
    /\ requests w' = french :: spanish :: requests w
    /\ extends events [e1; e2] w w'
    /\ has_step "localize" e1 /\ has_step "localize" e2.
Proof. exact (ai_localize_copy_run c seo events w). Qed.

(** *** A run without the capability *)

(** Close a goal [extends events [e1; ..; en] w w'] whose world [w'] is
    the chain of the appends of [e1], .., [en] to [w], with requests in
    between. *)
Ltac chain_extends :=
  split; [|reflexivity];
  unfold w_append, w_sent; cbn [lists];
  rewrite ?list_alter_alter_eq;
  apply list_alter_ext; [|reflexivity];
  intros ? _; cbn; rewrite <- ?app_assoc; reflexivity.

Lemma fallback_run lg p w sku name price_value attributes :
  PyDict.lookup "sku" p = Some sku ->
  PyDict.lookup "name" p = Some (VStr name) ->
  missing_fields p = [] ->
  py_float (PyDict.get_or p "price" (VInt 0)) = Ok price_value ->
  PyDict.get_or p "attributes" (VDict []) = VDict attributes ->
  absent_or is_str (PyDict.lookup "category" p) = true ->
  absent_or is_str (PyDict.lookup "description" p) = true ->
  exists seo w',
    fallback_seo p (fallback_attributes p attributes) name = VDict seo
    /\ enrich_product lg None p w
       = (Ok {| pp_sku := sku; pp_original := p;
                pp_enriched :=
                  enriched_record sku (VStr name) (fallback_attributes p attributes)
                                  (VDict seo) [default_entry seo]
                                  (pricing_record p price_value);
                pp_events := length (lists w) |}, w')
    /\ extends (length (lists w)) (fallback_events p sku) (w_alloc w) w'
    /\ requests w' = requests w.
Proof.
  intros Hsku Hname Hm Hf Ha Hcat Hdesc.
  rewrite enrich_product_run. cbv zeta.
  unfold _normalize_attributes, bind, append.
  rewrite (fallback_extract_exact p _ _ attributes Ha Hcat).
  rewrite (validate_product_returns p _ _ price_value Hm Hf).
  unfold _build_seo_copy, bind, append.
  rewrite (fallback_seo_copy_ok p _ _ _ name Hname Hcat Hdesc).
  unfold fallback_seo at 1.
  unfold _localize_copy, _fallback_localize_copy, bind, append, lift, ret. cbn [py_get_or].
  rewrite Hsku, Hname.
  eexists _, _. split; [reflexivity|]. split; [reflexivity|]. split; [|reflexivity].
  unfold fallback_events. chain_extends.
Qed.

(** X6: without the capability, the enrichment of a valid product is a
    function of the product alone.  It returns the product with its sku
    and the enriched record made of the sku, the name, the normalized
    attributes of the fallback extraction, the fallback copy, the single
    English entry with the title and the description of that copy, and
    the pricing; it sends no request and changes no file; and the event
    list of the run holds exactly ten events: ingest, three of extract,
    validate, two of copywrite, two of localize, publish. *)
Theorem fallback_enrichment (lg : bool) (p : Dict) (w : World) :
  valid_product p = true ->
  exists sku name price_value attributes seo w',
    PyDict.lookup "sku" p = Some (VStr sku)
    /\ PyDict.lookup "name" p = Some (VStr name)
    /\ py_float (PyDict.get_or p "price" (VInt 0)) = Ok price_value
    /\ PyDict.get_or p "attributes" (VDict []) = VDict attributes
    /\ fallback_seo p (fallback_attributes p attributes) name = VDict seo
    /\ enrich_product lg None p w
       = (Ok {| pp_sku := VStr sku; pp_original := p;
                pp_enriched :=
                  enriched_record (VStr sku) (VStr name) (fallback_attributes p attributes)
                                  (VDict seo) [default_entry seo]
                                  (pricing_record p price_value);
                pp_events := length (lists w) |}, w')
    /\ contents w' (length (lists w)) = fallback_events p (VStr sku)
    /\ requests w' = requests w
    /\ files w' = files w.
Proof.
  intros Hv.
  destruct (valid_product_facts p Hv)
    as (Ha & Hcat & Hdesc & Hm & [x Hf] & [name Hname] & [sku Hsku]).
  destruct (get_or_attributes p Ha) as [attributes Hattrs].
  destruct (fallback_run lg p w (VStr sku) name x attributes
                         Hsku Hname Hm Hf Hattrs Hcat Hdesc)
    as (seo & w' & Hseo & E & X & R).
  exists sku, name, x, attributes, seo, w'.
  repeat (split; [assumption|]).
  split; [exact (fresh_contents _ _ _ _ eq_refl X)|].
  split; [exact R | exact (proj2 X)].
Qed.

(** *** The requests of a run *)

Lemma normalize_attributes_requests client p ev w :
  requests (snd (_normalize_attributes client p ev w))
  = match client with
    | Some _ => extract_request p :: requests w
    | None => requests w
    end.
Proof.
  unfold _normalize_attributes, bind, append.
  destruct client as [c|].
  - unfold _ai_extract_attributes, try_except, bind, create, lift, append, ret.
    destruct (c _) as [[[extracted|e1] [tokens|e2]]|e]; cbn [parsed_content total_tokens].
    1: destruct (merge_extracted p extracted); cbn beta iota; [reflexivity|].
    all: lazymatch goal with
         | |- context [_fallback_extract_attributes _ _ ?w0] =>
             destruct (fallback_extract_spec p ev w0) as (r & -> & _)
         end; reflexivity.
  - lazymatch goal with
    | |- context [_fallback_extract_attributes _ _ ?w0] =>
        destruct (fallback_extract_spec p ev w0) as (r & -> & _)
    end. reflexivity.
Qed.

Lemma validate_product_requests p ev w :
  requests (snd (_validate_product p ev w)) = requests w.
Proof.
  destruct (validate_product_emits p ev w) as (r & e & -> & _). reflexivity.
Qed.

Lemma fallback_seo_copy_requests p normalized ev w :
  requests (snd (_fallback_seo_copy p normalized ev w)) = requests w.
Proof.
  unfold _fallback_seo_copy, bind, lift, append, ret.
  destruct (PyDict.getitem _ _); [destruct (py_title _); [destruct (sorted_pair _ _)|]|];
    reflexivity.
Qed.

Lemma build_seo_copy_requests client p normalized ev w :
  requests (snd (_build_seo_copy client p normalized ev w))
  = match client with
    | Some _ => seo_request p normalized :: requests w
    | None => requests w
    end.
Proof.
  unfold _build_seo_copy. destruct client as [c|].
  - unfold _ai_generate_seo_copy, try_except, bind, create, lift, append, ret.
    destruct (c _) as [[[seo_copy|e1] [tokens|e2]]|e]; cbn [parsed_content total_tokens];
      try reflexivity; rewrite fallback_seo_copy_requests; reflexivity.
  - unfold bind, append. rewrite fallback_seo_copy_requests. reflexivity.
Qed.

(** The world a stage run ends in, from the equation of the run. *)
Lemma run_snd {A} (m : M A) w r w' : m w = (r, w') -> snd (m w) = w'.
Proof. intros ->. reflexivity. Qed.

Lemma four_requests_run (lg : bool) (c : Client) (p : Dict) (w : World) :
  valid_product p = true ->
  seo_replies_are_mappings c ->
  exists pp w' normalized seo,
    enrich_product lg (Some c) p w = (Ok pp, w')
    /\ PyDict.lookup "normalized_attributes" (pp_enriched pp) = Some (VDict normalized)
    /\ PyDict.lookup "seo" (pp_enriched pp) = Some (VDict seo)
    /\ requests w'
       = translation_request "French" seo :: translation_request "Spanish" seo
         :: seo_request p normalized :: extract_request p :: requests w.
Proof.
  intros Hv Hc.
  destruct (valid_product_facts p Hv)
    as (Ha & Hcat & Hdesc & Hm & [x Hf] & [name Hname] & [sku Hsku]).
  rewrite enrich_product_run. cbv zeta.
  set (ev := length (lists w)).
  destruct (normalize_attributes_spec (Some c) p ev
              (w_append ev (ingest_event p) (w_alloc w)))
    as (r1 & new1 & w1 & E1 & _ & _ & _ & T1).
  destruct (T1 Ha Hcat) as [normalized ->].
  pose proof (normalize_attributes_requests (Some c) p ev
                (w_append ev (ingest_event p) (w_alloc w))) as R1.
  rewrite (run_snd _ _ _ _ E1) in R1. rewrite E1.
  rewrite (validate_product_returns p ev w1 x Hm Hf).
  destruct (build_seo_copy_spec (Some c) p normalized ev
              (w_append ev (event "validate" "Validation passed") w1))
    as (r3 & new3 & w3 & E3 & _ & _ & _ & T3).
  destruct (T3 name Hname Hcat Hdesc) as (seo_copy & -> & Hdict).
  pose proof (build_seo_copy_requests (Some c) p normalized ev
                (w_append ev (event "validate" "Validation passed") w1)) as R3.
  rewrite (run_snd _ _ _ _ E3) in R3. rewrite E3.
  specialize (Hdict Hc). destruct seo_copy as [| | | | | |seo]; try discriminate.
  unfold _localize_copy.
  destruct (ai_localize_copy_run c seo ev w3) as (w4 & e1 & e2 & E4 & R4 & _).
  rewrite E4, Hsku, Hname.
  eexists _, _, normalized, seo. split; [reflexivity|].
  split; [reflexivity|]. split; [reflexivity|].
  cbn [requests w_append]. rewrite R4, R3. cbn [requests w_append]. rewrite R1. reflexivity.
Qed.

(** X7: with the capability, the enrichment of a valid product sends
    exactly four requests, in this order: the extraction of the
    attributes of the product, the copy for the product and its
    normalized attributes, the Spanish and the French translation of the
    copy.  (The requests of a world are listed from the latest to the
    earliest.) *)
Theorem enrichment_sends_four_requests (lg : bool) (c : Client) (p : Dict) (w : World) :
  valid_product p = true ->
  seo_replies_are_mappings c ->
  exists pp w' normalized seo,
    enrich_product lg (Some c) p w = (Ok pp, w')
    /\ PyDict.lookup "normalized_attributes" (pp_enriched pp) = Some (VDict normalized)
    /\ PyDict.lookup "seo" (pp_enriched pp) = Some (VDict seo)
    /\ requests w'
       = translation_request "French" seo :: translation_request "Spanish" seo
         :: seo_request p normalized :: extract_request p :: requests w.
Proof. exact (four_requests_run lg c p w). Qed.

Lemma one_request_run (lg : bool) (c : Client) (p : Dict) (w : World) :
  absent_or is_dict (PyDict.lookup "attributes" p) = true ->
  absent_or is_str (PyDict.lookup "category" p) = true ->
  missing_fields p <> [] ->
  exists w',
    enrich_product lg (Some c) p w
    = (Raise (ValueError ("Missing required fields: "
                            ++ PyStr.join ", " (missing_fields p))), w')
    /\ requests w' = extract_request p :: requests w.
Proof.
  intros Ha Hcat Hne.
  rewrite enrich_product_run. cbv zeta.
  set (ev := length (lists w)).
  destruct (normalize_attributes_spec (Some c) p ev
              (w_append ev (ingest_event p) (w_alloc w)))
    as (r1 & new1 & w1 & E1 & _ & _ & _ & T1).
  destruct (T1 Ha Hcat) as [normalized ->].
  pose proof (normalize_attributes_requests (Some c) p ev
                (w_append ev (ingest_event p) (w_alloc w))) as R1.
  rewrite (run_snd _ _ _ _ E1) in R1. rewrite E1.
  rewrite (validate_product_fails p ev w1 Hne).
  eexists. split; [reflexivity|]. exact R1.
Qed.

(** X8: validation comes after extraction, so with the capability a
    product of the data model that fails validation has already cost one
    request: when the run raises, the extraction request is the only
    request that was sent. *)
Theorem invalid_product_costs_one_request (lg : bool) (c : Client) (p : Dict) (w : World) :
  absent_or is_dict (PyDict.lookup "attributes" p) = true ->
  absent_or is_str (PyDict.lookup "category" p) = true ->
  missing_fields p <> [] ->
  exists w',
    enrich_product lg (Some c) p w
    = (Raise (ValueError ("Missing required fields: "
                            ++ PyStr.join ", " (missing_fields p))), w')
    /\ requests w' = extract_request p :: requests w.
Proof. exact (one_request_run lg c p w). Qed.

(** *** A capability that fails, or that answers badly *)

Lemma translated_no_content locale reply :
  no_content reply = true -> translated locale reply = [].
Proof.
  destruct reply as [[[v|e1] tokens]|e]; simpl; [discriminate | reflexivity | reflexivity].
Qed.

(** Split on the reply of the client [c] to the call in the goal, when
    [Hsilent] says that no reply has content. *)
Ltac silent_call Hsilent c :=
  match goal with
  | |- context [c ?sent] =>
      let H := fresh in
      pose proof (Hsilent sent) as H;
      destruct (c sent) as [[[?|?] ?]|?]; [discriminate H | |]; clear H;
      cbn [parsed_content total_tokens]
  end.

Ltac localize_run c seo ev :=
  match goal with
  | |- context [_ai_localize_copy _ _ _ ?w3] =>
      let E := fresh "E" in
      destruct (ai_localize_copy_run c seo ev w3) as (? & ? & ? & E & _)
  end.

(** X9: a capability that never gives content (every call raises, or
    returns content that is not JSON) degrades to the fallbacks.  For
    every valid product the run succeeds, and its enriched record is the
    one of the run without the capability, except that the English entry
    of the localizations carries a fourth field, long_description, which
    is empty. *)
Theorem silent_capability_degrades (lg : bool) (c : Client) (p : Dict) (w : World) :
  valid_product p = true ->
  (forall sent, no_content (c sent) = true) ->
  exists pp0 w0 pp1 w1 sku name normalized seo pricing,
    enrich_product lg None p w = (Ok pp0, w0)
    /\ enrich_product lg (Some c) p w = (Ok pp1, w1)
    /\ pp_enriched pp0
       = enriched_record sku name normalized (VDict seo) [default_entry seo] pricing
    /\ pp_enriched pp1
       = enriched_record sku name normalized (VDict seo)
           [(default_entry seo ++ [("long_description", VStr "")])%list] pricing
    /\ pp_sku pp1 = pp_sku pp0.
Proof.
  intros Hv Hsilent.
  destruct (valid_product_facts p Hv)
    as (Ha & Hcat & Hdesc & Hm & [x Hf] & [name Hname] & [sku Hsku]).
  destruct (get_or_attributes p Ha) as [attributes Hattrs].
  destruct (fallback_run lg p w (VStr sku) name x attributes
                         Hsku Hname Hm Hf Hattrs Hcat Hdesc)
    as (seo & w0 & Hseo & E0 & _).
  rewrite E0. rewrite enrich_product_run. cbv zeta.
  set (ev := length (lists w)).
  (* extract *)
  unfold _normalize_attributes, bind, append.
  unfold _ai_extract_attributes, try_except, bind, create, lift, append, ret.
  silent_call Hsilent c.
  all: rewrite (fallback_extract_exact p _ _ attributes Hattrs Hcat).
  all: rewrite (validate_product_returns p _ _ x Hm Hf).
  (* copywrite *)
  all: unfold _build_seo_copy, _ai_generate_seo_copy, try_except, bind, create, lift,
         append, ret.
  all: silent_call Hsilent c.
  all: rewrite (fallback_seo_copy_ok p _ _ _ name Hname Hcat Hdesc), Hseo.
  (* localize *)
  all: unfold _localize_copy.
  all: localize_run c seo ev.
  all: rewrite !translated_no_content in E by apply Hsilent.
  all: rewrite E, Hsku, Hname.
  all: eexists _, _, _, _, _, _, _, seo, _.
  all: split; [reflexivity|]; split; [reflexivity|]; split; [reflexivity|].
  all: split; [|reflexivity].
  all: cbn [pp_enriched]; f_equal; cbn [app].
  all: unfold base_entry, default_entry; cbn [app]; repeat f_equal.
  all: unfold fallback_seo in Hseo; injection Hseo as <-; reflexivity.
Qed.

(** X10: the copywrite stage does not check what the capability
    replies.  When the reply to the copywriting request is JSON but not
    an object (a list, a string, a number, null), the copy is that
    value, and the enrichment of a valid product raises the
    AttributeError of the first read of the copy in the localize
    stage. *)
Theorem seo_reply_not_an_object (lg : bool) (c : Client) (p : Dict) (w : World)
        (v : PyVal) :
  valid_product p = true ->
  is_dict v = false ->
  (forall normalized sent,
      exists tokens,
        c (seo_request p normalized :: sent)
        = Ok {| parsed_content := Ok v; total_tokens := Ok tokens |}) ->
  exists w',
    enrich_product lg (Some c) p w = (Raise (no_attribute v "get"), w')
    /\ files w' = files w.
Proof.
  intros Hv Hnot Hreply.
  destruct (valid_product_facts p Hv)
    as (Ha & Hcat & Hdesc & Hm & [x Hf] & [name Hname] & [sku Hsku]).
  rewrite enrich_product_run. cbv zeta.
  set (ev := length (lists w)).
  destruct (normalize_attributes_spec (Some c) p ev
              (w_append ev (ingest_event p) (w_alloc w)))
    as (r1 & new1 & w1 & E1 & X1 & _ & _ & T1).
  destruct (T1 Ha Hcat) as [normalized ->]. rewrite E1.
  rewrite (validate_product_returns p ev w1 x Hm Hf).
  unfold _build_seo_copy, _ai_generate_seo_copy, try_except, bind, create, lift, append, ret.
  match goal with
  | |- context [seo_request _ _ :: ?sent] =>
      destruct (Hreply normalized sent) as [tokens ->]
  end.
  cbn [parsed_content total_tokens].
  unfold _localize_copy, _ai_localize_copy, bind, lift.
  destruct v; try discriminate Hnot; cbn [py_get_or];
    (eexists; split; [reflexivity|]; cbn [files w_append w_sent]; exact (proj2 X1)).
Qed.

(** X11: a category that is present and is not a string (null, which
    the input model of the API accepts, or a number) makes the extract
    stage raise.  For every product whose attributes, when present, are
    a mapping, under either strategy and every capability state,
    whatever the capability replies and whether or not the product would
    pass validation, the run raises the AttributeError of the call of
    lower on the category. *)
Theorem category_not_a_string (lg : bool) (client : option Client) (p : Dict) (w : World)
        (v : PyVal) :
  PyDict.lookup "category" p = Some v ->
  is_str v = false ->
  absent_or is_dict (PyDict.lookup "attributes" p) = true ->
  exists w',
    enrich_product lg client p w = (Raise (no_attribute v "lower"), w')
    /\ files w' = files w.
Proof.
  intros Hcat Hnot Ha.
  destruct (get_or_attributes p Ha) as [attributes Hattrs].
  assert (Hlower : py_lower (PyDict.get_or p "category" (VStr "uncategorized"))
                   = Raise (no_attribute v "lower")).
  { unfold PyDict.get_or. rewrite Hcat. destruct v; try reflexivity. discriminate. }
  assert (Hfb : forall ev w0,
             _fallback_extract_attributes p ev w0
             = (Raise (no_attribute v "lower"),
                w_append ev (event "extract" "Normalizing attributes") w0)).
  { intros ev w0. unfold _fallback_extract_attributes, bind, append, lift, ret.
    rewrite Hattrs, Hlower. reflexivity. }
  rewrite enrich_product_run. cbv zeta.
  unfold _normalize_attributes, bind, append.
  destruct client as [c|].
  - unfold _ai_extract_attributes, try_except, bind, create, lift, append, ret.
    destruct (c _) as [[[extracted|e1] [tokens|e2]]|e]; cbn [parsed_content total_tokens].
    1: unfold merge_extracted; rewrite Hlower; destruct extracted.
    all: rewrite Hfb; eexists; split; reflexivity.
  - rewrite Hfb. eexists. split; reflexivity.
Qed.

(** *** What every successful run returns *)

Lemma fallback_extract_ok_inv p ev w normalized w' :
  _fallback_extract_attributes p ev w = (Ok normalized, w') ->
  exists category,
    PyDict.get_or p "category" (VStr "uncategorized") = VStr category
    /\ PyDict.lookup "category" normalized = Some (VStr (PyStr.lower category)).
Proof.
  unfold _fallback_extract_attributes, bind, append, lift, ret.
  destruct (py_items _) as [attributes|]; [|discriminate].
  destruct (PyDict.get_or p "category" (VStr "uncategorized")) as [| | | |category| |];
    try discriminate.
  cbn [py_lower]. intros [= <- _]. exists category.
  split; [reflexivity | apply lookup_set_eq].
Qed.

Lemma normalize_attributes_ok_inv client p ev w normalized w' :
  _normalize_attributes client p ev w = (Ok normalized, w') ->
  exists category,
    PyDict.get_or p "category" (VStr "uncategorized") = VStr category
    /\ PyDict.lookup "category" normalized = Some (VStr (PyStr.lower category)).
Proof.
  unfold _normalize_attributes, bind, append.
  destruct client as [c|].
  - unfold _ai_extract_attributes, try_except, bind, create, lift, append, ret.
    destruct (c _) as [[[extracted|e1] [tokens|e2]]|e]; cbn [parsed_content total_tokens];
      try apply fallback_extract_ok_inv.
    destruct (merge_extracted p extracted) as [merged|e3] eqn:Em; cbn beta iota;
      [|apply fallback_extract_ok_inv].
    intros [= <- _]. unfold merge_extracted in Em.
    destruct extracted as [| | | | |l|d]; try discriminate.
    + destruct (py_lower _); discriminate.
    + destruct (PyDict.get_or p "category" (VStr "uncategorized")) as [| | | |category| |];
        try discriminate.
      cbn [py_lower] in Em. injection Em as <-. exists category.
      split; [reflexivity|].
      rewrite (lookup_map_values _convert_units), lookup_set_eq. reflexivity.
  - apply fallback_extract_ok_inv.
Qed.

Lemma validate_product_ok_inv p ev w pricing w' :
  _validate_product p ev w = (Ok pricing, w') ->
  missing_fields p = []
  /\ exists price_value,
      py_float (PyDict.get_or p "price" (VInt 0)) = Ok price_value
      /\ pricing = pricing_record p price_value.
Proof.
  unfold _validate_product, bind, append, lift, ret, raise.
  destruct (missing_fields p); [|discriminate].
  destruct (py_float _) as [x|]; [|discriminate].
  intros [= <- _]. split; [reflexivity|]. exists x. split; reflexivity.
Qed.

Lemma localize_copy_ok_inv client seo_copy ev w localizations w' :
  _localize_copy client seo_copy ev w = (Ok localizations, w') ->
  exists seo entry rest,
    seo_copy = VDict seo /\ localizations = entry :: rest
    /\ PyDict.lookup "locale" entry = Some (VStr "en-US")
    /\ PyDict.lookup "title" entry = Some (PyDict.get_or seo "title" (VStr ""))
    /\ PyDict.lookup "description" entry
       = Some (PyDict.get_or seo "description" (VStr "")).
Proof.
  unfold _localize_copy. destruct client as [c|].
  - destruct seo_copy as [| | | | | |seo];
      try (unfold _ai_localize_copy, bind, lift; cbn [py_get_or]; discriminate).
    destruct (ai_localize_copy_run c seo ev w) as (w4 & e1 & e2 & -> & _).
    intros [= <- _]. eexists seo, _, _. repeat split.
  - unfold _fallback_localize_copy, bind, append, lift, ret.
    destruct seo_copy as [| | | | | |seo]; cbn [py_get_or]; try discriminate.
    intros [= <- _]. eexists seo, _, _. repeat split.
Qed.

(** X12: what every successful run returns, for every product, either
    strategy and every capability state.  The result carries the product
    and its sku; the sku, the name and the price of the product are
    truthy and its category, when it has one, is a string; and the
    enriched record has the six fields of the enriched product, in this
    order: the sku and the name of the product, the normalized
    attributes, a mapping whose key category holds the lower-cased
    category, the copy, which is a mapping, the localizations, a
    non-empty sequence whose first entry has the locale en-US and the
    title and the description of the copy, and the pricing, made of the
    currency, the price as a float and the stock flag. *)
Theorem enriched_record_shape (lg : bool) (client : option Client) (p : Dict) (w : World)
        (pp : ProcessedProduct) (w' : World) :
  enrich_product lg client p w = (Ok pp, w') ->
  exists name category price_value normalized seo entry rest,
    pp_original pp = p
    /\ PyDict.lookup "sku" p = Some (pp_sku pp) /\ truthy (pp_sku pp) = true
    /\ PyDict.lookup "name" p = Some name /\ truthy name = true
    /\ truthy (PyDict.get p "price") = true
    /\ py_float (PyDict.get_or p "price" (VInt 0)) = Ok price_value
    /\ PyDict.get_or p "category" (VStr "uncategorized") = VStr category
    /\ pp_enriched pp
       = [("sku", pp_sku pp);
          ("name", name);
          ("normalized_attributes", VDict normalized);
          ("seo", VDict seo);
          ("localizations", VList (map VDict (entry :: rest)));
          ("pricing", VDict (pricing_record p price_value))]
    /\ PyDict.lookup "category" normalized = Some (VStr (PyStr.lower category))
    /\ PyDict.lookup "locale" entry = Some (VStr "en-US")
    /\ PyDict.lookup "title" entry = Some (PyDict.get_or seo "title" (VStr ""))
    /\ PyDict.lookup "description" entry
       = Some (PyDict.get_or seo "description" (VStr "")).
Proof.
  rewrite enrich_product_run. cbv zeta.
  destruct (_normalize_attributes _ _ _ _) as [[normalized|] w1] eqn:E1; [|discriminate].
  destruct (_validate_product _ _ _) as [[pricing|] w2] eqn:E2; [|discriminate].
  destruct (_build_seo_copy _ _ _ _ _) as [[seo_copy|] w3] eqn:E3; [|discriminate].
  destruct (_localize_copy _ _ _ _) as [[localizations|] w4] eqn:E4; [|discriminate].
  destruct (PyDict.lookup "sku" p) as [sku|] eqn:Hsku; [|discriminate].
  destruct (PyDict.lookup "name" p) as [name|] eqn:Hname; [|discriminate].
  intros [= <- _]. cbn [pp_original pp_sku pp_enriched].
  destruct (normalize_attributes_ok_inv _ _ _ _ _ _ E1) as (category & Hcat & Hn).
  destruct (validate_product_ok_inv _ _ _ _ _ E2) as (Hm & x & Hf & ->).
  destruct (localize_copy_ok_inv _ _ _ _ _ _ E4)
    as (seo & entry & rest & -> & -> & Hl & Ht & Hd).
  destruct (missing_fields_nil_inv p Hm) as (Ts & Tn & Tp).
  unfold PyDict.get, PyDict.get_or in Ts, Tn. rewrite Hsku in Ts. rewrite Hname in Tn.
  exists name, category, x, normalized, seo, entry, rest.
  repeat (split; [first [assumption | reflexivity]|]). assumption.
Qed.

(** X13: whatever its outcome, a result or an exception, a run creates
    exactly one new event list, at the end of the store, and appends to
    that list only: every list that existed before the run and every
    file is as it was.  The events of a result are that new list. *)
Theorem enrich_product_frame (lg : bool) (client : option Client) (p : Dict) (w : World) :
  exists r new w',
    enrich_product lg client p w = (r, w')
    /\ lists w' = (lists w ++ [new])%list
    /\ files w' = files w
    /\ (forall pp, r = Ok pp ->
                   pp_events pp = length (lists w) /\ contents w' (pp_events pp) = new).
Proof.
  destruct (enrich_product_spec lg client p w) as (r & w' & new & E & X & Hok & _).
  exists r, new, w'. split; [exact E|].
  pose proof (fresh_contents _ _ _ _ eq_refl X) as Hc.
  destruct X as [L F]. split; [|split; [exact F|]].
  - rewrite L. unfold w_alloc. cbn [lists].
    rewrite alter_app_r_alt by lia. rewrite Nat.sub_diag. reflexivity.
  - intros pp Hpp. destruct (Hok pp Hpp) as (_ & Hev & _). rewrite Hev.
    split; [reflexivity | exact Hc].
Qed.

(** *** The event lists of a batch *)

Lemma extends_alloc_lists new w w' :
  extends (length (lists w)) new (w_alloc w) w' -> lists w' = (lists w ++ [new])%list.
Proof.
  intros [L _]. rewrite L. unfold w_alloc. cbn [lists].
  rewrite alter_app_r_alt by lia. rewrite Nat.sub_diag. reflexivity.
Qed.

Lemma process_each_logs lg client pending :
  forall processed w,
  exists pps w' more,
    process_each lg client pending processed w = (Ok (processed ++ pps)%list, w')
    /\ lists w' = (lists w ++ more)%list
    /\ Forall (fun pp => (length (lists w) <= pp_events pp)%nat
                         /\ in_stages WORKFLOW_STEPS (contents w' (pp_events pp))) pps
    /\ NoDup (map pp_events pps).
Proof.
  induction pending as [|record rest IH]; intros processed w.
  - exists [], w, []. rewrite !app_nil_r. simpl.
    split; [reflexivity|]. split; [reflexivity|]. split; constructor.
  - simpl.
    destruct (enrich_product_spec lg client record w)
      as (r & w1 & new & E & X & Hok & _).
    pose proof (extends_alloc_lists _ _ _ X) as L1.
    unfold bind at 1. unfold try_except. rewrite (bind_run _ _ _ _ _ E).
    assert (Hlen : length (lists w1) = S (length (lists w))).
    { rewrite L1, length_app. simpl. lia. }
    destruct r as [pp|e].
    + destruct (Hok pp eq_refl) as (Hst & Hev & _).
      destruct (IH (processed ++ [pp])%list w1) as (pps & w' & more & Erest & L & Hall & Hnd).
      unfold ret at 1. rewrite Erest, <- app_assoc.
      exists (pp :: pps), w', (new :: more).
      split; [reflexivity|].
      split; [rewrite L, L1, <- app_assoc; reflexivity|].
      split.
      * constructor.
        -- split; [lia|]. unfold contents. rewrite Hev, L, L1, <- app_assoc.
           rewrite lookup_app_r by lia. rewrite Nat.sub_diag. exact Hst.
        -- eapply Forall_impl; [exact Hall|]. intros pp' [Hle Hin]. split; [lia | exact Hin].
      * cbn [map]. apply NoDup_cons. split; [|exact Hnd].
        intros Hin. apply list_elem_of_fmap in Hin as (pp' & Heq & Hin').
        rewrite Forall_forall in Hall. destruct (Hall pp' Hin') as [Hle _]. lia.
    + destruct (IH processed w1) as (pps & w' & more & Erest & L & Hall & Hnd).
      unfold ret at 1. cbv beta iota. rewrite Erest.
      exists pps, w', (new :: more). split; [reflexivity|].
      split; [rewrite L, L1, <- app_assoc; reflexivity|].
      split; [|exact Hnd].
      eapply Forall_impl; [exact Hall|]. intros pp' [Hle Hin]. split; [lia | exact Hin].
Qed.

Lemma workflow_steps_nodup : NoDup WORKFLOW_STEPS.
Proof.
  unfold WORKFLOW_STEPS.
  repeat (apply NoDup_cons;
          split; [rewrite ?elem_of_cons, elem_of_nil; intuition discriminate|]).
  apply NoDup_nil_2.
Qed.

(** X14: the products of a batch do not share their event lists.  For
    every batch that returns, the event lists of the returned products
    are pairwise distinct, and each of them, read after the whole batch,
    holds the complete log of its own product: its steps, with adjacent
    repetitions counted once, are ingest, extract, validate, copywrite,
    localize, publish. *)
Theorem batch_event_lists_are_separate (lg : bool) (client : option Client)
        (simple_path enriched_path : string) (process_all : bool) (w : World)
        (pps : list ProcessedProduct) (w' : World) :
  process_pending_products lg client simple_path enriched_path process_all w = (Ok pps, w') ->
  NoDup (map pp_events pps)
  /\ Forall (fun pp => collapse (map step (contents w' (pp_events pp))) = WORKFLOW_STEPS) pps.
Proof.
  unfold process_pending_products.
  unfold bind at 1. destruct (load_json_array simple_path w) as [[simple_records|] w0];
    [|discriminate].
  unfold bind at 1. destruct (load_json_array enriched_path w0) as [[enriched_records|] w1];
    [|discriminate].
  unfold bind at 1. unfold lift at 1. destruct (set_of _) as [existing_skus|]; [|discriminate].
  unfold bind at 1. unfold lift at 1. destruct (pending_records _ _) as [pending|];
    [|discriminate].
  cbv zeta.
  destruct (process_each_logs lg client (narrow process_all pending) [] w1)
    as (pps1 & w2 & more & E & _ & Hall & Hnd).
  rewrite (bind_run _ _ _ _ _ E). cbn [app].
  assert (Hlogs : forall w3, lists w3 = lists w2 ->
            Forall (fun pp => collapse (map step (contents w3 (pp_events pp)))
                              = WORKFLOW_STEPS) pps1).
  { intros w3 Hw3. eapply Forall_impl; [exact Hall|]. intros pp [_ Hst].
    unfold contents in *. rewrite Hw3.
    exact (proj1 (in_stages_steps _ _ Hst workflow_steps_nodup)). }
  destruct pps1 as [|pp pps1].
  - intros [= <- <-]. split; [exact Hnd | apply Hlogs; reflexivity].
  - unfold append_unique_records, bind, lift, write_json_array, ret.
    destruct (set_of _); [|discriminate].
    destruct (append_new _ _ _ _); [|discriminate].
    intros [= <- <-]. split; [exact Hnd | apply Hlogs; reflexivity].
Qed.

(** *** The batch processor, with and without process_all *)

Lemma processed_from_sku record pp :
  processed_from record pp -> sku_of record = pp_sku pp.
Proof.
  intros (_ & Hs & _). unfold sku_of, PyDict.get, PyDict.get_or. rewrite Hs. reflexivity.
Qed.

(** X15: without process_all the batch takes the last pending record
    and nothing else.  For two distinct catalog files keyed by sku and a
    capability that answers copywriting requests with JSON objects: when
    the last pending record is valid, the batch returns its result alone
    and appends its enriched record, and no other, to the enriched
    catalog; when it fails validation, the batch returns nothing and the
    enriched catalog keeps its records, whatever the earlier pending
    records are; the simple catalog is never changed. *)
Theorem narrowed_batch_takes_last (lg : bool) (client : option Client)
        (simple_path enriched_path : string) (w : World)
        (simple_records enriched_records : list Dict) (record : Dict) :
  simple_path <> enriched_path ->
  catalog w simple_path = Ok simple_records ->
  catalog w enriched_path = Ok enriched_records ->
  keyed simple_records -> keyed enriched_records ->
  well_shaped client ->
  last (pending_of enriched_records simple_records) = Some record ->
  exists pps w',
    process_pending_products lg client simple_path enriched_path false w = (Ok pps, w')
    /\ (valid_product record = true ->
        exists pp, pps = [pp] /\ processed_from record pp
                   /\ catalog w' enriched_path
                      = Ok (enriched_records ++ [pp_enriched pp])%list)
    /\ (fails_validation record ->
        pps = [] /\ catalog w' enriched_path = Ok enriched_records)
    /\ catalog w' simple_path = Ok simple_records.
Proof.
  intros Hpaths Hsimple Henriched Hks Hke Hw Hlast.
  destruct (batch_spec lg client simple_path enriched_path false w _ _
                       Hsimple Henriched Hks Hke)
    as (pps & w' & added & E & _ & Hvalid & Hcat & Hsimple' & Hfrom & Hcov & Hnd & _).
  specialize (Hvalid Hw). unfold narrow in Hvalid. rewrite Hlast in Hvalid.
  exists pps, w'. split; [exact E|].
  split; [|split; [|exact (Hsimple' Hpaths)]].
  - intros Hv.
    specialize (Hvalid (Forall_cons_2 _ _ _ (or_intror Hv) (List.Forall_nil _))).
    cbn [List.filter] in Hvalid. rewrite Hv in Hvalid.
    inversion Hvalid as [|? pp ? ? Hpp Hnil]; subst. inversion Hnil; subst.
    exists pp. split; [reflexivity|]. split; [exact Hpp|].
    assert (Hall : Forall (eq (pp_enriched pp)) added).
    { eapply Forall_impl; [exact Hfrom|]. intros r (pp' & [<- | []] & ->). reflexivity. }
    assert (Hpending : set_mem (pp_sku pp) (map sku_of enriched_records) = false).
    { apply last_Some_elem_of, list_elem_of_In in Hlast. unfold pending_of in Hlast.
      apply filter_In in Hlast as [_ Hnot]. apply negb_true_iff in Hnot.
      rewrite (processed_from_sku _ _ Hpp) in Hnot. exact Hnot. }
    apply Forall_cons in Hcov as [Hcov _].
    rewrite map_app, set_mem_app, Hpending in Hcov. cbn [orb] in Hcov.
    rewrite Hcat. do 2 f_equal.
    destruct added as [|r1 added]; [discriminate Hcov|].
    apply Forall_cons in Hall as [<- Hall].
    destruct added as [|r2 added]; [reflexivity|].
    apply Forall_cons in Hall as [<- _].
    cbn [map] in Hnd. apply NoDup_cons in Hnd as [Hnot _].
    destruct Hnot. left.
  - intros Hfail.
    specialize (Hvalid (Forall_cons_2 _ _ _ (or_introl Hfail) (List.Forall_nil _))).
    cbn [List.filter] in Hvalid. rewrite (failing_not_valid record Hfail) in Hvalid.
    inversion Hvalid; subst. split; [reflexivity|].
    destruct added as [|r added]; [rewrite app_nil_r in Hcat; exact Hcat|].
    apply Forall_cons in Hfrom as [(pp & [] & _) _].
Qed.

(** X16: a batch with nothing pending does nothing.  When every record
    of the simple catalog has the sku of an enriched record (so also
    when the simple catalog is empty or its file does not exist), the
    batch returns the empty list and the world is as it was: no event
    list is created, no request is sent and no file is written or
    created, with or without process_all. *)
Theorem nothing_pending (lg : bool) (client : option Client)
        (simple_path enriched_path : string) (process_all : bool) (w : World)
        (simple_records enriched_records : list Dict) :
  catalog w simple_path = Ok simple_records ->
  catalog w enriched_path = Ok enriched_records ->
  keyed simple_records -> keyed enriched_records ->
  pending_of enriched_records simple_records = [] ->
  process_pending_products lg client simple_path enriched_path process_all w = (Ok [], w).
Proof.
  intros Hsimple Henriched Hks Hke Hnone.
  unfold process_pending_products.
  rewrite (bind_run _ _ _ _ _ (catalog_load _ _ _ Hsimple)). cbv beta iota.
  rewrite (bind_run _ _ _ _ _ (catalog_load _ _ _ Henriched)). cbv beta iota.
  change (map (fun record => PyDict.get record "sku") enriched_records)
    with (map sku_of enriched_records).
  rewrite (set_of_hashable _ (keyed_hashable _ Hke)).
  unfold bind at 1. unfold lift at 1. cbv beta iota.
  rewrite (pending_records_spec _ _ Hks).
  unfold bind at 1. unfold lift at 1. cbv beta iota zeta.
  fold (pending_of enriched_records simple_records). rewrite Hnone.
  destruct process_all; reflexivity.
Qed.

(** X17: when the batch raises, on catalog files that are absent, hold
    an array of JSON objects whose strings UTF-8 encodes, hold a JSON
    value that is no array, or are not JSON.  For such catalogs, keyed by
    sku when they can be read, the batch raises exactly when a catalog
    file cannot be read as a JSON array: it then raises the error of the
    load, the one of the simple catalog first, before any product is
    processed, and the world is as it was.  When both catalogs can be
    read it returns, whatever the other fields of the records hold and
    whatever the capability does. *)
Theorem batch_raises_on_unreadable_catalog_only (lg : bool) (client : option Client)
        (simple_path enriched_path : string) (process_all : bool) (w : World) :
  (forall records, catalog w simple_path = Ok records -> keyed records) ->
  (forall records, catalog w enriched_path = Ok records -> keyed records) ->
  match catalog w simple_path, catalog w enriched_path with
  | Ok _, Ok _ =>
      exists pps w',
        process_pending_products lg client simple_path enriched_path process_all w
        = (Ok pps, w')
  | Raise e, _ | Ok _, Raise e =>
      process_pending_products lg client simple_path enriched_path process_all w
      = (Raise e, w)
  end.
Proof.
  intros Hks Hke.
  destruct (catalog w simple_path) as [simple_records|e] eqn:Hsimple.
  - destruct (catalog w enriched_path) as [enriched_records|e] eqn:Henriched.
    + destruct (batch_spec lg client simple_path enriched_path process_all w _ _
                           Hsimple Henriched (Hks _ eq_refl) (Hke _ eq_refl))
        as (pps & w' & _ & E & _).
      eauto.
    + unfold process_pending_products.
      rewrite (bind_run _ _ _ _ _ (catalog_load _ _ _ Hsimple)). cbv beta iota.
      unfold bind. unfold catalog in Henriched.
      destruct (load_json_array enriched_path w) as [r w0] eqn:El.
      assert (w0 = w) as ->.
      { unfold load_json_array in El. destruct (files w !! enriched_path) as [[]|];
          congruence. }
      cbn [fst] in Henriched. subst r. reflexivity.
  - unfold process_pending_products, bind. unfold catalog in Hsimple.
    destruct (load_json_array simple_path w) as [r w0] eqn:El.
    assert (w0 = w) as ->.
    { unfold load_json_array in El. destruct (files w !! simple_path) as [[]|]; congruence. }
    cbn [fst] in Hsimple. subst r. reflexivity.
Qed.

(** *** [append_unique_records], for every key *)

Lemma set_mem_str s seen :
  set_mem (VStr s) seen = true <-> In (VStr s) seen.
Proof.
  unfold set_mem. rewrite existsb_exists. split.
  - intros (v & Hin & Heq). destruct v; try discriminate.
    cbn [key_eqb] in Heq. apply String.eqb_eq in Heq. subst. exact Hin.
  - intros Hin. exists (VStr s). split; [exact Hin | apply String.eqb_refl].
Qed.

Lemma in_present_keys key s records :
  In (VStr s) (omap (PyDict.lookup key) records) <-> has_key key s records.
Proof.
  unfold has_key. rewrite <- list_elem_of_In, list_elem_of_omap. split.
  - intros (record & Hin & Hl). exists record. split; [apply list_elem_of_In|]; assumption.
  - intros (record & Hin & Hl). exists record. split; [apply list_elem_of_In|]; assumption.
Qed.

Lemma keyed_by_hashable key records :
  keyed_by key records ->
  Forall (fun v => hashable v = true) (omap (PyDict.lookup key) records).
Proof.
  induction 1 as [|record records Hk _ IH]; [constructor|]. simpl.
  unfold absent_or in Hk.
  destruct (PyDict.lookup key record) as [[]|]; try discriminate; try exact IH.
  constructor; [reflexivity | exact IH].
Qed.

Lemma has_key_app key s l1 l2 :
  has_key key s (l1 ++ l2)%list <-> has_key key s l1 \/ has_key key s l2.
Proof.
  unfold has_key. split.
  - intros (r & Hin & Hl). apply in_app_or in Hin as [Hin|Hin]; [left | right]; eauto.
  - intros [(r & Hin & Hl) | (r & Hin & Hl)]; exists r; (split; [|exact Hl]);
      apply in_or_app; [left | right]; exact Hin.
Qed.

Lemma sublist_Forall {A} (P : A -> Prop) (l1 l2 : list A) :
  sublist l1 l2 -> Forall P l2 -> Forall P l1.
Proof.
  intros Hsub Hall. rewrite Forall_forall in *. intros x Hx.
  apply Hall. exact (elem_of_sublist _ _ _ Hx Hsub).
Qed.

Lemma sublist_In {A} (l1 l2 : list A) x : sublist l1 l2 -> In x l1 -> In x l2.
Proof.
  intros Hsub Hx. apply list_elem_of_In. apply list_elem_of_In in Hx.
  exact (elem_of_sublist _ _ _ Hx Hsub).
Qed.

(** The loop of [append_unique_records] on records that all have a
    string under the key; [known] are the strings of [seen]. *)
Lemma append_new_keyed key new_records :
  forall seen appended,
  all_keyed key new_records ->
  exists added,
    append_new key seen appended new_records = Ok (appended ++ added)%list
    /\ sublist added new_records
    /\ (forall s, has_key key s new_records ->
                  In (VStr s) seen \/ has_key key s added)
    /\ (forall s, has_key key s added -> ~ In (VStr s) seen)
    /\ NoDup (map (key_of key) added).
Proof.
  induction new_records as [|record rest IH]; intros seen appended Hall.
  - exists []. rewrite app_nil_r. split; [reflexivity|]. split; [constructor|].
    split; [intros s (r & [] & _)|]. split; [intros s (r & [] & _) | constructor].
  - apply Forall_cons in Hall as [[s Hs] Hrest]. simpl.
    unfold PyDict.get, PyDict.get_or. rewrite Hs. unfold py_in_set. cbn [hashable].
    destruct (set_mem (VStr s) seen) eqn:Hmem.
    + apply set_mem_str in Hmem.
      destruct (IH seen appended Hrest) as (added & E & Hsub & Hcov & Hnew & Hnd).
      exists added. split; [exact E|]. split; [apply sublist_cons; exact Hsub|].
      split; [|split; assumption].
      intros s' (r & [<- | Hin] & Hl).
      * left. congruence.
      * apply Hcov. exists r. split; assumption.
    + assert (Hnot : ~ In (VStr s) seen).
      { intros Hin. apply set_mem_str in Hin. congruence. }
      destruct (IH (set_add (VStr s) seen) (appended ++ [record])%list Hrest)
        as (added & E & Hsub & Hcov & Hnew & Hnd).
      exists (record :: added). rewrite E, <- app_assoc.
      split; [reflexivity|]. split; [apply sublist_skip; exact Hsub|].
      split; [|split].
      * intros s' (r & [<- | Hin] & Hl).
        -- right. exists record. split; [left; reflexivity | exact Hl].
        -- destruct (Hcov s' (ex_intro _ r (conj Hin Hl))) as [[Heq | Hseen] | (r' & Hin' & Hl')].
           ++ right. exists record. split; [left; reflexivity | congruence].
           ++ left. exact Hseen.
           ++ right. exists r'. split; [right; exact Hin' | exact Hl'].
      * intros s' (r & [<- | Hin] & Hl) Hseen.
        -- assert (s' = s) by congruence. subst s'. contradiction.
        -- apply (Hnew s' (ex_intro _ r (conj Hin Hl))). right. exact Hseen.
      * cbn [map]. apply NoDup_cons. split; [|exact Hnd].
        intros Hin. apply list_elem_of_fmap in Hin as (r & Hr & Hrin).
        apply list_elem_of_In in Hrin.
        assert (Hl : PyDict.lookup key r = Some (VStr s)).
        { pose proof (sublist_Forall _ _ _ Hsub Hrest) as Hadded.
          rewrite List.Forall_forall in Hadded. destruct (Hadded r Hrin) as [s' Hs'].
          unfold key_of, PyDict.get, PyDict.get_or in Hr. rewrite Hs, Hs' in Hr. congruence. }
        apply (Hnew s (ex_intro _ r (conj Hrin Hl))). left. reflexivity.
Qed.

Lemma append_unique_records_keyed path existing new_records key w :
  keyed_by key existing -> all_keyed key new_records ->
  exists added,
    append_unique_records path existing new_records key w
    = (Ok (existing ++ added)%list, w_write path (existing ++ added)%list w)
    /\ sublist added new_records
    /\ (forall s, has_key key s new_records -> has_key key s (existing ++ added)%list)
    /\ (forall s, has_key key s added -> ~ has_key key s existing)
    /\ NoDup (map (key_of key) added).
Proof.
  intros Hk Hall. unfold append_unique_records.
  rewrite (set_of_hashable _ (keyed_by_hashable _ _ Hk)).
  unfold bind at 1. unfold lift at 1. cbv beta iota.
  destruct (append_new_keyed key new_records (omap (PyDict.lookup key) existing)
                             existing Hall)
    as (added & E & Hsub & Hcov & Hnew & Hnd).
  rewrite E. exists added. split; [reflexivity|]. split; [exact Hsub|].
  split; [|split; [|exact Hnd]].
  - intros s Hs. apply has_key_app. destruct (Hcov s Hs) as [Hin | Hadded].
    + left. apply in_present_keys. exact Hin.
    + right. exact Hadded.
  - intros s Hs Hex. apply (Hnew s Hs). apply in_present_keys. exact Hex.
Qed.

(** X18: appending without duplicates, for catalogs keyed by any key
    (the value of the key, when an existing record has one, is a string,
    and every new record has one).  The result is the existing records,
    unchanged and in place, followed by a subsequence of the new
    records, in their order; every key of a new record is then the key
    of a record of the result; no appended record has the key of an
    existing record, so a stored record is never replaced; the appended
    records have pairwise distinct keys; the result is what the file
    holds afterwards, and no other file is written. *)
Theorem append_unique_records_spec (path : string) (existing new_records : list Dict)
        (key : string) (w : World) :
  keyed_by key existing ->
  all_keyed key new_records ->
  exists added w',
    append_unique_records path existing new_records key w
    = (Ok (existing ++ added)%list, w')
    /\ sublist added new_records
    /\ (forall s, has_key key s new_records -> has_key key s (existing ++ added)%list)
    /\ (forall s, has_key key s added -> ~ has_key key s existing)
    /\ NoDup (map (key_of key) added)
    /\ load_json_array path w' = (Ok (existing ++ added)%list, w')
    /\ (forall other, other <> path -> files w' !! other = files w !! other).
Proof.
  intros Hk Hall.
  destruct (append_unique_records_keyed path existing new_records key w Hk Hall)
    as (added & E & Hsub & Hcov & Hnew & Hnd).
  exists added, (w_write path (existing ++ added)%list w).
  repeat (split; [assumption|]). split.
  - unfold load_json_array, w_write. cbn [files]. rewrite lookup_insert_eq. reflexivity.
  - intros other Hne. unfold w_write. cbn [files]. apply lookup_insert_ne. congruence.
Qed.

Lemma w_write_same path records w :
  files w !! path = Some (JsonArray records) -> w_write path records w = w.
Proof.
  intros H. destruct w as [l r f]. unfold w_write. cbn [lists requests files] in *.
  f_equal. apply insert_id. exact H.
Qed.

Lemma keyed_by_app key l1 l2 :
  keyed_by key l1 -> all_keyed key l2 -> keyed_by key (l1 ++ l2)%list.
Proof.
  intros H1 H2. apply Forall_app_2; [exact H1|].
  eapply Forall_impl; [exact H2|]. intros r [s ->]. reflexivity.
Qed.

(** X19: appending without duplicates is idempotent.  Appending the same
    new records to the result of a first call returns that result again
    and leaves the world as the first call left it. *)
Theorem append_unique_records_idempotent (path : string)
        (existing new_records appended : list Dict) (key : string) (w w1 : World) :
  keyed_by key existing ->
  all_keyed key new_records ->
  append_unique_records path existing new_records key w = (Ok appended, w1) ->
  append_unique_records path appended new_records key w1 = (Ok appended, w1).
Proof.
  intros Hk Hall E.
  destruct (append_unique_records_keyed path existing new_records key w Hk Hall)
    as (added & E1 & Hsub & Hcov & _).
  rewrite E1 in E. injection E as <- <-.
  assert (Hk1 : keyed_by key (existing ++ added)%list).
  { apply keyed_by_app; [exact Hk|]. exact (sublist_Forall _ _ _ Hsub Hall). }
  destruct (append_unique_records_keyed path (existing ++ added)%list new_records key
              (w_write path (existing ++ added)%list w) Hk1 Hall)
    as (added2 & E2 & Hsub2 & _ & Hnew2 & _).
  assert (added2 = []) as ->.
  { destruct added2 as [|r rest]; [reflexivity|]. exfalso.
    pose proof (sublist_Forall _ _ _ Hsub2 Hall) as Hr.
    apply Forall_cons in Hr as [[s Hs] _].
    apply (Hnew2 s).
    - exists r. split; [left; reflexivity | exact Hs].
    - apply Hcov. exists r. split; [|exact Hs].
      eapply sublist_In; [exact Hsub2 | left; reflexivity]. }
  rewrite E2, app_nil_r. f_equal. apply w_write_same.
  unfold w_write. cbn [files]. apply lookup_insert_eq.
Qed.

(** X20: a new record without the key stops the whole append: for
    records whose key, when present, is a string, when some new record
    has no value under the key the call raises a ValueError and writes
    nothing, also when earlier new records were not yet in the
    catalog. *)
Theorem append_unique_records_missing_key (path : string)
        (existing new_records : list Dict) (key : string) (w : World) :
  keyed_by key existing ->
  keyed_by key new_records ->
  Exists (fun record => PyDict.lookup key record = None) new_records ->
  exists msg,
    append_unique_records path existing new_records key w = (Raise (ValueError msg), w).
Proof.
  intros Hk Hnew Hmissing. unfold append_unique_records.
  rewrite (set_of_hashable _ (keyed_by_hashable _ _ Hk)).
  unfold bind at 1. unfold lift at 1. cbv beta iota.
  assert (Hloop : forall seen appended,
             exists msg, append_new key seen appended new_records = Raise (ValueError msg)).
  { induction Hnew as [|record rest Hr Hrest IH]; intros seen appended.
    - inversion Hmissing.
    - simpl. unfold PyDict.get, PyDict.get_or. unfold absent_or in Hr.
      destruct (PyDict.lookup key record) as [v|] eqn:Hl.
      + destruct v; try discriminate Hr.
        apply Exists_cons in Hmissing as [Hm | Hm]; [congruence|].
        unfold py_in_set. cbn [hashable]. destruct (set_mem _ _); apply IH; exact Hm.
      + eexists. reflexivity. }
  destruct (Hloop (omap (PyDict.lookup key) existing) existing) as [msg ->].
  exists msg. reflexivity.
Qed.

(** *** The catalogs behind the API *)

Lemma find_sku_seen sku records :
  set_mem (VStr sku) (omap (PyDict.lookup "sku") records)
  = match find_sku sku records with Some _ => true | None => false end.
Proof.
  unfold find_sku. induction records as [|record records IH]; [reflexivity|].
  cbn [List.find]. unfold sku_is at 1. unfold PyDict.get, PyDict.get_or.
  change (omap (PyDict.lookup "sku") (record :: records))
    with (match PyDict.lookup "sku" record with
          | Some v => v :: omap (PyDict.lookup "sku") records
          | None => omap (PyDict.lookup "sku") records
          end).
  destruct (PyDict.lookup "sku" record) as [v|]; [|exact IH].
  rewrite set_mem_cons, IH.
  destruct v; cbn [key_eqb orb]; try reflexivity.
  rewrite String.eqb_sym. destruct (String.eqb s sku); reflexivity.
Qed.

Lemma find_sku_app sku l1 l2 :
  find_sku sku (l1 ++ l2)%list
  = match find_sku sku l1 with Some r => Some r | None => find_sku sku l2 end.
Proof.
  unfold find_sku. induction l1 as [|r l1 IH]; [reflexivity|].
  cbn [app List.find]. destruct (sku_is sku r); [reflexivity | exact IH].
Qed.

Lemma find_sku_truthy sku records r :
  find_sku sku records = Some r -> truthy (VDict r) = true.
Proof.
  intros H. apply find_some in H as [_ H]. destruct r; [discriminate H | reflexivity].
Qed.

(** Saving one record whose sku is the string [sku]. *)
Lemma append_unique_one path existing p sku w :
  keyed existing ->
  PyDict.lookup "sku" p = Some (VStr sku) ->
  exists appended,
    append_unique_records path existing [p] "sku" w
    = (Ok appended, w_write path appended w)
    /\ appended = match find_sku sku existing with
                  | Some _ => existing
                  | None => (existing ++ [p])%list
                  end
    /\ find_sku sku appended = Some (default p (find_sku sku existing)).
Proof.
  intros Hk Hs. unfold append_unique_records.
  rewrite (set_of_hashable _ (present_skus_hashable _ Hk)).
  unfold bind at 1. unfold lift at 1. cbv beta iota.
  cbn [append_new]. unfold PyDict.get, PyDict.get_or. rewrite Hs.
  unfold py_in_set. cbn [hashable]. rewrite find_sku_seen.
  destruct (find_sku sku existing) as [r|] eqn:Ef.
  - eexists. split; [reflexivity|]. split; [reflexivity | exact Ef].
  - eexists. split; [reflexivity|]. split; [reflexivity|].
    rewrite find_sku_app, Ef. unfold find_sku. cbn [List.find].
    unfold sku_is, PyDict.get, PyDict.get_or. rewrite Hs, String.eqb_refl. reflexivity.
Qed.

Lemma save_to_catalogs_run SIMPLE_PATH ENRICHED_PATH simple_product enriched_product sku w
      simple_records enriched_records :
  SIMPLE_PATH <> ENRICHED_PATH ->
  catalog w SIMPLE_PATH = Ok simple_records ->
  catalog w ENRICHED_PATH = Ok enriched_records ->
  keyed simple_records -> keyed enriched_records ->
  PyDict.lookup "sku" simple_product = Some (VStr sku) ->
  PyDict.lookup "sku" enriched_product = Some (VStr sku) ->
  exists simple_after enriched_after,
    save_to_catalogs SIMPLE_PATH ENRICHED_PATH simple_product enriched_product w
    = (Ok tt, w_write ENRICHED_PATH enriched_after (w_write SIMPLE_PATH simple_after w))
    /\ simple_after = match find_sku sku simple_records with
                      | Some _ => simple_records
                      | None => (simple_records ++ [simple_product])%list
                      end
    /\ enriched_after = match find_sku sku enriched_records with
                        | Some _ => enriched_records
                        | None => (enriched_records ++ [enriched_product])%list
                        end
    /\ find_sku sku simple_after = Some (default simple_product (find_sku sku simple_records))
    /\ find_sku sku enriched_after
       = Some (default enriched_product (find_sku sku enriched_records)).
Proof.
  intros Hpaths Hsimple Henriched Hks Hke Hs He.
  unfold save_to_catalogs, try_except.
  rewrite (bind_run _ _ _ _ _ (catalog_load _ _ _ Hsimple)). cbv beta iota.
  destruct (append_unique_one SIMPLE_PATH simple_records simple_product sku w Hks Hs)
    as (simple_after & E1 & Hsa & Hfs).
  rewrite (bind_run _ _ _ _ _ E1). cbv beta iota.
  assert (Henriched' : catalog (w_write SIMPLE_PATH simple_after w) ENRICHED_PATH
                       = Ok enriched_records).
  { rewrite catalog_other by exact Hpaths. exact Henriched. }
  rewrite (bind_run _ _ _ _ _ (catalog_load _ _ _ Henriched')). cbv beta iota.
  destruct (append_unique_one ENRICHED_PATH enriched_records enriched_product sku
              (w_write SIMPLE_PATH simple_after w) Hke He)
    as (enriched_after & E2 & Hea & Hfe).
  rewrite (bind_run _ _ _ _ _ E2). cbv beta iota.
  exists simple_after, enriched_after. split; [reflexivity|].
  repeat (split; [assumption|]). assumption.
Qed.

(** X21: what the API saves, it finds, and it never replaces a stored
    record.  For two distinct catalog files keyed by sku and a product
    and an enriched record with the same string sku, saving succeeds,
    and the lookup of that sku then returns, from each catalog, the
    record the catalog already held under the sku, when it held one, and
    the saved record otherwise. *)
Theorem saved_product_is_found (SIMPLE_PATH ENRICHED_PATH : string)
        (simple_product enriched_product : Dict) (sku : string) (w : World)
        (simple_records enriched_records : list Dict) :
  SIMPLE_PATH <> ENRICHED_PATH ->
  catalog w SIMPLE_PATH = Ok simple_records ->
  catalog w ENRICHED_PATH = Ok enriched_records ->
  keyed simple_records -> keyed enriched_records ->
  PyDict.lookup "sku" simple_product = Some (VStr sku) ->
  PyDict.lookup "sku" enriched_product = Some (VStr sku) ->
  exists w1,
    save_to_catalogs SIMPLE_PATH ENRICHED_PATH simple_product enriched_product w
    = (Ok tt, w1)
    /\ get_product_by_sku SIMPLE_PATH ENRICHED_PATH sku w1
       = (Returned
            (VDict [("sku", VStr sku);
                    ("simple",
                     VDict (default simple_product (find_sku sku simple_records)));
                    ("enriched",
                     VDict (default enriched_product (find_sku sku enriched_records)))]),
          w1).
Proof.
  intros Hpaths Hsimple Henriched Hks Hke Hs He.
  destruct (save_to_catalogs_run _ _ _ _ sku w _ _ Hpaths Hsimple Henriched Hks Hke Hs He)
    as (simple_after & enriched_after & E & _ & _ & Hfs & Hfe).
  eexists. split; [exact E|].
  unfold get_product_by_sku.
  assert (H1 : catalog (w_write ENRICHED_PATH enriched_after
                                (w_write SIMPLE_PATH simple_after w)) SIMPLE_PATH
               = Ok simple_after).
  { rewrite catalog_other by congruence. apply catalog_written. }
  rewrite (bind_run _ _ _ _ _ (catalog_load _ _ _ H1)). cbv beta iota.
  rewrite (bind_run _ _ _ _ _ (catalog_load _ _ _ (catalog_written _ _ _))).
  cbv beta iota. unfold ret. rewrite Hfs, Hfe. cbn [record_or_none].
  rewrite (find_sku_truthy _ _ _ Hfs). reflexivity.
Qed.

(** X22: saving a sku that both catalogs already hold changes nothing:
    the call succeeds and the world is as it was, so the stored records
    are kept even when the saved ones differ from them. *)
Theorem save_existing_changes_nothing (SIMPLE_PATH ENRICHED_PATH : string)
        (simple_product enriched_product : Dict) (sku : string) (w : World)
        (simple_records enriched_records : list Dict) :
  SIMPLE_PATH <> ENRICHED_PATH ->
  catalog w SIMPLE_PATH = Ok simple_records ->
  catalog w ENRICHED_PATH = Ok enriched_records ->
  keyed simple_records -> keyed enriched_records ->
  PyDict.lookup "sku" simple_product = Some (VStr sku) ->
  PyDict.lookup "sku" enriched_product = Some (VStr sku) ->
  find_sku sku simple_records <> None ->
  find_sku sku enriched_records <> None ->
  save_to_catalogs SIMPLE_PATH ENRICHED_PATH simple_product enriched_product w = (Ok tt, w).
Proof.
  intros Hpaths Hsimple Henriched Hks Hke Hs He Hfs Hfe.
  destruct (save_to_catalogs_run _ _ _ _ sku w _ _ Hpaths Hsimple Henriched Hks Hke Hs He)
    as (simple_after & enriched_after & E & -> & -> & _).
  rewrite E. f_equal.
  assert (Hfile : forall path records,
             catalog w path = Ok records -> find_sku sku records <> None ->
             files w !! path = Some (JsonArray records)).
  { intros path records Hc Hf. unfold catalog, load_json_array in Hc.
    destruct (files w !! path) as [[]|]; cbn [fst] in Hc; try discriminate.
    - congruence.
    - injection Hc as <-. destruct Hf. reflexivity. }
  destruct (find_sku sku simple_records) eqn:E1; [|congruence].
  destruct (find_sku sku enriched_records) eqn:E2; [|congruence].
  rewrite (w_write_same SIMPLE_PATH simple_records w) by (apply Hfile; congruence).
  apply w_write_same. apply Hfile; congruence.
Qed.

(** *** A dry run of the command line *)

Lemma read_original_array path w records :
  catalog w path = Ok records ->
  read_original path w = (Ok (Some (JsonArray records)), w).
Proof.
  unfold catalog, load_json_array, read_original.
  destruct (files w !! path) as [[]|]; cbn [fst]; congruence.
Qed.

(** X23: a dry run leaves the records of both catalogs as they were.
    For two distinct catalog files keyed by sku, [main] with --dry-run
    runs the batch, reports the products the batch processed (or that
    there is nothing new) and exits with code 0; afterwards the enriched
    catalog file holds the records it held before the run, the empty
    array when the file did not exist, and the simple catalog holds its
    records. *)
Theorem dry_run_keeps_catalogs (lg : bool) (client : option Client)
        (CATALOG_SIMPLE CATALOG_ENRICHED : string) (args : Args) (w : World)
        (simple_records enriched_records : list Dict) :
  CATALOG_SIMPLE <> CATALOG_ENRICHED ->
  dry_run args = true ->
  catalog w CATALOG_SIMPLE = Ok simple_records ->
  catalog w CATALOG_ENRICHED = Ok enriched_records ->
  keyed simple_records -> keyed enriched_records ->
  exists processed w1 w',
    process_pending_products lg client CATALOG_SIMPLE CATALOG_ENRICHED (all args) w
    = (Ok processed, w1)
    /\ main lg client CATALOG_SIMPLE CATALOG_ENRICHED args w
       = (Ok (match processed with
              | [] => NoNewProducts
              | _ :: _ => Report (format args) processed
              end, 0%Z), w')
    /\ files w' !! CATALOG_ENRICHED = Some (JsonArray enriched_records)
    /\ catalog w' CATALOG_SIMPLE = Ok simple_records.
Proof.
  intros Hpaths Hdry Hsimple Henriched Hks Hke.
  destruct (batch_spec lg client CATALOG_SIMPLE CATALOG_ENRICHED (all args) w _ _
                       Hsimple Henriched Hks Hke)
    as (pps & w1 & added & E & _ & _ & _ & Hsimple1 & _).
  specialize (Hsimple1 Hpaths).
  exists pps, w1. eexists. split; [exact E|].
  unfold main. rewrite Hdry.
  rewrite (bind_run _ _ _ _ _ (read_original_array _ _ _ Henriched)). cbv beta iota.
  rewrite (bind_run _ _ _ _ _ E). cbv beta iota.
  unfold bind, write_original, ret.
  split; [destruct pps; reflexivity|].
  cbn [files]. split; [apply lookup_insert_eq|].
  fold (w_write CATALOG_ENRICHED enriched_records w1).
  rewrite catalog_other by congruence. exact Hsimple1.
Qed.

(** *** The client is created once *)

Lemma client_calls_cached OpenAI api_keys c :
  client_calls true OpenAI api_keys (Some c) = map (fun _ => Some c) api_keys.
Proof.
  induction api_keys as [|api_key rest IH]; [reflexivity|].
  cbn [client_calls _get_openai_client negb map]. rewrite IH. reflexivity.
Qed.

Lemma client_calls_unavailable OpenAI api_keys cached :
  client_calls false OpenAI api_keys cached = map (fun _ => None) api_keys.
Proof.
  induction api_keys as [|api_key rest IH]; [reflexivity|].
  cbn [client_calls _get_openai_client negb map]. rewrite IH. reflexivity.
Qed.

(** X24: the client is created at most once.  In a sequence of calls of
    [_get_openai_client], whatever the environment variable holds at
    each call, once a call has returned a client every later call
    returns that same client; in particular a key that is changed or
    removed afterwards has no effect. *)
Theorem client_is_created_once (OPENAI_AVAILABLE : bool) (OpenAI : string -> Client)
        (api_keys : list (option string)) (cached : option Client)
        (i j : nat) (c : Client) :
  (i <= j)%nat -> (j < length api_keys)%nat ->
  client_calls OPENAI_AVAILABLE OpenAI api_keys cached !! i = Some (Some c) ->
  client_calls OPENAI_AVAILABLE OpenAI api_keys cached !! j = Some (Some c).
Proof.
  destruct OPENAI_AVAILABLE.
  2: { intros _ _. rewrite client_calls_unavailable, list_lookup_fmap.
       destruct (api_keys !! i); discriminate. }
  revert cached i j. induction api_keys as [|api_key rest IH]; intros cached i j Hij Hj.
  - simpl in Hj. lia.
  - assert (Hcached : forall c',
               client_calls true OpenAI (api_key :: rest) (Some c') !! i = Some (Some c) ->
               client_calls true OpenAI (api_key :: rest) (Some c') !! j = Some (Some c)).
    { intros c'. rewrite client_calls_cached, !list_lookup_fmap.
      destruct ((api_key :: rest) !! i); [|discriminate]. intros [= <-].
      destruct ((api_key :: rest) !! j) eqn:Ej; [reflexivity|].
      apply lookup_ge_None in Ej. lia. }
    destruct cached as [c'|]; [apply Hcached|].
    cbn [client_calls _get_openai_client negb].
    destruct api_key as [key|]; [destruct (negb (String.eqb key "")) eqn:Ek|].
    + apply (Hcached (OpenAI key)).
    + destruct i as [|i]; [discriminate|]. destruct j as [|j]; [lia|].
      cbn [lookup list_lookup]. apply IH; simpl in Hj; lia.
    + destruct i as [|i]; [discriminate|]. destruct j as [|j]; [lia|].
      cbn [lookup list_lookup]. apply IH; simpl in Hj; lia.
Qed.

(** *** The enrichment endpoint *)

(** X25: the endpoint rejects an input that fails validation and saves
    nothing.  For every input with a category, when the sku is empty,
    the name is empty or the price is zero (the default of the input
    model), under either strategy, every capability state and whatever
    builds the response, the endpoint raises the HTTP error 500 whose
    detail names the missing fields, and no catalog file is changed. *)
Theorem endpoint_rejects_invalid_input {A : Type} (lg : bool) (client : option Client)
        (SIMPLE_PATH ENRICHED_PATH : string) (respond : ProcessedProduct -> M A)
        (product_data : ProductInput) (category : string) (w : World) :
  input_category product_data = Some category ->
  input_sku product_data = ""
  \/ input_name product_data = ""
  \/ PyFloat.nonzero (input_price product_data) = false ->
  exists w',
    enrich_product_endpoint lg client SIMPLE_PATH ENRICHED_PATH respond product_data w
    = (Failed {| status_code := 500;
                 detail := "Enrichment failed: Missing required fields: "
                           ++ PyStr.join ", " (missing_fields (product_dict product_data)) |},
       w')
    /\ missing_fields (product_dict product_data) <> []
    /\ files w' = files w.
Proof.
  intros Hcat Hbad.
  assert (Hne : missing_fields (product_dict product_data) <> []).
  { intros Hm. destruct (missing_fields_nil_inv _ Hm) as (Ts & Tn & Tp).
    cbn in Ts, Tn, Tp.
    destruct Hbad as [H|[H|H]]; rewrite H in *; discriminate. }
  destruct (enrich_product_spec lg client (product_dict product_data) w)
    as (r & w' & new & E & X & _ & _ & Hval & _).
  destruct (Hval Hne) as [-> _].
  { reflexivity. }
  { cbn. rewrite Hcat. reflexivity. }
  exists w'. unfold enrich_product_endpoint. cbv zeta.
  rewrite (bind_run _ _ _ _ _ E). cbn [exn_str].
  split; [reflexivity|]. split; [exact Hne | exact (proj2 X)].
Qed.

(** *** A price that is not a number *)

(** X26: a price that is truthy and that [float()] refuses (a string
    that is not a number, an int beyond the range of a double) passes the
    check of the required fields and then stops the run.  For every
    product of the data model otherwise, under either strategy and every
    capability state, the run raises the exception of [float()], no
    file is changed, and the last event of the run says that validation
    passed. *)
Theorem unconvertible_price_raises_after_passed (lg : bool) (client : option Client)
        (p : Dict) (w : World) (e : PyExn) :
  absent_or is_dict (PyDict.lookup "attributes" p) = true ->
  absent_or is_str (PyDict.lookup "category" p) = true ->
  missing_fields p = [] ->
  py_float (PyDict.get_or p "price" (VInt 0)) = Raise e ->
  exists w',
    enrich_product lg client p w = (Raise e, w')
    /\ last (contents w' (length (lists w))) = Some (event "validate" "Validation passed")
    /\ files w' = files w.
Proof.
  intros Ha Hcat Hm Hf.
  rewrite enrich_product_run. cbv zeta.
  set (ev := length (lists w)).
  destruct (normalize_attributes_spec client p ev
              (w_append ev (ingest_event p) (w_alloc w)))
    as (r1 & new1 & w1 & E1 & X1 & _ & _ & T1).
  destruct (T1 Ha Hcat) as [normalized ->]. rewrite E1.
  rewrite (validate_product_float_raises p ev w1 e Hm Hf).
  eexists. split; [reflexivity|].
  assert (X : extends ev (([ingest_event p] ++ new1)
                          ++ [event "validate" "Validation passed"])%list
                      (w_alloc w)
                      (w_append ev (event "validate" "Validation passed") w1)).
  { apply extends_append. eapply extends_trans; [apply extends_one | exact X1]. }
  split; [|exact (proj2 X)].
  subst ev. rewrite (fresh_contents _ _ _ _ eq_refl X). apply last_snoc.
Qed.

(** *** A run with a capability that answers *)

(** X27: with a capability that answers its four requests with JSON
    objects, the enrichment of a valid product returns what the
    capability replied.  The normalized attributes are the mapping
    replied to the extraction, under its keys as they are, with the
    category of the product set and every value unit-converted; the copy
    is the mapping replied to the copywriting request, as it is; the
    localizations are the English base entry of the copy and the
    entries of the Spanish and the French translation; the pricing is
    the one of validation; and the run logs eight events: ingest, two of
    extract, validate, copywrite, two of localize, publish. *)
Theorem capability_enrichment (lg : bool) (c : Client) (p : Dict) (w : World)
        (extracted seo spanish french : Dict) :
  valid_product p = true ->
  answers c (extract_request p) (VDict extracted) ->
  answers c (seo_request p (extracted_attributes p extracted)) (VDict seo) ->
  answers c (translation_request "Spanish" seo) (VDict spanish) ->
  answers c (translation_request "French" seo) (VDict french) ->
  exists sku name price_value w',
    PyDict.lookup "sku" p = Some (VStr sku)
    /\ PyDict.lookup "name" p = Some (VStr name)
    /\ py_float (PyDict.get_or p "price" (VInt 0)) = Ok price_value
    /\ enrich_product lg (Some c) p w
       = (Ok {| pp_sku := VStr sku; pp_original := p;
                pp_enriched :=
                  enriched_record (VStr sku) (VStr name) (extracted_attributes p extracted)
                                  (VDict seo)
                                  [base_entry seo; locale_entry "es-ES" spanish;
                                   locale_entry "fr-FR" french]
                                  (pricing_record p price_value);
                pp_events := length (lists w) |}, w')
    /\ map step (contents w' (length (lists w)))
       = ["ingest"; "extract"; "extract"; "validate"; "copywrite";
          "localize"; "localize"; "publish"].
Proof.
  intros Hv Hex Hseo Hes Hfr.
  destruct (valid_product_facts p Hv)
    as (Ha & Hcat & Hdesc & Hm & [x Hf] & [name Hname] & [sku Hsku]).
  exists sku, name, x.
  rewrite enrich_product_run. cbv zeta.
  set (ev := length (lists w)).
  (* extract *)
  unfold _normalize_attributes, bind, append.
  unfold _ai_extract_attributes, try_except, bind, create, lift, append, ret.
  match goal with
  | |- context [extract_request _ :: ?sent] => destruct (Hex sent) as [t1 ->]
  end.
  cbn [parsed_content total_tokens].
  unfold merge_extracted. rewrite (get_or_str p "category" "uncategorized" Hcat).
  cbn [py_lower]. fold (extracted_attributes p extracted).
  (* validate *)
  rewrite (validate_product_returns p _ _ x Hm Hf).
  (* copywrite *)
  unfold _build_seo_copy, _ai_generate_seo_copy, try_except, bind, create, lift, append, ret.
  match goal with
  | |- context [seo_request _ _ :: ?sent] => destruct (Hseo sent) as [t2 ->]
  end.
  cbn [parsed_content total_tokens].
  (* localize *)
  unfold _localize_copy, _ai_localize_copy, bind, lift.
  cbn [py_get_or tail target_locales localize_locales].
  unfold localize_locale, try_except, bind, create, lift, append, ret.
  cbn [locale_name String.eqb Ascii.eqb Bool.eqb].
  fold (translation_request "Spanish" seo).
  match goal with
  | |- context [translation_request "Spanish" _ :: ?sent] => destruct (Hes sent) as [t3 ->]
  end.
  cbn [parsed_content total_tokens py_get_or].
  fold (translation_request "French" seo).
  match goal with
  | |- context [translation_request "French" _ :: ?sent] => destruct (Hfr sent) as [t4 ->]
  end.
  cbn [parsed_content total_tokens py_get_or app].
  rewrite Hsku, Hname.
  eexists. split; [reflexivity|]. split; [reflexivity|]. split; [exact Hf|].
  split; [reflexivity|].
  match goal with
  | |- map step (contents ?w' _) = _ =>
      assert (X : extends ev
                   [ingest_event p;
                    event "extract" "Extracting attributes with AI";
                    event_with "extract" "AI extracted product attributes"
                               [("token_usage", t1)];
                    event "validate" "Validation passed";
                    event_with "copywrite" "AI generated SEO copy" [("token_usage", t2)];
                    event_with "localize" "AI localized to Spanish" [("token_usage", t3)];
                    event_with "localize" "AI localized to French" [("token_usage", t4)];
                    publish_event (VStr sku)]
                   (w_alloc w) w') by chain_extends
  end.
  subst ev. rewrite (fresh_contents _ _ _ _ eq_refl X). reflexivity.
Qed.

(** *** Looking a product up *)

Lemma find_sku_None sku records :
  find_sku sku records = None <-> ~ has_key "sku" sku records.
Proof.
  unfold find_sku, has_key. split.
  - intros Hf (record & Hin & Hl).
    pose proof (find_none _ _ Hf record Hin) as Hn.
    unfold sku_is, PyDict.get, PyDict.get_or in Hn. rewrite Hl, String.eqb_refl in Hn.
    discriminate.
  - intros Hno. destruct (List.find (sku_is sku) records) as [record|] eqn:Ef; [|reflexivity].
    destruct Hno. apply find_some in Ef as [Hin Hs]. exists record. split; [exact Hin|].
    unfold sku_is, PyDict.get, PyDict.get_or in Hs.
    destruct (PyDict.lookup "sku" record) as [[]|]; try discriminate.
    apply String.eqb_eq in Hs. congruence.
Qed.

Lemma load_json_array_world path w : snd (load_json_array path w) = w.
Proof. unfold load_json_array. destruct (files w !! path) as [[]|]; reflexivity. Qed.

Lemma load_json_array_catalog path w : load_json_array path w = (catalog w path, w).
Proof.
  unfold catalog. rewrite <- (load_json_array_world path w) at 3.
  destruct (load_json_array path w); reflexivity.
Qed.

Lemma get_product_found SIMPLE_PATH ENRICHED_PATH sku w simple_records enriched_records s e :
  catalog w SIMPLE_PATH = Ok simple_records ->
  catalog w ENRICHED_PATH = Ok enriched_records ->
  find_sku sku simple_records = Some s ->
  find_sku sku enriched_records = Some e ->
  get_product_by_sku SIMPLE_PATH ENRICHED_PATH sku w
  = (Returned (VDict [("sku", VStr sku); ("simple", VDict s); ("enriched", VDict e)]), w).
Proof.
  intros Hs He Hfs Hfe. unfold get_product_by_sku.
  rewrite (bind_run _ _ _ _ _ (catalog_load _ _ _ Hs)). cbv beta iota.
  rewrite (bind_run _ _ _ _ _ (catalog_load _ _ _ He)). cbv beta iota.
  unfold ret. rewrite Hfs, Hfe. cbn [record_or_none].
  rewrite (find_sku_truthy _ _ _ Hfs). reflexivity.
Qed.

(** X28: the lookup of a product by sku, on catalog files that are
    absent, hold an array of JSON objects, hold a JSON value that is no
    array, or are not JSON.  It changes nothing.  When both catalogs can
    be read, it raises the HTTP error 404 exactly when no record of
    either catalog has the sku, and otherwise returns the sku with the
    first record of each catalog that has it, null for a catalog that
    has none; when a catalog cannot be read, it raises the HTTP error
    500 with the error of the load, the one of the simple catalog
    first. *)
Theorem get_product_by_sku_spec (SIMPLE_PATH ENRICHED_PATH : string) (sku : string)
        (w : World) :
  exists r,
    get_product_by_sku SIMPLE_PATH ENRICHED_PATH sku w = (r, w)
    /\ match catalog w SIMPLE_PATH, catalog w ENRICHED_PATH with
       | Ok simple_records, Ok enriched_records =>
           (r = Failed {| status_code := 404;
                          detail := "Product with SKU " ++ sku ++ " not found" |}
            <-> ~ has_key "sku" sku simple_records
                /\ ~ has_key "sku" sku enriched_records)
           /\ (has_key "sku" sku simple_records \/ has_key "sku" sku enriched_records ->
               r = Returned
                     (VDict [("sku", VStr sku);
                             ("simple", record_or_none (find_sku sku simple_records));
                             ("enriched",
                              record_or_none (find_sku sku enriched_records))]))
       | Raise e, _ | Ok _, Raise e =>
           r = Failed {| status_code := 500;
                         detail := "Failed to load product: " ++ exn_str e |}
       end.
Proof.
  unfold get_product_by_sku, bind, ret.
  rewrite (load_json_array_catalog SIMPLE_PATH w).
  destruct (catalog w SIMPLE_PATH) as [simple_records|e1].
  2: { eexists. split; reflexivity. }
  rewrite (load_json_array_catalog ENRICHED_PATH w).
  destruct (catalog w ENRICHED_PATH) as [enriched_records|e2].
  2: { eexists. split; reflexivity. }
  pose proof (find_sku_None sku simple_records) as Ns.
  pose proof (find_sku_None sku enriched_records) as Ne.
  destruct (find_sku sku simple_records) as [s|] eqn:Es;
    destruct (find_sku sku enriched_records) as [e|] eqn:Ee; cbn [record_or_none].
  all: rewrite ?(find_sku_truthy _ _ _ Es), ?(find_sku_truthy _ _ _ Ee); cbn [truthy negb andb].
  all: eexists; split; [reflexivity|]; split.
  - split; [discriminate|]. intros [H _]. apply Ns in H. discriminate.
  - intros _. reflexivity.
  - split; [discriminate|]. intros [H _]. apply Ns in H. discriminate.
  - intros _. reflexivity.
  - split; [discriminate|]. intros [_ H]. apply Ne in H. discriminate.
  - intros _. reflexivity.
  - split; [intros _; split; [apply Ns | apply Ne]; reflexivity | reflexivity].
  - intros [H|H]; exfalso; [apply Ns in H | apply Ne in H]; try exact H; reflexivity.
Qed.

(** *** The endpoint saves before it answers *)

(** X29: the endpoint saves the product before it builds its response.
    For two distinct catalog files keyed by sku, a valid input and a
    capability that answers copywriting requests with JSON objects, when
    building the response raises, the endpoint raises the HTTP error 500
    with that exception, and the product is nevertheless saved: the
    lookup of its sku then returns a record from each catalog. *)
Theorem failed_response_leaves_product_saved {A : Type} (lg : bool)
        (client : option Client) (SIMPLE_PATH ENRICHED_PATH : string)
        (respond : ProcessedProduct -> M A) (product_data : ProductInput) (w : World)
        (simple_records enriched_records : list Dict) (e : PyExn) :
  SIMPLE_PATH <> ENRICHED_PATH ->
  catalog w SIMPLE_PATH = Ok simple_records ->
  catalog w ENRICHED_PATH = Ok enriched_records ->
  keyed simple_records -> keyed enriched_records ->
  valid_product (product_dict product_data) = true ->
  well_shaped client ->
  (forall pp w0, respond pp w0 = (Raise e, w0)) ->
  exists w' s en,
    enrich_product_endpoint lg client SIMPLE_PATH ENRICHED_PATH respond product_data w
    = (Failed {| status_code := 500;
                 detail := "Enrichment failed: " ++ exn_str e |}, w')
    /\ get_product_by_sku SIMPLE_PATH ENRICHED_PATH (input_sku product_data) w'
       = (Returned (VDict [("sku", VStr (input_sku product_data));
                           ("simple", VDict s);
                           ("enriched", VDict en)]), w').
Proof.
  intros Hpaths Hsimple Henriched Hks Hke Hv Hw Hrespond.
  destruct (enrich_product_spec lg client (product_dict product_data) w)
    as (r & w1 & new & E & X & Hok & _ & _ & Hgood).
  specialize (Hgood Hv Hw). destruct r as [pp|]; [|discriminate]. clear Hgood.
  destruct (Hok pp eq_refl) as (_ & _ & _ & _ & Hsku & name & n & seo & l & pr & Hen).
  cbn in Hsku. injection Hsku as Hsku.
  assert (Hfiles : files w1 = files w) by exact (proj2 X).
  assert (Hs1 : catalog w1 SIMPLE_PATH = Ok simple_records)
    by (rewrite (catalog_same_files _ _ _ Hfiles); exact Hsimple).
  assert (He1 : catalog w1 ENRICHED_PATH = Ok enriched_records)
    by (rewrite (catalog_same_files _ _ _ Hfiles); exact Henriched).
  destruct (save_to_catalogs_run SIMPLE_PATH ENRICHED_PATH (product_dict product_data)
              (pp_enriched pp) (input_sku product_data) w1 _ _
              Hpaths Hs1 He1 Hks Hke)
    as (simple_after & enriched_after & Esave & _ & _ & Hfs & Hfe).
  { reflexivity. }
  { rewrite Hen, <- Hsku. reflexivity. }
  eexists _, _, _. split.
  - unfold enrich_product_endpoint. cbv zeta.
    rewrite (bind_run _ _ _ _ _ E). cbv beta iota.
    rewrite (bind_run _ _ _ _ _ Esave). cbv beta iota.
    rewrite Hrespond. reflexivity.
  - eapply get_product_found; [| | exact Hfs | exact Hfe].
    + rewrite catalog_other by congruence. apply catalog_written.
    + apply catalog_written.
Qed.

(** *** The requests of a batch *)

Lemma append_unique_records_requests path existing new_records key w :
  requests (snd (append_unique_records path existing new_records key w)) = requests w.
Proof.
  unfold append_unique_records, bind, lift, write_json_array, ret.
  destruct (set_of _); [|reflexivity].
  destruct (append_new _ _ _ _); reflexivity.
Qed.

Lemma process_each_requests lg c pending :
  forall processed w,
  seo_replies_are_mappings c ->
  Forall (fun record => valid_product record = true \/ rejected record) pending ->
  length (requests (snd (process_each lg (Some c) pending processed w)))
  = (length (requests w)
     + 4 * length (List.filter valid_product pending)
     + (length pending - length (List.filter valid_product pending)))%nat.
Proof.
  induction pending as [|record rest IH]; intros processed w Hc Hall.
  - simpl. lia.
  - apply Forall_cons in Hall as [Hrec Hrest].
    pose proof (filter_length_le valid_product rest) as Hle.
    cbn [process_each]. unfold bind at 1. unfold try_except.
    destruct Hrec as [Hv | (Hne & Ha & Hcat)].
    + destruct (four_requests_run lg c record w Hv Hc)
        as (pp & w1 & normalized & seo & E & _ & _ & R).
      rewrite (bind_run _ _ _ _ _ E). unfold ret at 1.
      rewrite (IH _ w1 Hc Hrest), R. cbn [List.filter length]. rewrite Hv.
      cbn [length]. lia.
    + destruct (one_request_run lg c record w Ha Hcat Hne) as (w1 & E & R).
      rewrite (bind_run _ _ _ _ _ E). unfold ret at 1. cbv beta iota.
      rewrite (IH _ w1 Hc Hrest), R. cbn [List.filter length].
      assert (Hnot : valid_product record = false).
      { apply failing_not_valid. exact Hne. }
      rewrite Hnot. cbn [length]. lia.
Qed.

(** X30: what a batch costs.  With process_all, two catalogs keyed by
    sku, a capability that answers copywriting requests with JSON
    objects and pending records that are each valid or rejected by
    validation, the batch sends four requests for each valid pending
    record and one request for each rejected one, and no other
    request. *)
Theorem batch_request_count (lg : bool) (c : Client)
        (simple_path enriched_path : string) (w : World)
        (simple_records enriched_records : list Dict) :
  catalog w simple_path = Ok simple_records ->
  catalog w enriched_path = Ok enriched_records ->
  keyed simple_records -> keyed enriched_records ->
  seo_replies_are_mappings c ->
  Forall (fun record => valid_product record = true \/ rejected record)
         (pending_of enriched_records simple_records) ->
  let pending := pending_of enriched_records simple_records in
  let valid := length (List.filter valid_product pending) in
  exists pps w',
    process_pending_products lg (Some c) simple_path enriched_path true w = (Ok pps, w')
    /\ length pps = valid
    /\ length (requests w')
       = (length (requests w) + 4 * valid + (length pending - valid))%nat.
Proof.
  intros Hsimple Henriched Hks Hke Hc Hall pending valid.
  destruct (batch_spec lg (Some c) simple_path enriched_path true w _ _
                       Hsimple Henriched Hks Hke)
    as (pps & w' & added & E & _ & Hvalid & _).
  assert (Hrecords : Forall (fun record => fails_validation record
                                           \/ valid_product record = true)
                            (narrow true (pending_of enriched_records simple_records))).
  { cbn [narrow]. eapply Forall_impl; [exact Hall|].
    intros record [Hv | (Hne & _)]; [right; exact Hv | left; exact Hne]. }
  specialize (Hvalid Hc Hrecords). cbn [narrow] in Hvalid.
  exists pps, w'. split; [exact E|].
  split; [symmetry; exact (Forall2_length _ _ _ Hvalid)|].
  pose proof (process_each_requests lg c pending [] w Hc Hall) as R.
  subst valid. rewrite <- R. rewrite <- (run_snd _ _ _ _ E).
  unfold process_pending_products.
  rewrite (bind_run _ _ _ _ _ (catalog_load _ _ _ Hsimple)). cbv beta iota.
  rewrite (bind_run _ _ _ _ _ (catalog_load _ _ _ Henriched)). cbv beta iota.
  change (map (fun record => PyDict.get record "sku") enriched_records)
    with (map sku_of enriched_records).
  rewrite (set_of_hashable _ (keyed_hashable _ Hke)).
  unfold bind at 1. unfold lift at 1. cbv beta iota.
  rewrite (pending_records_spec _ _ Hks).
  unfold bind at 1. unfold lift at 1. cbv beta iota zeta.
  fold (pending_of enriched_records simple_records). cbn [narrow]. fold pending.
  unfold bind at 1.
  destruct (process_each lg (Some c) pending [] w) as [[processed|e] w1]; [|reflexivity].
  destruct processed; [reflexivity|].
  unfold bind.
  match goal with
  | |- context [append_unique_records ?a ?b ?c ?d ?w0] =>
      pose proof (append_unique_records_requests a b c d w0) as Ra;
      destruct (append_unique_records a b c d w0) as [[?|?] ?]
  end; cbn [snd] in *; unfold ret; cbn [snd]; rewrite Ra; reflexivity.
Qed.

End Pipeline.

(** ** Concrete runs *)

Lemma copywriter_well_shaped : well_shaped (Some copywriter).
Proof.
  intros product normalized sent response v H Hv. simpl in H.
  injection H as <-. simpl in Hv. injection Hv as <-. reflexivity.
Qed.

Lemma strategies_agree_witness :
  run_graph plain_builtins true (Some copywriter) bottle empty_world
  = _run_sequential_pipeline plain_builtins (Some copywriter) bottle empty_world
  /\ enrich_product plain_builtins true (Some copywriter) bottle empty_world
     = enrich_product plain_builtins false (Some copywriter) bottle empty_world.
Proof. apply (strategies_agree plain_builtins (Some copywriter) bottle empty_world). Defined.

Lemma invalid_product_fails_witness :
  (absent_or is_dict (PyDict.lookup "attributes" nameless) = true
   /\ absent_or is_str (PyDict.lookup "category" nameless) = true
   /\ (truthy (PyDict.get nameless "sku") = false
       \/ truthy (PyDict.get nameless "name") = false
       \/ truthy (PyDict.get nameless "price") = false))
  /\ exists w',
      enrich_product plain_builtins true None nameless empty_world
      = (Raise (ValueError ("Missing required fields: "
                              ++ PyStr.join ", " (missing_fields nameless))), w')
      /\ (forall field, In field (missing_fields nameless)
                        <-> In field required_fields
                            /\ truthy (PyDict.get nameless field) = false)
      /\ last (contents w' (length (lists empty_world)))
         = Some {| step := "validate";
                   message := "Missing required fields: "
                              ++ PyStr.join ", " (missing_fields nameless);
                   payload := Some [("status", VStr "error")] |}
      /\ files w' = files empty_world.
Proof.
  split.
  - split; [reflexivity|]. split; [reflexivity|]. right. left. reflexivity.
  - apply (invalid_product_fails plain_builtins true None nameless empty_world);
      [reflexivity | reflexivity | right; left; reflexivity].
Defined.

Lemma validate_product_passes_witness :
  (truthy (PyDict.get priced_in_digits "sku") = true
   /\ truthy (PyDict.get priced_in_digits "name") = true
   /\ truthy (PyDict.get priced_in_digits "price") = true
   /\ py_float (PyDict.get_or priced_in_digits "price" (VInt 0))
      = Ok (PyFloat.of_decimal false 125 (-1)))
  /\ _validate_product priced_in_digits 0 (w_alloc empty_world)
     = (Ok [("currency", VStr "USD");
            ("price", VFloat (PyFloat.of_decimal false 125 (-1)));
            ("in_stock", VBool true)],
        w_append 0 (event "validate" "Validation passed") (w_alloc empty_world)).
Proof.
  assert (Hfloat : py_float (PyDict.get_or priced_in_digits "price" (VInt 0))
                   = Ok (PyFloat.of_decimal false 125 (-1)))
    by (vm_compute; reflexivity).
  split.
  - split; [reflexivity|]. split; [reflexivity|]. split; [reflexivity | exact Hfloat].
  - apply (validate_product_passes priced_in_digits 0 (w_alloc empty_world));
      [reflexivity | reflexivity | reflexivity | exact Hfloat].
Defined.

(** C9 as stated fails: a price that is an integer beyond the range of a
    float is truthy, and validation raises after the passed event. *)
Lemma validate_product_huge_price :
  let product := [("sku", VStr "A"); ("name", VStr "B"); ("price", VInt (10 ^ 400))] in
  truthy (PyDict.get product "sku") = true
  /\ truthy (PyDict.get product "name") = true
  /\ truthy (PyDict.get product "price") = true
  /\ is_product product = true
  /\ _validate_product product 0 (w_alloc empty_world)
     = (Raise (OverflowError "int too large to convert to float"),
        w_append 0 (event "validate" "Validation passed") (w_alloc empty_world)).
Proof. vm_compute. repeat split. Qed.

Lemma fallback_extract_has_category_witness :
  (absent_or is_dict (PyDict.lookup "attributes" cafetiere) = true
   /\ absent_or is_str (PyDict.lookup "category" cafetiere) = true)
  /\ (exists normalized,
        _fallback_extract_attributes cafetiere 0 (w_alloc empty_world)
        = (Ok normalized,
           w_append 0 (event "extract" "Normalizing attributes") (w_alloc empty_world))
        /\ PyDict.lookup "category" normalized = Some (VStr "épicerie fine")
        /\ Forall (fun c => PyStr.is_upper c = false)
                  (list_ascii_of_string "épicerie fine")
        /\ normalized <> [])
  /\ exists normalized,
      _fallback_extract_attributes nameless 0 (w_alloc empty_world)
      = (Ok normalized,
         w_append 0 (event "extract" "Normalizing attributes") (w_alloc empty_world))
      /\ PyDict.lookup "category" normalized = Some (VStr "uncategorized")
      /\ Forall (fun c => PyStr.is_upper c = false)
                (list_ascii_of_string "uncategorized")
      /\ normalized <> [].
Proof.
  split; [split; reflexivity|]. split.
  - assert (Hlower : PyStr.lower (str_field cafetiere "category" "uncategorized")
                     = "épicerie fine") by (vm_compute; reflexivity).
    rewrite <- Hlower.
    apply (fallback_extract_has_category cafetiere 0 (w_alloc empty_world)); reflexivity.
  - assert (Hlower : PyStr.lower (str_field nameless "category" "uncategorized")
                     = "uncategorized") by (vm_compute; reflexivity).
    rewrite <- Hlower.
    apply (fallback_extract_has_category nameless 0 (w_alloc empty_world)); reflexivity.
Defined.

Lemma fallback_seo_copy_spec_witness :
  let normalized := [("écran", VStr "OLED"); ("category", VStr "épicerie fine")] in
  (PyDict.lookup "name" cafetiere = Some (VStr "Cafetière")
   /\ absent_or is_str (PyDict.lookup "category" cafetiere) = true
   /\ absent_or is_str (PyDict.lookup "description" cafetiere) = true
   /\ True)
  /\ exists w',
      _build_seo_copy plain_builtins None cafetiere normalized 0 (w_alloc empty_world)
      = (Ok (VDict [("title", VStr "Cafetière | Épicerie Fine");
                    ("description", VStr "Buy Cafetière featuring OLED.");
                    ("keywords", VList [VStr "Cafetière"; VStr "ÉPICERIE fine"])]), w').
Proof.
  intros normalized.
  assert (Hseo : fallback_seo cafetiere normalized "Cafetière"
                 = VDict [("title", VStr "Cafetière | Épicerie Fine");
                          ("description", VStr "Buy Cafetière featuring OLED.");
                          ("keywords", VList [VStr "Cafetière"; VStr "ÉPICERIE fine"])])
    by (vm_compute; reflexivity).
  split.
  - repeat split.
  - rewrite <- Hseo.
    apply (fallback_seo_copy_spec plain_builtins None cafetiere normalized
                                  0 (w_alloc empty_world) "Cafetière");
      [reflexivity | reflexivity | reflexivity | exact I].
Defined.

(** The example of the specification: the title of the fallback copy of
    the Bottle in Outdoors starts with "Bottle | ". *)
Lemma bottle_title :
  fallback_seo bottle [("category", VStr "outdoors")] "Bottle"
  = VDict [("title", VStr "Bottle | Outdoors");
           ("description", VStr "Buy Bottle featuring outdoors.");
           ("keywords", VList [VStr "Bottle"; VStr "Outdoors"])]
  /\ PyStr.startswith "Bottle | " "Bottle | Outdoors" = true.
Proof. vm_compute. split; reflexivity. Qed.

(** C7 as stated fails: with an empty category the title is "Bottle |",
    not "Bottle | " followed by the title-cased category. *)
Lemma fallback_title_is_stripped :
  let product := [("name", VStr "Bottle"); ("category", VStr "")] in
  exists seo w',
    _build_seo_copy plain_builtins None product [("category", VStr "")] 0
                    (w_alloc empty_world)
    = (Ok (VDict seo), w')
    /\ PyDict.lookup "title" seo = Some (VStr "Bottle |")
    /\ "Bottle |" <> "Bottle" ++ " | " ++ PyStr.title "".
Proof.
  eexists _, _. split; [vm_compute; reflexivity|]. split; [reflexivity | discriminate].
Qed.

Lemma localize_keeps_english_base_witness :
  let normalized := [("category", VStr "outdoors")] in
  let seo := [("title", VStr "Steel Bottle");
              ("description", VStr "Keeps drinks cold.");
              ("keywords", VList [VStr "bottle"]);
              ("long_description", VStr "A bottle for the outdoors.")] in
  let w1 := w_append 0 (event_with "copywrite" "AI generated SEO copy"
                                   [("token_usage", VInt 120)])
                     (w_sent (seo_request bottle normalized) (w_alloc empty_world)) in
  _build_seo_copy plain_builtins (Some copywriter) bottle normalized 0 (w_alloc empty_world)
  = (Ok (VDict seo), w1)
  /\ exists entry rest w2,
      _localize_copy (Some copywriter) (VDict seo) 0 w1 = (Ok (entry :: rest), w2)
      /\ english_base entry seo
      /\ entry = [("locale", VStr "en-US");
                  ("title", PyDict.get_or seo "title" (VStr ""));
                  ("description", PyDict.get_or seo "description" (VStr ""));
                  ("long_description", PyDict.get_or seo "long_description" (VStr ""))].
Proof.
  intros normalized seo w1. split.
  - reflexivity.
  - apply (localize_keeps_english_base plain_builtins (Some copywriter) bottle normalized
                                       0 (w_alloc empty_world) seo w1).
    reflexivity.
Defined.

Lemma event_log_in_stage_order_witness :
  exists pp w',
    enrich_product plain_builtins true (Some copywriter) bottle empty_world = (Ok pp, w')
    /\ Forall (fun s => In s WORKFLOW_STEPS) (map step (contents w' (pp_events pp)))
    /\ StronglySorted in_step_order (map step (contents w' (pp_events pp)))
    /\ sublist (collapse (List.filter canonical (map step (contents w' (pp_events pp)))))
               WORKFLOW_STEPS
    /\ collapse (List.filter canonical (map step (contents w' (pp_events pp))))
       = WORKFLOW_STEPS.
Proof.
  eexists _, _. split.
  - lazy. reflexivity.
  - apply (event_log_in_stage_order plain_builtins true (Some copywriter) bottle empty_world).
    lazy. reflexivity.
Defined.

Lemma partial_batch_resilience_witness :
  let w := catalogs [nameless; bottle] in
  (catalog w "simple.json" = Ok [nameless; bottle]
   /\ catalog w "enriched.json" = Ok []
   /\ keyed [nameless; bottle] /\ keyed []
   /\ well_shaped None
   /\ Forall (fun record => fails_validation record \/ valid_product record = true)
             (pending_of [] [nameless; bottle]))
  /\ exists pps w',
      process_pending_products plain_builtins true None "simple.json" "enriched.json"
                               true w = (Ok pps, w')
      /\ Forall2 processed_from
                 (List.filter valid_product (pending_of [] [nameless; bottle])) pps
      /\ (forall bad good,
            fails_validation bad -> valid_product good = true ->
            pending_of [] [nameless; bottle] = [bad; good]
            \/ pending_of [] [nameless; bottle] = [good; bad] ->
            exists pp, pps = [pp] /\ processed_from good pp).
Proof.
  intros w.
  assert (Hk : keyed [nameless; bottle]) by (repeat constructor).
  assert (Hp : Forall (fun record => fails_validation record \/ valid_product record = true)
                      (pending_of [] [nameless; bottle])).
  { change (pending_of [] [nameless; bottle]) with [nameless; bottle].
    constructor; [left; discriminate|]. constructor; [right; reflexivity|]. constructor. }
  split.
  - split; [reflexivity|]. split; [reflexivity|]. split; [exact Hk|].
    split; [constructor|]. split; [exact I | exact Hp].
  - apply (partial_batch_resilience plain_builtins true None "simple.json" "enriched.json"
                                    w [nameless; bottle] []);
      [reflexivity | reflexivity | exact Hk | constructor | exact I | exact Hp].
Defined.

(** C5 as stated fails: without process_all only the last pending record
    is processed; when that one fails validation the result is empty and
    the valid pending record is not in it. *)
Lemma narrowed_batch_drops_valid_record :
  valid_product bottle = true
  /\ fails_validation nameless
  /\ pending_of [] [bottle; nameless] = [bottle; nameless]
  /\ fst (process_pending_products plain_builtins false None "simple.json" "enriched.json"
                                   false (catalogs [bottle; nameless]))
     = Ok [].
Proof.
  split; [reflexivity|]. split; [discriminate|]. split; [reflexivity|].
  vm_compute. reflexivity.
Qed.

Lemma batch_is_idempotent_witness :
  let w := catalogs [nameless; bottle; bottle] in
  ("simple.json" <> "enriched.json"
   /\ catalog w "simple.json" = Ok [nameless; bottle; bottle]
   /\ catalog w "enriched.json" = Ok []
   /\ keyed [nameless; bottle; bottle] /\ keyed []
   /\ well_shaped None
   /\ Forall (fun record => fails_validation record \/ valid_product record = true)
             (pending_of [] [nameless; bottle; bottle]))
  /\ exists first w1 added second w2,
      process_pending_products plain_builtins false None "simple.json" "enriched.json"
                               true w = (Ok first, w1)
      /\ Forall2 processed_from
                 (List.filter valid_product (pending_of [] [nameless; bottle; bottle]))
                 first
      /\ (first <> [] <->
          exists record, In record (pending_of [] [nameless; bottle; bottle])
                         /\ valid_product record = true)
      /\ catalog w1 "enriched.json" = Ok ([] ++ added)%list
      /\ Forall (fun record => exists pp, In pp first /\ record = pp_enriched pp) added
      /\ NoDup (map sku_of added)
      /\ Forall (fun record => set_mem (sku_of record) (map sku_of []) = false) added
      /\ process_pending_products plain_builtins false None "simple.json" "enriched.json"
                                  true w1 = (Ok second, w2)
      /\ second = []
      /\ catalog w2 "enriched.json" = Ok ([] ++ added)%list.
Proof.
  intros w.
  assert (Hk : keyed [nameless; bottle; bottle]) by (repeat constructor).
  assert (Hp : Forall (fun record => fails_validation record \/ valid_product record = true)
                      (pending_of [] [nameless; bottle; bottle])).
  { change (pending_of [] [nameless; bottle; bottle]) with [nameless; bottle; bottle].
    constructor; [left; discriminate|]. constructor; [right; reflexivity|].
    constructor; [right; reflexivity|]. constructor. }
  split.
  - split; [discriminate|]. split; [reflexivity|]. split; [reflexivity|].
    split; [exact Hk|]. split; [constructor|]. split; [exact I | exact Hp].
  - apply (batch_is_idempotent plain_builtins false None "simple.json" "enriched.json"
                               w [nameless; bottle; bottle] []);
      [discriminate | reflexivity | reflexivity | exact Hk | constructor | exact I
       | exact Hp].
Defined.

(** C3 as stated fails: a pending record exists, it fails validation,
    and the first run returns an empty result. *)
Lemma first_run_can_be_empty :
  pending_of [] [nameless] = [nameless]
  /\ fst (process_pending_products plain_builtins false None "simple.json" "enriched.json"
                                   true (catalogs [nameless]))
     = Ok [].
Proof. split; [reflexivity|]. vm_compute. reflexivity. Qed.

(** *** Further concrete runs *)

Lemma fallback_extract_keys_witness :
  exists normalized w',
    _fallback_extract_attributes two_colors 0 (w_alloc empty_world) = (Ok normalized, w')
    /\ NoDup (map fst normalized)
    /\ Forall (fun k => normal_key k = true) (map fst normalized).
Proof.
  eexists _, _. split.
  - lazy. reflexivity.
  - eapply (fallback_extract_keys two_colors 0 (w_alloc empty_world)). lazy. reflexivity.
Defined.

Lemma fallback_extract_last_wins_witness :
  let attributes := [("Écran", VStr "LCD"); ("Capacity", VStr ("20" ++ nbsp ++ "OZ"));
                     ("écran", VStr "OLED")] in
  exists normalized w',
    (PyDict.get_or cafetiere "attributes" (VDict []) = VDict attributes
     /\ _fallback_extract_attributes cafetiere 0 (w_alloc empty_world) = (Ok normalized, w')
     /\ "écran" <> "category")
    /\ PyDict.lookup "écran" normalized
       = option_map (_convert_units "écran") (raw_attribute "écran" attributes)
    /\ normalized
       = [("écran", VStr "OLED");
          ("capacity", VDict [("value", VFloat (PyFloat.of_decimal false 59147 (-2)));
                              ("unit", VStr "ml");
                              ("source", VStr ("20" ++ nbsp ++ "OZ"))]);
          ("category", VStr "épicerie fine")]
    /\ raw_attribute "écran" attributes = Some (VStr "OLED")
    /\ raw_attribute "Écran" attributes = None.
Proof.
  intros attributes.
  assert (Hrun : _fallback_extract_attributes cafetiere 0 (w_alloc empty_world)
                 = (Ok [("écran", VStr "OLED");
                        ("capacity",
                         VDict [("value", VFloat (PyFloat.of_decimal false 59147 (-2)));
                                ("unit", VStr "ml");
                                ("source", VStr ("20" ++ nbsp ++ "OZ"))]);
                        ("category", VStr "épicerie fine")],
                    w_append 0 (event "extract" "Normalizing attributes")
                             (w_alloc empty_world)))
    by (vm_compute; reflexivity).
  eexists _, _. split.
  - split; [reflexivity|]. split; [exact Hrun | discriminate].
  - split.
    + eapply (fallback_extract_last_wins cafetiere 0 (w_alloc empty_world));
        [reflexivity | exact Hrun | discriminate].
    + split; [reflexivity|]. split; vm_compute; reflexivity.
Defined.

Lemma extract_keeps_category_witness :
  (absent_or is_dict (PyDict.lookup "attributes" cafetiere) = true
   /\ absent_or is_str (PyDict.lookup "category" cafetiere) = true)
  /\ (exists normalized w',
        _normalize_attributes (Some barista) cafetiere 0 (w_alloc empty_world)
        = (Ok normalized, w')
        /\ PyDict.lookup "category" normalized = Some (VStr "épicerie fine")
        /\ Forall (fun c => PyStr.is_upper c = false)
                  (list_ascii_of_string "épicerie fine"))
  /\ exists normalized w',
      _normalize_attributes (Some lister) cafetiere 0 (w_alloc empty_world)
      = (Ok normalized, w')
      /\ PyDict.lookup "category" normalized = Some (VStr "épicerie fine")
      /\ Forall (fun c => PyStr.is_upper c = false)
                (list_ascii_of_string "épicerie fine").
Proof.
  assert (Hlower : PyStr.lower (str_field cafetiere "category" "uncategorized")
                   = "épicerie fine") by (vm_compute; reflexivity).
  split; [split; reflexivity|]. rewrite <- Hlower. split.
  - apply (extract_keeps_category (Some barista) cafetiere 0 (w_alloc empty_world));
      reflexivity.
  - apply (extract_keeps_category (Some lister) cafetiere 0 (w_alloc empty_world));
      reflexivity.
Defined.

Lemma fallback_enrichment_witness :
  let normalized :=
    [("écran", VStr "OLED");
     ("capacity", VDict [("value", VFloat (PyFloat.of_decimal false 59147 (-2)));
                         ("unit", VStr "ml");
                         ("source", VStr ("20" ++ nbsp ++ "OZ"))]);
     ("category", VStr "épicerie fine")] in
  let seo :=
    [("title", VStr "Cafetière | Épicerie Fine");
     ("description", VStr "Buy Cafetière featuring OLED.");
     ("keywords", VList [VStr "Cafetière"; VStr "ÉPICERIE fine"])] in
  valid_product cafetiere = true
  /\ (exists sku name price_value attributes seo w',
        PyDict.lookup "sku" cafetiere = Some (VStr sku)
        /\ PyDict.lookup "name" cafetiere = Some (VStr name)
        /\ py_float (PyDict.get_or cafetiere "price" (VInt 0)) = Ok price_value
        /\ PyDict.get_or cafetiere "attributes" (VDict []) = VDict attributes
        /\ fallback_seo cafetiere (fallback_attributes cafetiere attributes) name = VDict seo
        /\ enrich_product plain_builtins false None cafetiere empty_world
           = (Ok {| pp_sku := VStr sku; pp_original := cafetiere;
                    pp_enriched :=
                      enriched_record (VStr sku) (VStr name)
                                      (fallback_attributes cafetiere attributes)
                                      (VDict seo) [default_entry seo]
                                      (pricing_record cafetiere price_value);
                    pp_events := length (lists empty_world) |}, w')
        /\ contents w' (length (lists empty_world)) = fallback_events cafetiere (VStr sku)
        /\ requests w' = requests empty_world
        /\ files w' = files empty_world)
  /\ fst (enrich_product plain_builtins false None cafetiere empty_world)
     = Ok {| pp_sku := VStr "TEMP-8"; pp_original := cafetiere;
             pp_enriched :=
               [("sku", VStr "TEMP-8");
                ("name", VStr "Cafetière");
                ("normalized_attributes", VDict normalized);
                ("seo", VDict seo);
                ("localizations",
                 VList [VDict [("locale", VStr "en-US");
                               ("title", VStr "Cafetière | Épicerie Fine");
                               ("description", VStr "Buy Cafetière featuring OLED.")]]);
                ("pricing", VDict [("currency", VStr "USD");
                                   ("price", VFloat (PyFloat.of_decimal false 45 0));
                                   ("in_stock", VBool true)])];
             pp_events := 0 |}.
Proof.
  intros normalized seo.
  split; [reflexivity|]. split.
  - apply (fallback_enrichment plain_builtins false cafetiere empty_world). reflexivity.
  - vm_compute. reflexivity.
Defined.

Lemma enrichment_sends_four_requests_witness :
  (valid_product bottle = true /\ seo_replies_are_mappings copywriter)
  /\ exists pp w' normalized seo,
      enrich_product plain_builtins false (Some copywriter) bottle empty_world = (Ok pp, w')
      /\ PyDict.lookup "normalized_attributes" (pp_enriched pp) = Some (VDict normalized)
      /\ PyDict.lookup "seo" (pp_enriched pp) = Some (VDict seo)
      /\ requests w'
         = translation_request "French" seo :: translation_request "Spanish" seo
           :: seo_request bottle normalized :: extract_request bottle
           :: requests empty_world.
Proof.
  split.
  - split; [reflexivity | exact copywriter_well_shaped].
  - apply (enrichment_sends_four_requests plain_builtins false copywriter bottle empty_world);
      [reflexivity | exact copywriter_well_shaped].
Defined.

Lemma invalid_product_costs_one_request_witness :
  (absent_or is_dict (PyDict.lookup "attributes" nameless) = true
   /\ absent_or is_str (PyDict.lookup "category" nameless) = true
   /\ missing_fields nameless <> [])
  /\ exists w',
      enrich_product plain_builtins true (Some copywriter) nameless empty_world
      = (Raise (ValueError ("Missing required fields: "
                              ++ PyStr.join ", " (missing_fields nameless))), w')
      /\ requests w' = extract_request nameless :: requests empty_world.
Proof.
  split.
  - split; [reflexivity|]. split; [reflexivity | discriminate].
  - apply (invalid_product_costs_one_request plain_builtins true copywriter nameless
                                             empty_world);
      [reflexivity | reflexivity | discriminate].
Defined.

Lemma silent_capability_degrades_witness :
  (valid_product bottle = true /\ forall sent, no_content (offline sent) = true)
  /\ exists pp0 w0 pp1 w1 sku name normalized seo pricing,
      enrich_product plain_builtins false None bottle empty_world = (Ok pp0, w0)
      /\ enrich_product plain_builtins false (Some offline) bottle empty_world = (Ok pp1, w1)
      /\ pp_enriched pp0
         = enriched_record sku name normalized (VDict seo) [default_entry seo] pricing
      /\ pp_enriched pp1
         = enriched_record sku name normalized (VDict seo)
             [(default_entry seo ++ [("long_description", VStr "")])%list] pricing
      /\ pp_sku pp1 = pp_sku pp0.
Proof.
  split.
  - split; [reflexivity | intros sent; reflexivity].
  - apply (silent_capability_degrades plain_builtins false offline bottle empty_world);
      [reflexivity | intros sent; reflexivity].
Defined.

Lemma seo_reply_not_an_object_witness :
  (valid_product bottle = true
   /\ is_dict (VList [VStr "Steel Bottle"]) = false
   /\ forall normalized sent,
       exists tokens,
         lister (seo_request bottle normalized :: sent)
         = Ok {| parsed_content := Ok (VList [VStr "Steel Bottle"]);
                 total_tokens := Ok tokens |})
  /\ exists w',
      enrich_product plain_builtins false (Some lister) bottle empty_world
      = (Raise (no_attribute (VList [VStr "Steel Bottle"]) "get"), w')
      /\ files w' = files empty_world.
Proof.
  split.
  - split; [reflexivity|]. split; [reflexivity|]. intros normalized sent. eexists. reflexivity.
  - apply (seo_reply_not_an_object plain_builtins false lister bottle empty_world);
      [reflexivity | reflexivity |]. intros normalized sent. eexists. reflexivity.
Defined.

Lemma category_not_a_string_witness :
  (PyDict.lookup "category" null_category = Some VNone
   /\ is_str VNone = false
   /\ absent_or is_dict (PyDict.lookup "attributes" null_category) = true)
  /\ exists w',
      enrich_product plain_builtins true (Some copywriter) null_category empty_world
      = (Raise (no_attribute VNone "lower"), w')
      /\ files w' = files empty_world.
Proof.
  split.
  - split; [reflexivity|]. split; reflexivity.
  - apply (category_not_a_string plain_builtins true (Some copywriter) null_category
                                 empty_world); reflexivity.
Defined.

Lemma enriched_record_shape_witness :
  exists pp w',
    enrich_product plain_builtins true (Some barista) cafetiere empty_world = (Ok pp, w')
    /\ (exists name category price_value normalized seo entry rest,
          pp_original pp = cafetiere
          /\ PyDict.lookup "sku" cafetiere = Some (pp_sku pp) /\ truthy (pp_sku pp) = true
          /\ PyDict.lookup "name" cafetiere = Some name /\ truthy name = true
          /\ truthy (PyDict.get cafetiere "price") = true
          /\ py_float (PyDict.get_or cafetiere "price" (VInt 0)) = Ok price_value
          /\ PyDict.get_or cafetiere "category" (VStr "uncategorized") = VStr category
          /\ pp_enriched pp
             = [("sku", pp_sku pp);
                ("name", name);
                ("normalized_attributes", VDict normalized);
                ("seo", VDict seo);
                ("localizations", VList (map VDict (entry :: rest)));
                ("pricing", VDict (pricing_record cafetiere price_value))]
          /\ PyDict.lookup "category" normalized = Some (VStr (PyStr.lower category))
          /\ PyDict.lookup "locale" entry = Some (VStr "en-US")
          /\ PyDict.lookup "title" entry = Some (PyDict.get_or seo "title" (VStr ""))
          /\ PyDict.lookup "description" entry
             = Some (PyDict.get_or seo "description" (VStr "")))
    /\ PyDict.lookup "normalized_attributes" (pp_enriched pp)
       = Some (VDict [("Matière", VStr "Inox");
                      ("capacity",
                       VDict [("value", VFloat (PyFloat.of_decimal false 59147 (-2)));
                              ("unit", VStr "ml");
                              ("source", VStr ("20" ++ nbsp ++ "OZ"))]);
                      ("category", VStr "épicerie fine")]).
Proof.
  eexists _, _. split.
  - vm_compute. reflexivity.
  - split.
    + eapply (enriched_record_shape plain_builtins true (Some barista) cafetiere empty_world).
      vm_compute. reflexivity.
    + vm_compute. reflexivity.
Defined.

Lemma batch_event_lists_are_separate_witness :
  exists pps w',
    process_pending_products plain_builtins false None "simple.json" "enriched.json" true
                             (catalogs [bottle; nameless; two_colors]) = (Ok pps, w')
    /\ NoDup (map pp_events pps)
    /\ Forall (fun pp => collapse (map step (contents w' (pp_events pp))) = WORKFLOW_STEPS)
              pps.
Proof.
  eexists _, _. split.
  - vm_compute. reflexivity.
  - eapply (batch_event_lists_are_separate plain_builtins false None "simple.json"
             "enriched.json" true (catalogs [bottle; nameless; two_colors])).
    vm_compute. reflexivity.
Defined.

Lemma narrowed_batch_takes_last_witness :
  let w := catalogs [two_colors; nameless; bottle] in
  ("simple.json" <> "enriched.json"
   /\ catalog w "simple.json" = Ok [two_colors; nameless; bottle]
   /\ catalog w "enriched.json" = Ok []
   /\ keyed [two_colors; nameless; bottle] /\ keyed []
   /\ well_shaped None
   /\ last (pending_of [] [two_colors; nameless; bottle]) = Some bottle)
  /\ exists pps w',
      process_pending_products plain_builtins false None "simple.json" "enriched.json"
                               false w = (Ok pps, w')
      /\ (valid_product bottle = true ->
          exists pp, pps = [pp] /\ processed_from bottle pp
                     /\ catalog w' "enriched.json" = Ok ([] ++ [pp_enriched pp])%list)
      /\ (fails_validation bottle ->
          pps = [] /\ catalog w' "enriched.json" = Ok [])
      /\ catalog w' "simple.json" = Ok [two_colors; nameless; bottle].
Proof.
  intros w.
  assert (Hk : keyed [two_colors; nameless; bottle]) by (repeat constructor).
  split.
  - split; [discriminate|]. split; [reflexivity|]. split; [reflexivity|].
    split; [exact Hk|]. split; [constructor|]. split; [exact I | reflexivity].
  - apply (narrowed_batch_takes_last plain_builtins false None "simple.json" "enriched.json"
                                     w [two_colors; nameless; bottle] [] bottle);
      [discriminate | reflexivity | reflexivity | exact Hk | constructor | exact I
       | reflexivity].
Defined.

Lemma nothing_pending_witness :
  let w := two_catalogs [bottle] [enriched_bottle] in
  (catalog w "simple.json" = Ok [bottle]
   /\ catalog w "enriched.json" = Ok [enriched_bottle]
   /\ keyed [bottle] /\ keyed [enriched_bottle]
   /\ pending_of [enriched_bottle] [bottle] = [])
  /\ process_pending_products plain_builtins true (Some copywriter)
                              "simple.json" "enriched.json" true w
     = (Ok [], w).
Proof.
  intros w.
  assert (Hs : keyed [bottle]) by (repeat constructor).
  assert (He : keyed [enriched_bottle]) by (repeat constructor).
  split.
  - split; [reflexivity|]. split; [reflexivity|]. split; [exact Hs|].
    split; [exact He | reflexivity].
  - apply (nothing_pending plain_builtins true (Some copywriter) "simple.json"
                           "enriched.json" true w [bottle] [enriched_bottle]);
      [reflexivity | reflexivity | exact Hs | exact He | reflexivity].
Defined.

Lemma batch_raises_on_unreadable_catalog_only_witness :
  let w := {| lists := []; requests := [];
              files := {[ "simple.json" := JsonOther "dict" ]} |} in
  ((forall records, catalog w "simple.json" = Ok records -> keyed records)
   /\ (forall records, catalog w "enriched.json" = Ok records -> keyed records))
  /\ match catalog w "simple.json", catalog w "enriched.json" with
     | Ok _, Ok _ =>
         exists pps w',
           process_pending_products plain_builtins false None "simple.json" "enriched.json"
                                    false w = (Ok pps, w')
     | Raise e, _ | Ok _, Raise e =>
         process_pending_products plain_builtins false None "simple.json" "enriched.json"
                                  false w = (Raise e, w)
     end.
Proof.
  intros w.
  assert (H1 : forall records, catalog w "simple.json" = Ok records -> keyed records)
    by (intros records H; discriminate H).
  assert (H2 : forall records, catalog w "enriched.json" = Ok records -> keyed records)
    by (intros records H; injection H as <-; constructor).
  split; [split; assumption|].
  apply (batch_raises_on_unreadable_catalog_only plain_builtins false None "simple.json"
           "enriched.json" false w H1 H2).
Defined.

Lemma append_unique_records_spec_witness :
  (keyed_by "sku" [enriched_bottle] /\ all_keyed "sku" [two_colors; bottle; two_colors])
  /\ exists added w',
      append_unique_records plain_builtins "enriched.json" [enriched_bottle]
                            [two_colors; bottle; two_colors] "sku" empty_world
      = (Ok ([enriched_bottle] ++ added)%list, w')
      /\ sublist added [two_colors; bottle; two_colors]
      /\ (forall s, has_key "sku" s [two_colors; bottle; two_colors] ->
                    has_key "sku" s ([enriched_bottle] ++ added)%list)
      /\ (forall s, has_key "sku" s added -> ~ has_key "sku" s [enriched_bottle])
      /\ NoDup (map (key_of "sku") added)
      /\ load_json_array "enriched.json" w' = (Ok ([enriched_bottle] ++ added)%list, w')
      /\ (forall other, other <> "enriched.json" ->
                        files w' !! other = files empty_world !! other).
Proof.
  assert (Hk : keyed_by "sku" [enriched_bottle]) by (repeat constructor).
  assert (Ha : all_keyed "sku" [two_colors; bottle; two_colors])
    by (repeat constructor; eexists; reflexivity).
  split; [split; assumption|].
  apply (append_unique_records_spec plain_builtins "enriched.json" [enriched_bottle]
                                    [two_colors; bottle; two_colors] "sku" empty_world Hk Ha).
Defined.

Lemma append_unique_records_idempotent_witness :
  exists appended w1,
    (keyed_by "sku" [enriched_bottle]
     /\ all_keyed "sku" [two_colors; bottle; two_colors]
     /\ append_unique_records plain_builtins "enriched.json" [enriched_bottle]
                              [two_colors; bottle; two_colors] "sku" empty_world
        = (Ok appended, w1))
    /\ append_unique_records plain_builtins "enriched.json" appended
                             [two_colors; bottle; two_colors] "sku" w1
       = (Ok appended, w1).
Proof.
  assert (Hk : keyed_by "sku" [enriched_bottle]) by (repeat constructor).
  assert (Ha : all_keyed "sku" [two_colors; bottle; two_colors])
    by (repeat constructor; eexists; reflexivity).
  eexists _, _.
  assert (E : append_unique_records plain_builtins "enriched.json" [enriched_bottle]
                                    [two_colors; bottle; two_colors] "sku" empty_world
              = (Ok [enriched_bottle; two_colors],
                 w_write "enriched.json" [enriched_bottle; two_colors] empty_world))
    by reflexivity.
  split.
  - split; [exact Hk|]. split; [exact Ha | exact E].
  - exact (append_unique_records_idempotent plain_builtins "enriched.json" [enriched_bottle]
             [two_colors; bottle; two_colors] _ "sku" empty_world _ Hk Ha E).
Defined.

Lemma append_unique_records_missing_key_witness :
  (keyed_by "sku" [enriched_bottle]
   /\ keyed_by "sku" [two_colors; [("name", VStr "Bottle")]]
   /\ Exists (fun record => PyDict.lookup "sku" record = None)
             [two_colors; [("name", VStr "Bottle")]])
  /\ exists msg,
      append_unique_records plain_builtins "enriched.json" [enriched_bottle]
                            [two_colors; [("name", VStr "Bottle")]] "sku" empty_world
      = (Raise (ValueError msg), empty_world).
Proof.
  assert (Hk : keyed_by "sku" [enriched_bottle]) by (repeat constructor).
  assert (Hn : keyed_by "sku" [two_colors; [("name", VStr "Bottle")]])
    by (repeat constructor).
  assert (Hm : Exists (fun record => PyDict.lookup "sku" record = None)
                      [two_colors; [("name", VStr "Bottle")]])
    by (right; left; reflexivity).
  split; [split; [exact Hk | split; [exact Hn | exact Hm]]|].
  apply (append_unique_records_missing_key plain_builtins "enriched.json" [enriched_bottle]
           [two_colors; [("name", VStr "Bottle")]] "sku" empty_world Hk Hn Hm).
Defined.

Lemma saved_product_is_found_witness :
  let w := two_catalogs [nameless] [enriched_bottle] in
  ("simple.json" <> "enriched.json"
   /\ catalog w "simple.json" = Ok [nameless]
   /\ catalog w "enriched.json" = Ok [enriched_bottle]
   /\ keyed [nameless] /\ keyed [enriched_bottle]
   /\ PyDict.lookup "sku" bottle = Some (VStr "TEMP-2")
   /\ PyDict.lookup "sku" [("sku", VStr "TEMP-2"); ("name", VStr "Bottle")]
      = Some (VStr "TEMP-2"))
  /\ exists w1,
      save_to_catalogs plain_builtins "simple.json" "enriched.json" bottle
                       [("sku", VStr "TEMP-2"); ("name", VStr "Bottle")] w
      = (Ok tt, w1)
      /\ get_product_by_sku "simple.json" "enriched.json" "TEMP-2" w1
         = (Returned
              (VDict [("sku", VStr "TEMP-2");
                      ("simple", VDict (default bottle (find_sku "TEMP-2" [nameless])));
                      ("enriched",
                       VDict (default [("sku", VStr "TEMP-2"); ("name", VStr "Bottle")]
                                      (find_sku "TEMP-2" [enriched_bottle])))]),
            w1).
Proof.
  intros w.
  assert (Hs : keyed [nameless]) by (repeat constructor).
  assert (He : keyed [enriched_bottle]) by (repeat constructor).
  split.
  - split; [discriminate|]. split; [reflexivity|]. split; [reflexivity|].
    split; [exact Hs|]. split; [exact He|]. split; reflexivity.
  - apply (saved_product_is_found plain_builtins "simple.json" "enriched.json" bottle
             [("sku", VStr "TEMP-2"); ("name", VStr "Bottle")] "TEMP-2" w
             [nameless] [enriched_bottle]);
      [discriminate | reflexivity | reflexivity | exact Hs | exact He | reflexivity
       | reflexivity].
Defined.

Lemma save_existing_changes_nothing_witness :
  let w := two_catalogs [bottle] [enriched_bottle] in
  ("simple.json" <> "enriched.json"
   /\ catalog w "simple.json" = Ok [bottle]
   /\ catalog w "enriched.json" = Ok [enriched_bottle]
   /\ keyed [bottle] /\ keyed [enriched_bottle]
   /\ PyDict.lookup "sku" [("sku", VStr "TEMP-2"); ("name", VStr "Flask")]
      = Some (VStr "TEMP-2")
   /\ PyDict.lookup "sku" [("sku", VStr "TEMP-2"); ("name", VStr "Flask, enriched")]
      = Some (VStr "TEMP-2")
   /\ find_sku "TEMP-2" [bottle] <> None
   /\ find_sku "TEMP-2" [enriched_bottle] <> None)
  /\ save_to_catalogs plain_builtins "simple.json" "enriched.json"
                      [("sku", VStr "TEMP-2"); ("name", VStr "Flask")]
                      [("sku", VStr "TEMP-2"); ("name", VStr "Flask, enriched")] w
     = (Ok tt, w).
Proof.
  intros w.
  assert (Hs : keyed [bottle]) by (repeat constructor).
  assert (He : keyed [enriched_bottle]) by (repeat constructor).
  split.
  - split; [discriminate|]. split; [reflexivity|]. split; [reflexivity|].
    split; [exact Hs|]. split; [exact He|]. split; [reflexivity|]. split; [reflexivity|].
    split; discriminate.
  - apply (save_existing_changes_nothing plain_builtins "simple.json" "enriched.json"
             [("sku", VStr "TEMP-2"); ("name", VStr "Flask")]
             [("sku", VStr "TEMP-2"); ("name", VStr "Flask, enriched")] "TEMP-2" w
             [bottle] [enriched_bottle]);
      [discriminate | reflexivity | reflexivity | exact Hs | exact He | reflexivity
       | reflexivity | discriminate | discriminate].
Defined.

Lemma dry_run_keeps_catalogs_witness :
  let w := catalogs [nameless; bottle] in
  ("simple.json" <> "enriched.json"
   /\ dry_run dry_run_all = true
   /\ catalog w "simple.json" = Ok [nameless; bottle]
   /\ catalog w "enriched.json" = Ok []
   /\ keyed [nameless; bottle] /\ keyed [])
  /\ exists processed w1 w',
      process_pending_products plain_builtins false None "simple.json" "enriched.json"
                               (all dry_run_all) w
      = (Ok processed, w1)
      /\ main plain_builtins false None "simple.json" "enriched.json" dry_run_all w
         = (Ok (match processed with
                | [] => NoNewProducts
                | _ :: _ => Report (format dry_run_all) processed
                end, 0%Z), w')
      /\ files w' !! "enriched.json" = Some (JsonArray [])
      /\ catalog w' "simple.json" = Ok [nameless; bottle].
Proof.
  intros w.
  assert (Hk : keyed [nameless; bottle]) by (repeat constructor).
  split.
  - split; [discriminate|]. split; [reflexivity|]. split; [reflexivity|].
    split; [reflexivity|]. split; [exact Hk | constructor].
  - apply (dry_run_keeps_catalogs plain_builtins false None "simple.json" "enriched.json"
                                  dry_run_all w [nameless; bottle] []);
      [discriminate | reflexivity | reflexivity | reflexivity | exact Hk | constructor].
Defined.

Lemma client_is_created_once_witness :
  ((1 <= 3)%nat
   /\ (3 < length [None; Some "sk-1"; Some ""; None; Some "sk-2"])%nat
   /\ client_calls true (fun _ => copywriter)
                   [None; Some "sk-1"; Some ""; None; Some "sk-2"] None !! 1
      = Some (Some copywriter))
  /\ client_calls true (fun _ => copywriter)
                  [None; Some "sk-1"; Some ""; None; Some "sk-2"] None !! 3
     = Some (Some copywriter).
Proof.
  split.
  - split; [lia|]. split; [simpl; lia | reflexivity].
  - apply (client_is_created_once true (fun _ => copywriter)
             [None; Some "sk-1"; Some ""; None; Some "sk-2"] None 1 3 copywriter);
      [lia | simpl; lia | reflexivity].
Defined.

Lemma endpoint_rejects_invalid_input_witness :
  (input_category free_sample = Some "general"
   /\ (input_sku free_sample = ""
       \/ input_name free_sample = ""
       \/ PyFloat.nonzero (input_price free_sample) = false))
  /\ exists w',
      enrich_product_endpoint plain_builtins false None "simple.json" "enriched.json"
                              (fun pp => ret pp) free_sample empty_world
      = (Failed {| status_code := 500;
                   detail := "Enrichment failed: Missing required fields: "
                             ++ PyStr.join ", " (missing_fields (product_dict free_sample)) |},
         w')
      /\ missing_fields (product_dict free_sample) <> []
      /\ files w' = files empty_world.
Proof.
  split.
  - split; [reflexivity|]. right. right. reflexivity.
  - apply (endpoint_rejects_invalid_input plain_builtins false None "simple.json"
             "enriched.json" (fun pp => ret pp) free_sample "general" empty_world);
      [reflexivity | right; right; reflexivity].
Defined.

Lemma unconvertible_price_raises_after_passed_witness :
  let refused := ValueError ("could not convert string to float: "
                             ++ double_quote ++ "12 l'unité" ++ double_quote) in
  (absent_or is_dict (PyDict.lookup "attributes" priced_per_unit) = true
   /\ absent_or is_str (PyDict.lookup "category" priced_per_unit) = true
   /\ missing_fields priced_per_unit = []
   /\ py_float (PyDict.get_or priced_per_unit "price" (VInt 0)) = Raise refused)
  /\ (exists w',
        enrich_product plain_builtins true (Some copywriter) priced_per_unit empty_world
        = (Raise refused, w')
        /\ last (contents w' (length (lists empty_world)))
           = Some (event "validate" "Validation passed")
        /\ files w' = files empty_world)
  /\ py_float (PyDict.get_or priced_in_words "price" (VInt 0))
     = Raise (ValueError "could not convert string to float: 'twelve'").
Proof.
  intros refused.
  assert (Hfloat : py_float (PyDict.get_or priced_per_unit "price" (VInt 0)) = Raise refused)
    by (vm_compute; reflexivity).
  split.
  - split; [reflexivity|]. split; [reflexivity|]. split; [reflexivity | exact Hfloat].
  - split; [|vm_compute; reflexivity].
    apply (unconvertible_price_raises_after_passed plain_builtins true (Some copywriter)
             priced_per_unit empty_world);
      [reflexivity | reflexivity | reflexivity | exact Hfloat].
Defined.

Lemma capability_enrichment_witness :
  let extracted := [("Matière", VStr "Inox"); ("capacity", VStr ("20" ++ nbsp ++ "OZ"));
                    ("category", VStr "Café")] in
  let seo := [("title", VStr "Cafetière à piston");
              ("description", VStr "Un café riche en arômes.");
              ("keywords", VList [VStr "cafetière"])] in
  let spanish := [("title", VStr "Cafetera de émbolo");
                  ("description", VStr "Un café rico en aromas.")] in
  let french := [("title", VStr "Cafetière à piston");
                 ("description", VStr "Un café riche en arômes.")] in
  (valid_product cafetiere = true
   /\ answers barista (extract_request cafetiere) (VDict extracted)
   /\ answers barista (seo_request cafetiere (extracted_attributes cafetiere extracted))
              (VDict seo)
   /\ answers barista (translation_request "Spanish" seo) (VDict spanish)
   /\ answers barista (translation_request "French" seo) (VDict french))
  /\ (exists sku name price_value w',
        PyDict.lookup "sku" cafetiere = Some (VStr sku)
        /\ PyDict.lookup "name" cafetiere = Some (VStr name)
        /\ py_float (PyDict.get_or cafetiere "price" (VInt 0)) = Ok price_value
        /\ enrich_product plain_builtins true (Some barista) cafetiere empty_world
           = (Ok {| pp_sku := VStr sku; pp_original := cafetiere;
                    pp_enriched :=
                      enriched_record (VStr sku) (VStr name)
                                      (extracted_attributes cafetiere extracted) (VDict seo)
                                      [base_entry seo; locale_entry "es-ES" spanish;
                                       locale_entry "fr-FR" french]
                                      (pricing_record cafetiere price_value);
                    pp_events := length (lists empty_world) |}, w')
        /\ map step (contents w' (length (lists empty_world)))
           = ["ingest"; "extract"; "extract"; "validate"; "copywrite";
              "localize"; "localize"; "publish"])
  /\ extracted_attributes cafetiere extracted
     = [("Matière", VStr "Inox");
        ("capacity", VDict [("value", VFloat (PyFloat.of_decimal false 59147 (-2)));
                            ("unit", VStr "ml");
                            ("source", VStr ("20" ++ nbsp ++ "OZ"))]);
        ("category", VStr "épicerie fine")].
Proof.
  intros extracted seo spanish french.
  assert (H1 : answers barista (extract_request cafetiere) (VDict extracted))
    by (intros sent; eexists; reflexivity).
  assert (H2 : answers barista
                       (seo_request cafetiere (extracted_attributes cafetiere extracted))
                       (VDict seo))
    by (intros sent; eexists; reflexivity).
  assert (H3 : answers barista (translation_request "Spanish" seo) (VDict spanish))
    by (intros sent; eexists; reflexivity).
  assert (H4 : answers barista (translation_request "French" seo) (VDict french))
    by (intros sent; eexists; reflexivity).
  split.
  - split; [reflexivity|]. repeat (split; [assumption|]). assumption.
  - split; [|vm_compute; reflexivity].
    apply (capability_enrichment plain_builtins true barista cafetiere empty_world
                                 extracted seo spanish french);
      [reflexivity | exact H1 | exact H2 | exact H3 | exact H4].
Defined.

Lemma failed_response_leaves_product_saved_witness :
  let w := two_catalogs [] [] in
  ("simple.json" <> "enriched.json"
   /\ catalog w "simple.json" = Ok []
   /\ catalog w "enriched.json" = Ok []
   /\ keyed [] /\ keyed []
   /\ valid_product (product_dict bottle_input) = true
   /\ well_shaped (Some copywriter)
   /\ forall (pp : ProcessedProduct) w0,
       (fun _ => raise (ValueError "1 validation error for WorkflowEvent"))
         pp w0
       = (@Raise unit (ValueError "1 validation error for WorkflowEvent"), w0))
  /\ exists w' s en,
      enrich_product_endpoint plain_builtins true (Some copywriter)
                              "simple.json" "enriched.json"
                              (fun _ => raise (ValueError "1 validation error for WorkflowEvent"))
                              bottle_input w
      = (@Failed unit {| status_code := 500;
                         detail := "Enrichment failed: "
                                   ++ exn_str (ValueError "1 validation error for WorkflowEvent") |},
         w')
      /\ get_product_by_sku "simple.json" "enriched.json" (input_sku bottle_input) w'
         = (Returned (VDict [("sku", VStr (input_sku bottle_input));
                             ("simple", VDict s);
                             ("enriched", VDict en)]), w').
Proof.
  intros w.
  split.
  - split; [discriminate|]. split; [reflexivity|]. split; [reflexivity|].
    split; [constructor|]. split; [constructor|]. split; [reflexivity|].
    split; [exact copywriter_well_shaped | intros pp w0; reflexivity].
  - apply (failed_response_leaves_product_saved plain_builtins (A:=unit) true
             (Some copywriter) "simple.json" "enriched.json"
             (fun _ => raise (ValueError "1 validation error for WorkflowEvent"))
             bottle_input w [] [] (ValueError "1 validation error for WorkflowEvent"));
      [discriminate | reflexivity | reflexivity | constructor | constructor | reflexivity
       | exact copywriter_well_shaped | intros pp w0; reflexivity].
Defined.

Lemma batch_request_count_witness :
  let w := catalogs [nameless; bottle; two_colors] in
  (catalog w "simple.json" = Ok [nameless; bottle; two_colors]
   /\ catalog w "enriched.json" = Ok []
   /\ keyed [nameless; bottle; two_colors] /\ keyed []
   /\ seo_replies_are_mappings copywriter
   /\ Forall (fun record => valid_product record = true \/ rejected record)
             (pending_of [] [nameless; bottle; two_colors]))
  /\ let pending := pending_of [] [nameless; bottle; two_colors] in
     let valid := length (List.filter valid_product pending) in
     exists pps w',
       process_pending_products plain_builtins true (Some copywriter)
                                "simple.json" "enriched.json" true w = (Ok pps, w')
       /\ length pps = valid
       /\ length (requests w')
          = (length (requests w) + 4 * valid + (length pending - valid))%nat.
Proof.
  intros w.
  assert (Hk : keyed [nameless; bottle; two_colors]) by (repeat constructor).
  assert (Hp : Forall (fun record => valid_product record = true \/ rejected record)
                      (pending_of [] [nameless; bottle; two_colors])).
  { change (pending_of [] [nameless; bottle; two_colors])
      with [nameless; bottle; two_colors].
    constructor; [right; split; [discriminate | split; reflexivity]|].
    constructor; [left; reflexivity|]. constructor; [left; reflexivity|]. constructor. }
  split.
  - split; [reflexivity|]. split; [reflexivity|]. split; [exact Hk|].
    split; [constructor|]. split; [exact copywriter_well_shaped | exact Hp].
  - apply (batch_request_count plain_builtins true copywriter "simple.json" "enriched.json"
                               w [nameless; bottle; two_colors] []);
      [reflexivity | reflexivity | exact Hk | constructor | exact copywriter_well_shaped
       | exact Hp].
Defined.
